(** * FastTransfer / ICS routines of the EMSMDB provider (oxcfxics.c)

    A shallow embedding of [mapiproxy/servers/default/emsmdb/oxcfxics.c]:
    the identifier codec, the property serializer with its cut-mark
    sidecar, the synchronization producers, and the Rop handlers.

    Conventions of the embedding.
    - C integers are [Z] with the wrap-around of their type written out
      ([uint8], [uint16], [uint32], [uint64]).
    - A byte buffer is a [list Z] of values in [0, 255].
    - A C function that may call [abort()] or read outside an array is a
      function into [option]; [None] means that the call does not return.
    - Functions and macros that the file calls but that live in other
      compilation units (libmapi, libmapistore, libmapiproxy, samba) are
      parameters of the development. *)

From Stdlib Require Import ZArith Lia Bool List.
From stdpp Require Import base option list gmap.
Import ListNotations.

Local Open Scope Z_scope.

(** ** Machine integers *)

Definition uint8 (z : Z) : Z := z mod 2 ^ 8.
Definition uint16 (z : Z) : Z := z mod 2 ^ 16.
Definition uint32 (z : Z) : Z := z mod 2 ^ 32.
Definition uint64 (z : Z) : Z := z mod 2 ^ 64.

(** A value of a C byte. *)
Definition is_byte (b : Z) : Prop := 0 <= b < 256.

(** [struct GUID], as the 16 bytes it occupies in memory. *)
Definition GUID := list Z.

(** Return codes of libmapistore that this file tests. *)
Inductive mapistore_retval := MAPISTORE_SUCCESS | MAPISTORE_ERROR.

(** ** ID codec *)

Module Codec.
Section Codec.

(** The replica registry of the provider context
    ([emsmdbp_replid_to_guid], [emsmdbp_guid_to_replid]); [None] is the
    non-zero return of the C function. *)
Variable emsmdbp_replid_to_guid : Z -> option GUID.
Variable emsmdbp_guid_to_replid : GUID -> option Z.

(** The loop of [oxcfxics_fmid_from_source_key]:
    [fmid |= (uint64_t) bytes[i] * base; base <<= 8]. *)
Fixpoint fmid_loop (n : nat) (bytes : list Z) (fmid base : Z) : option Z :=
  match n with
  | O => Some fmid
  | S n' =>
      match bytes with
      | [] => None
      | b :: rest =>
          fmid_loop n' rest (Z.lor fmid (uint64 (b * base)))
                    (uint64 (Z.shiftl base 8))
      end
  end.

(** [oxcfxics_fmid_from_source_key]: [source_key->lpb] is the byte list;
    the result is the return code and the value stored in [*fmidp]. *)
Definition oxcfxics_fmid_from_source_key (source_key : list Z)
  : option (mapistore_retval * option Z) :=
  if (Z.of_nat (length source_key) <? 16) then None
  else
    match emsmdbp_guid_to_replid (take 16 source_key) with
    | None => Some (MAPISTORE_ERROR, None)
    | Some replid =>
        match fmid_loop 6 (drop 16 source_key) 0 1 with
        | None => None
        | Some fmid =>
            let fmid := uint64 (Z.shiftl fmid 16) in
            let fmid := Z.lor fmid replid in
            Some (MAPISTORE_SUCCESS, Some fmid)
        end
    end.

(** The loop of [oxcfxics_source_key_from_fmid]:
    [bytes[i] = gc & 0xff; gc >>= 8]. *)
Fixpoint gc_loop (n : nat) (gc : Z) : list Z :=
  match n with
  | O => []
  | S n' => Z.land gc 0xff :: gc_loop n' (Z.shiftr gc 8)
  end.

(** [oxcfxics_source_key_from_fmid]: the result is the return code and
    the 22-byte [Binary_r] stored in [*source_keyP]. *)
Definition oxcfxics_source_key_from_fmid (fmid : Z)
  : mapistore_retval * option (list Z) :=
  let replid := Z.land fmid 0xffff in
  match emsmdbp_replid_to_guid replid with
  | None => (MAPISTORE_ERROR, None)
  | Some guid =>
      let gc := Z.shiftr fmid 16 in
      (MAPISTORE_SUCCESS, Some (guid ++ gc_loop 6 gc))
  end.

(** [oxcfxics_make_xid], for a non-NULL context, GUID and id. *)
Definition oxcfxics_make_xid (replica_guid : GUID) (id : Z) (idlength : Z)
  : option (list Z) :=
  if 8 <? idlength then None
  else Some (replica_guid ++ gc_loop (Z.to_nat idlength) id).

Definition oxcfxics_make_gid (replica_guid : GUID) (id : Z) : option (list Z) :=
  oxcfxics_make_xid replica_guid id 6.

(** Little-endian value of a byte string (specification side). *)
Fixpoint le_value (bytes : list Z) : Z :=
  match bytes with
  | [] => 0
  | b :: rest => b + 256 * le_value rest
  end.

End Codec.
End Codec.

(** ** Status codes and constants *)

(** The [enum MAPISTATUS] values that the file uses.  The arrays of
    per-property return values ([retvals]) hold the same type; the C code
    tests them against zero, which is [MAPI_E_SUCCESS]. *)
Inductive MAPISTATUS :=
| MAPI_E_SUCCESS
| MAPI_E_NOT_INITIALIZED
| MAPI_E_INVALID_PARAMETER
| MAPI_E_INVALID_OBJECT
| MAPI_E_NOT_FOUND
| MAPI_E_NO_SUPPORT.

Global Instance MAPISTATUS_eq_dec : EqDecision MAPISTATUS.
Proof. solve_decision. Defined.

Definition is_success (r : MAPISTATUS) : bool :=
  match r with MAPI_E_SUCCESS => true | _ => false end.

(** Property tags, property types and flag masks: macros and enumerators
    of the libmapi headers, which are outside this source tree.  They are
    parameters of the model. *)
Class mapi_constants := {
  (* property types, the low 16 bits of a tag *)
  PT_I2 : Z; PT_LONG : Z; PT_ERROR : Z; PT_OBJECT : Z; PT_DOUBLE : Z;
  PT_I8 : Z; PT_BOOLEAN : Z; PT_STRING8 : Z; PT_UNICODE : Z; PT_SVREID : Z;
  PT_BINARY : Z; PT_CLSID : Z; PT_SYSTIME : Z; MV_FLAG : Z;
  (* stream markers *)
  PR_INCR_SYNC_CHG : Z; PR_INCR_SYNC_MSG : Z; PR_INCR_SYNC_STATE_BEGIN : Z;
  PR_INCR_SYNC_STATE_END : Z; PR_INCR_SYNC_END : Z; PR_FX_DEL_PROP : Z;
  PR_START_RECIP : Z; PR_END_RECIP : Z; PR_NEW_ATTACH : Z; PR_END_ATTACH : Z;
  (* state properties *)
  PidTagIdsetGiven : Z; PidTagCnsetSeen : Z; PidTagCnsetSeenFAI : Z;
  PidTagCnsetRead : Z;
  (* property tags *)
  PR_MESSAGE_RECIPIENTS : Z; PR_MESSAGE_ATTACHMENTS : Z; PR_ROWID : Z;
  PR_ATTACH_NUM : Z; PR_SOURCE_KEY : Z; PR_PARENT_SOURCE_KEY : Z;
  PR_CHANGE_KEY : Z; PR_PREDECESSOR_CHANGE_LIST : Z;
  PR_LAST_MODIFICATION_TIME : Z; PR_ASSOCIATED : Z; PR_MID : Z; PR_FID : Z;
  PR_PARENT_FID : Z; PR_MESSAGE_SIZE : Z; PR_CHANGE_NUM : Z;
  PR_DISPLAY_NAME_UNICODE : Z; PR_ROW_TYPE : Z; PR_INSTANCE_KEY : Z;
  PR_INSTANCE_NUM : Z; PR_INST_ID : Z; PR_BODY_HTML : Z; PR_BODY_UNICODE : Z;
  PR_FOLDER_CHILD_COUNT : Z; PR_CONTENT_COUNT : Z; PR_ASSOC_CONTENT_COUNT : Z;
  (* the columns of the attachment table, [prop_tags] *)
  PR_ATTACH_METHOD : Z; PR_ATTACH_TAG : Z; PR_ATTACH_SIZE : Z;
  PR_RECORD_KEY : Z; PR_ATTACH_LONG_FILENAME_UNICODE : Z;
  PR_ATTACH_CONTENT_ID_UNICODE : Z; PR_ATTACH_MIME_TAG_UNICODE : Z;
  PR_CREATION_TIME : Z; PR_ATTACH_DATA_BIN : Z;
  (* request flags *)
  FastTransfer_Unicode : Z; FastTransfer_UseCpid : Z;
  FastTransfer_RecoverMode : Z; FastTransfer_ForceUnicode : Z;
  FastTransfer_PartialItem : Z;
  SynchronizationFlag_Unicode : Z; SynchronizationFlag_NoDeletions : Z;
  SynchronizationFlag_NoSoftDeletions : Z; SynchronizationFlag_ReadState : Z;
  SynchronizationFlag_FAI : Z; SynchronizationFlag_Normal : Z;
  SynchronizationFlag_OnlySpecifiedProperties : Z;
  SynchronizationFlag_NoForeignIdentifiers : Z;
  SynchronizationFlag_BestBody : Z;
  SynchronizationFlag_IgnoreSpecifiedOnFAI : Z;
  SynchronizationFlag_Progress : Z;
  Eid : Z; MessageSize : Z; Cn : Z; OrderByDeliveryTime : Z;
  Contents : Z;
  ImportFlag_Associated : Z;
  SyncImportDeletes_Hierarchy : Z; SyncImportDeletes_HardDelete : Z;
  MAPISTORE_PERMANENT_DELETE : Z; MAPISTORE_SOFT_DELETE : Z;
  (* libndr string flags *)
  LIBNDR_FLAG_STR_NULLTERM : Z; LIBNDR_FLAG_STR_ASCII : Z;
  LIBNDR_FLAG_NOALIGN : Z
}.

(** [oc_version_time]: "a constant time offset by which the first change
    number ever can be produced". *)
Definition oc_version_time : Z := 0x4dbb2dbe.

(** ** NDR push buffers *)

(** [struct ndr_push]: the bytes pushed so far and the flag word.
    [ndr->offset] is the number of bytes pushed. *)
Record ndr_push := { ndr_data : list Z; ndr_flags : Z }.

Definition ndr_offset (ndr : ndr_push) : Z :=
  uint32 (Z.of_nat (length (ndr_data ndr))).

Definition ndr_append (ndr : ndr_push) (bytes : list Z) : ndr_push :=
  {| ndr_data := ndr_data ndr ++ bytes; ndr_flags := ndr_flags ndr |}.

(** [ndr_set_flags] for the string flags set in this file: the new flags
    are or-ed into the flag word. *)
Definition ndr_set_flags (ndr : ndr_push) (new_flags : Z) : ndr_push :=
  {| ndr_data := ndr_data ndr; ndr_flags := Z.lor (ndr_flags ndr) new_flags |}.

(** [n] bytes of [v], least significant first. *)
Fixpoint le_bytes (n : nat) (v : Z) : list Z :=
  match n with
  | O => []
  | S n' => v mod 256 :: le_bytes n' (v / 256)
  end.

(** Modelled from the spec: the scalar push functions of libndr are not
    part of this source tree; section 6 fixes "all integers little-endian,
    unaligned" and section 4.3 the widths (u8, u16, u32, u64, a FILETIME as
    u32 low then u32 high, a GUID as its 16 bytes, a binary as u32 length
    followed by the bytes). *)
Definition ndr_push_uint8 (ndr : ndr_push) (v : Z) := ndr_append ndr (le_bytes 1 v).
Definition ndr_push_uint16 (ndr : ndr_push) (v : Z) := ndr_append ndr (le_bytes 2 v).
Definition ndr_push_uint32 (ndr : ndr_push) (v : Z) := ndr_append ndr (le_bytes 4 v).
Definition ndr_push_dlong (ndr : ndr_push) (v : Z) := ndr_append ndr (le_bytes 8 v).
(** A double is carried as its 64-bit pattern. *)
Definition ndr_push_double (ndr : ndr_push) (bits : Z) := ndr_append ndr (le_bytes 8 bits).
Definition ndr_push_GUID (ndr : ndr_push) (g : GUID) := ndr_append ndr g.
Definition ndr_push_FILETIME (ndr : ndr_push) (lo hi : Z) :=
  ndr_push_uint32 (ndr_push_uint32 ndr lo) hi.
Definition ndr_push_Binary_r (ndr : ndr_push) (lpb : list Z) :=
  ndr_append (ndr_push_uint32 ndr (Z.of_nat (length lpb))) lpb.

(** The cut-mark sidecar: [cutmarks_ndr] only ever receives
    [ndr_push_uint32] and is read back through a [uint32_t *]; it is kept
    as the list of the 32-bit values pushed. *)
Definition cutmarks_push (cutmarks : list Z) (v : Z) : list Z :=
  cutmarks ++ [uint32 v].

(** ** Property values *)

(** What a [void *] of a [data_pointers] array points to.  The C code casts
    the pointer according to the type of the property tag. *)
Inductive prop_data :=
| D_uint8 (v : Z)
| D_uint16 (v : Z)
| D_uint32 (v : Z)
| D_uint64 (v : Z)
| D_double (bits : Z)
| D_string (s : list Z)                 (* a C string, without its NUL *)
| D_binary (lpb : list Z)               (* struct Binary_r *)
| D_guid (g : GUID)
| D_filetime (dwLowDateTime dwHighDateTime : Z)
| D_binary_array (lpbin : list (list Z))    (* struct BinaryArray_r *)
| D_wstring_array (lppszW : list (list Z)). (* struct WStringArray_r *)

(** [struct MAPINAMEID], with [ulKind] and the member of [kind] it selects. *)
Inductive MAPINAMEID_kind :=
| MNID_ID (lid : Z)
| MNID_STRING (Name : list Z)
| MNID_unknown.

Record MAPINAMEID := { lpguid : GUID; kind : MAPINAMEID_kind }.

(** [struct mapistore_message], as far as it is read here: the recipient
    rows, each a list of [SPropValue] seen as tag and
    [get_SPropValue_data]. *)
Record mapistore_message := {
  recipients : option (list (list (Z * option prop_data)))
}.

(** ** The collaborators of the file *)

(** Types that other compilation units own: the mail store behind the
    provider context (mapistore, openchangedb, the named-property
    registry), the objects it hands out, and the identifier sets of
    libmapi. *)
Class backend_types := {
  store : Type;          (* everything behind [emsmdbp_ctx] but the handles *)
  ext_object : Type;     (* an [emsmdbp_object] that is not a context of this file *)
  table_object : Type;   (* an [emsmdbp_object] of type table *)
  idset : Type;          (* [struct idset] *)
  rawidset : Type;       (* [struct rawidset] *)
  SPropValue : Type      (* [struct SPropValue], after [cast_SPropValue] *)
}.

Section Objects.
Context {T : backend_types}.

(** [struct emsmdbp_stream]: [buffer.data] is [None] for a NULL pointer;
    [buffer.length] is the length of the list. *)
Record emsmdbp_stream := {
  position : Z;
  buffer : option (list Z)
}.

Definition buffer_length (s : emsmdbp_stream) : Z :=
  match buffer s with Some d => Z.of_nat (length d) | None => 0 end.

(** The [request] member of [struct emsmdbp_object_synccontext]. *)
Record sync_request := {
  contents_mode : bool; unicode : bool; use_cpid : bool;
  recover_mode : bool; force_unicode : bool; partial_item : bool;
  no_deletions : bool; no_soft_deletions : bool;
  ignore_no_longer_in_scope : bool; read_state : bool; fai : bool;
  normal : bool; no_foreign_identifiers : bool; best_body : bool;
  ignored_specified_on_fai : bool; progress : bool;
  request_eid : bool; request_message_size : bool; request_cn : bool;
  order_by_delivery_time : bool
}.

(** [struct emsmdbp_object_synccontext]. *)
Record emsmdbp_object_synccontext := {
  request : sync_request;
  properties : list Z;                (* [struct SPropTagArray] *)
  idset_given : option idset;
  cnset_seen : option idset;
  state_property : Z;
  state_stream : emsmdbp_stream;
  stream : emsmdbp_stream;
  cutmarks : list Z;
  next_cutmark_ptr : Z;
  steps : Z;
  total_steps : Z;
  is_collector : bool
}.

(** [struct emsmdbp_object_ftcontext]. *)
Record emsmdbp_object_ftcontext := {
  ft_stream : emsmdbp_stream;
  ft_cutmarks : list Z;
  ft_next_cutmark_ptr : Z;
  ft_steps : Z;
  ft_total_steps : Z
}.

(** [struct emsmdbp_object], by [type]: the two context kinds that this
    file looks into, and every other kind.  A synchronization context
    keeps its [parent_object], the folder it was configured on. *)
Inductive emsmdbp_object :=
| Object_synccontext (parent_object : ext_object)
                     (synccontext : emsmdbp_object_synccontext)
| Object_ftcontext (ftcontext : emsmdbp_object_ftcontext)
| Object_external (o : ext_object).

(** [struct emsmdbp_context]: the handle table ([handles_ctx]) maps a
    handle to its private data, [None] for a NULL pointer. *)
Record emsmdbp_context := {
  handles_ctx : gmap Z (option emsmdbp_object);
  backend : store
}.

(** [struct mapi_SPropValue]: the members of the [value] union that the
    import handlers read. *)
Inductive mapi_SPropValue_CTR :=
| value_bin (lpb : list Z)
| value_MVbin (bin : list (list Z))
| value_other.

Record mapi_SPropValue := {
  ulPropTag : Z;
  value : mapi_SPropValue_CTR
}.

(** The operations, for [libmapiserver_Rop*_size]. *)
Inductive rop :=
| RopFastTransferSourceCopyTo | RopFastTransferSourceGetBuffer
| RopSyncConfigure | RopSyncImportMessageChange
| RopSyncImportHierarchyChange | RopSyncImportDeletes
| RopSyncUploadStateStreamBegin | RopSyncUploadStateStreamContinue
| RopSyncUploadStateStreamEnd | RopSyncImportMessageMove
| RopSyncOpenCollector | RopGetLocalReplicaIds
| RopSyncImportReadStateChanges | RopSyncGetTransferState
| RopSetLocalReplicaMidsetDeleted.

(** The request union [mapi_req->u]. *)
Inductive EcDoRpc_MAPI_REQ_UNION :=
| mapi_FastTransferSourceCopyTo (handle_idx : Z) (Level : Z) (PropertyTags : list Z)
| mapi_FastTransferSourceGetBuffer (BufferSize MaximumBufferSize : Z)
| mapi_SyncConfigure (handle_idx : Z) (SynchronizationType SendOptions
                      SynchronizationFlag SynchronizationExtraFlags : Z)
                     (PropertyTags : list Z)
| mapi_SyncImportMessageChange (handle_idx : Z) (ImportFlag : Z)
                               (PropertyValues : list mapi_SPropValue)
| mapi_SyncImportHierarchyChange (HierarchyValues PropertyValues : list mapi_SPropValue)
| mapi_SyncImportDeletes (Flags : Z) (PropertyValues : list mapi_SPropValue)
| mapi_SyncUploadStateStreamBegin (StateProperty : Z)
| mapi_SyncUploadStateStreamContinue (StreamData : list Z)
| mapi_SyncOpenCollector (handle_idx : Z) (IsContentsCollector : Z)
| mapi_GetLocalReplicaIds (IdCount : Z)
| mapi_SyncGetTransferState (handle_idx : Z)
| mapi_no_request.

Record EcDoRpc_MAPI_REQ := {
  req_opnum : Z;
  req_handle_idx : Z;
  req_u : EcDoRpc_MAPI_REQ_UNION
}.

Inductive TransferStatus := TransferStatus_Partial | TransferStatus_Done.

(** [struct FastTransferSourceGetBuffer_repl]. *)
Record FastTransferSourceGetBuffer_repl := {
  TransferStatus_ : TransferStatus;
  InProgressCount : Z;
  TotalStepCount : Z;
  Reserved : Z;
  TransferBufferSize : Z;
  TransferBuffer : list Z
}.

(** The members of the reply union [mapi_repl->u] that the handlers
    write; [mapi_repl_untouched] stands for a union left as it came. *)
Inductive EcDoRpc_MAPI_REPL_UNION :=
| mapi_repl_untouched
| mapi_repl_GetBuffer (r : FastTransferSourceGetBuffer_repl)
| mapi_repl_MessageId (MessageId : Z)
| mapi_repl_FolderId (FolderId : Z)
| mapi_repl_GetLocalReplicaIds (ReplGuid : option GUID) (GlobalCount : list Z).

Record EcDoRpc_MAPI_REPL := {
  opnum : Z;
  handle_idx : Z;
  error_code : MAPISTATUS;
  repl_u : EcDoRpc_MAPI_REPL_UNION
}.

End Objects.

(** Functions of other compilation units.  A function that reads the
    store takes it as first argument; one that changes it returns the new
    store.  A C function that reports failure by a non-zero return or a
    NULL pointer has an [option] (or [bool]) result. *)
Class externals {T : backend_types} := {
  (* replica registry, openchangedb *)
  emsmdbp_replid_to_guid : store -> Z -> option GUID;
  emsmdbp_guid_to_replid : store -> GUID -> option Z;
  openchangedb_get_MailboxReplica : store -> option (Z * GUID);
  openchangedb_reserve_fmid_range : store -> Z -> store * option Z;
  mapistore_namedprops_get_nameid : store -> Z -> option MAPINAMEID;
  (* libmapi and samba helpers *)
  exchange_globcnt : Z -> Z;
  nt_time_to_unix : Z -> Z;
  unix_to_nt_time : Z -> Z;
  strlen_m_ext : list Z -> Z;                 (* UTF-16 code units of a UTF-8 string *)
  ndr_string_bytes : Z -> list Z -> list Z;   (* what [ndr_push_string] appends, by flag word *)
  SPropTagArray_add : list Z -> Z -> list Z;
  SPropTagArray_delete : list Z -> Z -> list Z;
  SPropTagArray_find : list Z -> Z -> option Z;
  cast_SPropValue : mapi_SPropValue -> SPropValue;
  (* identifier sets *)
  RAWIDSET_make : bool -> rawidset;
  RAWIDSET_push_glob : rawidset -> GUID -> Z -> rawidset;
  RAWIDSET_convert_to_idset : rawidset -> option idset;
  IDSET_merge_idsets : option idset -> option idset -> option idset;
  IDSET_includes_id : option idset -> GUID -> Z -> bool;
  IDSET_parse : list Z -> option idset;
  idset_range_count : idset -> Z;             (* the field [range_count] *)
  idset_set_single : idset -> idset;          (* the assignment [->single = true] *)
  idset_serialized : option idset -> list Z;  (* what [ndr_push_idset] appends *)
  (* objects of the provider *)
  object_is_folder : ext_object -> bool;      (* [type == EMSMDBP_OBJECT_FOLDER] *)
  folderID : ext_object -> Z;                 (* [object.folder->folderID] *)
  emsmdbp_is_mapistore : emsmdbp_object -> bool;
  emsmdbp_get_contextID : emsmdbp_object -> Z;
  emsmdbp_object_synccontext_init : store -> ext_object -> emsmdbp_object_synccontext;
  emsmdbp_object_ftcontext_init :
    store -> option emsmdbp_object -> option emsmdbp_object_ftcontext;
  emsmdbp_object_get_available_properties : store -> option emsmdbp_object -> option (list Z);
  emsmdbp_object_get_properties :
    store -> option emsmdbp_object -> list Z -> option (list (option prop_data) * list MAPISTATUS);
  emsmdbp_folder_open_table : store -> option ext_object -> Z -> option table_object;
  denominator : table_object -> Z;
  emsmdbp_object_table_get_row_props :
    store -> table_object -> list Z -> Z -> option (list (option prop_data) * list MAPISTATUS);
  emsmdbp_object_table_get_available_properties : store -> table_object -> option (list Z);
  emsmdbp_object_message_open :
    store -> ext_object -> Z -> Z -> option (ext_object * option mapistore_message);
  emsmdbp_object_message_init : store -> Z -> ext_object -> ext_object;
  emsmdbp_object_message_open_attachment_table : store -> ext_object -> option table_object;
  emsmdbp_object_open_folder : store -> option ext_object -> Z -> option ext_object;
  emsmdbp_object_open_folder_by_fid : store -> ext_object -> Z -> option ext_object;
  emsmdbp_object_create_folder :
    store -> option ext_object -> Z -> list SPropValue -> store * option ext_object;
  emsmdbp_object_set_properties : store -> ext_object -> list SPropValue -> store * bool;
  mapistore_folder_create_message :
    store -> Z -> ext_object -> ext_object -> Z -> bool -> store * option ext_object;
  mapistore_folder_delete_message : store -> Z -> ext_object -> Z -> Z -> store * mapistore_retval;
  mapistore_indexing_record_del_mid : store -> Z -> Z -> Z -> store * mapistore_retval;
  (* handle table and reply sizes *)
  mapi_handles_new : gmap Z (option emsmdbp_object) -> Z -> option Z;
  libmapiserver_size : rop -> EcDoRpc_MAPI_REPL -> Z;
  (* table types *)
  EMSMDBP_TABLE_FOLDER_TYPE : Z;
  EMSMDBP_TABLE_MESSAGE_TYPE : Z;
  EMSMDBP_TABLE_FAI_TYPE : Z;
  (* integer types of fields declared in other headers: the step
     counters of the contexts, the counters and the size of the
     GetBuffer reply *)
  to_steps_t : Z -> Z;
  to_StepCount_t : Z -> Z;
  to_TransferBufferSize_t : Z -> Z;
  (* what [object->object.ftcontext->stream.position] reads when the
     object is a synchronization context: the two context structures
     share the pointer of the object union, and the value depends on their
     layouts *)
  ftcontext_view_position : emsmdbp_object_synccontext -> Z
}.

(** ** Property serializer *)

Section Serializer.
Context {K : mapi_constants} {T : backend_types} {E : externals}.

(** The state of a serialization: the main stream [ndr] and the cut-mark
    sidecar [cutmarks_ndr]. *)
Definition push_state : Type := ndr_push * list Z.

(** [ndr_push_uint32(cutmarks_ndr, NDR_SCALARS, ndr->offset)]. *)
Definition push_cutmark (st : push_state) : push_state :=
  (st.1, cutmarks_push st.2 (ndr_offset st.1)).

(** [ndr_push_uint32(ndr, NDR_SCALARS, v)] on the main stream. *)
Definition push_uint32 (st : push_state) (v : Z) : push_state :=
  (ndr_push_uint32 st.1 v, st.2).

(** [ndr_push_string] under the flags accumulated in [ndr->flags]. *)
Definition ndr_push_string (ndr : ndr_push) (s : list Z) : ndr_push :=
  ndr_append ndr (ndr_string_bytes (ndr_flags ndr) s).

(** [oxcfxics_ndr_push_simple_data]; [value] is the pointer, [None] when
    NULL.  A pointer to data of another shape than the type asks for, and
    the [default:] branch with its [abort()], give [None]. *)
Definition oxcfxics_ndr_push_simple_data (ndr : ndr_push) (data_type : Z)
           (value : option prop_data) : option ndr_push :=
  if data_type =? PT_I2 then
    match value with
    | Some (D_uint16 v) => Some (ndr_push_uint16 ndr v)
    | _ => None
    end
  else if (data_type =? PT_LONG) || (data_type =? PT_ERROR)
          || (data_type =? PT_OBJECT) then
    match value with
    | Some (D_uint32 v) => Some (ndr_push_uint32 ndr v)
    | _ => None
    end
  else if data_type =? PT_DOUBLE then
    match value with
    | Some (D_double bits) => Some (ndr_push_double ndr bits)
    | _ => None
    end
  else if data_type =? PT_I8 then
    match value with
    | Some (D_uint64 v) => Some (ndr_push_dlong ndr v)
    | _ => None
    end
  else if data_type =? PT_BOOLEAN then
    match value with
    | Some (D_uint8 v) =>
        if v =? 0 then Some (ndr_push_uint16 ndr 0)
        else Some (ndr_push_uint16 ndr 1)
    | _ => None
    end
  else if data_type =? PT_STRING8 then
    match value with
    | Some (D_string s) =>
        let string_len := uint32 (Z.of_nat (length s) + 1) in
        let ndr := ndr_push_uint32 ndr string_len in
        let ndr := ndr_set_flags ndr
                     (Z.lor LIBNDR_FLAG_STR_NULLTERM LIBNDR_FLAG_STR_ASCII) in
        Some (ndr_push_string ndr s)
    | _ => None
    end
  else if data_type =? PT_UNICODE then
    match value with
    | Some (D_string s) =>
        let string_len := uint32 (strlen_m_ext s * 2 + 2) in
        let ndr := ndr_push_uint32 ndr string_len in
        let ndr := ndr_set_flags ndr LIBNDR_FLAG_STR_NULLTERM in
        Some (ndr_push_string ndr s)
    | _ => None
    end
  else if (data_type =? PT_SVREID) || (data_type =? PT_BINARY) then
    match value with
    | Some (D_binary lpb) => Some (ndr_push_Binary_r ndr lpb)
    | _ => None
    end
  else if data_type =? PT_CLSID then
    match value with
    | Some (D_guid g) => Some (ndr_push_GUID ndr g)
    | _ => None
    end
  else if data_type =? PT_SYSTIME then
    match value with
    | Some (D_filetime lo hi) => Some (ndr_push_FILETIME ndr lo hi)
    | _ => None
    end
  else None.

(** The inner loops over the values of a multi-valued property. *)
Fixpoint push_simple_data_array (ndr : ndr_push) (prop_type : Z)
         (values : list prop_data) : option ndr_push :=
  match values with
  | [] => Some ndr
  | v :: values' =>
      ndr' ← oxcfxics_ndr_push_simple_data ndr prop_type (Some v);
      push_simple_data_array ndr' prop_type values'
  end.

(** The tag of a property and, for a named property, its name: the first
    half of the loop body of [oxcfxics_ndr_push_properties].  [None] is
    the [continue] taken when the name is not found. *)
Definition push_property_tag (s : store) (ndr : ndr_push) (property : Z)
  : option ndr_push :=
  if 0x80000000 <? property then
    let propID := uint16 (Z.shiftr (Z.land property 0xffff0000) 16) in
    match mapistore_namedprops_get_nameid s propID with
    | None => None
    | Some nameid =>
        let ndr := ndr_push_uint32 ndr property in
        let ndr := ndr_push_GUID ndr (lpguid nameid) in
        Some match kind nameid with
             | MNID_ID lid =>
                 ndr_push_uint32 (ndr_push_uint8 ndr 0) lid
             | MNID_STRING Name =>
                 let ndr := ndr_push_uint8 ndr 1 in
                 let ndr := ndr_set_flags ndr LIBNDR_FLAG_STR_NULLTERM in
                 ndr_push_string ndr Name
             | MNID_unknown => ndr
             end
    end
  else Some (ndr_push_uint32 ndr property).

(** The value of a property: the second half of the loop body.
    [slot] is [data_pointers[i]], [None] when [i] is outside the array. *)
Definition push_property_value (ndr : ndr_push) (property : Z)
           (slot : option (option prop_data)) : option ndr_push :=
  let prop_type := Z.land property 0xffff in
  if negb (Z.land prop_type MV_FLAG =? 0) then
    let prop_type := Z.land prop_type 0x0fff in
    if prop_type =? PT_BINARY then
      match slot with
      | Some (Some (D_binary_array lpbin)) =>
          let ndr := ndr_push_uint32 ndr (Z.of_nat (length lpbin)) in
          push_simple_data_array ndr prop_type (map D_binary lpbin)
      | _ => None
      end
    else if prop_type =? PT_UNICODE then
      match slot with
      | Some (Some (D_wstring_array lppszW)) =>
          let ndr := ndr_push_uint32 ndr (Z.of_nat (length lppszW)) in
          push_simple_data_array ndr prop_type (map D_string lppszW)
      | _ => None
      end
    else None
  else
    match slot with
    | Some value => oxcfxics_ndr_push_simple_data ndr prop_type value
    | None => None
    end.

(** One iteration of the loop of [oxcfxics_ndr_push_properties] for a
    property whose [retvals[i]] is [MAPI_E_SUCCESS]. *)
Definition push_property (s : store) (st : push_state) (property : Z)
           (slot : option (option prop_data)) : option push_state :=
  let st := push_cutmark st in
  match push_property_tag s st.1 property with
  | None => Some st
  | Some ndr =>
      ndr' ← push_property_value ndr property slot;
      Some (ndr', st.2)
  end.

(** [oxcfxics_ndr_push_properties]: the three arrays are walked
    together, [properties] giving [cValues]. *)
Fixpoint oxcfxics_ndr_push_properties (s : store) (st : push_state)
         (properties : list Z) (data_pointers : list (option prop_data))
         (retvals : list MAPISTATUS) : option push_state :=
  match properties with
  | [] => Some st
  | property :: properties' =>
      match retvals with
      | [] => None
      | retval :: retvals' =>
          st' ← (if is_success retval
                 then push_property s st property (head data_pointers)
                 else Some st);
          oxcfxics_ndr_push_properties s st' properties'
                                       (tail data_pointers) retvals'
      end
  end.

End Serializer.

(** ** Synchronization producers *)

(** [for (i = start; i < start + n; i++) body]. *)
Fixpoint for_loop {S : Type} (n : nat) (i : Z) (body : Z -> S -> option S)
         (st : S) : option S :=
  match n with
  | O => Some st
  | S n' => st' ← body i st; for_loop n' (i + 1) body st'
  end.

(** Conversion to [int32_t]. *)
Definition int32 (z : Z) : Z := (z + 2 ^ 31) mod 2 ^ 32 - 2 ^ 31.

Section Producers.
Context {K : mapi_constants} {T : backend_types} {E : externals}.

(** [struct oxcfxics_prop_index]. *)
Record oxcfxics_prop_index := {
  ix_parent_fid : Z;
  ix_eid : Z;
  ix_precedessor_change_list : Z;
  ix_last_modification_time : Z;
  ix_display_name : Z;
  ix_associated : Z;
  ix_message_size : Z
}.

(** [struct oxcfxics_sync_data]; [ndr] and [cutmarks_ndr] together are
    the [push_state]. *)
Record oxcfxics_sync_data := {
  replica_guid : GUID;
  table_type : Z;
  prop_index : oxcfxics_prop_index;
  sd_properties : list Z;
  sd_push : push_state;
  eid_set : rawidset;
  sd_cnset_seen : rawidset
}.

Definition set_push (sd : oxcfxics_sync_data) (st : push_state) :=
  {| replica_guid := replica_guid sd; table_type := table_type sd;
     prop_index := prop_index sd; sd_properties := sd_properties sd;
     sd_push := st; eid_set := eid_set sd; sd_cnset_seen := sd_cnset_seen sd |}.

Definition set_eid_set (sd : oxcfxics_sync_data) (r : rawidset) :=
  {| replica_guid := replica_guid sd; table_type := table_type sd;
     prop_index := prop_index sd; sd_properties := sd_properties sd;
     sd_push := sd_push sd; eid_set := r; sd_cnset_seen := sd_cnset_seen sd |}.

Definition set_cnset_seen (sd : oxcfxics_sync_data) (r : rawidset) :=
  {| replica_guid := replica_guid sd; table_type := table_type sd;
     prop_index := prop_index sd; sd_properties := sd_properties sd;
     sd_push := sd_push sd; eid_set := eid_set sd; sd_cnset_seen := r |}.

Definition set_table_type (sd : oxcfxics_sync_data) (t : Z) :=
  {| replica_guid := replica_guid sd; table_type := t;
     prop_index := prop_index sd; sd_properties := sd_properties sd;
     sd_push := sd_push sd; eid_set := eid_set sd;
     sd_cnset_seen := sd_cnset_seen sd |}.

(** Reads through the arrays of a row; [None] outside the array, through
    a NULL pointer, or on data of another shape. *)
Definition slot_at (data_pointers : list (option prop_data)) (idx : Z)
  : option (option prop_data) := data_pointers !! Z.to_nat idx.

Definition deref_uint64 (data_pointers : list (option prop_data)) (idx : Z)
  : option Z :=
  match slot_at data_pointers idx with
  | Some (Some (D_uint64 v)) => Some v
  | _ => None
  end.

Definition deref_filetime (data_pointers : list (option prop_data)) (idx : Z)
  : option (Z * Z) :=
  match slot_at data_pointers idx with
  | Some (Some (D_filetime lo hi)) => Some (lo, hi)
  | _ => None
  end.

Definition retval_at (retvals : list MAPISTATUS) (idx : Z) : option MAPISTATUS :=
  retvals !! Z.to_nat idx.

(** The last modification time of a row: the [FILETIME] to emit and the
    [nt_time_to_unix] time, before its conversion to the type of
    [unix_time]. *)
Definition row_last_modification_time (data_pointers : list (option prop_data))
           (retvals : list MAPISTATUS) (idx : Z) : option (prop_data * Z) :=
  r ← retval_at retvals idx;
  if negb (is_success r) then
    let unix_time := oc_version_time in
    let nt_time := unix_to_nt_time unix_time in
    Some (D_filetime (Z.land nt_time 0xffffffff) (Z.shiftr nt_time 32),
          unix_time)
  else
    '(lo, hi) ← deref_filetime data_pointers idx;
    let nt_time := Z.lor (uint64 (Z.shiftl hi 32)) lo in
    Some (D_filetime lo hi, nt_time_to_unix nt_time).

(** [cn = ((eid & 0xffff000000000000LL) >> 16)
         | (exchange_globcnt(unix_time - oc_version_time) >> 16)],
    after [if (unix_time < oc_version_time) unix_time = oc_version_time]. *)
Definition change_number (eid unix_time : Z) : Z :=
  let unix_time := if unix_time <? oc_version_time then oc_version_time
                   else unix_time in
  Z.lor (Z.shiftr (Z.land eid 0xffff000000000000) 16)
        (Z.shiftr (exchange_globcnt (unix_time - oc_version_time)) 16).

(** [predecessors_data]: the length byte and the change key. *)
Definition predecessor_change_list (change_key : list Z) : list Z :=
  Z.land (Z.of_nat (length change_key)) 0xff :: change_key.

(** [oxcfxics_source_key_from_fmid] on the registry of the store.  Its
    callers ignore the return code and use [*source_keyP]; on failure
    that pointer was never stored, hence [None]. *)
Definition source_key_of (s : store) (fmid : Z) : option (list Z) :=
  (Codec.oxcfxics_source_key_from_fmid (emsmdbp_replid_to_guid s) fmid).2.

(** The rows of the recipient loop of
    [oxcfxics_push_messageChange_recipients]. *)
Fixpoint push_recipient_rows (s : store) (st : push_state) (i : Z)
         (aRow : list (list (Z * option prop_data))) : option push_state :=
  match aRow with
  | [] => Some st
  | row :: aRow' =>
      let st := push_cutmark st in
      let st := push_uint32 st PR_START_RECIP in
      let st := push_cutmark st in
      let st := push_uint32 st PR_ROWID in
      let st := push_uint32 st i in
      st ← oxcfxics_ndr_push_properties s st (map fst row) (map snd row)
             (repeat MAPI_E_SUCCESS (length row));
      let st := push_cutmark st in
      let st := push_uint32 st PR_END_RECIP in
      push_recipient_rows s st (uint32 (i + 1)) aRow'
  end.

(** [oxcfxics_push_messageChange_recipients]. *)
Definition oxcfxics_push_messageChange_recipients (s : store)
           (st : push_state) (msg : option mapistore_message)
  : option push_state :=
  let st := push_cutmark st in
  let st := push_uint32 st PR_FX_DEL_PROP in
  let st := push_uint32 st PR_MESSAGE_RECIPIENTS in
  match msg with
  | Some {| recipients := Some aRow |} => push_recipient_rows s st 0 aRow
  | _ => Some st
  end.

(** The static array [prop_tags] of the attachment columns. *)
Definition attachment_prop_tags : list Z :=
  [ PR_ATTACH_METHOD; PR_ATTACH_TAG; PR_ATTACH_SIZE; PR_RECORD_KEY;
    PR_ATTACH_LONG_FILENAME_UNICODE; PR_DISPLAY_NAME_UNICODE;
    PR_ATTACH_CONTENT_ID_UNICODE; PR_ATTACH_MIME_TAG_UNICODE;
    PR_CREATION_TIME; PR_LAST_MODIFICATION_TIME; PR_ATTACH_DATA_BIN ].

(** [oxcfxics_push_messageChange_attachments]. *)
Definition oxcfxics_push_messageChange_attachments (s : store)
           (st : push_state) (message_object : ext_object)
  : option push_state :=
  let st := push_uint32 st PR_FX_DEL_PROP in
  let st := push_uint32 st PR_MESSAGE_ATTACHMENTS in
  match emsmdbp_object_message_open_attachment_table s message_object with
  | Some table =>
      if 0 <? denominator table then
        for_loop (Z.to_nat (denominator table)) 0
          (fun i st =>
             '(data_pointers, retvals) ←
               emsmdbp_object_table_get_row_props s table attachment_prop_tags i;
             let st := push_cutmark st in
             let st := push_uint32 st PR_NEW_ATTACH in
             let st := push_uint32 st PR_ATTACH_NUM in
             let st := push_uint32 st i in
             st ← oxcfxics_ndr_push_properties s st attachment_prop_tags
                    data_pointers retvals;
             Some (push_uint32 st PR_END_ATTACH))
          st
      else Some st
  | None => Some st
  end.

(** Setters of [struct emsmdbp_object_synccontext]. *)
Definition set_idset_given (sc : emsmdbp_object_synccontext) (v : option idset) :=
  {| request := request sc; properties := properties sc; idset_given := v;
     cnset_seen := cnset_seen sc; state_property := state_property sc;
     state_stream := state_stream sc; stream := stream sc;
     cutmarks := cutmarks sc; next_cutmark_ptr := next_cutmark_ptr sc;
     steps := steps sc; total_steps := total_steps sc;
     is_collector := is_collector sc |}.

Definition set_cnset (sc : emsmdbp_object_synccontext) (v : option idset) :=
  {| request := request sc; properties := properties sc;
     idset_given := idset_given sc; cnset_seen := v;
     state_property := state_property sc; state_stream := state_stream sc;
     stream := stream sc; cutmarks := cutmarks sc;
     next_cutmark_ptr := next_cutmark_ptr sc; steps := steps sc;
     total_steps := total_steps sc; is_collector := is_collector sc |}.

Definition set_stream (sc : emsmdbp_object_synccontext) (v : emsmdbp_stream) :=
  {| request := request sc; properties := properties sc;
     idset_given := idset_given sc; cnset_seen := cnset_seen sc;
     state_property := state_property sc; state_stream := state_stream sc;
     stream := v; cutmarks := cutmarks sc;
     next_cutmark_ptr := next_cutmark_ptr sc; steps := steps sc;
     total_steps := total_steps sc; is_collector := is_collector sc |}.

Definition set_cutmarks (sc : emsmdbp_object_synccontext) (v : list Z) :=
  {| request := request sc; properties := properties sc;
     idset_given := idset_given sc; cnset_seen := cnset_seen sc;
     state_property := state_property sc; state_stream := state_stream sc;
     stream := stream sc; cutmarks := v;
     next_cutmark_ptr := next_cutmark_ptr sc; steps := steps sc;
     total_steps := total_steps sc; is_collector := is_collector sc |}.

Definition set_steps (sc : emsmdbp_object_synccontext) (n total : Z) :=
  {| request := request sc; properties := properties sc;
     idset_given := idset_given sc; cnset_seen := cnset_seen sc;
     state_property := state_property sc; state_stream := state_stream sc;
     stream := stream sc; cutmarks := cutmarks sc;
     next_cutmark_ptr := next_cutmark_ptr sc; steps := n;
     total_steps := total; is_collector := is_collector sc |}.

Definition set_state_upload (sc : emsmdbp_object_synccontext) (p : Z)
           (v : emsmdbp_stream) :=
  {| request := request sc; properties := properties sc;
     idset_given := idset_given sc; cnset_seen := cnset_seen sc;
     state_property := p; state_stream := v;
     stream := stream sc; cutmarks := cutmarks sc;
     next_cutmark_ptr := next_cutmark_ptr sc; steps := steps sc;
     total_steps := total_steps sc; is_collector := is_collector sc |}.

(** The header properties of a change: tags and data pointers, pushed
    with [header_retvals] all zero. *)
Definition push_header (s : store) (st : push_state)
           (header : list (Z * option prop_data)) : option push_state :=
  oxcfxics_ndr_push_properties s st (map fst header) (map snd header)
                               (repeat MAPI_E_SUCCESS 8).

(** One row of the loop of [oxcfxics_push_messageChange]. *)
Definition push_messageChange_row (s : store)
           (synccontext : emsmdbp_object_synccontext)
           (folder_object : ext_object) (table : table_object)
           (i : Z) (sd : oxcfxics_sync_data) : option oxcfxics_sync_data :=
  '(data_pointers, retvals) ←
    emsmdbp_object_table_get_row_props s table (sd_properties sd) i;
  let st := push_cutmark (sd_push sd) in
  let ix := prop_index sd in
  (* source key *)
  eid ← deref_uint64 data_pointers (ix_eid ix);
  row_guid ← emsmdbp_replid_to_guid s (Z.land eid 0xffff);
  let sd := set_eid_set sd (RAWIDSET_push_glob (eid_set sd) row_guid
                                               (Z.shiftr eid 16)) in
  source_key ← source_key_of s eid;
  (* last modification time *)
  '(lm_time, t) ← row_last_modification_time data_pointers retvals
                    (ix_last_modification_time ix);
  let unix_time := uint32 t in
  let cn := change_number eid unix_time in
  if IDSET_includes_id (cnset_seen synccontext) (replica_guid sd) cn
  then Some (set_push sd st)
  else
    let sd := set_cnset_seen sd (RAWIDSET_push_glob (sd_cnset_seen sd)
                                                    (replica_guid sd) cn) in
    (* change key, predecessor change list *)
    change_key ← Codec.oxcfxics_make_gid (replica_guid sd) cn;
    let predecessors_data := predecessor_change_list change_key in
    (* associated *)
    r_assoc ← retval_at retvals (ix_associated ix);
    associated ← (if negb (is_success r_assoc) then Some (Some (D_uint8 0))
                  else slot_at data_pointers (ix_associated ix));
    (* message id, message size, cn (conditional) *)
    let h_mid :=
      if request_eid (request synccontext)
      then [(PR_MID, Some (D_uint64 eid))] else [] in
    h_size ←
      (if request_message_size (request synccontext) then
         _ ← slot_at data_pointers (ix_message_size ix);
         r ← retval_at retvals (ix_parent_fid ix);
         d ← (if negb (is_success r) then Some (Some (D_uint32 0))
              else slot_at data_pointers (ix_message_size ix));
         Some [(PR_MESSAGE_SIZE, d)]
       else Some []);
    let h_cn :=
      if request_cn (request synccontext)
      then [(PR_CHANGE_NUM,
             Some (D_uint64 (Z.lor (uint64 (Z.shiftl cn 16))
                                   (Z.land eid 0xffff))))]
      else [] in
    let header :=
      [ (PR_SOURCE_KEY, Some (D_binary source_key));
        (PR_LAST_MODIFICATION_TIME, Some lm_time);
        (PR_CHANGE_KEY, Some (D_binary change_key));
        (PR_PREDECESSOR_CHANGE_LIST, Some (D_binary predecessors_data));
        (PR_ASSOCIATED, associated) ] ++ h_mid ++ h_size ++ h_cn in
    let st := push_uint32 st PR_INCR_SYNC_CHG in
    st ← push_header s st header;
    (* remaining props *)
    let st := push_uint32 st PR_INCR_SYNC_MSG in
    st ← (if 7 <? Z.of_nat (length (sd_properties sd))
          then oxcfxics_ndr_push_properties s st (drop 7 (sd_properties sd))
                 (drop 7 data_pointers) (drop 7 retvals)
          else Some st);
    (* messageChildren *)
    '(message_object, msg) ←
      emsmdbp_object_message_open s folder_object (folderID folder_object) eid;
    st ← oxcfxics_push_messageChange_recipients s st msg;
    st ← oxcfxics_push_messageChange_attachments s st message_object;
    Some (set_push sd st).

(** [oxcfxics_push_messageChange]. *)
Definition oxcfxics_push_messageChange (s : store)
           (synccontext : emsmdbp_object_synccontext)
           (sd : oxcfxics_sync_data) (folder_object : ext_object)
  : option oxcfxics_sync_data :=
  table ← emsmdbp_folder_open_table s (Some folder_object) (table_type sd);
  for_loop (Z.to_nat (denominator table)) 0
           (push_messageChange_row s synccontext folder_object table) sd.

(** The index that [SPropTagArray_find] stores; the field keeps the zero
    of [talloc_zero] when the tag is not found. *)
Definition find_index (properties : list Z) (tag : Z) : Z :=
  default 0 (SPropTagArray_find properties tag).

(** [sync_data->replica_guid] after [openchangedb_get_MailboxReplica]. *)
Definition mailbox_replica_guid (s : store) : GUID :=
  match openchangedb_get_MailboxReplica s with
  | Some (_, guid) => guid
  | None => repeat 0 16
  end.

(** A fresh push buffer: [ndr_push_init_ctx], then
    [ndr_set_flags(&ndr->flags, LIBNDR_FLAG_NOALIGN)], offset 0. *)
Definition ndr_push_init : ndr_push :=
  ndr_set_flags {| ndr_data := []; ndr_flags := 0 |} LIBNDR_FLAG_NOALIGN.

(** The state block that ends a contents stream, from
    [PR_INCR_SYNC_STATE_BEGIN] to [PR_INCR_SYNC_END], and the sets it
    leaves in the context. *)
Definition push_contents_state (synccontext : emsmdbp_object_synccontext)
           (sd : oxcfxics_sync_data)
  : emsmdbp_object_synccontext * push_state :=
  let st := push_uint32 (sd_push sd) PR_INCR_SYNC_STATE_BEGIN in
  let new_idset := RAWIDSET_convert_to_idset (eid_set sd) in
  let old_idset := idset_given synccontext in
  let synccontext :=
    set_idset_given synccontext (IDSET_merge_idsets old_idset new_idset) in
  let new_idset := RAWIDSET_convert_to_idset (sd_cnset_seen sd) in
  let old_idset := cnset_seen synccontext in
  let synccontext :=
    set_cnset synccontext (IDSET_merge_idsets old_idset new_idset) in
  let push_idset (st : push_state) (set : option idset) : push_state :=
    (ndr_append st.1 (idset_serialized set), st.2) in
  let st := push_uint32 st PidTagCnsetSeen in
  let st := push_idset st (cnset_seen synccontext) in
  let st :=
    if fai (request synccontext) then
      push_idset (push_uint32 st PidTagCnsetSeenFAI) (cnset_seen synccontext)
    else st in
  let st := push_uint32 st PidTagIdsetGiven in
  let st := push_idset st (idset_given synccontext) in
  let st :=
    if read_state (request synccontext) then
      push_idset (push_uint32 st PidTagCnsetRead) (cnset_seen synccontext)
    else st in
  let st := push_uint32 st PR_INCR_SYNC_STATE_END in
  (* end of stream *)
  let st := push_uint32 st PR_INCR_SYNC_END in
  let st := (st.1, cutmarks_push st.2 0xffffffff) in
  (synccontext, st).

(** The stream and the cut-marks handed over to the context at the end of
    both [oxcfxics_prepare_synccontext_with_*]. *)
Definition install_stream (synccontext : emsmdbp_object_synccontext)
           (st : push_state) : emsmdbp_object_synccontext :=
  let synccontext := set_cutmarks synccontext st.2 in
  set_stream synccontext
             {| position := position (stream synccontext);
                buffer := Some (ndr_data st.1) |}.

(** The message records of a contents stream: steps 1, 2a and 2b of
    [oxcfxics_prepare_synccontext_with_messageChange]. *)
Definition contents_records (s : store) (parent_object : ext_object)
           (synccontext : emsmdbp_object_synccontext)
  : option oxcfxics_sync_data :=
  let props := properties synccontext in
  let sd := {|
    replica_guid := mailbox_replica_guid s;
    table_type := 0;
    prop_index := {|
      ix_parent_fid := 0;
      ix_eid := find_index props PR_MID;
      ix_precedessor_change_list := find_index props PR_PREDECESSOR_CHANGE_LIST;
      ix_last_modification_time := find_index props PR_LAST_MODIFICATION_TIME;
      ix_display_name := 0;
      ix_associated := find_index props PR_ASSOCIATED;
      ix_message_size := find_index props PR_MESSAGE_SIZE |};
    sd_properties := props;
    sd_push := (ndr_push_init, []);
    eid_set := RAWIDSET_make false;
    sd_cnset_seen := RAWIDSET_make true |} in
  sd ← (if normal (request synccontext) then
          oxcfxics_push_messageChange s synccontext
            (set_table_type sd EMSMDBP_TABLE_MESSAGE_TYPE) parent_object
        else Some sd);
  if fai (request synccontext) then
    oxcfxics_push_messageChange s synccontext
      (set_table_type sd EMSMDBP_TABLE_FAI_TYPE) parent_object
  else Some sd.

(** [oxcfxics_prepare_synccontext_with_messageChange]. *)
Definition oxcfxics_prepare_synccontext_with_messageChange (s : store)
           (parent_object : ext_object)
           (synccontext : emsmdbp_object_synccontext)
  : option emsmdbp_object_synccontext :=
  sd ← contents_records s parent_object synccontext;
  let '(synccontext, st) := push_contents_state synccontext sd in
  Some (install_stream synccontext st).

(** One row of the loop of [oxcfxics_push_folderChange], up to the label
    [end_row]; the result carries [eid] for the recursion that follows.
    [is_topmost] is the test [folder_object == topmost_folder_object]. *)
Definition push_folderChange_row (s : store)
           (synccontext : emsmdbp_object_synccontext) (is_topmost : bool)
           (table : table_object) (i : Z) (sd : oxcfxics_sync_data)
  : option (oxcfxics_sync_data * Z) :=
  '(data_pointers, retvals) ←
    emsmdbp_object_table_get_row_props s table (sd_properties sd) i;
  let st := push_cutmark (sd_push sd) in
  let ix := prop_index sd in
  (* parent source key *)
  parent_source_key ←
    (if is_topmost then Some []
     else parent_fid ← deref_uint64 data_pointers (ix_parent_fid ix);
          source_key_of s parent_fid);
  (* source key *)
  eid ← deref_uint64 data_pointers (ix_eid ix);
  row_guid ← emsmdbp_replid_to_guid s (Z.land eid 0xffff);
  let sd := set_eid_set sd (RAWIDSET_push_glob (eid_set sd) row_guid
                                               (Z.shiftr eid 16)) in
  source_key ← source_key_of s eid;
  (* last modification time *)
  '(lm_time, t) ← row_last_modification_time data_pointers retvals
                    (ix_last_modification_time ix);
  let unix_time := int32 t in
  let cn := change_number eid unix_time in
  if IDSET_includes_id (cnset_seen synccontext) (replica_guid sd) cn
  then Some (set_push sd st, eid)
  else
    let sd := set_cnset_seen sd (RAWIDSET_push_glob (sd_cnset_seen sd)
                                                    (replica_guid sd) cn) in
    change_key ← Codec.oxcfxics_make_gid (replica_guid sd) cn;
    let predecessors_data := predecessor_change_list change_key in
    (* display name *)
    r_name ← retval_at retvals (ix_display_name ix);
    display_name ← (if negb (is_success r_name) then Some (Some (D_string []))
                    else slot_at data_pointers (ix_display_name ix));
    (* folder id, parent folder id (conditional) *)
    h_fid ←
      (if request_eid (request synccontext) then
         d ← slot_at data_pointers (ix_eid ix);
         Some [(PR_FID, d)]
       else Some []);
    h_parent ←
      (if no_foreign_identifiers (request synccontext) then
         _ ← slot_at data_pointers (ix_parent_fid ix);
         r ← retval_at retvals (ix_parent_fid ix);
         d ← (if negb (is_success r) then Some (Some (D_uint64 0))
              else slot_at data_pointers (ix_parent_fid ix));
         Some [(PR_PARENT_FID, d)]
       else Some []);
    let header :=
      [ (PR_PARENT_SOURCE_KEY, Some (D_binary parent_source_key));
        (PR_SOURCE_KEY, Some (D_binary source_key));
        (PR_LAST_MODIFICATION_TIME, Some lm_time);
        (PR_CHANGE_KEY, Some (D_binary change_key));
        (PR_PREDECESSOR_CHANGE_LIST, Some (D_binary predecessors_data));
        (PR_DISPLAY_NAME_UNICODE, display_name) ] ++ h_fid ++ h_parent in
    let st := push_uint32 st PR_INCR_SYNC_CHG in
    st ← push_header s st header;
    (* remaining props *)
    st ← (if 5 <? Z.of_nat (length (sd_properties sd))
          then oxcfxics_ndr_push_properties s st (drop 5 (sd_properties sd))
                 (drop 5 data_pointers) (drop 5 retvals)
          else Some st);
    Some (set_push sd st, eid).

(** [oxcfxics_push_folderChange].  The C function recurses into every
    sub-folder that the store opens; [depth] bounds the nesting of these
    calls, and [None] is also the answer when the bound is reached. *)
Fixpoint oxcfxics_push_folderChange (depth : nat) (s : store)
         (synccontext : emsmdbp_object_synccontext) (is_topmost : bool)
         (sd : oxcfxics_sync_data) (folder_object : option ext_object)
  : option oxcfxics_sync_data :=
  match depth with
  | O => None
  | S depth' =>
      match emsmdbp_folder_open_table s folder_object
                                      EMSMDBP_TABLE_FOLDER_TYPE with
      | None => Some sd
      | Some table =>
          for_loop (Z.to_nat (denominator table)) 0
            (fun i sd =>
               '(sd, eid) ← push_folderChange_row s synccontext is_topmost
                                                  table i sd;
               let subfolder_object :=
                 emsmdbp_object_open_folder s folder_object eid in
               oxcfxics_push_folderChange depth' s synccontext false sd
                                          subfolder_object)
            sd
      end
  end.

(** The state block that ends a hierarchy stream. *)
Definition push_hierarchy_state (synccontext : emsmdbp_object_synccontext)
           (sd : oxcfxics_sync_data)
  : emsmdbp_object_synccontext * push_state :=
  let push_idset (st : push_state) (set : option idset) : push_state :=
    (ndr_append st.1 (idset_serialized set), st.2) in
  let st := push_uint32 (sd_push sd) PR_INCR_SYNC_STATE_BEGIN in
  let new_idset := RAWIDSET_convert_to_idset (sd_cnset_seen sd) in
  let old_idset := cnset_seen synccontext in
  let synccontext :=
    set_cnset synccontext (IDSET_merge_idsets old_idset new_idset) in
  let st := push_uint32 st PidTagCnsetSeen in
  let st := push_idset st (cnset_seen synccontext) in
  let new_idset := RAWIDSET_convert_to_idset (eid_set sd) in
  let old_idset := idset_given synccontext in
  let synccontext :=
    set_idset_given synccontext (IDSET_merge_idsets old_idset new_idset) in
  let st := push_uint32 st PidTagIdsetGiven in
  let st := push_idset st (idset_given synccontext) in
  let st := push_uint32 st PR_INCR_SYNC_STATE_END in
  (* end of stream *)
  let st := push_uint32 st PR_INCR_SYNC_END in
  let st := (st.1, cutmarks_push st.2 0xffffffff) in
  (synccontext, st).

(** [oxcfxics_prepare_synccontext_with_folderChange]. *)
Definition oxcfxics_prepare_synccontext_with_folderChange (depth : nat)
           (s : store) (parent_object : ext_object)
           (synccontext : emsmdbp_object_synccontext)
  : option emsmdbp_object_synccontext :=
  let props := properties synccontext in
  let sd := {|
    replica_guid := mailbox_replica_guid s;
    table_type := 0;
    prop_index := {|
      ix_parent_fid := find_index props PR_PARENT_FID;
      ix_eid := find_index props PR_FID;
      ix_precedessor_change_list := find_index props PR_PREDECESSOR_CHANGE_LIST;
      ix_last_modification_time := find_index props PR_LAST_MODIFICATION_TIME;
      ix_display_name := find_index props PR_DISPLAY_NAME_UNICODE;
      ix_associated := 0;
      ix_message_size := 0 |};
    sd_properties := props;
    sd_push := (ndr_push_init, []);
    eid_set := RAWIDSET_make false;
    sd_cnset_seen := RAWIDSET_make true |} in
  sd ← oxcfxics_push_folderChange depth s synccontext true sd
                                  (Some parent_object);
  let '(synccontext, st) := push_hierarchy_state synccontext sd in
  Some (install_stream synccontext st).

End Producers.

(** ** Streams *)

Section Streams.
Context {T : backend_types}.

(** Modelled from the spec: [emsmdbp_stream_read_buffer] is defined in
    emsmdbp_object.c, outside this source tree.  Section 4.4: a read of
    [length] bytes at the cursor returns the next [length] bytes, or "the
    remainder" when fewer are left; section 3: the chunk is a view into
    the stream; section 5: "the cursor only advances". *)
Definition emsmdbp_stream_read_buffer (st : emsmdbp_stream) (length : Z)
  : emsmdbp_stream * list Z :=
  let real_length := Z.min (buffer_length st - position st) length in
  let chunk := take (Z.to_nat real_length)
                    (drop (Z.to_nat (position st)) (default [] (buffer st))) in
  ({| position := position st + Z.of_nat (List.length chunk);
      buffer := buffer st |}, chunk).

(** Modelled from the spec: [emsmdbp_stream_write_buffer] is defined in
    emsmdbp_object.c, outside this source tree.  Section 6, operation
    0x76: it "appends bytes to scratch". *)
Definition emsmdbp_stream_write_buffer (st : emsmdbp_stream)
           (new_buffer : list Z) : emsmdbp_stream :=
  {| position := position st + Z.of_nat (length new_buffer);
     buffer := Some (default [] (buffer st) ++ new_buffer) |}.

End Streams.

(** ** The Rop handlers *)

(** The number of iterations after which the cut-mark loop of
    GetBuffer cannot stop any more: [mark_ptr] is a [uint16_t], so after
    65536 iterations it is back at its first value over the same array. *)
Definition mark_ptr_period : nat := Z.to_nat 65536.

(** [while (cutmarks[mark_ptr] != 0xffffffff
           && cutmarks[mark_ptr] < max_cutmark)
       { cutbuffer_pos = cutmarks[mark_ptr]; mark_ptr++; }]
    with the [uint16_t] locals; the result is [cutbuffer_pos]. *)
Fixpoint cutmark_loop (n : nat) (cutmarks : list Z)
         (mark_ptr cutbuffer_pos max_cutmark : Z) : option Z :=
  match n with
  | O => None
  | S n' =>
      m ← cutmarks !! Z.to_nat mark_ptr;
      if negb (m =? 0xffffffff) && (m <? max_cutmark)
      then cutmark_loop n' cutmarks (uint16 (mark_ptr + 1)) (uint16 m)
                        max_cutmark
      else Some cutbuffer_pos
  end.

(** The size of the chunk to read: the block
    [cutbuffer_pos = position; if (cutbuffer_pos + buffer_size < length)
    {...}] of GetBuffer.  [position'] is the value that the test
    [... stream.position < cutbuffer_pos] reads; the other uses read
    [position]. *)
Definition cut_buffer_size (position length : Z) (cutmarks : list Z)
           (next_cutmark_ptr : Z) (position' : Z) (buffer_size : Z)
  : option Z :=
  let cutbuffer_pos := uint16 position in
  if cutbuffer_pos + buffer_size <? length then
    let mark_ptr := uint16 next_cutmark_ptr in
    let max_cutmark := uint16 (position + buffer_size) in
    cutbuffer_pos ← cutmark_loop mark_ptr_period cutmarks mark_ptr
                                 cutbuffer_pos max_cutmark;
    if position' <? cutbuffer_pos then
      let cutbuffer_size := uint16 (cutbuffer_pos - position) in
      if (0 <? cutbuffer_size) && (cutbuffer_size <? buffer_size)
      then Some cutbuffer_size
      else Some buffer_size
    else Some buffer_size
  else Some buffer_size.

Section Handlers.
Context {K : mapi_constants} {T : backend_types} {E : externals}.

(** What a handler leaves behind its pointer arguments. *)
Record rop_state := {
  rs_ctx : emsmdbp_context;
  rs_repl : EcDoRpc_MAPI_REPL;
  rs_handles : list Z;
  rs_size : Z
}.

(** The result of a handler: the value it returns and, unless a sanity
    check returned before anything was touched, the state it leaves. *)
Definition rop_result : Type := MAPISTATUS * option rop_state.

Definition rop_handler : Type :=
  option emsmdbp_context -> option EcDoRpc_MAPI_REQ ->
  option EcDoRpc_MAPI_REPL -> option (list Z) -> option Z ->
  option rop_result.

(** The five [OPENCHANGE_RETVAL_IF] sanity checks that open every
    handler. *)
Definition sanity_checks
           (body : emsmdbp_context -> EcDoRpc_MAPI_REQ -> EcDoRpc_MAPI_REPL ->
                   list Z -> Z -> option rop_result) : rop_handler :=
  fun emsmdbp_ctx mapi_req mapi_repl handles size =>
    match emsmdbp_ctx with
    | None => Some (MAPI_E_NOT_INITIALIZED, None)
    | Some ctx =>
    match mapi_req with
    | None => Some (MAPI_E_INVALID_PARAMETER, None)
    | Some req =>
    match mapi_repl with
    | None => Some (MAPI_E_INVALID_PARAMETER, None)
    | Some repl =>
    match handles with
    | None => Some (MAPI_E_INVALID_PARAMETER, None)
    | Some hs =>
    match size with
    | None => Some (MAPI_E_INVALID_PARAMETER, None)
    | Some sz => body ctx req repl hs sz
    end end end end end.

(** The first three assignments to [mapi_repl]. *)
Definition repl_init (repl : EcDoRpc_MAPI_REPL) (op idx : Z) : EcDoRpc_MAPI_REPL :=
  {| opnum := op; handle_idx := idx; error_code := MAPI_E_SUCCESS;
     repl_u := repl_u repl |}.

Definition set_error_code (repl : EcDoRpc_MAPI_REPL) (e : MAPISTATUS) :=
  {| opnum := opnum repl; handle_idx := handle_idx repl; error_code := e;
     repl_u := repl_u repl |}.

Definition set_repl_u (repl : EcDoRpc_MAPI_REPL) (u : EcDoRpc_MAPI_REPL_UNION) :=
  {| opnum := opnum repl; handle_idx := handle_idx repl;
     error_code := error_code repl; repl_u := u |}.

Definition set_handles_ctx (ctx : emsmdbp_context)
           (h : gmap Z (option emsmdbp_object)) : emsmdbp_context :=
  {| handles_ctx := h; backend := backend ctx |}.

Definition set_backend (ctx : emsmdbp_context) (s : store) : emsmdbp_context :=
  {| handles_ctx := handles_ctx ctx; backend := s |}.

(** The label [end:] of a handler: [*size += libmapiserver_Rop*_size
    (mapi_repl); return MAPI_E_SUCCESS;]. *)
Definition rop_end (op : rop) (ctx : emsmdbp_context)
           (repl : EcDoRpc_MAPI_REPL) (handles : list Z) (size : Z)
  : option rop_result :=
  Some (MAPI_E_SUCCESS,
        Some {| rs_ctx := ctx; rs_repl := repl; rs_handles := handles;
                rs_size := uint16 (size + libmapiserver_size op repl) |}).

(** [handles[idx]], and the assignment [handles[idx] = v]. *)
Definition handles_get (handles : list Z) (idx : Z) : option Z :=
  handles !! Z.to_nat idx.

Definition handles_set (handles : list Z) (idx : Z) (v : Z) : option (list Z) :=
  if (Z.to_nat idx <? length handles)%nat
  then Some (<[Z.to_nat idx := v]> handles)
  else None.

(** [mapi_handles_add]: a new record in the table, without private
    data.  The handlers ignore its return code and use the record. *)
Definition mapi_handles_add (ctx : emsmdbp_context) (parent_handle : Z)
  : option (emsmdbp_context * Z) :=
  h ← mapi_handles_new (handles_ctx ctx) parent_handle;
  Some (set_handles_ctx ctx (<[h := None]> (handles_ctx ctx)), h).

(** [mapi_handles_set_private_data] on the record of handle [h]. *)
Definition mapi_handles_set_private_data (ctx : emsmdbp_context) (h : Z)
           (object : option emsmdbp_object) : emsmdbp_context :=
  set_handles_ctx ctx (<[h := object]> (handles_ctx ctx)).

(** *** FastTransferSourceGetBuffer (0x4e) *)

Definition set_ft_steps (ft : emsmdbp_object_ftcontext) (n total : Z) :=
  {| ft_stream := ft_stream ft; ft_cutmarks := ft_cutmarks ft;
     ft_next_cutmark_ptr := ft_next_cutmark_ptr ft; ft_steps := n;
     ft_total_steps := total |}.

Definition set_ft_stream (ft : emsmdbp_object_ftcontext) (v : emsmdbp_stream) :=
  {| ft_stream := v; ft_cutmarks := ft_cutmarks ft;
     ft_next_cutmark_ptr := ft_next_cutmark_ptr ft; ft_steps := ft_steps ft;
     ft_total_steps := ft_total_steps ft |}.

(** The reply of both branches of the [switch]: what is written between
    [emsmdbp_stream_read_buffer] and the label [end:]. *)
Definition getbuffer_repl (st : emsmdbp_stream) (chunk : list Z)
           (steps total_steps : Z) : FastTransferSourceGetBuffer_repl :=
  let total := to_StepCount_t total_steps in
  let done := position st =? buffer_length st in
  {| TransferStatus_ := if done then TransferStatus_Done
                        else TransferStatus_Partial;
     InProgressCount := if done then total else to_StepCount_t steps;
     TotalStepCount := total;
     Reserved := 0;
     TransferBufferSize := to_TransferBufferSize_t (Z.of_nat (length chunk));
     TransferBuffer := chunk |}.

(** [case EMSMDBP_OBJECT_FTCONTEXT:]. *)
Definition getbuffer_ftcontext (ft : emsmdbp_object_ftcontext)
           (buffer_size : Z)
  : option (emsmdbp_object_ftcontext * FastTransferSourceGetBuffer_repl) :=
  ft ← (if position (ft_stream ft) =? 0 then
          if buffer_size =? 0 then None
          else Some (set_ft_steps ft 0
                       (to_steps_t (buffer_length (ft_stream ft)
                                    / buffer_size + 1)))
        else Some ft);
  let ft := set_ft_steps ft (to_steps_t (ft_steps ft + 1)) (ft_total_steps ft) in
  buffer_size ← cut_buffer_size (position (ft_stream ft))
                  (buffer_length (ft_stream ft)) (ft_cutmarks ft)
                  (ft_next_cutmark_ptr ft) (position (ft_stream ft))
                  buffer_size;
  let '(st, chunk) := emsmdbp_stream_read_buffer (ft_stream ft) buffer_size in
  let ft := set_ft_stream ft st in
  Some (ft, getbuffer_repl st chunk (ft_steps ft) (ft_total_steps ft)).

(** [case EMSMDBP_OBJECT_SYNCCONTEXT:].  The test before the cut reads
    [object->object.ftcontext->stream.position]. *)
Definition getbuffer_synccontext (depth : nat) (s : store)
           (parent_object : ext_object) (sc : emsmdbp_object_synccontext)
           (buffer_size : Z)
  : option (emsmdbp_object_synccontext * FastTransferSourceGetBuffer_repl) :=
  sc ← (match buffer (stream sc) with
        | None =>
            sc ← (if contents_mode (request sc)
                  then oxcfxics_prepare_synccontext_with_messageChange
                         s parent_object sc
                  else oxcfxics_prepare_synccontext_with_folderChange
                         depth s parent_object sc);
            if buffer_size =? 0 then None
            else Some (set_steps sc 0
                         (to_steps_t (buffer_length (stream sc)
                                      / buffer_size + 1)))
        | Some _ => Some sc
        end);
  let sc := set_steps sc (to_steps_t (steps sc + 1)) (total_steps sc) in
  buffer_size ← cut_buffer_size (position (stream sc))
                  (buffer_length (stream sc)) (cutmarks sc)
                  (next_cutmark_ptr sc) (ftcontext_view_position sc)
                  buffer_size;
  let '(st, chunk) := emsmdbp_stream_read_buffer (stream sc) buffer_size in
  let sc := set_stream sc st in
  Some (sc, getbuffer_repl st chunk (steps sc) (total_steps sc)).

(** [EcDoRpc_RopFastTransferSourceGetBuffer]. *)
Definition EcDoRpc_RopFastTransferSourceGetBuffer (depth : nat) : rop_handler :=
  sanity_checks (fun ctx req repl handles size =>
    let repl := repl_init repl (req_opnum req) (req_handle_idx req) in
    let finish := rop_end RopFastTransferSourceGetBuffer in
    (* Step 1. Retrieve object handle *)
    handle_id ← handles_get handles (req_handle_idx req);
    match handles_ctx ctx !! handle_id with
    | None => finish ctx (set_error_code repl MAPI_E_INVALID_OBJECT) handles size
    | Some None =>
        finish ctx (set_error_code repl MAPI_E_INVALID_OBJECT) handles size
    | Some (Some object) =>
        match req_u req with
        | mapi_FastTransferSourceGetBuffer BufferSize MaximumBufferSize =>
            let buffer_size :=
              if BufferSize =? 0xBABE then uint16 MaximumBufferSize
              else uint16 BufferSize in
            (* Step 3. Perform the read operation *)
            match object with
            | Object_ftcontext ft =>
                '(ft, response) ← getbuffer_ftcontext ft buffer_size;
                finish (mapi_handles_set_private_data ctx handle_id
                          (Some (Object_ftcontext ft)))
                       (set_repl_u repl (mapi_repl_GetBuffer response))
                       handles size
            | Object_synccontext parent sc =>
                '(sc, response) ← getbuffer_synccontext depth (backend ctx)
                                    parent sc buffer_size;
                finish (mapi_handles_set_private_data ctx handle_id
                          (Some (Object_synccontext parent sc)))
                       (set_repl_u repl (mapi_repl_GetBuffer response))
                       handles size
            | Object_external _ =>
                finish ctx (set_error_code repl MAPI_E_INVALID_OBJECT)
                       handles size
            end
        | _ => None
        end
    end).

(** *** FastTransferSourceCopyTo (0x4d) *)

(** [EcDoRpc_RopFastTransferSourceCopyTo]. *)
Definition EcDoRpc_RopFastTransferSourceCopyTo : rop_handler :=
  sanity_checks (fun ctx req repl handles size =>
    match req_u req with
    | mapi_FastTransferSourceCopyTo r_handle_idx Level PropertyTags =>
        let repl := repl_init repl (req_opnum req) r_handle_idx in
        let finish := rop_end RopFastTransferSourceCopyTo in
        let s := backend ctx in
        (* Step 1. Retrieve object handle *)
        parent_handle_id ← handles_get handles (req_handle_idx req);
        match handles_ctx ctx !! parent_handle_id with
        | None =>
            finish ctx (set_error_code repl MAPI_E_INVALID_OBJECT) handles size
        | Some parent_object =>
            (* Step 2. Check whether the parent object supports fetching
               properties *)
            if 0 <? Level then
              finish ctx (set_error_code repl MAPI_E_INVALID_OBJECT)
                     handles size
            else
              match emsmdbp_object_get_available_properties s parent_object with
              | Some needed_properties =>
                  if 0 <? Z.of_nat (length needed_properties) then
                    let needed_properties :=
                      foldl SPropTagArray_delete needed_properties PropertyTags in
                    match emsmdbp_object_get_properties s parent_object
                                                        needed_properties with
                    | None =>
                        finish ctx (set_error_code repl MAPI_E_INVALID_OBJECT)
                               handles size
                    | Some (data_pointers, retvals) =>
                        st ← oxcfxics_ndr_push_properties s (ndr_push_init, [])
                               needed_properties data_pointers retvals;
                        '(ctx, object_handle) ← mapi_handles_add ctx parent_handle_id;
                        match emsmdbp_object_ftcontext_init s parent_object with
                        | None =>
                            finish ctx
                                   (set_error_code repl MAPI_E_INVALID_OBJECT)
                                   handles size
                        | Some ft =>
                            let cutmarks := cutmarks_push st.2 0xffffffff in
                            let ft :=
                              {| ft_stream :=
                                   {| position := position (ft_stream ft);
                                      buffer := Some (ndr_data st.1) |};
                                 ft_cutmarks := cutmarks;
                                 ft_next_cutmark_ptr := ft_next_cutmark_ptr ft;
                                 ft_steps := ft_steps ft;
                                 ft_total_steps := ft_total_steps ft |} in
                            let ctx := mapi_handles_set_private_data ctx
                                         object_handle
                                         (Some (Object_ftcontext ft)) in
                            handles ← handles_set handles (handle_idx repl)
                                                  object_handle;
                            finish ctx repl handles size
                        end
                    end
                  else finish ctx repl handles size
              | None => finish ctx repl handles size
              end
        end
    | _ => None
    end).

(** *** SyncConfigure (0x70) *)

(** [(tag & 0xffff0000) >> 16], stored in a [uint16_t]. *)
Definition prop_id (tag : Z) : Z :=
  uint16 (Z.shiftr (Z.land tag 0xffff0000) 16).

(** The loop that adds the tags of [available_properties] that are not
    excluded; the state is the exclusion array (the set of its [true]
    entries) and the property array of the context. *)
Definition add_available_properties (available : list Z)
           (st : gset Z * list Z) : gset Z * list Z :=
  foldl (fun st tag =>
           let i := prop_id tag in
           if bool_decide (i ∈ st.1) then st
           else ({[ i ]} ∪ st.1, SPropTagArray_add st.2 tag))
        st available.

(** Opening one folder table and adding its available properties;
    [None] is the [abort()] after a table that does not open. *)
Definition add_table_properties (s : store) (folder_object : ext_object)
           (table_type : Z) (st : gset Z * list Z)
  : option (gset Z * list Z) :=
  table ← emsmdbp_folder_open_table s (Some folder_object) table_type;
  match emsmdbp_object_table_get_available_properties s table with
  | Some available => Some (add_available_properties available st)
  | None => Some st
  end.

Definition flag_set (flags mask : Z) : bool := negb (Z.land flags mask =? 0).

(** [EcDoRpc_RopSyncConfigure]. *)
Definition EcDoRpc_RopSyncConfigure : rop_handler :=
  sanity_checks (fun ctx req repl handles size =>
    match req_u req with
    | mapi_SyncConfigure r_handle_idx SynchronizationType SendOptions
                         SynchronizationFlag SynchronizationExtraFlags
                         PropertyTags =>
        let repl := repl_init repl (req_opnum req) r_handle_idx in
        let finish := rop_end RopSyncConfigure in
        let s := backend ctx in
        folder_handle ← handles_get handles (req_handle_idx req);
        match handles_ctx ctx !! folder_handle with
        | Some (Some (Object_external folder_object)) =>
            if negb (object_is_folder folder_object) then
              finish ctx (set_error_code repl MAPI_E_INVALID_OBJECT)
                     handles size
            else
              let synccontext := emsmdbp_object_synccontext_init s folder_object in
              let rq := {|
                (* SynchronizationType *)
                contents_mode := SynchronizationType =? Contents;
                (* SendOptions *)
                unicode := flag_set SendOptions FastTransfer_Unicode;
                use_cpid := flag_set SendOptions FastTransfer_UseCpid;
                recover_mode := flag_set SendOptions FastTransfer_RecoverMode;
                force_unicode := flag_set SendOptions FastTransfer_ForceUnicode;
                partial_item := flag_set SendOptions FastTransfer_PartialItem;
                (* SynchronizationFlag *)
                no_deletions :=
                  flag_set SynchronizationFlag SynchronizationFlag_NoDeletions;
                no_soft_deletions :=
                  flag_set SynchronizationFlag SynchronizationFlag_NoSoftDeletions;
                ignore_no_longer_in_scope :=
                  flag_set SynchronizationFlag SynchronizationFlag_NoSoftDeletions;
                read_state :=
                  flag_set SynchronizationFlag SynchronizationFlag_ReadState;
                fai := flag_set SynchronizationFlag SynchronizationFlag_FAI;
                normal := flag_set SynchronizationFlag SynchronizationFlag_Normal;
                no_foreign_identifiers :=
                  flag_set SynchronizationFlag
                           SynchronizationFlag_NoForeignIdentifiers;
                best_body :=
                  flag_set SynchronizationFlag SynchronizationFlag_BestBody;
                ignored_specified_on_fai :=
                  flag_set SynchronizationFlag
                           SynchronizationFlag_IgnoreSpecifiedOnFAI;
                progress :=
                  flag_set SynchronizationFlag SynchronizationFlag_Progress;
                (* SynchronizationExtraFlag *)
                request_eid := flag_set SynchronizationExtraFlags Eid;
                request_message_size :=
                  flag_set SynchronizationExtraFlags MessageSize;
                request_cn := flag_set SynchronizationExtraFlags Cn;
                order_by_delivery_time :=
                  flag_set SynchronizationExtraFlags OrderByDeliveryTime |} in
              if unicode rq
                 && negb (flag_set SynchronizationFlag SynchronizationFlag_Unicode)
              then
                finish ctx (set_error_code repl MAPI_E_INVALID_PARAMETER)
                       handles size
              else
                (* Building the real properties array... *)
                let props : list Z := [] in
                let props :=
                  if contents_mode rq then
                    foldl SPropTagArray_add props
                          [PR_MID; PR_ASSOCIATED; PR_MESSAGE_SIZE; PR_CHANGE_NUM]
                  else
                    foldl SPropTagArray_add props [PR_PARENT_FID; PR_FID] in
                let props :=
                  foldl SPropTagArray_add props
                        [PR_CHANGE_KEY; PR_LAST_MODIFICATION_TIME;
                         PR_DISPLAY_NAME_UNICODE] in
                let excl : gset Z := list_to_set (map prop_id props) in
                (* Explicit exclusions *)
                let excl : gset Z :=
                  list_to_set
                    (map (fun tag => Z.shiftr tag 16)
                         [PR_ROW_TYPE; PR_INSTANCE_KEY; PR_INSTANCE_NUM;
                          PR_INST_ID; PR_FID; PR_MID; PR_SOURCE_KEY;
                          PR_PARENT_SOURCE_KEY; PR_PARENT_FID]) ∪ excl in
                (* Include or exclude specified properties passed in array *)
                let include_props :=
                  flag_set SynchronizationFlag
                           SynchronizationFlag_OnlySpecifiedProperties in
                let '(excl, props) :=
                  foldl (fun (st : gset Z * list Z) tag =>
                           let i := prop_id tag in
                           if bool_decide (i ∈ st.1) then st
                           else ({[ i ]} ∪ st.1,
                                 if include_props
                                 then SPropTagArray_add st.2 tag else st.2))
                        (excl, props) PropertyTags in
                (* "best body" *)
                let excl : gset Z :=
                  if negb include_props
                     && flag_set SynchronizationFlag SynchronizationFlag_BestBody
                  then excl ∖ {[ Z.shiftr PR_BODY_HTML 16 ]}
                            ∖ {[ Z.shiftr PR_BODY_UNICODE 16 ]}
                  else excl in
                (* the list of available properties *)
                '(excl, props) ←
                  (if negb include_props then
                     if contents_mode rq then
                       st ← (if normal rq
                             then add_table_properties s folder_object
                                    EMSMDBP_TABLE_MESSAGE_TYPE (excl, props)
                             else Some (excl, props));
                       if fai rq
                       then add_table_properties s folder_object
                              EMSMDBP_TABLE_FAI_TYPE st
                       else Some st
                     else add_table_properties s folder_object
                            EMSMDBP_TABLE_FOLDER_TYPE (excl, props)
                   else Some (excl, props));
                let synccontext :=
                  {| request := rq; properties := props;
                     idset_given := idset_given synccontext;
                     cnset_seen := cnset_seen synccontext;
                     state_property := state_property synccontext;
                     state_stream := state_stream synccontext;
                     stream := stream synccontext;
                     cutmarks := cutmarks synccontext;
                     next_cutmark_ptr := next_cutmark_ptr synccontext;
                     steps := steps synccontext;
                     total_steps := total_steps synccontext;
                     is_collector := is_collector synccontext |} in
                '(ctx, synccontext_rec) ← mapi_handles_add ctx folder_handle;
                let ctx := mapi_handles_set_private_data ctx synccontext_rec
                             (Some (Object_synccontext folder_object synccontext)) in
                handles ← handles_set handles (handle_idx repl) synccontext_rec;
                finish ctx repl handles size
        | _ =>
            (* handle not found, no object, or not a folder *)
            finish ctx (set_error_code repl MAPI_E_INVALID_OBJECT) handles size
        end
    | _ => None
    end).

(** *** The import handlers (0x72, 0x73, 0x74) *)

(** [oxcfxics_fmid_from_source_key] on the registry of the store. *)
Definition fmid_from_source_key (s : store) (source_key : list Z)
  : option (mapistore_retval * option Z) :=
  Codec.oxcfxics_fmid_from_source_key (emsmdbp_guid_to_replid s) source_key.

(** [lpProps[i].value.bin]: [None] outside the array or when the union
    holds another member. *)
Definition value_bin_at (lpProps : list mapi_SPropValue) (i : nat)
  : option (list Z) :=
  match lpProps !! i with
  | Some {| value := value_bin lpb |} => Some lpb
  | _ => None
  end.

(** [EcDoRpc_RopSyncImportMessageChange]. *)
Definition EcDoRpc_RopSyncImportMessageChange : rop_handler :=
  sanity_checks (fun ctx req repl handles size =>
    match req_u req with
    | mapi_SyncImportMessageChange r_handle_idx ImportFlag PropertyValues =>
        let repl := repl_init repl (req_opnum req) r_handle_idx in
        let finish := rop_end RopSyncImportMessageChange in
        let s := backend ctx in
        (* Step 1. Retrieve object handle *)
        synccontext_handle_id ← handles_get handles (req_handle_idx req);
        match handles_ctx ctx !! synccontext_handle_id with
        | Some (Some (Object_synccontext parent_object synccontext)) =>
            if negb (emsmdbp_is_mapistore (Object_external parent_object)) then
              finish ctx (set_error_code repl MAPI_E_NO_SUPPORT) handles size
            else
              source_key ← value_bin_at PropertyValues 0;
              r ← fmid_from_source_key s source_key;
              match r with
              | (MAPISTORE_SUCCESS, Some messageID) =>
                  let folderID_ := folderID parent_object in
                  (* Initialize Message object *)
                  message_handle_id ← handles_get handles (req_handle_idx req);
                  '(ctx, message_object_handle) ←
                    mapi_handles_add ctx message_handle_id;
                  handles ← handles_set handles (handle_idx repl)
                                        message_object_handle;
                  match emsmdbp_object_message_open s parent_object folderID_
                                                    messageID with
                  | Some (message_object, _) =>
                      let ctx := mapi_handles_set_private_data ctx
                                   message_object_handle
                                   (Some (Object_external message_object)) in
                      finish ctx (set_repl_u repl (mapi_repl_MessageId 0))
                             handles size
                  | None =>
                      let message_object :=
                        emsmdbp_object_message_init s messageID parent_object in
                      match mapistore_folder_create_message s
                              (emsmdbp_get_contextID (Object_external parent_object))
                              parent_object message_object messageID
                              (flag_set ImportFlag ImportFlag_Associated) with
                      | (s, Some message_object) =>
                          let ctx := set_backend ctx s in
                          let ctx := mapi_handles_set_private_data ctx
                                       message_object_handle
                                       (Some (Object_external message_object)) in
                          finish ctx (set_repl_u repl (mapi_repl_MessageId 0))
                                 handles size
                      | (s, None) =>
                          let ctx := set_backend ctx s in
                          let ctx :=
                            set_handles_ctx ctx
                              (delete message_object_handle (handles_ctx ctx)) in
                          finish ctx (set_error_code repl MAPI_E_NOT_FOUND)
                                 handles size
                      end
                  end
              | _ =>
                  finish ctx (set_error_code repl MAPI_E_NOT_FOUND) handles size
              end
        | _ =>
            finish ctx (set_error_code repl MAPI_E_INVALID_OBJECT) handles size
        end
    | _ => None
    end).

(** [EcDoRpc_RopSyncImportHierarchyChange]. *)
Definition EcDoRpc_RopSyncImportHierarchyChange : rop_handler :=
  sanity_checks (fun ctx req repl handles size =>
    let repl := repl_init repl (req_opnum req) (req_handle_idx req) in
    let finish := rop_end RopSyncImportHierarchyChange in
    let s := backend ctx in
    (* Step 1. Retrieve object handle *)
    synccontext_handle_id ← handles_get handles (req_handle_idx req);
    match handles_ctx ctx !! synccontext_handle_id with
    | Some (Some (Object_synccontext parent_object synccontext)) =>
        match req_u req with
        | mapi_SyncImportHierarchyChange HierarchyValues PropertyValues =>
            (* deduce the parent folder id (fixed position 0) *)
            source_key ← value_bin_at HierarchyValues 0;
            r ← fmid_from_source_key s source_key;
            match r with
            | (MAPISTORE_SUCCESS, Some parentFolderID) =>
                (* deduce the folder id (fixed position 1) *)
                source_key ← value_bin_at HierarchyValues 1;
                r ← fmid_from_source_key s source_key;
                match r with
                | (MAPISTORE_SUCCESS, Some folderID_) =>
                    let aRow := map cast_SPropValue
                                    (HierarchyValues ++ PropertyValues) in
                    (* Initialize folder object *)
                    let parent_folder :=
                      if folderID parent_object =? parentFolderID
                      then Some parent_object
                      else emsmdbp_object_open_folder_by_fid s parent_object
                                                             parentFolderID in
                    '(s, folder_object) ←
                      match emsmdbp_object_open_folder s parent_folder folderID_ with
                      | Some folder_object => Some (s, Some folder_object)
                      | None =>
                          Some (emsmdbp_object_create_folder s parent_folder
                                                             folderID_ aRow)
                      end;
                    match folder_object with
                    | None =>
                        finish (set_backend ctx s)
                               (set_error_code repl MAPI_E_NO_SUPPORT)
                               handles size
                    | Some folder_object =>
                        (* Set properties on folder object *)
                        let '(s, ok) :=
                          emsmdbp_object_set_properties s folder_object aRow in
                        if ok then
                          finish (set_backend ctx s)
                                 (set_repl_u repl (mapi_repl_FolderId 0))
                                 handles size
                        else
                          finish (set_backend ctx s)
                                 (set_error_code repl MAPI_E_NO_SUPPORT)
                                 handles size
                    end
                | _ =>
                    finish ctx (set_error_code repl MAPI_E_NOT_FOUND)
                           handles size
                end
            | _ =>
                finish ctx (set_error_code repl MAPI_E_NOT_FOUND) handles size
            end
        | _ => None
        end
    | _ =>
        finish ctx (set_error_code repl MAPI_E_INVALID_OBJECT) handles size
    end).

(** The loop of [EcDoRpc_RopSyncImportDeletes] over the source keys. *)
Fixpoint import_deletes_loop (s : store) (contextID : Z)
         (parent_object : ext_object) (delete_type : Z)
         (bin : list (list Z)) : option store :=
  match bin with
  | [] => Some s
  | source_key :: bin' =>
      r ← fmid_from_source_key s source_key;
      let s :=
        match r with
        | (MAPISTORE_SUCCESS, Some objectID) =>
            let s := (mapistore_folder_delete_message s contextID parent_object
                                                      objectID delete_type).1 in
            (mapistore_indexing_record_del_mid s contextID objectID
                                               delete_type).1
        | _ => s
        end in
      import_deletes_loop s contextID parent_object delete_type bin'
  end.

(** [EcDoRpc_RopSyncImportDeletes]. *)
Definition EcDoRpc_RopSyncImportDeletes : rop_handler :=
  sanity_checks (fun ctx req repl handles size =>
    let repl := repl_init repl (req_opnum req) (req_handle_idx req) in
    let finish := rop_end RopSyncImportDeletes in
    (* Step 1. Retrieve object handle *)
    synccontext_handle_id ← handles_get handles (req_handle_idx req);
    match handles_ctx ctx !! synccontext_handle_id with
    | Some (Some (Object_synccontext parent_object synccontext)) =>
        match req_u req with
        | mapi_SyncImportDeletes Flags PropertyValues =>
            if flag_set Flags SyncImportDeletes_Hierarchy then
              finish ctx (set_error_code repl MAPI_E_INVALID_OBJECT)
                     handles size
            else
              let delete_type :=
                if flag_set Flags SyncImportDeletes_HardDelete
                then MAPISTORE_PERMANENT_DELETE else MAPISTORE_SOFT_DELETE in
              let synccontext_object :=
                Object_synccontext parent_object synccontext in
              if negb (emsmdbp_is_mapistore synccontext_object) then
                finish ctx (set_error_code repl MAPI_E_INVALID_OBJECT)
                       handles size
              else
                let contextID := emsmdbp_get_contextID synccontext_object in
                match PropertyValues !! 0%nat with
                | Some {| value := value_MVbin bin |} =>
                    s ← import_deletes_loop (backend ctx) contextID
                                            parent_object delete_type bin;
                    finish (set_backend ctx s) repl handles size
                | _ => None
                end
        | _ => None
        end
    | _ =>
        finish ctx (set_error_code repl MAPI_E_INVALID_OBJECT) handles size
    end).

(** *** The state-stream upload (0x75, 0x76, 0x77) *)

(** [EcDoRpc_RopSyncUploadStateStreamBegin]. *)
Definition EcDoRpc_RopSyncUploadStateStreamBegin : rop_handler :=
  sanity_checks (fun ctx req repl handles size =>
    let repl := repl_init repl (req_opnum req) (req_handle_idx req) in
    let finish := rop_end RopSyncUploadStateStreamBegin in
    synccontext_handle ← handles_get handles (req_handle_idx req);
    match handles_ctx ctx !! synccontext_handle with
    | Some (Some (Object_synccontext parent_object synccontext)) =>
        if negb (state_property synccontext =? 0) then
          finish ctx (set_error_code repl MAPI_E_NOT_INITIALIZED) handles size
        else
          match req_u req with
          | mapi_SyncUploadStateStreamBegin property =>
              if negb ((property =? PidTagIdsetGiven)
                       || (property =? PidTagCnsetSeen)
                       || (property =? PidTagCnsetSeenFAI)
                       || (property =? PidTagCnsetRead))
              then
                finish ctx (set_error_code repl MAPI_E_INVALID_PARAMETER)
                       handles size
              else
                let synccontext :=
                  set_state_upload synccontext property
                                   {| position := 0; buffer := Some [] |} in
                finish (mapi_handles_set_private_data ctx synccontext_handle
                          (Some (Object_synccontext parent_object synccontext)))
                       repl handles size
          | _ => None
          end
    | _ =>
        finish ctx (set_error_code repl MAPI_E_INVALID_OBJECT) handles size
    end).

(** [EcDoRpc_RopSyncUploadStateStreamContinue]. *)
Definition EcDoRpc_RopSyncUploadStateStreamContinue : rop_handler :=
  sanity_checks (fun ctx req repl handles size =>
    let repl := repl_init repl (req_opnum req) (req_handle_idx req) in
    let finish := rop_end RopSyncUploadStateStreamContinue in
    synccontext_handle ← handles_get handles (req_handle_idx req);
    match handles_ctx ctx !! synccontext_handle with
    | Some (Some (Object_synccontext parent_object synccontext)) =>
        if state_property synccontext =? 0 then
          finish ctx (set_error_code repl MAPI_E_NOT_INITIALIZED) handles size
        else
          match req_u req with
          | mapi_SyncUploadStateStreamContinue StreamData =>
              let synccontext :=
                set_state_upload synccontext (state_property synccontext)
                  (emsmdbp_stream_write_buffer (state_stream synccontext)
                                               StreamData) in
              finish (mapi_handles_set_private_data ctx synccontext_handle
                        (Some (Object_synccontext parent_object synccontext)))
                     repl handles size
          | _ => None
          end
    | _ =>
        finish ctx (set_error_code repl MAPI_E_INVALID_OBJECT) handles size
    end).

(** The [switch (synccontext->state_property)] of
    [EcDoRpc_RopSyncUploadStateStreamEnd]: the parsed set replaces the
    set of the slot.  [None] is the [abort()] on a given-set without
    ranges. *)
Definition install_parsed_idset (synccontext : emsmdbp_object_synccontext)
           (parsed_idset : option idset)
  : option emsmdbp_object_synccontext :=
  let property := state_property synccontext in
  if property =? PidTagIdsetGiven then
    match parsed_idset with
    | Some parsed =>
        if idset_range_count parsed =? 0 then None
        else Some (set_idset_given synccontext parsed_idset)
    | None => Some (set_idset_given synccontext parsed_idset)
    end
  else if (property =? PidTagCnsetSeen) || (property =? PidTagCnsetSeenFAI)
          || (property =? PidTagCnsetRead) then
    Some (set_cnset synccontext (idset_set_single <$> parsed_idset))
  else Some synccontext.

(** "reset synccontext state". *)
Definition reset_state_stream (synccontext : emsmdbp_object_synccontext)
  : emsmdbp_object_synccontext :=
  let st := state_stream synccontext in
  let st := if 0 <? buffer_length st
            then {| position := position st; buffer := Some [] |}
            else st in
  set_state_upload synccontext 0 st.

(** [EcDoRpc_RopSyncUploadStateStreamEnd]. *)
Definition EcDoRpc_RopSyncUploadStateStreamEnd : rop_handler :=
  sanity_checks (fun ctx req repl handles size =>
    let repl := repl_init repl (req_opnum req) (req_handle_idx req) in
    let finish := rop_end RopSyncUploadStateStreamEnd in
    synccontext_handle ← handles_get handles (req_handle_idx req);
    match handles_ctx ctx !! synccontext_handle with
    | Some (Some (Object_synccontext parent_object synccontext)) =>
        if state_property synccontext =? 0 then
          finish ctx (set_error_code repl MAPI_E_NOT_INITIALIZED) handles size
        else
          (* parse IDSET *)
          let parsed_idset :=
            IDSET_parse (default [] (buffer (state_stream synccontext))) in
          synccontext ← install_parsed_idset synccontext parsed_idset;
          let synccontext := reset_state_stream synccontext in
          finish (mapi_handles_set_private_data ctx synccontext_handle
                    (Some (Object_synccontext parent_object synccontext)))
                 repl handles size
    | _ =>
        finish ctx (set_error_code repl MAPI_E_INVALID_OBJECT) handles size
    end).

(** *** The stubs (0x78, 0x80, 0x93) *)

(** The common end of the three stubs: the size, then
    [handles[mapi_repl->handle_idx] = handles[mapi_req->handle_idx]]. *)
Definition stub_end (op : rop) (ctx : emsmdbp_context)
           (req : EcDoRpc_MAPI_REQ) (repl : EcDoRpc_MAPI_REPL)
           (handles : list Z) (size : Z) : option rop_result :=
  h ← handles_get handles (req_handle_idx req);
  handles ← handles_set handles (handle_idx repl) h;
  rop_end op ctx repl handles size.

(** [EcDoRpc_RopSyncImportMessageMove]. *)
Definition EcDoRpc_RopSyncImportMessageMove : rop_handler :=
  sanity_checks (fun ctx req repl handles size =>
    let repl := repl_init repl (req_opnum req) (req_handle_idx req) in
    let repl := set_repl_u repl (mapi_repl_MessageId 0) in
    stub_end RopSyncImportMessageMove ctx req repl handles size).

(** [EcDoRpc_RopSyncImportReadStateChanges]. *)
Definition EcDoRpc_RopSyncImportReadStateChanges : rop_handler :=
  sanity_checks (fun ctx req repl handles size =>
    let repl := repl_init repl (req_opnum req) (req_handle_idx req) in
    stub_end RopSyncImportReadStateChanges ctx req repl handles size).

(** [EcDoRpc_RopSetLocalReplicaMidsetDeleted]. *)
Definition EcDoRpc_RopSetLocalReplicaMidsetDeleted : rop_handler :=
  sanity_checks (fun ctx req repl handles size =>
    let repl := repl_init repl (req_opnum req) (req_handle_idx req) in
    stub_end RopSetLocalReplicaMidsetDeleted ctx req repl handles size).

(** *** SyncOpenCollector (0x7e) *)

Definition set_collector (sc : emsmdbp_object_synccontext)
           (contents : bool) : emsmdbp_object_synccontext :=
  let rq := request sc in
  {| request := {|
       contents_mode := contents; unicode := unicode rq;
       use_cpid := use_cpid rq; recover_mode := recover_mode rq;
       force_unicode := force_unicode rq; partial_item := partial_item rq;
       no_deletions := no_deletions rq;
       no_soft_deletions := no_soft_deletions rq;
       ignore_no_longer_in_scope := ignore_no_longer_in_scope rq;
       read_state := read_state rq; fai := fai rq; normal := normal rq;
       no_foreign_identifiers := no_foreign_identifiers rq;
       best_body := best_body rq;
       ignored_specified_on_fai := ignored_specified_on_fai rq;
       progress := progress rq; request_eid := request_eid rq;
       request_message_size := request_message_size rq;
       request_cn := request_cn rq;
       order_by_delivery_time := order_by_delivery_time rq |};
     properties := properties sc; idset_given := idset_given sc;
     cnset_seen := cnset_seen sc; state_property := state_property sc;
     state_stream := state_stream sc; stream := stream sc;
     cutmarks := cutmarks sc; next_cutmark_ptr := next_cutmark_ptr sc;
     steps := steps sc; total_steps := total_steps sc;
     is_collector := true |}.

(** [EcDoRpc_RopSyncOpenCollector]. *)
Definition EcDoRpc_RopSyncOpenCollector : rop_handler :=
  sanity_checks (fun ctx req repl handles size =>
    match req_u req with
    | mapi_SyncOpenCollector r_handle_idx IsContentsCollector =>
        let repl := repl_init repl (req_opnum req) r_handle_idx in
        let finish := rop_end RopSyncOpenCollector in
        folder_handle ← handles_get handles (req_handle_idx req);
        match handles_ctx ctx !! folder_handle with
        | Some (Some (Object_external folder_object)) =>
            if negb (object_is_folder folder_object) then
              finish ctx (set_error_code repl MAPI_E_INVALID_OBJECT)
                     handles size
            else
              '(ctx, synccontext_rec) ← mapi_handles_add ctx folder_handle;
              let synccontext :=
                emsmdbp_object_synccontext_init (backend ctx) folder_object in
              let synccontext :=
                set_collector synccontext (negb (IsContentsCollector =? 0)) in
              let ctx := mapi_handles_set_private_data ctx synccontext_rec
                           (Some (Object_synccontext folder_object synccontext)) in
              handles ← handles_set handles (handle_idx repl) synccontext_rec;
              finish ctx repl handles size
        | _ =>
            finish ctx (set_error_code repl MAPI_E_INVALID_OBJECT) handles size
        end
    | _ => None
    end).

(** *** GetLocalReplicaIds (0x7f) *)

(** [EcDoRpc_RopGetLocalReplicaIds].  The handler ignores the return
    codes of the registry and of the range reservation: [ReplGuid] is
    written only when the registry knows replica 1, and [new_id] has a
    value only when the reservation succeeded. *)
Definition EcDoRpc_RopGetLocalReplicaIds : rop_handler :=
  sanity_checks (fun ctx req repl handles size =>
    let repl := repl_init repl (req_opnum req) (req_handle_idx req) in
    let finish := rop_end RopGetLocalReplicaIds in
    (* Step 1. Retrieve object handle *)
    handle_id ← handles_get handles (req_handle_idx req);
    match handles_ctx ctx !! handle_id with
    | None =>
        finish ctx (set_error_code repl MAPI_E_INVALID_OBJECT) handles size
    | Some _ =>
        match req_u req with
        | mapi_GetLocalReplicaIds IdCount =>
            let ReplGuid := emsmdbp_replid_to_guid (backend ctx) 0x0001 in
            let '(s, new_id) :=
              openchangedb_reserve_fmid_range (backend ctx) IdCount in
            new_id ← new_id;
            let new_id := Z.shiftr new_id 16 in
            finish (set_backend ctx s)
                   (set_repl_u repl
                      (mapi_repl_GetLocalReplicaIds ReplGuid
                                                    (Codec.gc_loop 6 new_id)))
                   handles size
        | _ => None
        end
    end).

(** *** SyncGetTransferState (0x82) *)

(** The state of the loop of [oxcfxics_fill_transfer_state_arrays]: the
    two accumulators and the local [replica_guid], which has no value
    before the registry first fills it. *)
Definition fill_state : Type := oxcfxics_sync_data * option GUID.

(** The row part of the loop body of
    [oxcfxics_fill_transfer_state_arrays]; the result carries [eid]. *)
Definition fill_row (s : store) (data_pointers : list (option prop_data))
           (retvals : list MAPISTATUS) (st : fill_state)
  : option (fill_state * Z) :=
  let '(sd, local_guid) := st in
  eid ← deref_uint64 data_pointers 0;
  let local_guid :=
    match emsmdbp_replid_to_guid s (Z.land eid 0xffff) with
    | Some g => Some g
    | None => local_guid
    end in
  g ← local_guid;
  let sd := set_eid_set sd (RAWIDSET_push_glob (eid_set sd) g
                                               (Z.shiftr eid 16)) in
  r ← retval_at retvals 1;
  t ← (if negb (is_success r) then Some oc_version_time
       else '(lo, hi) ← deref_filetime data_pointers 1;
            Some (nt_time_to_unix (Z.lor (uint64 (Z.shiftl hi 32)) lo)));
  let unix_time := uint32 t in
  let cn := change_number eid unix_time in
  let sd := set_cnset_seen sd (RAWIDSET_push_glob (sd_cnset_seen sd)
                                                  (replica_guid sd) cn) in
  Some ((sd, local_guid), eid).

(** [oxcfxics_fill_transfer_state_arrays]; [depth] bounds the nesting of
    its recursive calls, as for [oxcfxics_push_folderChange]. *)
Fixpoint oxcfxics_fill_transfer_state_arrays (depth : nat) (s : store)
         (sd : oxcfxics_sync_data) (folder_object : option ext_object)
  : option oxcfxics_sync_data :=
  match depth with
  | O => None
  | S depth' =>
      (* Query the amount of rows *)
      count_tag ←
        (if table_type sd =? EMSMDBP_TABLE_FOLDER_TYPE
         then Some PR_FOLDER_CHILD_COUNT
         else if table_type sd =? EMSMDBP_TABLE_MESSAGE_TYPE
         then Some PR_CONTENT_COUNT
         else if table_type sd =? EMSMDBP_TABLE_FAI_TYPE
         then Some PR_ASSOC_CONTENT_COUNT
         else None);
      '(data_pointers, retvals) ←
        emsmdbp_object_get_properties s (Object_external <$> folder_object)
                                      [count_tag];
      r ← retval_at retvals 0;
      if negb (is_success r) then None
      else
        match slot_at data_pointers 0 with
        | Some (Some (D_uint32 nr_eid)) =>
            if nr_eid =? 0 then Some sd
            else
              (* Fetch the actual table data *)
              table ← emsmdbp_folder_open_table s folder_object (table_type sd);
              st ← for_loop (Z.to_nat (denominator table)) 0
                     (fun i (st : fill_state) =>
                        match emsmdbp_object_table_get_row_props
                                s table (sd_properties sd) i with
                        | None => Some st
                        | Some (data_pointers, retvals) =>
                            '(st, eid) ← fill_row s data_pointers retvals st;
                            if table_type sd =? EMSMDBP_TABLE_FOLDER_TYPE then
                              let subfolder_object :=
                                emsmdbp_object_open_folder s folder_object eid in
                              sd' ← oxcfxics_fill_transfer_state_arrays
                                      depth' s st.1 subfolder_object;
                              Some (sd', st.2)
                            else Some st
                        end)
                     (sd, None);
              Some st.1
        | _ => None
        end
  end.

(** [oxcfxics_ndr_push_transfer_state]: the stream and the context with
    its merged sets. *)
Definition oxcfxics_ndr_push_transfer_state (depth : nat) (s : store)
           (ndr : ndr_push) (parent_object : ext_object)
           (synccontext : emsmdbp_object_synccontext)
  : option (ndr_push * emsmdbp_object_synccontext) :=
  let ndr := ndr_push_uint32 ndr PR_INCR_SYNC_STATE_BEGIN in
  let contents := contents_mode (request synccontext) in
  let sd := {|
    replica_guid := mailbox_replica_guid s;
    table_type := 0;
    prop_index := {|
      ix_parent_fid := 0; ix_eid := 0; ix_precedessor_change_list := 0;
      ix_last_modification_time := 1; ix_display_name := 0;
      ix_associated := 0; ix_message_size := 0 |};
    sd_properties := [if contents then PR_MID else PR_FID;
                      PR_LAST_MODIFICATION_TIME];
    sd_push := (ndr, []);
    eid_set := RAWIDSET_make false;
    sd_cnset_seen := RAWIDSET_make true |} in
  sd ← (if contents then
          sd ← (if normal (request synccontext) then
                  oxcfxics_fill_transfer_state_arrays depth s
                    (set_table_type sd EMSMDBP_TABLE_MESSAGE_TYPE)
                    (Some parent_object)
                else Some sd);
          if fai (request synccontext) then
            oxcfxics_fill_transfer_state_arrays depth s
              (set_table_type sd EMSMDBP_TABLE_FAI_TYPE) (Some parent_object)
          else Some sd
        else
          oxcfxics_fill_transfer_state_arrays depth s
            (set_table_type sd EMSMDBP_TABLE_FOLDER_TYPE) (Some parent_object));
  let new_idset := RAWIDSET_convert_to_idset (sd_cnset_seen sd) in
  let old_idset := cnset_seen synccontext in
  let synccontext :=
    set_cnset synccontext (IDSET_merge_idsets old_idset new_idset) in
  let ndr := ndr_push_uint32 ndr PidTagCnsetSeen in
  let ndr := ndr_append ndr (idset_serialized (cnset_seen synccontext)) in
  let ndr :=
    if contents && fai (request synccontext) then
      ndr_append (ndr_push_uint32 ndr PidTagCnsetSeenFAI)
                 (idset_serialized (cnset_seen synccontext))
    else ndr in
  let new_idset := RAWIDSET_convert_to_idset (eid_set sd) in
  let old_idset := idset_given synccontext in
  let synccontext :=
    set_idset_given synccontext (IDSET_merge_idsets old_idset new_idset) in
  let ndr := ndr_push_uint32 ndr PidTagIdsetGiven in
  let ndr := ndr_append ndr (idset_serialized (idset_given synccontext)) in
  let ndr :=
    if contents && read_state (request synccontext) then
      ndr_append (ndr_push_uint32 ndr PidTagCnsetRead)
                 (idset_serialized (cnset_seen synccontext))
    else ndr in
  Some (ndr_push_uint32 ndr PR_INCR_SYNC_STATE_END, synccontext).

(** [EcDoRpc_RopSyncGetTransferState]. *)
Definition EcDoRpc_RopSyncGetTransferState (depth : nat) : rop_handler :=
  sanity_checks (fun ctx req repl handles size =>
    match req_u req with
    | mapi_SyncGetTransferState r_handle_idx =>
        let repl := repl_init repl (req_opnum req) r_handle_idx in
        let finish := rop_end RopSyncGetTransferState in
        synccontext_handle_id ← handles_get handles (req_handle_idx req);
        match handles_ctx ctx !! synccontext_handle_id with
        | Some (Some (Object_synccontext parent_object synccontext)) =>
            '(ndr, synccontext) ←
              oxcfxics_ndr_push_transfer_state depth (backend ctx)
                ndr_push_init parent_object synccontext;
            let synccontext_object :=
              Object_synccontext parent_object synccontext in
            let ctx := mapi_handles_set_private_data ctx synccontext_handle_id
                         (Some synccontext_object) in
            '(ctx, ftcontext_handle) ← mapi_handles_add ctx synccontext_handle_id;
            ft ← emsmdbp_object_ftcontext_init (backend ctx)
                   (Some synccontext_object);
            handles ← handles_set handles (handle_idx repl) ftcontext_handle;
            let ft :=
              {| ft_stream := {| position := position (ft_stream ft);
                                 buffer := Some (ndr_data ndr) |};
                 (* cutmarks *)
                 ft_cutmarks := cutmarks_push [] 0xffffffff;
                 ft_next_cutmark_ptr := ft_next_cutmark_ptr ft;
                 ft_steps := ft_steps ft;
                 ft_total_steps := ft_total_steps ft |} in
            let ctx := mapi_handles_set_private_data ctx ftcontext_handle
                         (Some (Object_ftcontext ft)) in
            finish ctx repl handles size
        | _ =>
            finish ctx (set_error_code repl MAPI_E_INVALID_OBJECT) handles size
        end
    | _ => None
    end).

(** *** The module as a whole *)

(** The handlers of the file, by operation. *)
Definition handler_of (depth : nat) (op : rop) : rop_handler :=
  match op with
  | RopFastTransferSourceCopyTo => EcDoRpc_RopFastTransferSourceCopyTo
  | RopFastTransferSourceGetBuffer =>
      EcDoRpc_RopFastTransferSourceGetBuffer depth
  | RopSyncConfigure => EcDoRpc_RopSyncConfigure
  | RopSyncImportMessageChange => EcDoRpc_RopSyncImportMessageChange
  | RopSyncImportHierarchyChange => EcDoRpc_RopSyncImportHierarchyChange
  | RopSyncImportDeletes => EcDoRpc_RopSyncImportDeletes
  | RopSyncUploadStateStreamBegin => EcDoRpc_RopSyncUploadStateStreamBegin
  | RopSyncUploadStateStreamContinue =>
      EcDoRpc_RopSyncUploadStateStreamContinue
  | RopSyncUploadStateStreamEnd => EcDoRpc_RopSyncUploadStateStreamEnd
  | RopSyncImportMessageMove => EcDoRpc_RopSyncImportMessageMove
  | RopSyncOpenCollector => EcDoRpc_RopSyncOpenCollector
  | RopGetLocalReplicaIds => EcDoRpc_RopGetLocalReplicaIds
  | RopSyncImportReadStateChanges => EcDoRpc_RopSyncImportReadStateChanges
  | RopSyncGetTransferState => EcDoRpc_RopSyncGetTransferState depth
  | RopSetLocalReplicaMidsetDeleted =>
      EcDoRpc_RopSetLocalReplicaMidsetDeleted
  end.

(** *** Sequences of GetBuffer calls *)

(** The buffer size that a GetBuffer request asks for, after the
    substitution of [0xBABE]. *)
Definition effective_buffer_size (req : EcDoRpc_MAPI_REQ) : Z :=
  match req_u req with
  | mapi_FastTransferSourceGetBuffer BufferSize MaximumBufferSize =>
      if BufferSize =? 0xBABE then uint16 MaximumBufferSize
      else uint16 BufferSize
  | _ => 0
  end.

(** The stream of a transfer or synchronization context. *)
Definition context_stream (o : emsmdbp_object) : option emsmdbp_stream :=
  match o with
  | Object_ftcontext ft => Some (ft_stream ft)
  | Object_synccontext _ sc => Some (stream sc)
  | Object_external _ => None
  end.

(** The GetBuffer part of a reply. *)
Definition transfer_of (repl : EcDoRpc_MAPI_REPL)
  : option FastTransferSourceGetBuffer_repl :=
  match repl_u repl with
  | mapi_repl_GetBuffer r => Some r
  | _ => None
  end.

(** Successive calls of the GetBuffer handler, one per request, each on
    the state that the previous call left and on a reply structure
    [blank]; the result is the final context and the replies in order. *)
Fixpoint getbuffer_calls (depth : nat) (ctx : emsmdbp_context)
         (blank : EcDoRpc_MAPI_REPL) (handles : list Z) (size : Z)
         (reqs : list EcDoRpc_MAPI_REQ)
  : option (emsmdbp_context * list EcDoRpc_MAPI_REPL) :=
  match reqs with
  | [] => Some (ctx, [])
  | req :: reqs' =>
      r ← EcDoRpc_RopFastTransferSourceGetBuffer depth (Some ctx) (Some req)
            (Some blank) (Some handles) (Some size);
      rs ← r.2;
      '(ctx', repls) ← getbuffer_calls depth (rs_ctx rs) blank (rs_handles rs)
                         (rs_size rs) reqs';
      Some (ctx', rs_repl rs :: repls)
  end.

(** One GetBuffer call seen from the context object: the [switch] of the
    handler on a transfer or synchronization context. *)
Definition getbuffer_step (depth : nat) (s : store) (o : emsmdbp_object)
           (buffer_size : Z)
  : option (emsmdbp_object * FastTransferSourceGetBuffer_repl) :=
  match o with
  | Object_ftcontext ft =>
      '(ft, r) ← getbuffer_ftcontext ft buffer_size;
      Some (Object_ftcontext ft, r)
  | Object_synccontext parent sc =>
      '(sc, r) ← getbuffer_synccontext depth s parent sc buffer_size;
      Some (Object_synccontext parent sc, r)
  | Object_external _ => None
  end.

(** Successive GetBuffer calls seen from the context object. *)
Fixpoint getbuffer_steps (depth : nat) (s : store) (o : emsmdbp_object)
         (sizes : list Z)
  : option (emsmdbp_object * list FastTransferSourceGetBuffer_repl) :=
  match sizes with
  | [] => Some (o, [])
  | buffer_size :: sizes' =>
      '(o, r) ← getbuffer_step depth s o buffer_size;
      '(o', rs) ← getbuffer_steps depth s o sizes';
      Some (o', r :: rs)
  end.

(** The bytes of the stream of a context, its cursor and its step
    total. *)
Definition context_bytes (o : emsmdbp_object) : list Z :=
  match context_stream o with
  | Some st => default [] (buffer st)
  | None => []
  end.

Definition context_position (o : emsmdbp_object) : Z :=
  match context_stream o with
  | Some st => position st
  | None => 0
  end.

Definition context_total_steps (o : emsmdbp_object) : Z :=
  match o with
  | Object_ftcontext ft => ft_total_steps ft
  | Object_synccontext _ sc => total_steps sc
  | Object_external _ => 0
  end.

(** Whether the stream of the context exists already: always for a
    transfer context, after the first GetBuffer for a synchronization
    context. *)
Definition context_prepared (o : emsmdbp_object) : bool :=
  match o with
  | Object_ftcontext _ => true
  | Object_synccontext _ sc => bool_decide (is_Some (buffer (stream sc)))
  | Object_external _ => false
  end.

(** Whether the next GetBuffer computes [total_steps]. *)
Definition context_recomputes (o : emsmdbp_object) : bool :=
  match o with
  | Object_ftcontext ft => position (ft_stream ft) =? 0
  | Object_synccontext _ sc => negb (bool_decide (is_Some (buffer (stream sc))))
  | Object_external _ => false
  end.

(** A context on which GetBuffer was not called yet. *)
Definition context_fresh (o : emsmdbp_object) : Prop :=
  match o with
  | Object_ftcontext ft => position (ft_stream ft) = 0
  | Object_synccontext _ sc =>
      buffer (stream sc) = None /\ position (stream sc) = 0
  | Object_external _ => False
  end.

(** The three handlers that do no work and look no handle up. *)
Definition is_stub (op : rop) : bool :=
  match op with
  | RopSyncImportMessageMove | RopSyncImportReadStateChanges
  | RopSetLocalReplicaMidsetDeleted => true
  | _ => false
  end.

(** Whether the member of the request union is the one of the
    operation. *)
Definition request_for (op : rop) (u : EcDoRpc_MAPI_REQ_UNION) : bool :=
  match op, u with
  | RopFastTransferSourceCopyTo, mapi_FastTransferSourceCopyTo _ _ _
  | RopFastTransferSourceGetBuffer, mapi_FastTransferSourceGetBuffer _ _
  | RopSyncConfigure, mapi_SyncConfigure _ _ _ _ _ _
  | RopSyncImportMessageChange, mapi_SyncImportMessageChange _ _ _
  | RopSyncImportHierarchyChange, mapi_SyncImportHierarchyChange _ _
  | RopSyncImportDeletes, mapi_SyncImportDeletes _ _
  | RopSyncUploadStateStreamBegin, mapi_SyncUploadStateStreamBegin _
  | RopSyncUploadStateStreamContinue, mapi_SyncUploadStateStreamContinue _
  | RopSyncOpenCollector, mapi_SyncOpenCollector _ _
  | RopGetLocalReplicaIds, mapi_GetLocalReplicaIds _
  | RopSyncGetTransferState, mapi_SyncGetTransferState _ => true
  | RopSyncUploadStateStreamEnd, _
  | RopSyncImportMessageMove, _
  | RopSyncImportReadStateChanges, _
  | RopSetLocalReplicaMidsetDeleted, _ => true
  | _, _ => false
  end.

(** A computation that, when it returns, returns [MAPI_E_SUCCESS]. *)
Definition returns_success (o : option rop_result) : Prop :=
  forall r, o = Some r -> r.1 = MAPI_E_SUCCESS.

(** The next call of a session: [handler] on the state that the
    previous call left, with request [req] and reply structure [blank]. *)
Definition then_rop (previous : option rop_result) (handler : rop_handler)
           (req : EcDoRpc_MAPI_REQ) (blank : EcDoRpc_MAPI_REPL)
  : option rop_result :=
  r ← previous;
  rs ← r.2;
  handler (Some (rs_ctx rs)) (Some req) (Some blank) (Some (rs_handles rs))
          (Some (rs_size rs)).

(** The synchronization context that a handle holds. *)
Definition synccontext_at (ctx : emsmdbp_context) (h : Z)
  : option emsmdbp_object_synccontext :=
  match handles_ctx ctx !! h with
  | Some (Some (Object_synccontext _ sc)) => Some sc
  | _ => None
  end.

End Handlers.

(** ** An instance for the examples *)

(** A small instance of the collaborators, on which the examples below
    run the model: one mailbox replica, a folder with a message table,
    and identifier sets kept as sorted lists. *)
Module Sample.

(** The GUID of the mailbox replica, registered under replica id 1. *)
Definition guid_A : GUID := [1; 2; 3; 4; 5; 6; 7; 8; 9; 10; 11; 12; 13; 14; 15; 16].

(** A GUID that the registry does not know. *)
Definition guid_X : GUID := repeat 0xee 16.

Definition replid_to_guid (replid : Z) : option GUID :=
  if replid =? 1 then Some guid_A else None.

Definition guid_to_replid (g : GUID) : option Z :=
  if bool_decide (g = guid_A) then Some 1 else None.

(** Property tags, types and flags with their protocol values. *)
Global Instance constants : mapi_constants := {|
  PT_I2 := 0x0002; PT_LONG := 0x0003; PT_ERROR := 0x000a;
  PT_OBJECT := 0x000d; PT_DOUBLE := 0x0005; PT_I8 := 0x0014;
  PT_BOOLEAN := 0x000b; PT_STRING8 := 0x001e; PT_UNICODE := 0x001f;
  PT_SVREID := 0x00fb; PT_BINARY := 0x0102; PT_CLSID := 0x0048;
  PT_SYSTIME := 0x0040; MV_FLAG := 0x1000;
  PR_INCR_SYNC_CHG := 0x40120003; PR_INCR_SYNC_MSG := 0x40150003;
  PR_INCR_SYNC_STATE_BEGIN := 0x403a0003;
  PR_INCR_SYNC_STATE_END := 0x403b0003; PR_INCR_SYNC_END := 0x40140003;
  PR_FX_DEL_PROP := 0x40160003; PR_START_RECIP := 0x40030003;
  PR_END_RECIP := 0x40040003; PR_NEW_ATTACH := 0x40000003;
  PR_END_ATTACH := 0x400e0003;
  PidTagIdsetGiven := 0x40170003; PidTagCnsetSeen := 0x67960102;
  PidTagCnsetSeenFAI := 0x67da0102; PidTagCnsetRead := 0x67d20102;
  PR_MESSAGE_RECIPIENTS := 0x0e12000d; PR_MESSAGE_ATTACHMENTS := 0x0e13000d;
  PR_ROWID := 0x30000003; PR_ATTACH_NUM := 0x0e210003;
  PR_SOURCE_KEY := 0x65e00102; PR_PARENT_SOURCE_KEY := 0x65e10102;
  PR_CHANGE_KEY := 0x65e20102; PR_PREDECESSOR_CHANGE_LIST := 0x65e30102;
  PR_LAST_MODIFICATION_TIME := 0x30080040; PR_ASSOCIATED := 0x67aa000b;
  PR_MID := 0x674a0014; PR_FID := 0x67480014; PR_PARENT_FID := 0x67490014;
  PR_MESSAGE_SIZE := 0x0e080003; PR_CHANGE_NUM := 0x67a40014;
  PR_DISPLAY_NAME_UNICODE := 0x3001001f; PR_ROW_TYPE := 0x0ff50003;
  PR_INSTANCE_KEY := 0x0ff60102; PR_INSTANCE_NUM := 0x674e0003;
  PR_INST_ID := 0x674d0014; PR_BODY_HTML := 0x1013001e;
  PR_BODY_UNICODE := 0x1000001f; PR_FOLDER_CHILD_COUNT := 0x66380003;
  PR_CONTENT_COUNT := 0x36020003; PR_ASSOC_CONTENT_COUNT := 0x36170003;
  PR_ATTACH_METHOD := 0x37050003; PR_ATTACH_TAG := 0x370a0102;
  PR_ATTACH_SIZE := 0x0e200003; PR_RECORD_KEY := 0x0ff90102;
  PR_ATTACH_LONG_FILENAME_UNICODE := 0x3707001f;
  PR_ATTACH_CONTENT_ID_UNICODE := 0x3712001f;
  PR_ATTACH_MIME_TAG_UNICODE := 0x370e001f; PR_CREATION_TIME := 0x30070040;
  PR_ATTACH_DATA_BIN := 0x37010102;
  FastTransfer_Unicode := 0x01; FastTransfer_UseCpid := 0x02;
  FastTransfer_RecoverMode := 0x04; FastTransfer_ForceUnicode := 0x08;
  FastTransfer_PartialItem := 0x10;
  SynchronizationFlag_Unicode := 0x0001;
  SynchronizationFlag_NoDeletions := 0x0002;
  SynchronizationFlag_NoSoftDeletions := 0x0004;
  SynchronizationFlag_ReadState := 0x0008;
  SynchronizationFlag_FAI := 0x0010; SynchronizationFlag_Normal := 0x0020;
  SynchronizationFlag_OnlySpecifiedProperties := 0x0080;
  SynchronizationFlag_NoForeignIdentifiers := 0x0100;
  SynchronizationFlag_BestBody := 0x2000;
  SynchronizationFlag_IgnoreSpecifiedOnFAI := 0x4000;
  SynchronizationFlag_Progress := 0x8000;
  Eid := 0x1; MessageSize := 0x2; Cn := 0x4; OrderByDeliveryTime := 0x8;
  Contents := 0x1;
  ImportFlag_Associated := 0x10;
  SyncImportDeletes_Hierarchy := 0x01; SyncImportDeletes_HardDelete := 0x02;
  MAPISTORE_PERMANENT_DELETE := 2; MAPISTORE_SOFT_DELETE := 1;
  LIBNDR_FLAG_STR_NULLTERM := 0x40; LIBNDR_FLAG_STR_ASCII := 0x04;
  LIBNDR_FLAG_NOALIGN := 0x20000000
|}.

(** A row of a table, or the properties of an object: values by tag. *)
Definition row : Type := list (Z * prop_data).

(** The store: the rows of the message table of its folder, the named
    properties it knows, the properties of the folder object, and the
    next identifier of the range allocator. *)
Record sample_store := {
  messages : list row;
  named_props : list (Z * MAPINAMEID);
  folder_props : row;
  next_fmid : Z
}.

Inductive sample_object :=
| Folder (fid : Z) (mapistore : bool)
| Message (mid : Z)
| Mailbox.

(** Identifier sets as strictly increasing lists of counters. *)
Fixpoint insert_sorted (x : Z) (l : list Z) : list Z :=
  match l with
  | [] => [x]
  | y :: l' => if x <? y then x :: l
               else if x =? y then l else y :: insert_sorted x l'
  end.

Fixpoint strictly_increasing (l : list Z) : bool :=
  match l with
  | x :: (y :: _) as l' => (x <? y) && strictly_increasing l'
  | _ => true
  end.

(** The wire form of a set: 6 bytes per counter, least significant
    first; a decoder rejects a truncated counter and counters that do
    not increase. *)
Fixpoint decode_counters (n : nat) (bytes : list Z) : option (list Z) :=
  match n with
  | O => None
  | S n' =>
      match bytes with
      | [] => Some []
      | _ =>
          if (length bytes <? 6)%nat then None
          else rest ← decode_counters n' (drop 6 bytes);
               Some (Codec.le_value (take 6 bytes) :: rest)
      end
  end.

Definition parse (bytes : list Z) : option (list Z) :=
  l ← decode_counters (S (length bytes)) bytes;
  if strictly_increasing l then Some l else None.

Global Instance types : backend_types := {|
  store := sample_store;
  ext_object := sample_object;
  table_object := list row;
  idset := list Z;
  rawidset := list Z;
  SPropValue := Z
|}.

Definition lookup_cell (r : row) (tag : Z) : option prop_data * MAPISTATUS :=
  match list_find (fun c => c.1 = tag) r with
  | Some (_, c) => (Some c.2, MAPI_E_SUCCESS)
  | None => (None, MAPI_E_NOT_FOUND)
  end.

Definition row_props (r : row) (tags : list Z)
  : list (option prop_data) * list MAPISTATUS :=
  (map (fun t => (lookup_cell r t).1) tags,
   map (fun t => (lookup_cell r t).2) tags).

Definition row_mid (r : row) : option Z :=
  match lookup_cell r 0x674a0014 with
  | (Some (D_uint64 v), _) => Some v
  | _ => None
  end.

Definition row_fid (r : row) : option Z :=
  match lookup_cell r 0x67480014 with
  | (Some (D_uint64 v), _) => Some v
  | _ => None
  end.

(** The [FILETIME] of the instant [change] seconds after
    [oc_version_time]: a folder modified then has the change number
    [change]. *)
Definition filetime_at (change : Z) : prop_data :=
  let nt := (oc_version_time + change + 11644473600) * 10000000 in
  D_filetime (nt mod 2 ^ 32) (nt / 2 ^ 32).

(** The row of a folder in the hierarchy table of its parent: the
    identifiers, the last modification time and the display name "F". *)
Definition folder_row (parent fid change : Z) : row :=
  [(0x67490014, D_uint64 parent); (0x67480014, D_uint64 fid);
   (0x30080040, filetime_at change); (0x3001001f, D_string [70])].

(** The folder tree of the examples, which every store has: under the
    folder [0x90001] the folders [0xa0001] and [0xb0001], and under
    [0xa0001] the folder [0xc0001].  Every other folder has no
    sub-folder. *)
Definition folder_table (fid : Z) : list row :=
  if fid =? 0x90001
  then [folder_row 0x90001 0xa0001 1; folder_row 0x90001 0xb0001 2]
  else if fid =? 0xa0001 then [folder_row 0xa0001 0xc0001 3]
  else [].

Definition blank_stream : emsmdbp_stream := {| position := 0; buffer := None |}.

Definition blank_request : sync_request := {|
  contents_mode := false; unicode := false; use_cpid := false;
  recover_mode := false; force_unicode := false; partial_item := false;
  no_deletions := false; no_soft_deletions := false;
  ignore_no_longer_in_scope := false; read_state := false; fai := false;
  normal := false; no_foreign_identifiers := false; best_body := false;
  ignored_specified_on_fai := false; progress := false;
  request_eid := false; request_message_size := false; request_cn := false;
  order_by_delivery_time := false |}.

Definition blank_synccontext : emsmdbp_object_synccontext := {|
  request := blank_request; properties := []; idset_given := None;
  cnset_seen := None; state_property := 0; state_stream := blank_stream;
  stream := blank_stream; cutmarks := []; next_cutmark_ptr := 0;
  steps := 0; total_steps := 0; is_collector := false |}.

Definition blank_ftcontext : emsmdbp_object_ftcontext := {|
  ft_stream := blank_stream; ft_cutmarks := []; ft_next_cutmark_ptr := 0;
  ft_steps := 0; ft_total_steps := 0 |}.

Definition object_mapistore (o : sample_object) : bool :=
  match o with Folder _ m => m | _ => false end.

Global Instance collaborators : externals := {|
  emsmdbp_replid_to_guid := fun _ => replid_to_guid;
  emsmdbp_guid_to_replid := fun _ => guid_to_replid;
  openchangedb_get_MailboxReplica := fun _ => Some (1, guid_A);
  openchangedb_reserve_fmid_range := fun s n =>
    ({| messages := messages s; named_props := named_props s;
        folder_props := folder_props s;
        next_fmid := next_fmid s + n * 65536 |}, Some (next_fmid s));
  mapistore_namedprops_get_nameid := fun s propID =>
    snd <$> (snd <$> list_find (fun c => c.1 = propID) (named_props s));
  exchange_globcnt := fun t => uint64 (Z.shiftl t 16);
  nt_time_to_unix := fun nt => nt / 10000000 - 11644473600;
  unix_to_nt_time := fun t => (t + 11644473600) * 10000000;
  strlen_m_ext := fun s => Z.of_nat (length s);
  ndr_string_bytes := fun flags s =>
    if Z.land flags 0x04 =? 0
    then concat (map (fun c => [c; 0]) s) ++ [0; 0]
    else s ++ [0];
  SPropTagArray_add := fun l t => l ++ [t];
  SPropTagArray_delete := fun l t => filter (fun x => x ≠ t) l;
  SPropTagArray_find := fun l t =>
    (fun r => Z.of_nat r.1) <$> list_find (fun x => x = t) l;
  cast_SPropValue := fun v => ulPropTag v;
  RAWIDSET_make := fun _ => [];
  RAWIDSET_push_glob := fun raw _ id => raw ++ [id];
  RAWIDSET_convert_to_idset := fun raw => Some (foldr insert_sorted [] raw);
  IDSET_merge_idsets := fun a b =>
    Some (foldr insert_sorted (default [] a) (default [] b));
  IDSET_includes_id := fun a _ id => bool_decide (id ∈ default [] a);
  IDSET_parse := parse;
  idset_range_count := fun a => Z.of_nat (length a);
  idset_set_single := fun a => a;
  idset_serialized := fun a => concat (map (le_bytes 6) (default [] a));
  object_is_folder := fun o => match o with Folder _ _ => true | _ => false end;
  folderID := fun o => match o with Folder fid _ => fid | _ => 0 end;
  emsmdbp_is_mapistore := fun o =>
    match o with
    | Object_external o => object_mapistore o
    | Object_synccontext parent _ => object_mapistore parent
    | Object_ftcontext _ => false
    end;
  emsmdbp_get_contextID := fun _ => 1;
  emsmdbp_object_synccontext_init := fun _ _ => blank_synccontext;
  emsmdbp_object_ftcontext_init := fun _ _ => Some blank_ftcontext;
  emsmdbp_object_get_available_properties := fun s o =>
    match o with
    | Some (Object_external (Folder _ _)) => Some (map fst (folder_props s))
    | _ => None
    end;
  emsmdbp_object_get_properties := fun s o tags =>
    match o with
    | Some (Object_external (Folder _ _)) => Some (row_props (folder_props s) tags)
    | _ => None
    end;
  emsmdbp_folder_open_table := fun s o table_type =>
    match o with
    | Some (Folder fid _) =>
        Some (if table_type =? 2 then messages s
              else if table_type =? 1 then folder_table fid else [])
    | _ => None
    end;
  denominator := fun t => Z.of_nat (length t);
  emsmdbp_object_table_get_row_props := fun _ t tags i =>
    r ← t !! Z.to_nat i; Some (row_props r tags);
  emsmdbp_object_table_get_available_properties := fun _ t =>
    Some (default [] (map fst <$> head t));
  emsmdbp_object_message_open := fun s _ _ mid =>
    if bool_decide (Some mid ∈ map row_mid (messages s))
    then Some (Message mid, Some {| recipients := None |})
    else None;
  emsmdbp_object_message_init := fun _ mid _ => Message mid;
  emsmdbp_object_message_open_attachment_table := fun _ _ => None;
  emsmdbp_object_open_folder := fun _ o eid =>
    match o with
    | Some (Folder fid m) =>
        if bool_decide (Some eid ∈ map row_fid (folder_table fid))
        then Some (Folder eid m) else None
    | _ => None
    end;
  emsmdbp_object_open_folder_by_fid := fun _ _ _ => None;
  emsmdbp_object_create_folder := fun s _ _ _ => (s, None);
  emsmdbp_object_set_properties := fun s _ _ => (s, true);
  mapistore_folder_create_message := fun s _ _ m mid _ =>
    ({| messages := messages s ++ [[(0x674a0014, D_uint64 mid)]];
        named_props := named_props s; folder_props := folder_props s;
        next_fmid := next_fmid s |}, Some m);
  mapistore_folder_delete_message := fun s _ _ mid _ =>
    ({| messages := filter (fun r => row_mid r ≠ Some mid) (messages s);
        named_props := named_props s; folder_props := folder_props s;
        next_fmid := next_fmid s |}, MAPISTORE_SUCCESS);
  mapistore_indexing_record_del_mid := fun s _ _ _ => (s, MAPISTORE_SUCCESS);
  mapi_handles_new := fun m _ =>
    Some (1 + map_fold (fun k _ acc => Z.max k acc) 0 m);
  libmapiserver_size := fun _ repl =>
    match repl_u repl with
    | mapi_repl_GetBuffer r => 15 + Z.of_nat (length (TransferBuffer r))
    | _ => 6
    end;
  EMSMDBP_TABLE_FOLDER_TYPE := 1;
  EMSMDBP_TABLE_MESSAGE_TYPE := 2;
  EMSMDBP_TABLE_FAI_TYPE := 3;
  to_steps_t := uint32;
  to_StepCount_t := uint16;
  to_TransferBufferSize_t := uint16;
  ftcontext_view_position := fun _ => 0
|}.

(** A store with an empty folder. *)
Definition empty_store : sample_store :=
  {| messages := []; named_props := []; folder_props := [];
     next_fmid := 0x10000 |}.

(** The folder of the store, kept by mapistore. *)
Definition inbox : sample_object := Folder 0x10001 true.

(** A blank reply structure. *)
Definition blank_repl : EcDoRpc_MAPI_REPL :=
  {| opnum := 0; handle_idx := 0; error_code := MAPI_E_SUCCESS;
     repl_u := mapi_repl_untouched |}.

(** A transfer context over [bytes] with its cursor at the start. *)
Definition ftcontext_over (bytes cutmarks : list Z) : emsmdbp_object_ftcontext :=
  {| ft_stream := {| position := 0; buffer := Some bytes |};
     ft_cutmarks := cutmarks; ft_next_cutmark_ptr := 0;
     ft_steps := 0; ft_total_steps := 0 |}.

(** A provider context whose handle 7 holds [o]. *)
Definition context_holding (o : emsmdbp_object) (s : sample_store)
  : emsmdbp_context :=
  {| handles_ctx := {[ 7 := Some o ]}; backend := s |}.

(** The handle array of a request: index 0 names handle 7. *)
Definition handle_array : list Z := [7; 0xffffffff].

(** A GetBuffer request for [buffer_size] bytes. *)
Definition getbuffer_request (buffer_size : Z) : EcDoRpc_MAPI_REQ :=
  {| req_opnum := 0x4e; req_handle_idx := 0;
     req_u := mapi_FastTransferSourceGetBuffer buffer_size 0 |}.

(** A stream of ten bytes with cut-marks at 0, 4 and 7. *)
Definition ten_bytes : list Z := [10; 11; 12; 13; 14; 15; 16; 17; 18; 19].
Definition ten_bytes_context : emsmdbp_context :=
  context_holding
    (Object_ftcontext (ftcontext_over ten_bytes [0; 4; 7; 0xffffffff]))
    empty_store.

(** A stream of eight bytes without cut-marks. *)
Definition eight_bytes_context : emsmdbp_context :=
  context_holding
    (Object_ftcontext (ftcontext_over [1; 2; 3; 4; 5; 6; 7; 8] [0xffffffff]))
    empty_store.

(** A contents synchronization context as SyncConfigure leaves it for
    the flags [flags] of normal messages, with the sets that a client
    uploaded. *)
Definition contents_context (with_fai with_read_state : bool)
           (given seen : option (list Z)) : emsmdbp_object_synccontext :=
  {| request := {|
       contents_mode := true; unicode := true; use_cpid := false;
       recover_mode := false; force_unicode := false; partial_item := false;
       no_deletions := false; no_soft_deletions := false;
       ignore_no_longer_in_scope := false; read_state := with_read_state;
       fai := with_fai; normal := true; no_foreign_identifiers := false;
       best_body := false; ignored_specified_on_fai := false;
       progress := false; request_eid := false;
       request_message_size := false; request_cn := false;
       order_by_delivery_time := false |};
     properties := [PR_MID; PR_ASSOCIATED; PR_MESSAGE_SIZE; PR_CHANGE_NUM;
                    PR_CHANGE_KEY; PR_LAST_MODIFICATION_TIME;
                    PR_DISPLAY_NAME_UNICODE];
     idset_given := given; cnset_seen := seen; state_property := 0;
     state_stream := blank_stream; stream := blank_stream; cutmarks := [];
     next_cutmark_ptr := 0; steps := 0; total_steps := 0;
     is_collector := false |}.

(** A store whose folder holds two messages, [0x50001] and [0x60001],
    without a modification time: both have change number 0. *)
Definition two_messages : sample_store :=
  {| messages := [[(0x674a0014, D_uint64 0x50001)];
                  [(0x674a0014, D_uint64 0x60001)]];
     named_props := []; folder_props := []; next_fmid := 0x70000 |}.

(** A store whose folder object has the properties [props], and which
    knows no named property. *)
Definition store_with_folder_props (props : row) : sample_store :=
  {| messages := []; named_props := []; folder_props := props;
     next_fmid := 0x70000 |}.

(** A FastTransferSourceCopyTo request on handle index 0, the new handle
    going to index 1. *)
Definition copyto_request : EcDoRpc_MAPI_REQ :=
  {| req_opnum := 0x4d; req_handle_idx := 0;
     req_u := mapi_FastTransferSourceCopyTo 1 0 [] |}.

(** The cut-marks and the stream of the transfer context that
    FastTransferSourceCopyTo creates for the folder of
    [store_with_folder_props props]. *)
Definition copyto_stream (props : row) : option (list Z * option (list Z)) :=
  r ← EcDoRpc_RopFastTransferSourceCopyTo
        (Some (context_holding (Object_external inbox)
                               (store_with_folder_props props)))
        (Some copyto_request) (Some blank_repl) (Some handle_array) (Some 0);
  rs ← r.2;
  h ← rs_handles rs !! 1%nat;
  o ← handles_ctx (rs_ctx rs) !! h;
  match o with
  | Some (Object_ftcontext ft) => Some (ft_cutmarks ft, buffer (ft_stream ft))
  | _ => None
  end.

(** A request without payload on handle index 0. *)
Definition plain_request (op : Z) : EcDoRpc_MAPI_REQ :=
  {| req_opnum := op; req_handle_idx := 0; req_u := mapi_no_request |}.

Definition upload_begin_request (property : Z) : EcDoRpc_MAPI_REQ :=
  {| req_opnum := 0x75; req_handle_idx := 0;
     req_u := mapi_SyncUploadStateStreamBegin property |}.

Definition upload_continue_request (bytes : list Z) : EcDoRpc_MAPI_REQ :=
  {| req_opnum := 0x76; req_handle_idx := 0;
     req_u := mapi_SyncUploadStateStreamContinue bytes |}.

(** A session: handle 7 holds a contents synchronization context on the
    inbox, with the sets [given] and [seen]. *)
Definition session (given seen : option (list Z)) (s : sample_store)
  : emsmdbp_context :=
  context_holding
    (Object_synccontext inbox (contents_context false false given seen)) s.

(** The upload of [bytes] as state property [property]: Begin, Continue,
    End, on the session. *)
Definition upload (start : option rop_result) (property : Z) (bytes : list Z)
  : option rop_result :=
  let r := then_rop start EcDoRpc_RopSyncUploadStateStreamBegin
                    (upload_begin_request property) blank_repl in
  let r := then_rop r EcDoRpc_RopSyncUploadStateStreamContinue
                    (upload_continue_request bytes) blank_repl in
  then_rop r EcDoRpc_RopSyncUploadStateStreamEnd (plain_request 0x77)
           blank_repl.

(** The start of a session, as a result to continue from. *)
Definition start_of (ctx : emsmdbp_context) : option rop_result :=
  Some (MAPI_E_SUCCESS,
        Some {| rs_ctx := ctx; rs_repl := blank_repl;
                rs_handles := handle_array; rs_size := 0 |}).

(** A session in the middle of an upload: armed for [property], with
    [scratch] received so far. *)
Definition armed_session (given seen : option (list Z)) (property : Z)
           (scratch : list Z) : emsmdbp_context :=
  context_holding
    (Object_synccontext inbox
       (set_state_upload (contents_context false false given seen) property
          {| position := Z.of_nat (length scratch);
             buffer := Some scratch |}))
    empty_store.

(** A SyncImportMessageChange request whose first property value is the
    source key [source_key]; the message handle goes to index 1. *)
Definition import_request (source_key : list Z) : EcDoRpc_MAPI_REQ :=
  {| req_opnum := 0x72; req_handle_idx := 0;
     req_u := mapi_SyncImportMessageChange 1 0
                [{| ulPropTag := PR_SOURCE_KEY;
                    value := value_bin source_key |}] |}.

(** Source keys of counter 9: under the mailbox replica, and under a
    replica that the registry does not know. *)
Definition known_source_key : list Z := guid_A ++ [9; 0; 0; 0; 0; 0].
Definition unknown_source_key : list Z := guid_X ++ [9; 0; 0; 0; 0; 0].

(** A SyncImportDeletes request for hierarchy deletes, which the
    handler refuses. *)
Definition hierarchy_deletes_request : EcDoRpc_MAPI_REQ :=
  {| req_opnum := 0x74; req_handle_idx := 0;
     req_u := mapi_SyncImportDeletes 0x01
                [{| ulPropTag := 0; value := value_MVbin [] |}] |}.

(** A handle array whose index 0 names a handle that is not in the
    table. *)
Definition stale_handle_array : list Z := [99; 0xffffffff].

(** A provider context whose handle 7 holds the inbox, with one property
    of type [PT_FLOAT] (0x0004), which the serializer has no case for. *)
Definition float_property_context : emsmdbp_context :=
  context_holding (Object_external inbox)
                  (store_with_folder_props [(0x66660004, D_uint32 1)]).

(** A provider context whose handle 7 holds the inbox, with the property
    PR_ROWID. *)
Definition one_property_context : emsmdbp_context :=
  context_holding (Object_external inbox)
                  (store_with_folder_props [(0x30000003, D_uint32 1)]).

(** The stream of ten bytes, read to its end. *)
Definition finished_context : emsmdbp_context :=
  context_holding
    (Object_ftcontext
       {| ft_stream := {| position := 10; buffer := Some ten_bytes |};
          ft_cutmarks := [0; 4; 7; 0xffffffff]; ft_next_cutmark_ptr := 0;
          ft_steps := 3; ft_total_steps := 2 |})
    empty_store.

(** A SyncConfigure request on handle index 0, the new handle going to
    index 1. *)
Definition configure_request (sync_type send_options flags extra_flags : Z)
           (tags : list Z) : EcDoRpc_MAPI_REQ :=
  {| req_opnum := 0x70; req_handle_idx := 0;
     req_u := mapi_SyncConfigure 1 sync_type send_options flags extra_flags
                                 tags |}.

(** A SyncImportHierarchyChange request: the parent source key and the
    source key of the folder at the fixed positions 0 and 1. *)
Definition hierarchy_request (parent_key folder_key : list Z)
  : EcDoRpc_MAPI_REQ :=
  {| req_opnum := 0x73; req_handle_idx := 0;
     req_u := mapi_SyncImportHierarchyChange
                [{| ulPropTag := PR_PARENT_SOURCE_KEY;
                    value := value_bin parent_key |};
                 {| ulPropTag := PR_SOURCE_KEY;
                    value := value_bin folder_key |}] [] |}.

(** A SyncImportDeletes request for the messages of the source keys
    [keys], as soft deletes. *)
Definition deletes_request (keys : list (list Z)) : EcDoRpc_MAPI_REQ :=
  {| req_opnum := 0x74; req_handle_idx := 0;
     req_u := mapi_SyncImportDeletes 0
                [{| ulPropTag := 0; value := value_MVbin keys |}] |}.

(** A GetLocalReplicaIds request for [count] identifiers. *)
Definition replica_ids_request (count : Z) : EcDoRpc_MAPI_REQ :=
  {| req_opnum := 0x7f; req_handle_idx := 0;
     req_u := mapi_GetLocalReplicaIds count |}.

(** A store whose next free identifier is counter 7 of replica 1. *)
Definition allocating_store : sample_store :=
  {| messages := []; named_props := []; folder_props := [];
     next_fmid := 0x70001 |}.

(** A provider context over that store, whose handle 7 holds the
    inbox. *)
Definition allocating_context : emsmdbp_context :=
  context_holding (Object_external inbox) allocating_store.

(** The folder with two messages, with its content count. *)
Definition counted_messages : sample_store :=
  {| messages := [[(0x674a0014, D_uint64 0x50001)];
                  [(0x674a0014, D_uint64 0x60001)]];
     named_props := []; folder_props := [(0x36020003, D_uint32 2)];
     next_fmid := 0x70000 |}.

(** A SyncGetTransferState request on handle index 0, the new handle
    going to index 1. *)
Definition transfer_state_request : EcDoRpc_MAPI_REQ :=
  {| req_opnum := 0x82; req_handle_idx := 0;
     req_u := mapi_SyncGetTransferState 1 |}.

(** A GetBuffer request with the buffer size 0xBABE, which stands for
    the maximum [maximum]. *)
Definition getbuffer_maximum_request (maximum : Z) : EcDoRpc_MAPI_REQ :=
  {| req_opnum := 0x4e; req_handle_idx := 0;
     req_u := mapi_FastTransferSourceGetBuffer 0xBABE maximum |}.

(** The root of the folder tree, kept by mapistore. *)
Definition tree_root : sample_object := Folder 0x90001 true.

(** A hierarchy synchronization context as SyncConfigure leaves it, with
    the sets that a client uploaded. *)
Definition hierarchy_context (given seen : option (list Z))
  : emsmdbp_object_synccontext :=
  {| request := blank_request;
     properties := [PR_PARENT_FID; PR_FID; PR_CHANGE_KEY;
                    PR_LAST_MODIFICATION_TIME; PR_DISPLAY_NAME_UNICODE];
     idset_given := given; cnset_seen := seen; state_property := 0;
     state_stream := blank_stream; stream := blank_stream; cutmarks := [];
     next_cutmark_ptr := 0; steps := 0; total_steps := 0;
     is_collector := false |}.

End Sample.

(** [chunks_from B off chunks]: the first chunk is the bytes of [B] from
    offset [off] on, and every further chunk starts where the one before
    it ended. *)
Fixpoint chunks_from (B : list Z) (off : nat) (chunks : list (list Z)) : Prop :=
  match chunks with
  | [] => True
  | c :: chunks' =>
      c = take (length c) (drop off B) /\ chunks_from B (off + length c) chunks'
  end.

(** [ceil(a / b)] for positive [b] (specification side). *)
Definition ceil_div (a b : Z) : Z := (a + b - 1) / b.

(** ** Growth of a stream under serialization *)

(** [offsets_between lo hi ks]: the offsets [ks] never decrease, the
    first is at or after [lo] and the last at or before [hi]. *)
Fixpoint offsets_between (lo hi : nat) (ks : list nat) : Prop :=
  match ks with
  | [] => (lo <= hi)%nat
  | k :: ks' => (lo <= k)%nat /\ offsets_between k hi ks'
  end.

(** The cut-marks taken at the offsets [ks], as the 32-bit values that
    the sidecar holds. *)
Definition marks_at (ks : list nat) : list Z :=
  map (fun k => uint32 (Z.of_nat k)) ks.

(** [push_extends st st']: [st'] is [st] with bytes appended to the
    stream and cut-marks appended to the sidecar, each new cut-mark taken
    at an offset between the two stream lengths, in order. *)
Definition push_extends (st st' : push_state) : Prop :=
  exists bytes ks,
    ndr_data st'.1 = ndr_data st.1 ++ bytes
    /\ st'.2 = st.2 ++ marks_at ks
    /\ offsets_between (length (ndr_data st.1)) (length (ndr_data st'.1)) ks.

(** The property types that [oxcfxics_ndr_push_simple_data] has a case
    for. *)
Definition supported_types {K : mapi_constants} : list Z :=
  [ PT_I2; PT_LONG; PT_ERROR; PT_OBJECT; PT_DOUBLE; PT_I8; PT_BOOLEAN;
    PT_STRING8; PT_UNICODE; PT_SVREID; PT_BINARY; PT_CLSID; PT_SYSTIME ].

(** ** Views of a context for the chunker *)

(** The cut-marks of a context and the index where the cut-mark loop of
    GetBuffer starts. *)
Definition context_cutmarks {T : backend_types} (o : emsmdbp_object) : list Z :=
  match o with
  | Object_ftcontext ft => ft_cutmarks ft
  | Object_synccontext _ sc => cutmarks sc
  | Object_external _ => []
  end.

Definition context_next_cutmark_ptr {T : backend_types} (o : emsmdbp_object) : Z :=
  match o with
  | Object_ftcontext ft => ft_next_cutmark_ptr ft
  | Object_synccontext _ sc => next_cutmark_ptr sc
  | Object_external _ => 0
  end.

(** The sentinel [0xffffffff] lies at or after the index where the
    cut-mark loop starts, within the reach of its 16-bit index. *)
Definition sentinel_reachable {T : backend_types} (o : emsmdbp_object) : Prop :=
  exists i : nat,
    context_cutmarks o !! i = Some 0xffffffff
    /\ uint16 (context_next_cutmark_ptr o) <= Z.of_nat i < 65536.

(** The bytes that a read of [n] bytes at offset [pos] of [B] returns. *)
Definition chunk_at (B : list Z) (pos n : Z) : list Z :=
  take (Z.to_nat (Z.min (Z.of_nat (length B) - pos) n)) (drop (Z.to_nat pos) B).

(** ** Upload sessions *)

Section UploadSessions.
Context {K : mapi_constants} {T : backend_types} {E : externals}.

(** A whole upload: SyncUploadStateStreamBegin, one
    SyncUploadStateStreamContinue per request of [continue_reqs], then
    SyncUploadStateStreamEnd, each call on the state that the previous
    call left and on the reply structure [blank]. *)
Definition upload_calls (previous : option rop_result)
           (begin_req : EcDoRpc_MAPI_REQ)
           (continue_reqs : list EcDoRpc_MAPI_REQ)
           (end_req : EcDoRpc_MAPI_REQ) (blank : EcDoRpc_MAPI_REPL)
  : option rop_result :=
  let r := then_rop previous EcDoRpc_RopSyncUploadStateStreamBegin
                    begin_req blank in
  let r := foldl (fun r req =>
                    then_rop r EcDoRpc_RopSyncUploadStateStreamContinue
                             req blank)
                 r continue_reqs in
  then_rop r EcDoRpc_RopSyncUploadStateStreamEnd end_req blank.

(** The state properties that SyncUploadStateStreamBegin accepts. *)
Definition state_properties : list Z :=
  [PidTagIdsetGiven; PidTagCnsetSeen; PidTagCnsetSeenFAI; PidTagCnsetRead].

(** What a sequence of calls on the session of handle [h] keeps: the
    session holds [sc'], and the rest of the provider context and the
    handle array are those of [ctx] and [handles]. *)
Definition session_state (ctx : emsmdbp_context) (handles : list Z) (h : Z)
           (parent : ext_object) (sc' : emsmdbp_object_synccontext)
           (r : option rop_result) : Prop :=
  exists status rs,
    r = Some (status, Some rs)
    /\ status = MAPI_E_SUCCESS
    /\ error_code (rs_repl rs) = MAPI_E_SUCCESS
    /\ handles_ctx (rs_ctx rs) !! h = Some (Some (Object_synccontext parent sc'))
    /\ (forall h', h' <> h ->
                   handles_ctx (rs_ctx rs) !! h' = handles_ctx ctx !! h')
    /\ backend (rs_ctx rs) = backend ctx
    /\ rs_handles rs = handles.

(** A call that is refused: it returns, the error code of the reply is
    [code], and the provider context and the handle array are as
    before. *)
Definition rop_refused (handler : rop_handler) (ctx : emsmdbp_context)
           (req : EcDoRpc_MAPI_REQ) (repl : EcDoRpc_MAPI_REPL)
           (handles : list Z) (size : Z) (code : MAPISTATUS) : Prop :=
  exists rs,
    handler (Some ctx) (Some req) (Some repl) (Some handles) (Some size)
    = Some (MAPI_E_SUCCESS, Some rs)
    /\ error_code (rs_repl rs) = code
    /\ rs_ctx rs = ctx /\ rs_handles rs = handles.

End UploadSessions.

(** ** Replies *)

Section Replies.
Context {K : mapi_constants} {T : backend_types} {E : externals}.

(** The handle index that a handler writes into the reply: the one of
    the request, but for the five operations that create a handle, whose
    request carries the index for the new handle. *)
Definition reply_handle_idx (op : rop) (req : EcDoRpc_MAPI_REQ) : Z :=
  match op, req_u req with
  | RopFastTransferSourceCopyTo, mapi_FastTransferSourceCopyTo idx _ _
  | RopSyncConfigure, mapi_SyncConfigure idx _ _ _ _ _
  | RopSyncImportMessageChange, mapi_SyncImportMessageChange idx _ _
  | RopSyncOpenCollector, mapi_SyncOpenCollector idx _
  | RopSyncGetTransferState, mapi_SyncGetTransferState idx => idx
  | _, _ => req_handle_idx req
  end.

(** The handlers in which no error path follows a change of the provider
    context or of the handle array. *)
Definition fails_cleanly (op : rop) : bool :=
  match op with
  | RopFastTransferSourceCopyTo | RopSyncImportMessageChange
  | RopSyncImportHierarchyChange => false
  | _ => true
  end.

End Replies.

(** ** Handle creation *)

(** The five operations that create a handle and write it into the
    handle array. *)
Definition creates_handle (op : rop) : bool :=
  match op with
  | RopFastTransferSourceCopyTo | RopSyncConfigure
  | RopSyncImportMessageChange | RopSyncOpenCollector
  | RopSyncGetTransferState => true
  | _ => false
  end.

(** ** Rows that the client has seen *)

Section SeenRows.
Context {K : mapi_constants} {T : backend_types} {E : externals}.

(** The column indexes that
    [oxcfxics_prepare_synccontext_with_messageChange] looks up in the
    property array of the context. *)
Definition contents_prop_index (props : list Z) : oxcfxics_prop_index :=
  {| ix_parent_fid := 0;
     ix_eid := find_index props PR_MID;
     ix_precedessor_change_list := find_index props PR_PREDECESSOR_CHANGE_LIST;
     ix_last_modification_time := find_index props PR_LAST_MODIFICATION_TIME;
     ix_display_name := 0;
     ix_associated := find_index props PR_ASSOCIATED;
     ix_message_size := find_index props PR_MESSAGE_SIZE |}.

(** The change number that the loop of [oxcfxics_push_messageChange]
    computes for row [i] of [table], from the [eid] of the row and its
    last modification time. *)
Definition messageChange_row_cn (s : store) (table : table_object)
           (props : list Z) (ix : oxcfxics_prop_index) (i : Z) : option Z :=
  '(data_pointers, retvals) ←
    emsmdbp_object_table_get_row_props s table props i;
  eid ← deref_uint64 data_pointers (ix_eid ix);
  '(_, t) ← row_last_modification_time data_pointers retvals
              (ix_last_modification_time ix);
  Some (change_number eid (uint32 t)).

(** The state block of a contents stream for the sets [cnset] and
    [given]. *)
Definition contents_state_block (rq : sync_request)
           (cnset given : option idset) : list Z :=
  le_bytes 4 PR_INCR_SYNC_STATE_BEGIN
  ++ le_bytes 4 PidTagCnsetSeen ++ idset_serialized cnset
  ++ (if fai rq
      then le_bytes 4 PidTagCnsetSeenFAI ++ idset_serialized cnset
      else [])
  ++ le_bytes 4 PidTagIdsetGiven ++ idset_serialized given
  ++ (if read_state rq
      then le_bytes 4 PidTagCnsetRead ++ idset_serialized cnset
      else [])
  ++ le_bytes 4 PR_INCR_SYNC_STATE_END
  ++ le_bytes 4 PR_INCR_SYNC_END.

End SeenRows.

(** ** The property array of a configured context *)

Section ConfiguredProperties.
Context {K : mapi_constants}.

(** The columns that SyncConfigure puts first into the property array of
    a context, by synchronization type. *)
Definition mandatory_properties (contents : bool) : list Z :=
  (if contents
   then [PR_MID; PR_ASSOCIATED; PR_MESSAGE_SIZE; PR_CHANGE_NUM]
   else [PR_PARENT_FID; PR_FID])
  ++ [PR_CHANGE_KEY; PR_LAST_MODIFICATION_TIME; PR_DISPLAY_NAME_UNICODE].

(** What the loops of SyncConfigure keep about the exclusion array and
    the property array: the array starts with the mandatory columns, no
    two of its tags share a property id, and the id of each is
    excluded. *)
Definition properties_invariant (mandatory : list Z)
           (st : gset Z * list Z) : Prop :=
  mandatory `prefix_of` st.2
  /\ NoDup (map prop_id st.2)
  /\ forall tag, tag ∈ st.2 -> prop_id tag ∈ st.1.

End ConfiguredProperties.

(** ** The state block of SyncGetTransferState *)

Section TransferState.
Context {K : mapi_constants} {T : backend_types} {E : externals}.

(** The stream of [oxcfxics_ndr_push_transfer_state] for the sets
    [cnset] and [given]. *)
Definition transfer_state_block (rq : sync_request)
           (cnset given : option idset) : list Z :=
  le_bytes 4 PR_INCR_SYNC_STATE_BEGIN
  ++ le_bytes 4 PidTagCnsetSeen ++ idset_serialized cnset
  ++ (if contents_mode rq && fai rq
      then le_bytes 4 PidTagCnsetSeenFAI ++ idset_serialized cnset
      else [])
  ++ le_bytes 4 PidTagIdsetGiven ++ idset_serialized given
  ++ (if contents_mode rq && read_state rq
      then le_bytes 4 PidTagCnsetRead ++ idset_serialized cnset
      else [])
  ++ le_bytes 4 PR_INCR_SYNC_STATE_END.

End TransferState.

(** ** A whole synchronization download *)

Section Downloads.
Context {K : mapi_constants} {T : backend_types} {E : externals}.

(** The stream construction of the first GetBuffer call on a
    synchronization context: by
    [oxcfxics_prepare_synccontext_with_messageChange] in contents mode,
    by [oxcfxics_prepare_synccontext_with_folderChange] otherwise. *)
Definition prepare_synccontext (depth : nat) (s : store)
           (parent_object : ext_object) (sc : emsmdbp_object_synccontext)
  : option emsmdbp_object_synccontext :=
  if contents_mode (request sc)
  then oxcfxics_prepare_synccontext_with_messageChange s parent_object sc
  else oxcfxics_prepare_synccontext_with_folderChange depth s parent_object sc.

End Downloads.

(** ** The flag word of a push buffer *)

(** Every flag of [f] is set in [g]. *)
Definition flags_within (f g : Z) : Prop := Z.lor f g = g.

(** ** The folder records of a hierarchy stream *)

Section HierarchyRecords.
Context {K : mapi_constants} {T : backend_types} {E : externals}.

(** The folder records of a hierarchy stream: what
    [oxcfxics_prepare_synccontext_with_folderChange] has pushed and
    collected when [oxcfxics_push_folderChange] returns, before the state
    block. *)
Definition hierarchy_records (depth : nat) (s : store)
           (parent_object : ext_object)
           (synccontext : emsmdbp_object_synccontext)
  : option oxcfxics_sync_data :=
  let props := properties synccontext in
  let sd := {|
    replica_guid := mailbox_replica_guid s;
    table_type := 0;
    prop_index := {|
      ix_parent_fid := find_index props PR_PARENT_FID;
      ix_eid := find_index props PR_FID;
      ix_precedessor_change_list := find_index props PR_PREDECESSOR_CHANGE_LIST;
      ix_last_modification_time := find_index props PR_LAST_MODIFICATION_TIME;
      ix_display_name := find_index props PR_DISPLAY_NAME_UNICODE;
      ix_associated := 0;
      ix_message_size := 0 |};
    sd_properties := props;
    sd_push := (ndr_push_init, []);
    eid_set := RAWIDSET_make false;
    sd_cnset_seen := RAWIDSET_make true |} in
  oxcfxics_push_folderChange depth s synccontext true sd (Some parent_object).

End HierarchyRecords.

(** * Properties *)

Section CodecFacts.

Import Codec.

Lemma lor_disjoint_add (a b k : Z) :
  0 <= k -> 0 <= a < 2 ^ k -> 0 <= b ->
  Z.lor a (b * 2 ^ k) = a + b * 2 ^ k.
Proof.
  intros Hk Ha Hb.
  assert (Hland : Z.land a (b * 2 ^ k) = 0).
  { apply Z.bits_inj'. intros n Hn.
    rewrite Z.land_spec, Z.bits_0.
    destruct (Z.lt_ge_cases n k) as [Hlt | Hge].
    - rewrite Z.mul_pow2_bits_low by lia. apply andb_false_r.
    - destruct (Z.eq_dec a 0) as [-> | Hne].
      + now rewrite Z.bits_0.
      + rewrite (Z.bits_above_log2 a n); [reflexivity | lia |].
        apply Z.log2_lt_pow2; [lia |].
        apply Z.lt_le_trans with (2 ^ k); [lia |].
        apply Z.pow_le_mono_r; lia. }
  rewrite <- Z.lxor_lor by exact Hland.
  symmetry. apply Z.add_nocarry_lxor. exact Hland.
Qed.

Lemma gc_loop_length n gc : length (gc_loop n gc) = n.
Proof. revert gc. induction n; intros; simpl; [reflexivity | now rewrite IHn]. Qed.

Lemma gc_loop_bytes n gc : Forall is_byte (gc_loop n gc).
Proof.
  revert gc. induction n; intros gc; simpl; constructor; [| apply IHn].
  unfold is_byte. change 0xff with (Z.ones 8). rewrite Z.land_ones by lia.
  apply Z.mod_pos_bound. lia.
Qed.

Lemma fmid_loop_decodes n :
  forall (bytes tl : list Z) (fmid k : Z),
    length bytes = n -> Forall is_byte bytes ->
    0 <= k -> 0 <= fmid < 2 ^ (8 * k) -> 8 * k + 8 * Z.of_nat n <= 56 ->
    fmid_loop n (bytes ++ tl) fmid (2 ^ (8 * k))
    = Some (fmid + 2 ^ (8 * k) * le_value bytes).
Proof.
  induction n as [| n IH]; intros bytes tl fmid k Hlen Hb Hk Hf Hbound.
  - destruct bytes; [| discriminate]. simpl. f_equal. lia.
  - destruct bytes as [| b bytes]; [discriminate |].
    inversion Hb as [| ? ? Hb0 Hbs]; subst. simpl in Hlen.
    injection Hlen as Hlen. unfold is_byte in Hb0.
    cbn [app fmid_loop le_value].
    assert (Hpow : 2 ^ (8 * (k + 1)) = 2 ^ (8 * k) * 256).
    { replace (8 * (k + 1)) with (8 * k + 8) by lia.
      rewrite Z.pow_add_r by lia. reflexivity. }
    assert (Hpk : 0 < 2 ^ (8 * k)) by (apply Z.pow_pos_nonneg; lia).
    assert (Hle64 : 2 ^ (8 * (k + 1)) <= 2 ^ 64)
      by (apply Z.pow_le_mono_r; lia).
    assert (Hbase : uint64 (Z.shiftl (2 ^ (8 * k)) 8) = 2 ^ (8 * (k + 1))).
    { rewrite Z.shiftl_mul_pow2 by lia. unfold uint64.
      change (2 ^ 8) with 256. rewrite <- Hpow.
      apply Z.mod_small. split; [lia |].
      apply Z.pow_lt_mono_r; lia. }
    assert (Hprod : uint64 (b * 2 ^ (8 * k)) = b * 2 ^ (8 * k)).
    { unfold uint64. apply Z.mod_small. split; [nia |].
      apply Z.lt_le_trans with (2 ^ (8 * (k + 1))); [nia | exact Hle64]. }
    rewrite Hbase, Hprod.
    rewrite lor_disjoint_add by lia.
    rewrite (IH bytes tl _ (k + 1)); try assumption; try lia.
    + f_equal. rewrite Hpow. ring.
    + rewrite Hpow.
      assert (b * 2 ^ (8 * k) <= 255 * 2 ^ (8 * k))
        by (apply Z.mul_le_mono_nonneg_r; lia).
      assert (0 <= b * 2 ^ (8 * k)) by (apply Z.mul_nonneg_nonneg; lia).
      lia.
Qed.

Lemma le_value_gc_loop n :
  forall gc, 0 <= gc -> le_value (gc_loop n gc) = gc mod 2 ^ (8 * Z.of_nat n).
Proof.
  induction n as [| n IH]; intros gc Hgc.
  - simpl. now rewrite Z.mod_1_r.
  - cbn [gc_loop le_value]. rewrite IH by (apply Z.shiftr_nonneg; lia).
    change 0xff with (Z.ones 8). rewrite Z.land_ones by lia.
    rewrite Z.shiftr_div_pow2 by lia.
    replace (8 * Z.of_nat (S n)) with (8 + 8 * Z.of_nat n) by lia.
    rewrite Z.pow_add_r by lia.
    change (2 ^ 8) with 256.
    rewrite (Z.rem_mul_r gc 256 (2 ^ (8 * Z.of_nat n))); [reflexivity | lia |].
    apply Z.pow_pos_nonneg; lia.
Qed.

End CodecFacts.

(** ** The ID codec *)

Section CodecTheorems.

Import Codec.

(** C1. For every 64-bit FMID [f] whose low 16 bits resolve to a 16-byte
    replica GUID that the registry maps back to them,
    [oxcfxics_source_key_from_fmid] yields a 22-byte source key and
    [oxcfxics_fmid_from_source_key] on that key succeeds with exactly
    [f]. *)
Theorem fmid_source_key_round_trip
        (replid_to_guid : Z -> option GUID) (guid_to_replid : GUID -> option Z)
        (f : Z) (g : GUID) :
  0 <= f < 2 ^ 64 ->
  replid_to_guid (Z.land f 0xffff) = Some g ->
  length g = 16%nat ->
  guid_to_replid g = Some (Z.land f 0xffff) ->
  exists sk,
    oxcfxics_source_key_from_fmid replid_to_guid f = (MAPISTORE_SUCCESS, Some sk)
    /\ length sk = 22%nat
    /\ oxcfxics_fmid_from_source_key guid_to_replid sk
       = Some (MAPISTORE_SUCCESS, Some f).
Proof.
  intros Hf Hg Hlen Hback.
  unfold oxcfxics_source_key_from_fmid. rewrite Hg.
  eexists. split; [reflexivity |].
  split; [rewrite length_app, gc_loop_length, Hlen; reflexivity |].
  unfold oxcfxics_fmid_from_source_key.
  rewrite length_app, gc_loop_length, Hlen.
  change (Z.of_nat (16 + 6) <? 16) with false. cbv iota.
  rewrite take_app_length' by (symmetry; exact Hlen).
  rewrite drop_app_length' by (symmetry; exact Hlen).
  rewrite Hback.
  set (gc := Z.shiftr f 16).
  assert (Hgc : 0 <= gc < 2 ^ 48).
  { unfold gc. rewrite Z.shiftr_div_pow2 by lia. split.
    - apply Z.div_pos; lia.
    - apply Z.div_lt_upper_bound; [lia |].
      change (2 ^ 16 * 2 ^ 48) with (2 ^ 64). lia. }
  pose proof (fmid_loop_decodes 6 (gc_loop 6 gc) [] 0 0) as Hloop.
  rewrite app_nil_r in Hloop. change (2 ^ (8 * 0)) with 1 in Hloop.
  rewrite Hloop; [| apply gc_loop_length | apply gc_loop_bytes | lia | lia | lia].
  rewrite le_value_gc_loop by lia.
  change (8 * Z.of_nat 6) with 48.
  rewrite (Z.mod_small gc) by lia.
  replace (0 + 1 * gc) with gc by ring.
  do 3 f_equal.
  rewrite Z.shiftl_mul_pow2 by lia.
  assert (Hmul : uint64 (gc * 2 ^ 16) = gc * 2 ^ 16).
  { unfold uint64. apply Z.mod_small. lia. }
  rewrite Hmul. change 0xffff with (Z.ones 16).
  rewrite Z.land_ones by lia.
  rewrite Z.lor_comm, lor_disjoint_add;
    [| lia | apply Z.mod_pos_bound; lia | lia].
  unfold gc. rewrite Z.shiftr_div_pow2 by lia.
  pose proof (Z.div_mod f (2 ^ 16)). lia.
Qed.

(** The witness of C1: FMID [0x0000000000050001] (counter 5, replica 1). *)
Lemma fmid_source_key_round_trip_witness :
  exists sk,
    oxcfxics_source_key_from_fmid Sample.replid_to_guid 0x50001
    = (MAPISTORE_SUCCESS, Some sk)
    /\ length sk = 22%nat
    /\ oxcfxics_fmid_from_source_key Sample.guid_to_replid sk
       = Some (MAPISTORE_SUCCESS, Some 0x50001).
Proof.
  apply (fmid_source_key_round_trip Sample.replid_to_guid
           Sample.guid_to_replid 0x50001 Sample.guid_A).
  - lia.
  - reflexivity.
  - reflexivity.
  - reflexivity.
Defined.

(** C7, as stated, fails: a source key of 23 bytes is not rejected.
    With the mailbox GUID in front, the counter bytes [05 00 00 00 00 00]
    and one more byte, the function succeeds with FMID [0x50001]. *)
Lemma fmid_from_source_key_accepts_23_bytes :
  let sk := Sample.guid_A ++ [5; 0; 0; 0; 0; 0] ++ [0x99] in
  length sk = 23%nat
  /\ oxcfxics_fmid_from_source_key Sample.guid_to_replid sk
     = Some (MAPISTORE_SUCCESS, Some 0x50001).
Proof. split; reflexivity. Qed.

(** C7, amended.  [oxcfxics_fmid_from_source_key] does not check the
    length of the key, it reads its first 22 bytes: on a key of at least
    22 bytes it returns [MAPISTORE_ERROR] when the registry does not know
    the 16-byte prefix, and otherwise succeeds with
    [(gc << 16) | replica_id], [gc] being the little-endian value of
    bytes 16 to 21. *)
Theorem fmid_from_source_key_spec
        (guid_to_replid : GUID -> option Z) (sk : list Z) :
  (22 <= length sk)%nat ->
  Forall is_byte sk ->
  match guid_to_replid (take 16 sk) with
  | None =>
      oxcfxics_fmid_from_source_key guid_to_replid sk
      = Some (MAPISTORE_ERROR, None)
  | Some replid =>
      oxcfxics_fmid_from_source_key guid_to_replid sk
      = Some (MAPISTORE_SUCCESS,
              Some (Z.lor (Z.shiftl (le_value (take 6 (drop 16 sk))) 16)
                          replid))
  end.
Proof.
  intros Hlen Hbytes.
  unfold oxcfxics_fmid_from_source_key.
  assert (Hfalse : (Z.of_nat (length sk) <? 16) = false)
    by (apply Z.ltb_ge; lia).
  rewrite Hfalse.
  destruct (guid_to_replid (take 16 sk)) as [replid |]; [| reflexivity].
  set (tail := drop 16 sk).
  assert (Htail : tail = take 6 tail ++ drop 6 tail)
    by (symmetry; apply take_drop).
  assert (Hlen6 : length (take 6 tail) = 6%nat).
  { rewrite length_take. unfold tail. rewrite length_drop. lia. }
  assert (Hb6 : Forall is_byte (take 6 tail)).
  { apply Forall_take. unfold tail. apply Forall_drop. exact Hbytes. }
  pose proof (fmid_loop_decodes 6 (take 6 tail) (drop 6 tail) 0 0
                                Hlen6 Hb6) as Hloop.
  rewrite <- Htail in Hloop. change (2 ^ (8 * 0)) with 1 in Hloop.
  rewrite Hloop by lia.
  replace (0 + 1 * le_value (take 6 tail)) with (le_value (take 6 tail))
    by ring.
  do 4 f_equal.
  assert (Hrange : 0 <= le_value (take 6 tail) < 2 ^ 48).
  { clear - Hlen6 Hb6.
    assert (Hgen : forall l, Forall is_byte l ->
              0 <= le_value l < 2 ^ (8 * Z.of_nat (length l))).
    { induction 1 as [| b l Hb _ IH]; cbn [le_value length].
      - change (2 ^ (8 * Z.of_nat 0)) with 1. lia.
      - unfold is_byte in Hb.
        replace (8 * Z.of_nat (S (length l)))
          with (8 + 8 * Z.of_nat (length l)) by lia.
        rewrite Z.pow_add_r by lia. change (2 ^ 8) with 256. lia. }
    specialize (Hgen _ Hb6). rewrite Hlen6 in Hgen. exact Hgen. }
  unfold uint64. rewrite Z.shiftl_mul_pow2 by lia.
  apply Z.mod_small.
  change (2 ^ 64) with (2 ^ 48 * 2 ^ 16). nia.
Qed.

(** The witness of C7 amended: a 23-byte key with a known prefix, and a
    22-byte key with an unknown one. *)
Lemma fmid_from_source_key_spec_witness :
  oxcfxics_fmid_from_source_key Sample.guid_to_replid
    (Sample.guid_A ++ [5; 0; 0; 0; 0; 0] ++ [0x99])
  = Some (MAPISTORE_SUCCESS, Some 0x50001)
  /\ oxcfxics_fmid_from_source_key Sample.guid_to_replid
       (Sample.guid_X ++ [5; 0; 0; 0; 0; 0])
     = Some (MAPISTORE_ERROR, None).
Proof.
  split.
  - refine (fmid_from_source_key_spec Sample.guid_to_replid
              (Sample.guid_A ++ [5; 0; 0; 0; 0; 0] ++ [0x99]) _ _).
    + vm_compute. lia.
    + unfold is_byte. apply (bool_decide_unpack _). vm_compute. exact I.
  - refine (fmid_from_source_key_spec Sample.guid_to_replid
              (Sample.guid_X ++ [5; 0; 0; 0; 0; 0]) _ _).
    + vm_compute. lia.
    + unfold is_byte. apply (bool_decide_unpack _). vm_compute. exact I.
Defined.

End CodecTheorems.

(** ** The stream chunker *)

Section ChunkerFacts.
Context {K : mapi_constants} {T : backend_types} {E : externals}.

(** Splits a conjunction into its parts, and nothing else. *)
Ltac conjuncts := repeat match goal with |- _ /\ _ => split end.

Lemma take_length_take {A} (k : nat) (l : list A) :
  take (length (take k l)) l = take k l.
Proof.
  rewrite length_take.
  destruct (Nat.le_gt_cases k (length l)) as [Hle | Hgt].
  - now rewrite Nat.min_l by exact Hle.
  - rewrite Nat.min_r by lia. rewrite !take_ge by lia. reflexivity.
Qed.

(** What [emsmdbp_stream_read_buffer] returns and leaves. *)
Lemma read_buffer_facts (st : emsmdbp_stream) (n : Z) :
  let st' := (emsmdbp_stream_read_buffer st n).1 in
  let chunk := (emsmdbp_stream_read_buffer st n).2 in
  buffer st' = buffer st
  /\ position st' = position st + Z.of_nat (length chunk)
  /\ chunk = take (length chunk)
                  (drop (Z.to_nat (position st)) (default [] (buffer st)))
  /\ (0 <= position st <= buffer_length st ->
      position st' <= buffer_length st)
  /\ (0 < n -> 0 <= position st < buffer_length st ->
      (0 < length chunk)%nat).
Proof.
  unfold emsmdbp_stream_read_buffer. cbn [fst snd position buffer].
  set (data := default [] (buffer st)).
  assert (Hlen : buffer_length st = Z.of_nat (length data)).
  { unfold buffer_length, data. destruct (buffer st); reflexivity. }
  split; [reflexivity |]. split; [reflexivity |].
  split; [symmetry; apply take_length_take |].
  rewrite Hlen. rewrite length_take, length_drop. split; intros; lia.
Qed.

(** The cut never turns a positive buffer size into an empty read. *)
Lemma cut_buffer_size_positive position length cutmarks ptr position' bs n :
  cut_buffer_size position length cutmarks ptr position' bs = Some n ->
  0 < bs -> 0 < n.
Proof.
  unfold cut_buffer_size. intros H Hbs.
  destruct (uint16 position + bs <? length); [| congruence].
  destruct (cutmark_loop _ _ _ _ _) as [pos |]; [| discriminate].
  cbn in H.
  destruct (position' <? pos); [| congruence].
  destruct (0 <? uint16 (pos - position)) eqn:Hpos; cbn in H; [| congruence].
  destruct (uint16 (pos - position) <? bs); cbn in H; [| congruence].
  apply Z.ltb_lt in Hpos. congruence.
Qed.

(** One GetBuffer call on a context object. *)
Lemma getbuffer_step_facts depth s o bs o' r :
  getbuffer_step depth s o bs = Some (o', r) ->
  context_prepared o' = true
  /\ (context_prepared o = true -> context_bytes o' = context_bytes o)
  /\ context_position o'
     = context_position o + Z.of_nat (length (TransferBuffer r))
  /\ TransferBuffer r
     = take (length (TransferBuffer r))
            (drop (Z.to_nat (context_position o)) (context_bytes o'))
  /\ TransferStatus_ r
     = (if context_position o' =? Z.of_nat (length (context_bytes o'))
        then TransferStatus_Done else TransferStatus_Partial)
  /\ TotalStepCount r = to_StepCount_t (context_total_steps o')
  /\ (context_recomputes o = true ->
      bs <> 0
      /\ context_total_steps o'
         = to_steps_t (Z.of_nat (length (context_bytes o')) / bs + 1))
  /\ (context_recomputes o = false ->
      context_total_steps o' = context_total_steps o)
  /\ (0 <= context_position o <= Z.of_nat (length (context_bytes o')) ->
      context_position o' <= Z.of_nat (length (context_bytes o')))
  /\ (0 < bs ->
      0 <= context_position o < Z.of_nat (length (context_bytes o')) ->
      (0 < length (TransferBuffer r))%nat)
  /\ (match o, o' with
      | Object_ftcontext _, Object_ftcontext _ => True
      | Object_synccontext p _, Object_synccontext p' _ => p = p'
      | _, _ => False
      end).
Proof.
  intros Hstep. destruct o as [parent sc | ft | x]; [| | discriminate].
  - (* synchronization context *)
    cbn [getbuffer_step] in Hstep.
    destruct (getbuffer_synccontext depth s parent sc bs) as [[sc' r'] |] eqn:Hget;
      [| discriminate].
    cbn in Hstep. injection Hstep as <- <-.
    unfold getbuffer_synccontext in Hget.
    (* the context after the optional preparation *)
    set (pre := match buffer (stream sc) with
                | Some _ => Some sc
                | None => _
                end) in Hget.
    destruct pre as [sc0 |] eqn:Hpre; [| discriminate].
    cbn [mbind option_bind] in Hget.
    set (sc1 := set_steps sc0 (to_steps_t (steps sc0 + 1)) (total_steps sc0)) in Hget.
    destruct (cut_buffer_size _ _ _ _ _ bs) as [n |] eqn:Hcut; [| discriminate].
    cbn [mbind option_bind] in Hget.
    pose proof (read_buffer_facts (stream sc1) n) as Hread.
    destruct (emsmdbp_stream_read_buffer (stream sc1) n) as [st' chunk] eqn:Hrb.
    cbn [fst snd] in Hread.
    destruct Hread as (Hbuf & Hposn & Hchunk & Hbound & Hprogress).
    injection Hget as <- <-.
    (* facts about the prepared context *)
    assert (Hsc0 : is_Some (buffer (stream sc0))
                   /\ position (stream sc0) = position (stream sc)
                   /\ (is_Some (buffer (stream sc)) -> sc0 = sc)
                   /\ (buffer (stream sc) = None ->
                       bs <> 0
                       /\ total_steps sc0
                          = to_steps_t (buffer_length (stream sc0) / bs + 1))).
    { subst pre. destruct (buffer (stream sc)) as [d |] eqn:Hb.
      - injection Hpre as <-. rewrite Hb.
        conjuncts; eauto; intros; discriminate.
      - destruct (if contents_mode (request sc) then _ else _)
          as [scp |] eqn:Hprep; [| discriminate].
        cbn [mbind option_bind] in Hpre.
        destruct (bs =? 0) eqn:Hbs0; [discriminate |].
        injection Hpre as <-. apply Z.eqb_neq in Hbs0.
        assert (Hscp : is_Some (buffer (stream scp))
                       /\ position (stream scp) = position (stream sc)).
        { destruct (contents_mode (request sc)).
          - unfold oxcfxics_prepare_synccontext_with_messageChange in Hprep.
            destruct (contents_records s parent sc); [| discriminate].
            cbn [mbind option_bind] in Hprep.
            destruct (push_contents_state sc o) as [sc2 st2] eqn:Hpcs.
            injection Hprep as <-. unfold push_contents_state in Hpcs.
            injection Hpcs as <- <-. cbn. eauto.
          - unfold oxcfxics_prepare_synccontext_with_folderChange in Hprep.
            destruct (oxcfxics_push_folderChange _ _ _ _ _ _); [| discriminate].
            cbn [mbind option_bind] in Hprep.
            destruct (push_hierarchy_state sc o) as [sc2 st2] eqn:Hphs.
            injection Hprep as <-. unfold push_hierarchy_state in Hphs.
            injection Hphs as <- <-. cbn. eauto. }
        destruct Hscp as [Hsome Hp]. cbn [set_steps stream total_steps].
        conjuncts; eauto.
        intros [? ?]; discriminate. }
    destruct Hsc0 as (Hsome0 & Hpos0 & Hsame & Hfresh).
    destruct Hsome0 as [B HB].
    assert (Hstream1 : stream sc1 = stream sc0) by reflexivity.
    rewrite Hstream1 in *. subst sc1.
    unfold context_prepared, context_bytes, context_position,
      context_total_steps, context_recomputes, context_stream.
    cbn [set_stream set_steps stream total_steps getbuffer_repl
         TransferBuffer TransferStatus_ TotalStepCount].
    assert (HbufB : buffer st' = Some B) by congruence.
    rewrite HbufB. cbn [default from_option id].
    assert (Hblen : buffer_length st' = Z.of_nat (length B)).
    { unfold buffer_length. now rewrite HbufB. }
    assert (Hblen0 : buffer_length (stream sc0) = Z.of_nat (length B)).
    { unfold buffer_length. now rewrite HB. }
    rewrite HB in Hchunk. cbn [default from_option id] in Hchunk.
    rewrite Hblen. rewrite <- Hpos0.
    conjuncts.
    + apply bool_decide_eq_true_2. eauto.
    + intros Hprep. apply bool_decide_eq_true_1 in Hprep.
      rewrite <- (Hsame Hprep), HB. reflexivity.
    + exact Hposn.
    + exact Hchunk.
    + reflexivity.
    + reflexivity.
    + intros Hrec. apply negb_true_iff, bool_decide_eq_false_1 in Hrec.
      destruct (buffer (stream sc)) eqn:Hb; [exfalso; apply Hrec; eauto |].
      destruct (Hfresh eq_refl) as [Hne ->]. rewrite Hblen0. now split.
    + intros Hrec. apply negb_false_iff, bool_decide_eq_true_1 in Hrec.
      now rewrite (Hsame Hrec).
    + rewrite Hblen0 in Hbound. exact Hbound.
    + intros Hbs Hrange. apply Hprogress.
      * eapply cut_buffer_size_positive; eauto.
      * now rewrite Hblen0.
    + reflexivity.
  - (* transfer context *)
    cbn [getbuffer_step] in Hstep.
    destruct (getbuffer_ftcontext ft bs) as [[ft' r'] |] eqn:Hget;
      [| discriminate].
    cbn in Hstep. injection Hstep as <- <-.
    unfold getbuffer_ftcontext in Hget.
    set (pre := if position (ft_stream ft) =? 0 then _ else Some ft) in Hget.
    destruct pre as [ft0 |] eqn:Hpre; [| discriminate].
    cbn [mbind option_bind] in Hget.
    set (ft1 := set_ft_steps ft0 (to_steps_t (ft_steps ft0 + 1))
                             (ft_total_steps ft0)) in Hget.
    destruct (cut_buffer_size _ _ _ _ _ bs) as [n |] eqn:Hcut; [| discriminate].
    cbn [mbind option_bind] in Hget.
    pose proof (read_buffer_facts (ft_stream ft1) n) as Hread.
    destruct (emsmdbp_stream_read_buffer (ft_stream ft1) n) as [st' chunk] eqn:Hrb.
    cbn [fst snd] in Hread.
    destruct Hread as (Hbuf & Hposn & Hchunk & Hbound & Hprogress).
    injection Hget as <- <-.
    assert (Hft0 : ft_stream ft0 = ft_stream ft
                   /\ ((position (ft_stream ft) =? 0) = true ->
                       bs <> 0
                       /\ ft_total_steps ft0
                          = to_steps_t (buffer_length (ft_stream ft) / bs + 1))
                   /\ ((position (ft_stream ft) =? 0) = false ->
                       ft_total_steps ft0 = ft_total_steps ft)).
    { subst pre. destruct (position (ft_stream ft) =? 0).
      - destruct (bs =? 0) eqn:Hbs0; [discriminate |].
        injection Hpre as <-. apply Z.eqb_neq in Hbs0.
        conjuncts; eauto; intros; discriminate.
      - injection Hpre as <-. conjuncts; eauto; intros; discriminate. }
    destruct Hft0 as (Hst0 & Hfresh & Hkeep).
    assert (Hstream1 : ft_stream ft1 = ft_stream ft) by (rewrite <- Hst0; reflexivity).
    rewrite Hstream1 in *. subst ft1.
    unfold context_prepared, context_bytes, context_position,
      context_total_steps, context_recomputes, context_stream.
    cbn [set_ft_stream ft_stream ft_total_steps getbuffer_repl TransferBuffer
         TransferStatus_ TotalStepCount set_ft_steps].
    rewrite Hbuf.
    assert (Hblen : buffer_length st'
                    = Z.of_nat (length (default [] (buffer (ft_stream ft))))).
    { unfold buffer_length. rewrite Hbuf.
      destruct (buffer (ft_stream ft)); reflexivity. }
    assert (Hblen0 : buffer_length (ft_stream ft)
                     = Z.of_nat (length (default [] (buffer (ft_stream ft))))).
    { unfold buffer_length. destruct (buffer (ft_stream ft)); reflexivity. }
    rewrite Hblen.
    conjuncts.
    + reflexivity.
    + reflexivity.
    + exact Hposn.
    + exact Hchunk.
    + reflexivity.
    + reflexivity.
    + intros Hrec. destruct (Hfresh Hrec) as [Hne ->].
      rewrite Hblen0. now split.
    + intros Hrec. apply (Hkeep Hrec).
    + rewrite Hblen0 in Hbound. exact Hbound.
    + intros Hbs Hrange. apply Hprogress.
      * eapply cut_buffer_size_positive; eauto.
      * now rewrite Hblen0.
    + exact I.
Qed.

Lemma uint16_nonneg z : 0 <= uint16 z.
Proof. unfold uint16. apply Z.mod_pos_bound. lia. Qed.

Lemma effective_buffer_size_nonneg req : 0 <= effective_buffer_size req.
Proof.
  unfold effective_buffer_size.
  destruct (req_u req); try lia.
  destruct (_ =? _); apply uint16_nonneg.
Qed.

(** The handler on a handle that holds a context is the step on the
    context. *)
Lemma getbuffer_handler_step depth ctx req blank handles size h o status rs :
  handles_get handles (req_handle_idx req) = Some h ->
  handles_ctx ctx !! h = Some (Some o) ->
  is_Some (context_stream o) ->
  EcDoRpc_RopFastTransferSourceGetBuffer depth (Some ctx) (Some req)
    (Some blank) (Some handles) (Some size) = Some (status, Some rs) ->
  exists o' r,
    getbuffer_step depth (backend ctx) o (effective_buffer_size req)
    = Some (o', r)
    /\ status = MAPI_E_SUCCESS
    /\ handles_ctx (rs_ctx rs) !! h = Some (Some o')
    /\ backend (rs_ctx rs) = backend ctx
    /\ rs_handles rs = handles
    /\ transfer_of (rs_repl rs) = Some r
    /\ error_code (rs_repl rs) = MAPI_E_SUCCESS.
Proof.
  intros Hh Hobj Hctx Hcall.
  unfold EcDoRpc_RopFastTransferSourceGetBuffer, sanity_checks in Hcall.
  rewrite Hh in Hcall. cbn [mbind option_bind] in Hcall.
  rewrite Hobj in Hcall.
  unfold effective_buffer_size.
  destruct (req_u req) eqn:Hu; try discriminate.
  set (bs := if BufferSize =? 47806 then _ else _) in *.
  destruct o as [parent sc | ft | x].
  - cbn [getbuffer_step].
    destruct (getbuffer_synccontext _ _ _ _ _) as [[sc' r] |]; [| discriminate].
    cbn in Hcall. unfold rop_end in Hcall. injection Hcall as <- <-.
    exists (Object_synccontext parent sc'), r. cbn.
    rewrite lookup_insert_eq. auto 10.
  - cbn [getbuffer_step].
    destruct (getbuffer_ftcontext _ _) as [[ft' r] |]; [| discriminate].
    cbn in Hcall. unfold rop_end in Hcall. injection Hcall as <- <-.
    exists (Object_ftcontext ft'), r. cbn.
    rewrite lookup_insert_eq. auto 10.
  - destruct Hctx as [? Hnone]. discriminate.
Qed.

(** A sequence of handler calls on one handle is a sequence of steps on
    the context that the handle holds. *)
Lemma getbuffer_calls_steps depth reqs :
  forall ctx blank handles size idx h o ctx' repls,
    handles_get handles idx = Some h ->
    handles_ctx ctx !! h = Some (Some o) ->
    is_Some (context_stream o) ->
    Forall (fun req => req_handle_idx req = idx) reqs ->
    getbuffer_calls depth ctx blank handles size reqs = Some (ctx', repls) ->
    exists o' rs,
      getbuffer_steps depth (backend ctx) o (map effective_buffer_size reqs)
      = Some (o', rs)
      /\ handles_ctx ctx' !! h = Some (Some o')
      /\ map transfer_of repls = map Some rs
      /\ Forall (fun repl => error_code repl = MAPI_E_SUCCESS) repls.
Proof.
  induction reqs as [| req reqs IH];
    intros ctx blank handles size idx h o ctx' repls Hh Hobj Hctx Hall Hrun.
  - cbn in Hrun. injection Hrun as <- <-. exists o, []. cbn. auto.
  - inversion Hall as [| ? ? Hidx Hall']; subst.
    cbn [getbuffer_calls] in Hrun.
    destruct (EcDoRpc_RopFastTransferSourceGetBuffer _ _ _ _ _ _)
      as [[status [rs1 |]] |] eqn:Hcall; try discriminate.
    cbn [mbind option_bind snd] in Hrun.
    destruct (getbuffer_calls depth (rs_ctx rs1) blank (rs_handles rs1)
                              (rs_size rs1) reqs)
      as [[ctx1 repls1] |] eqn:Hrest; [| discriminate].
    cbn in Hrun. injection Hrun as <- <-.
    destruct (getbuffer_handler_step _ _ _ _ _ _ _ _ _ _ Hh Hobj Hctx Hcall)
      as (o1 & r & Hstep & _ & Hobj1 & Hback & Hhandles & Htr & Herr).
    assert (Hctx1 : is_Some (context_stream o1)).
    { pose proof (getbuffer_step_facts _ _ _ _ _ _ Hstep) as Hf.
      destruct Hf as (_ & _ & _ & _ & _ & _ & _ & _ & _ & _ & Hkind).
      destruct o, o1; cbn; try contradiction; eauto. }
    rewrite Hhandles in Hrest.
    destruct (IH _ _ _ _ _ _ _ _ _ Hh Hobj1 Hctx1 Hall' Hrest)
      as (o' & rs & Hsteps & Hfinal & Hmap & Herrs).
    exists o', (r :: rs). cbn [map getbuffer_steps].
    rewrite Hstep. cbn [mbind option_bind]. rewrite Hback in Hsteps.
    rewrite Hsteps. cbn. rewrite Htr, Hmap. auto.
Qed.

Lemma chunks_from_concat B chunks :
  forall off,
    chunks_from B off chunks ->
    concat chunks = take (length (concat chunks)) (drop off B).
Proof.
  induction chunks as [| c chunks IH]; intros off Hc.
  - reflexivity.
  - destruct Hc as [Hc Hrest]. cbn [concat].
    specialize (IH _ Hrest). rewrite length_app.
    rewrite <- take_take_drop, drop_drop, <- Hc, <- IH. reflexivity.
Qed.

(** Steps on a context whose stream exists: the chunks follow one
    another in the fixed stream, and the cursor is the number of bytes
    handed out. *)
Lemma getbuffer_steps_chunks depth s sizes :
  forall o o' rs,
    getbuffer_steps depth s o sizes = Some (o', rs) ->
    context_prepared o = true ->
    0 <= context_position o <= Z.of_nat (length (context_bytes o)) ->
    context_bytes o' = context_bytes o
    /\ context_prepared o' = true
    /\ chunks_from (context_bytes o) (Z.to_nat (context_position o))
                   (map TransferBuffer rs)
    /\ context_position o'
       = context_position o
         + Z.of_nat (length (concat (map TransferBuffer rs)))
    /\ context_position o' <= Z.of_nat (length (context_bytes o))
    /\ (forall r, last rs = Some r ->
                  TransferStatus_ r = TransferStatus_Done ->
                  context_position o' = Z.of_nat (length (context_bytes o))).
Proof.
  induction sizes as [| bs sizes IH]; intros o o' rs Hrun Hprep Hpos.
  - cbn in Hrun. injection Hrun as <- <-. cbn.
    conjuncts; auto; try lia. intros r Hr. discriminate.
  - cbn [getbuffer_steps] in Hrun.
    destruct (getbuffer_step depth s o bs) as [[o1 r1] |] eqn:Hstep;
      [| discriminate].
    cbn [mbind option_bind] in Hrun.
    destruct (getbuffer_steps depth s o1 sizes) as [[o2 rs2] |] eqn:Hrest;
      [| discriminate].
    cbn in Hrun. injection Hrun as <- <-.
    destruct (getbuffer_step_facts _ _ _ _ _ _ Hstep)
      as (Hprep1 & Hbytes & Hposn & Hchunk & Hstatus & _ & _ & _ & Hbound & _ & _).
    specialize (Hbytes Hprep). rewrite Hbytes in *.
    specialize (Hbound Hpos).
    assert (Hpos1 : 0 <= context_position o1
                    <= Z.of_nat (length (context_bytes o1))).
    { rewrite Hbytes. lia. }
    destruct (IH _ _ _ Hrest Hprep1 Hpos1)
      as (Hb2 & Hp2 & Hchunks & Hposn2 & Hle2 & Hdone2).
    rewrite Hbytes in *.
    cbn [map concat]. rewrite length_app.
    conjuncts; auto; try lia.
    + cbn [chunks_from]. split; [exact Hchunk |].
      replace (Z.to_nat (context_position o) + length (TransferBuffer r1))%nat
        with (Z.to_nat (context_position o1)) by lia.
      exact Hchunks.
    + intros r Hlast Hd. destruct rs2 as [| r2 rs2'].
      * cbn in Hlast. injection Hlast as <-.
        destruct sizes; cbn in Hrest.
        -- injection Hrest as <-. rewrite Hd in Hstatus.
           destruct (context_position o1 =? _) eqn:He; [| discriminate].
           apply Z.eqb_eq in He. exact He.
        -- destruct (getbuffer_step depth s o1 z) as [[? ?] |]; [| discriminate].
           cbn in Hrest.
           destruct (getbuffer_steps depth s e sizes) as [[? ?] |]; discriminate.
      * apply (Hdone2 r); [| exact Hd].
        rewrite <- Hlast. symmetry. apply last_cons_cons.
Qed.

End ChunkerFacts.

Section ChunkerTheorems.
Context {K : mapi_constants} {T : backend_types} {E : externals}.

Ltac conjuncts := repeat match goal with |- _ /\ _ => split end.

(** Steps on a context whose cursor is at the start, the first of which
    may still have to produce the stream. *)
Lemma getbuffer_steps_from_start depth s bs sizes o o' rs :
  getbuffer_steps depth s o (bs :: sizes) = Some (o', rs) ->
  context_position o = 0 ->
  exists o1 r1 rs',
    getbuffer_step depth s o bs = Some (o1, r1)
    /\ getbuffer_steps depth s o1 sizes = Some (o', rs')
    /\ rs = r1 :: rs'
    /\ context_prepared o1 = true
    /\ context_bytes o' = context_bytes o1
    /\ (context_prepared o = true -> context_bytes o' = context_bytes o)
    /\ 0 <= context_position o1 <= Z.of_nat (length (context_bytes o1))
    /\ chunks_from (context_bytes o') 0 (map TransferBuffer rs)
    /\ context_position o'
       = Z.of_nat (length (concat (map TransferBuffer rs)))
    /\ (forall r, last rs = Some r ->
                  TransferStatus_ r = TransferStatus_Done ->
                  context_position o' = Z.of_nat (length (context_bytes o'))).
Proof.
  intros Hrun Hpos0. cbn [getbuffer_steps] in Hrun.
  destruct (getbuffer_step depth s o bs) as [[o1 r1] |] eqn:Hstep;
    [| discriminate].
  cbn [mbind option_bind] in Hrun.
  destruct (getbuffer_steps depth s o1 sizes) as [[o2 rs2] |] eqn:Hrest;
    [| discriminate].
  cbn in Hrun. injection Hrun as <- <-.
  destruct (getbuffer_step_facts _ _ _ _ _ _ Hstep)
    as (Hprep1 & Hbytes & Hposn & Hchunk & Hstatus & _ & _ & _ & Hbound & _ & _).
  rewrite Hpos0 in *.
  assert (Hpos1 : 0 <= context_position o1
                  <= Z.of_nat (length (context_bytes o1))).
  { split; [lia | apply Hbound; lia]. }
  destruct (getbuffer_steps_chunks _ _ _ _ _ _ Hrest Hprep1 Hpos1)
    as (Hb2 & Hp2 & Hchunks & Hposn2 & Hle2 & Hdone2).
  exists o1, r1, rs2. rewrite Hb2.
  split; [reflexivity |]. split; [exact Hrest |]. split; [reflexivity |].
  split; [exact Hprep1 |]. split; [reflexivity |]. split; [exact Hbytes |].
  split; [exact Hpos1 |].
  split; [| split].
  - cbn [map chunks_from]. split; [exact Hchunk |].
    replace (0 + length (TransferBuffer r1))%nat
      with (Z.to_nat (context_position o1)) by lia.
    exact Hchunks.
  - cbn [map concat]. rewrite length_app. lia.
  - intros r Hlast Hd. destruct rs2 as [| r2 rs2'].
    + cbn in Hlast. injection Hlast as <-.
      destruct sizes; cbn in Hrest.
      * injection Hrest as <-. rewrite Hd in Hstatus.
        destruct (context_position o1 =? _) eqn:He; [| discriminate].
        apply Z.eqb_eq in He. exact He.
      * destruct (getbuffer_step depth s o1 z) as [[? ?] |]; [| discriminate].
        cbn in Hrest.
        destruct (getbuffer_steps depth s e sizes) as [[? ?] |]; discriminate.
    + apply (Hdone2 r); [| exact Hd].
      rewrite <- Hlast. symmetry. apply last_cons_cons.
Qed.

(** Steps on a context whose stream exists keep reporting the step
    total [total], as long as a transfer context that is back at
    offset 0 has an empty stream. *)
Lemma getbuffer_steps_total depth s sizes :
  forall o o' rs total,
    getbuffer_steps depth s o sizes = Some (o', rs) ->
    context_prepared o = true ->
    0 <= context_position o <= Z.of_nat (length (context_bytes o)) ->
    context_total_steps o = total ->
    (context_recomputes o = true ->
     context_bytes o = [] /\ total = to_steps_t 1) ->
    Forall (fun r => TotalStepCount r = to_StepCount_t total) rs.
Proof.
  induction sizes as [| bs sizes IH];
    intros o o' rs total Hrun Hprep Hpos Htotal Hzero.
  - cbn in Hrun. injection Hrun as <- <-. constructor.
  - cbn [getbuffer_steps] in Hrun.
    destruct (getbuffer_step depth s o bs) as [[o1 r1] |] eqn:Hstep;
      [| discriminate].
    cbn [mbind option_bind] in Hrun.
    destruct (getbuffer_steps depth s o1 sizes) as [[o2 rs2] |] eqn:Hrest;
      [| discriminate].
    cbn in Hrun. injection Hrun as <- <-.
    destruct (getbuffer_step_facts _ _ _ _ _ _ Hstep)
      as (Hprep1 & Hbytes & Hposn & _ & _ & Hcount & Hre & Hkeep & Hbound
          & _ & Hkind).
    specialize (Hbytes Hprep). rewrite Hbytes in Hbound.
    specialize (Hbound Hpos).
    assert (Htotal1 : context_total_steps o1 = total).
    { destruct (context_recomputes o) eqn:Hrec.
      - destruct (Hre eq_refl) as [_ ->]. destruct (Hzero eq_refl) as [Hnil ->].
        rewrite Hbytes, Hnil. reflexivity.
      - rewrite (Hkeep eq_refl). exact Htotal. }
    constructor; [now rewrite Hcount, Htotal1 |].
    apply (IH o1 o2 rs2 total Hrest Hprep1); [rewrite Hbytes; lia | exact Htotal1 |].
    intros Hrec1. rewrite Hbytes. apply Hzero.
    destruct o as [p sc | ft | x], o1 as [p1 sc1 | ft1 | x1];
      try contradiction; cbn in *.
    + rewrite Hprep1 in Hrec1. discriminate.
    + apply Z.eqb_eq in Hrec1. apply Z.eqb_eq. lia.
Qed.

Lemma getbuffer_calls_length depth reqs :
  forall ctx blank handles size ctx' repls,
    getbuffer_calls depth ctx blank handles size reqs = Some (ctx', repls) ->
    length repls = length reqs.
Proof.
  induction reqs as [| a l IH]; intros ctx blank handles size ctx' repls Hrun.
  - cbn in Hrun. injection Hrun as <- <-. reflexivity.
  - cbn [getbuffer_calls] in Hrun.
    destruct (EcDoRpc_RopFastTransferSourceGetBuffer _ _ _ _ _ _)
      as [[st [rs1 |]] |]; try discriminate.
    cbn [mbind option_bind snd] in Hrun.
    destruct (getbuffer_calls depth (rs_ctx rs1) blank (rs_handles rs1)
                              (rs_size rs1) l)
      as [[c1 l1] |] eqn:Hrest; [| discriminate].
    cbn in Hrun. injection Hrun as <- <-. cbn. f_equal.
    apply (IH _ _ _ _ _ _ Hrest).
Qed.

(** C6, amended.  Take a handle that holds a context on which GetBuffer
    was not called yet, and any sequence of GetBuffer calls on that
    handle that all return.  The first call asks for a buffer size that
    is not zero, and every reply carries the same [TotalStepCount]: the
    quotient of the stream length by the buffer size of the first call,
    plus one, brought into the integer types of the counters.  (This is
    [ceil(len / size)] only when [size] does not divide [len].) *)
Theorem total_step_count_fixed
        depth ctx blank handles size req reqs idx h o ctx' repls :
  handles_get handles idx = Some h ->
  handles_ctx ctx !! h = Some (Some o) ->
  context_fresh o ->
  Forall (fun req => req_handle_idx req = idx) (req :: reqs) ->
  getbuffer_calls depth ctx blank handles size (req :: reqs)
  = Some (ctx', repls) ->
  exists o' rs,
    handles_ctx ctx' !! h = Some (Some o')
    /\ map transfer_of repls = map Some rs
    /\ length rs = length (req :: reqs)
    /\ effective_buffer_size req <> 0
    /\ Forall (fun r =>
                 TotalStepCount r
                 = to_StepCount_t
                     (to_steps_t (Z.of_nat (length (context_bytes o'))
                                  / effective_buffer_size req + 1)))
              rs.
Proof.
  intros Hh Hobj Hfresh Hall Hrun.
  assert (Hctx : is_Some (context_stream o)).
  { destruct o; cbn in *; eauto. contradiction. }
  assert (Hpos0 : context_position o = 0).
  { destruct o; cbn in *; tauto. }
  assert (Hrec : context_recomputes o = true).
  { destruct o as [p sc | ft | x]; cbn in *.
    - destruct Hfresh as [-> _]. reflexivity.
    - now apply Z.eqb_eq.
    - contradiction. }
  destruct (getbuffer_calls_steps _ _ _ _ _ _ _ _ _ _ _ Hh Hobj Hctx Hall Hrun)
    as (o' & rs & Hsteps & Hfinal & Hmap & _).
  cbn [map] in Hsteps.
  destruct (getbuffer_steps_from_start _ _ _ _ _ _ _ Hsteps Hpos0)
    as (o1 & r1 & rs' & Hstep & Hrest & -> & Hprep1 & Hb & _ & Hpos1 & _).
  destruct (getbuffer_step_facts _ _ _ _ _ _ Hstep)
    as (_ & _ & Hposn & _ & _ & Hcount & Hre & _ & _ & Hprogress & Hkind).
  destruct (Hre Hrec) as [Hne Htotal1].
  pose proof (effective_buffer_size_nonneg req) as Hnn.
  exists o', (r1 :: rs'). rewrite Hb.
  conjuncts; auto.
  - apply (f_equal length) in Hmap. rewrite !length_map in Hmap.
    rewrite <- Hmap. apply (getbuffer_calls_length _ _ _ _ _ _ _ _ Hrun).
  - constructor; [now rewrite Hcount, Htotal1 |].
    apply (getbuffer_steps_total _ _ _ _ _ _ _ Hrest Hprep1 Hpos1 Htotal1).
    intros Hrec1.
    assert (Hempty : context_bytes o1 = []).
    { destruct (context_bytes o1) as [| b bytes] eqn:Hbytes1; [reflexivity |].
      exfalso.
      assert (Hlen : (0 < length (TransferBuffer r1))%nat).
      { apply Hprogress; [lia |]. rewrite Hpos0. cbn [length]. lia. }
      destruct o as [p sc | ft | x], o1 as [p1 sc1 | ft1 | x1];
        try contradiction; cbn in *.
      - rewrite Hprep1 in Hrec1. discriminate.
      - apply Z.eqb_eq in Hrec1. lia. }
    split; [exact Hempty |]. rewrite Hempty. reflexivity.
Qed.

End ChunkerTheorems.

(** C6, as stated, fails: for a stream of 8 bytes and a first request for
    4 bytes the handler reports [TotalStepCount = 3], and [ceil(8 / 4)] is
    2. *)
Lemma total_step_count_is_not_ceil :
  (r ← EcDoRpc_RopFastTransferSourceGetBuffer
         0 (Some Sample.eight_bytes_context) (Some (Sample.getbuffer_request 4))
         (Some Sample.blank_repl) (Some Sample.handle_array) (Some 0);
   rs ← r.2;
   t ← transfer_of (rs_repl rs);
   Some (TotalStepCount t)) = Some 3
  /\ ceil_div 8 4 = 2.
Proof. split; vm_compute; reflexivity. Qed.

(** The witness of C6 amended: three requests for 4 bytes on the stream
    of 8 bytes; every reply carries [8 / 4 + 1 = 3]. *)
Lemma total_step_count_fixed_witness :
  exists ctx' repls rs,
    getbuffer_calls 0 Sample.eight_bytes_context Sample.blank_repl
                    Sample.handle_array 0
                    [Sample.getbuffer_request 4; Sample.getbuffer_request 4;
                     Sample.getbuffer_request 4]
    = Some (ctx', repls)
    /\ map transfer_of repls = map Some rs
    /\ length rs = 3%nat
    /\ Forall (fun r => TotalStepCount r = 3) rs.
Proof.
  destruct (getbuffer_calls 0 Sample.eight_bytes_context Sample.blank_repl
                            Sample.handle_array 0
                            [Sample.getbuffer_request 4;
                             Sample.getbuffer_request 4;
                             Sample.getbuffer_request 4])
    as [[ctx' repls] |] eqn:Hrun;
    [| exfalso; vm_compute in Hrun; discriminate].
  destruct (total_step_count_fixed
              0 Sample.eight_bytes_context Sample.blank_repl Sample.handle_array
              0 (Sample.getbuffer_request 4)
              [Sample.getbuffer_request 4; Sample.getbuffer_request 4] 0 7
              (Object_ftcontext
                 (Sample.ftcontext_over [1; 2; 3; 4; 5; 6; 7; 8] [0xffffffff]))
              ctx' repls)
    as (o' & rs & Hobj & Hmap & Hlen & Hne & Hall).
  - reflexivity.
  - reflexivity.
  - reflexivity.
  - repeat constructor.
  - exact Hrun.
  - exists ctx', repls, rs.
    split; [reflexivity |]. split; [exact Hmap |]. split; [exact Hlen |].
    assert (Hbytes : context_bytes o' = [1; 2; 3; 4; 5; 6; 7; 8]).
    { clear - Hrun Hobj. vm_compute in Hrun. injection Hrun as <- _.
      vm_compute in Hobj. injection Hobj as <-. reflexivity. }
    rewrite Hbytes in Hall. exact Hall.
Defined.

(** ** The synchronization producers *)

Section ProducerTheorems.
Context {K : mapi_constants} {T : backend_types} {E : externals}.

(** C4. When [oxcfxics_prepare_synccontext_with_messageChange] returns,
    the stream of the context is the message-change records followed by
    exactly: [PR_INCR_SYNC_STATE_BEGIN]; [PidTagCnsetSeen] and the
    serialized merged [cnset_seen]; if and only if [fai] is set,
    [PidTagCnsetSeenFAI] and the same bytes; [PidTagIdsetGiven] and the
    serialized merged [idset_given]; if and only if [read_state] is set,
    [PidTagCnsetRead] and the bytes of [cnset_seen] again;
    [PR_INCR_SYNC_STATE_END]; [PR_INCR_SYNC_END].  Each merged set is
    [IDSET_merge_idsets] of the set the context held and the set
    accumulated over the records, and is the set the context holds
    afterwards. *)
Theorem contents_stream_ends_with_state_block
        (s : store) (parent_object : ext_object)
        (sc sc' : emsmdbp_object_synccontext) :
  oxcfxics_prepare_synccontext_with_messageChange s parent_object sc = Some sc' ->
  exists sd : oxcfxics_sync_data,
    contents_records s parent_object sc = Some sd
    /\ let records := ndr_data (sd_push sd).1 in
       let merged_cnset :=
         IDSET_merge_idsets (cnset_seen sc)
                            (RAWIDSET_convert_to_idset (sd_cnset_seen sd)) in
       let merged_given :=
         IDSET_merge_idsets (idset_given sc)
                            (RAWIDSET_convert_to_idset (eid_set sd)) in
       buffer (stream sc')
       = Some (records
               ++ le_bytes 4 PR_INCR_SYNC_STATE_BEGIN
               ++ le_bytes 4 PidTagCnsetSeen ++ idset_serialized merged_cnset
               ++ (if fai (request sc)
                   then le_bytes 4 PidTagCnsetSeenFAI
                        ++ idset_serialized merged_cnset
                   else [])
               ++ le_bytes 4 PidTagIdsetGiven ++ idset_serialized merged_given
               ++ (if read_state (request sc)
                   then le_bytes 4 PidTagCnsetRead
                        ++ idset_serialized merged_cnset
                   else [])
               ++ le_bytes 4 PR_INCR_SYNC_STATE_END
               ++ le_bytes 4 PR_INCR_SYNC_END)
       /\ cnset_seen sc' = merged_cnset
       /\ idset_given sc' = merged_given.
Proof.
  unfold oxcfxics_prepare_synccontext_with_messageChange.
  destruct (contents_records s parent_object sc) as [sd |]; [| discriminate].
  cbn [mbind option_bind]. intros Hsc'.
  exists sd. split; [reflexivity |].
  unfold push_contents_state in Hsc'. injection Hsc' as <-.
  unfold install_stream, push_uint32, ndr_push_uint32, ndr_append.
  cbn -[le_bytes].
  destruct (fai (request sc)), (read_state (request sc));
    cbn -[le_bytes]; rewrite <- ?app_assoc; auto.
Qed.

End ProducerTheorems.

(** The witness of C4: the contents stream of the folder with two
    messages (counters 5 and 6, change number 0) for a client that holds
    [idset_given = {3}] and [cnset_seen = {9}], with the flags FAI and
    read state.  After the 266 bytes of the two records the state block
    carries [cnset_seen = {0, 9}] three times, under [PidTagCnsetSeen],
    [PidTagCnsetSeenFAI] and [PidTagCnsetRead], and
    [idset_given = {3, 5, 6}].  Without the two flags, on an empty
    folder and without sets, the block has neither conditional entry
    and no set bytes. *)
Lemma contents_stream_ends_with_state_block_witness :
  (exists sc' sd,
      oxcfxics_prepare_synccontext_with_messageChange
        (K := Sample.constants) (E := Sample.collaborators)
        Sample.two_messages Sample.inbox
        (Sample.contents_context true true (Some [3]) (Some [9])) = Some sc'
      /\ contents_records
           (K := Sample.constants) (E := Sample.collaborators)
           Sample.two_messages Sample.inbox
           (Sample.contents_context true true (Some [3]) (Some [9])) = Some sd
      /\ length (ndr_data (sd_push sd).1) = 266%nat
      /\ buffer (stream sc')
         = Some (ndr_data (sd_push sd).1
                 ++ le_bytes 4 0x403a0003
                 ++ le_bytes 4 0x67960102 ++ (le_bytes 6 0 ++ le_bytes 6 9)
                 ++ le_bytes 4 0x67da0102 ++ (le_bytes 6 0 ++ le_bytes 6 9)
                 ++ le_bytes 4 0x40170003
                 ++ (le_bytes 6 3 ++ le_bytes 6 5 ++ le_bytes 6 6)
                 ++ le_bytes 4 0x67d20102 ++ (le_bytes 6 0 ++ le_bytes 6 9)
                 ++ le_bytes 4 0x403b0003 ++ le_bytes 4 0x40140003)
      /\ cnset_seen sc' = Some [0; 9]
      /\ idset_given sc' = Some [3; 5; 6])
  /\ (exists sc',
         oxcfxics_prepare_synccontext_with_messageChange
           (K := Sample.constants) (E := Sample.collaborators)
           Sample.empty_store Sample.inbox
           (Sample.contents_context false false None None) = Some sc'
         /\ buffer (stream sc')
            = Some (le_bytes 4 0x403a0003 ++ le_bytes 4 0x67960102
                    ++ le_bytes 4 0x40170003 ++ le_bytes 4 0x403b0003
                    ++ le_bytes 4 0x40140003)).
Proof.
  split.
  - destruct (oxcfxics_prepare_synccontext_with_messageChange
                (K := Sample.constants) (E := Sample.collaborators)
                Sample.two_messages Sample.inbox
                (Sample.contents_context true true (Some [3]) (Some [9])))
      as [sc' |] eqn:Hprep;
      [| exfalso; vm_compute in Hprep; discriminate].
    destruct (contents_stream_ends_with_state_block _ _ _ _ Hprep)
      as (sd & Hsd & Hstream & Hcnset & Hgiven).
    exists sc', sd. split; [reflexivity |]. split; [exact Hsd |].
    vm_compute in Hsd. injection Hsd as <-.
    split; [reflexivity |].
    split; [rewrite Hstream; vm_compute; reflexivity |].
    split; [rewrite Hcnset | rewrite Hgiven]; vm_compute; reflexivity.
  - destruct (oxcfxics_prepare_synccontext_with_messageChange
                (K := Sample.constants) (E := Sample.collaborators)
                Sample.empty_store Sample.inbox
                (Sample.contents_context false false None None))
      as [sc' |] eqn:Hprep;
      [| exfalso; vm_compute in Hprep; discriminate].
    destruct (contents_stream_ends_with_state_block _ _ _ _ Hprep)
      as (sd & Hsd & Hstream & _).
    exists sc'. split; [reflexivity |].
    vm_compute in Hsd. injection Hsd as <-.
    rewrite Hstream. vm_compute. reflexivity.
Defined.

(** C3, which the code breaks.  C3 says that the cut-marks of every produced
    stream increase strictly, all but the last lie below the stream
    length, and the last is [0xffffffff].  The code records the offset of
    a record before it knows that it will emit the record:
    - a contents synchronization of a folder with two messages whose
      change number the client has already seen skips both rows after
      their cut-mark is recorded, and leaves the cut-marks [0; 0;
      0xffffffff];
    - the serializer skips a named property whose name the registry does
      not know after its cut-mark is recorded: a folder with such a
      property and one more property gets [0; 0; 0xffffffff], and a
      folder with that property alone gets the cut-mark 0 for a stream of
      length 0. *)
Theorem cutmarks_repeat_an_offset :
  (cutmarks <$>
     oxcfxics_prepare_synccontext_with_messageChange
       (K := Sample.constants) (E := Sample.collaborators)
       Sample.two_messages Sample.inbox
       (Sample.contents_context false false None (Some [0])))
  = Some [0; 0; 0xffffffff]
  /\ Sample.copyto_stream [(0x80010003, D_uint32 7); (0x30000003, D_uint32 1)]
     = Some ([0; 0; 0xffffffff], Some [3; 0; 0; 48; 1; 0; 0; 0])
  /\ Sample.copyto_stream [(0x80010003, D_uint32 7)]
     = Some ([0; 0xffffffff], Some []).
Proof. repeat split; vm_compute; reflexivity. Qed.

(** ** The state-stream upload *)

Section UploadTheorems.
Context {K : mapi_constants} {T : backend_types} {E : externals}.

(** SyncUploadStateStreamEnd on a handle that holds a synchronization
    context with an upload in progress, as long as the given-set that
    arrives has a range. *)
Lemma upload_end_on_armed_context ctx req repl handles size h parent sc sc1 :
  handles_get handles (req_handle_idx req) = Some h ->
  handles_ctx ctx !! h = Some (Some (Object_synccontext parent sc)) ->
  state_property sc <> 0 ->
  install_parsed_idset
    sc (IDSET_parse (default [] (buffer (state_stream sc)))) = Some sc1 ->
  EcDoRpc_RopSyncUploadStateStreamEnd (Some ctx) (Some req) (Some repl)
                                      (Some handles) (Some size)
  = rop_end RopSyncUploadStateStreamEnd
      (mapi_handles_set_private_data ctx h
         (Some (Object_synccontext parent (reset_state_stream sc1))))
      (repl_init repl (req_opnum req) (req_handle_idx req)) handles size.
Proof.
  intros Hh Hobj Harmed Hinstall.
  unfold EcDoRpc_RopSyncUploadStateStreamEnd, sanity_checks.
  rewrite Hh. cbn [mbind option_bind]. rewrite Hobj.
  apply Z.eqb_neq in Harmed. rewrite Harmed.
  rewrite Hinstall. reflexivity.
Qed.

(** C5, amended.  When [IDSET_parse] rejects the accumulated bytes,
    SyncUploadStateStreamEnd does not abort and reports no error: it
    returns with the reply's error code [MAPI_E_SUCCESS].  The slot that
    the armed state property selects is left without a set, the scratch
    buffer is emptied and the upload is disarmed; the other set, the
    produced stream, the request, the other handles and the store are
    as before. *)
Theorem upload_end_with_rejected_stream
        ctx req repl handles size h parent sc :
  handles_get handles (req_handle_idx req) = Some h ->
  handles_ctx ctx !! h = Some (Some (Object_synccontext parent sc)) ->
  state_property sc <> 0 ->
  IDSET_parse (default [] (buffer (state_stream sc))) = None ->
  exists rs sc',
    EcDoRpc_RopSyncUploadStateStreamEnd (Some ctx) (Some req) (Some repl)
                                        (Some handles) (Some size)
    = Some (MAPI_E_SUCCESS, Some rs)
    /\ error_code (rs_repl rs) = MAPI_E_SUCCESS
    /\ rs_ctx rs
       = {| handles_ctx :=
              <[h := Some (Object_synccontext parent sc')]> (handles_ctx ctx);
            backend := backend ctx |}
    /\ rs_handles rs = handles
    /\ state_property sc' = 0
    /\ buffer_length (state_stream sc') = 0
    /\ idset_given sc'
       = (if state_property sc =? PidTagIdsetGiven then None
          else idset_given sc)
    /\ cnset_seen sc'
       = (if state_property sc =? PidTagIdsetGiven then cnset_seen sc
          else if (state_property sc =? PidTagCnsetSeen)
                  || (state_property sc =? PidTagCnsetSeenFAI)
                  || (state_property sc =? PidTagCnsetRead)
               then None
               else cnset_seen sc)
    /\ request sc' = request sc
    /\ properties sc' = properties sc
    /\ stream sc' = stream sc
    /\ cutmarks sc' = cutmarks sc.
Proof.
  intros Hh Hobj Harmed Hparse.
  assert (Hinstall :
            exists sc1,
              install_parsed_idset sc None = Some sc1
              /\ idset_given sc1
                 = (if state_property sc =? PidTagIdsetGiven then None
                    else idset_given sc)
              /\ cnset_seen sc1
                 = (if state_property sc =? PidTagIdsetGiven then cnset_seen sc
                    else if (state_property sc =? PidTagCnsetSeen)
                            || (state_property sc =? PidTagCnsetSeenFAI)
                            || (state_property sc =? PidTagCnsetRead)
                         then None
                         else cnset_seen sc)
              /\ request sc1 = request sc /\ properties sc1 = properties sc
              /\ stream sc1 = stream sc /\ cutmarks sc1 = cutmarks sc
              /\ state_stream sc1 = state_stream sc).
  { unfold install_parsed_idset.
    destruct (state_property sc =? PidTagIdsetGiven).
    - eexists. split; [reflexivity |]. cbn. auto 10.
    - destruct (_ || _).
      + eexists. split; [reflexivity |]. cbn. auto 10.
      + eexists. split; [reflexivity |]. cbn. auto 10. }
  destruct Hinstall as (sc1 & Hinstall & Hg & Hc & Hrq & Hpr & Hst & Hcm & Hss).
  rewrite <- Hparse in Hinstall.
  rewrite (upload_end_on_armed_context _ _ _ _ _ _ _ _ _ Hh Hobj Harmed Hinstall).
  unfold rop_end. eexists _, (reset_state_stream sc1).
  split; [reflexivity |]. cbn -[reset_state_stream].
  split; [reflexivity |]. split; [reflexivity |]. split; [reflexivity |].
  unfold reset_state_stream. cbn.
  split; [reflexivity |].
  split.
  { destruct (0 <? buffer_length (state_stream sc1)) eqn:Hlen.
    - reflexivity.
    - apply Z.ltb_ge in Hlen. unfold buffer_length in *.
      destruct (buffer (state_stream sc1)); lia. }
  auto 10.
Qed.

End UploadTheorems.

(** C5, as stated, fails: the upload of the three bytes [01 02 03] as
    [PidTagIdsetGiven], which the decoder rejects as truncated, ends with
    return value and error code [MAPI_E_SUCCESS], and the set that the
    session held before is gone. *)
Lemma upload_end_reports_no_error :
  IDSET_parse (externals := Sample.collaborators) [1; 2; 3] = None
  /\ (r ← Sample.upload (Sample.start_of
                           (Sample.session (Some [5]) None Sample.empty_store))
                        0x40170003 [1; 2; 3];
      rs ← r.2;
      sc ← synccontext_at (rs_ctx rs) 7;
      Some (r.1, error_code (rs_repl rs), idset_given sc))
     = Some (MAPI_E_SUCCESS, MAPI_E_SUCCESS, None).
Proof. split; vm_compute; reflexivity. Qed.

(** The witness of C5 amended: SyncUploadStateStreamEnd on a session armed
    for [PidTagIdsetGiven] whose scratch buffer holds [01 02 03]. *)
Lemma upload_end_with_rejected_stream_witness :
  exists rs sc',
    EcDoRpc_RopSyncUploadStateStreamEnd
      (Some (Sample.armed_session (Some [5]) (Some [9]) 0x40170003 [1; 2; 3]))
      (Some (Sample.plain_request 0x77)) (Some Sample.blank_repl)
      (Some Sample.handle_array) (Some 0)
    = Some (MAPI_E_SUCCESS, Some rs)
    /\ error_code (rs_repl rs) = MAPI_E_SUCCESS
    /\ synccontext_at (rs_ctx rs) 7 = Some sc'
    /\ idset_given sc' = None
    /\ cnset_seen sc' = Some [9]
    /\ state_property sc' = 0.
Proof.
  destruct (upload_end_with_rejected_stream
              (K := Sample.constants) (T := Sample.types)
              (E := Sample.collaborators)
              (Sample.armed_session (Some [5]) (Some [9]) 0x40170003 [1; 2; 3])
              (Sample.plain_request 0x77) Sample.blank_repl
              Sample.handle_array 0 7 Sample.inbox _
              eq_refl eq_refl)
    as (rs & sc' & Hcall & Herr & Hctx & _ & Hprop & _ & Hgiven & Hseen & _).
  - cbn. lia.
  - vm_compute. reflexivity.
  - exists rs, sc'. split; [exact Hcall |]. split; [exact Herr |].
    split; [rewrite Hctx; reflexivity |].
    split; [exact Hgiven |]. split; [exact Hseen | exact Hprop].
Defined.

(** ** The import handlers *)

Section ImportTheorems.
Context {K : mapi_constants} {T : backend_types} {E : externals}.

(** C8. SyncImportMessageChange on a session (a handle that holds a
    synchronization context over a folder kept by mapistore), with a
    source key whose 16-byte replica GUID the registry does not know:
    the handler returns, the reply's error code is [MAPI_E_NOT_FOUND],
    and the provider context, with the synchronization context, its
    sets and its buffers, the handle table and the store, is exactly as
    before; so is the handle array.  Any later call therefore behaves as
    it would have without the failed one. *)
Theorem import_message_change_unknown_replica
        ctx req repl handles size h parent sc r_idx flag props source_key :
  handles_get handles (req_handle_idx req) = Some h ->
  handles_ctx ctx !! h = Some (Some (Object_synccontext parent sc)) ->
  emsmdbp_is_mapistore (Object_external parent) = true ->
  req_u req = mapi_SyncImportMessageChange r_idx flag props ->
  value_bin_at props 0 = Some source_key ->
  (16 <= length source_key)%nat ->
  emsmdbp_guid_to_replid (backend ctx) (take 16 source_key) = None ->
  exists rs,
    EcDoRpc_RopSyncImportMessageChange (Some ctx) (Some req) (Some repl)
                                       (Some handles) (Some size)
    = Some (MAPI_E_SUCCESS, Some rs)
    /\ error_code (rs_repl rs) = MAPI_E_NOT_FOUND
    /\ rs_ctx rs = ctx
    /\ rs_handles rs = handles
    /\ synccontext_at (rs_ctx rs) h = Some sc
    /\ (forall req2 repl2 size2,
           EcDoRpc_RopSyncImportMessageChange
             (Some (rs_ctx rs)) (Some req2) (Some repl2)
             (Some (rs_handles rs)) (Some size2)
           = EcDoRpc_RopSyncImportMessageChange
               (Some ctx) (Some req2) (Some repl2) (Some handles) (Some size2)).
Proof.
  intros Hh Hobj Hms Hu Hkey Hlen Hguid.
  unfold EcDoRpc_RopSyncImportMessageChange, sanity_checks.
  rewrite Hu, Hh. cbn [mbind option_bind]. rewrite Hobj, Hms. cbn [negb].
  rewrite Hkey. cbn [mbind option_bind].
  unfold fmid_from_source_key, Codec.oxcfxics_fmid_from_source_key.
  assert (Hfalse : (Z.of_nat (length source_key) <? 16) = false)
    by (apply Z.ltb_ge; lia).
  rewrite Hfalse, Hguid. cbn [mbind option_bind]. unfold rop_end.
  eexists. split; [reflexivity |]. cbn.
  unfold synccontext_at. rewrite Hobj. auto.
Qed.

End ImportTheorems.

(** The witness of C8: on a session over the inbox, an import with the
    source key of an unknown replica fails with [MAPI_E_NOT_FOUND] and
    changes nothing, and the import that follows, with the source key of
    the mailbox replica, succeeds. *)
Lemma import_message_change_unknown_replica_witness :
  exists rs,
    EcDoRpc_RopSyncImportMessageChange
      (Some (Sample.session (Some [5]) (Some [0]) Sample.empty_store))
      (Some (Sample.import_request Sample.unknown_source_key))
      (Some Sample.blank_repl) (Some Sample.handle_array) (Some 0)
    = Some (MAPI_E_SUCCESS, Some rs)
    /\ error_code (rs_repl rs) = MAPI_E_NOT_FOUND
    /\ rs_ctx rs = Sample.session (Some [5]) (Some [0]) Sample.empty_store
    /\ (r ← EcDoRpc_RopSyncImportMessageChange
              (Some (rs_ctx rs))
              (Some (Sample.import_request Sample.known_source_key))
              (Some Sample.blank_repl) (Some (rs_handles rs)) (Some 0);
        rs2 ← r.2;
        Some (r.1, error_code (rs_repl rs2), repl_u (rs_repl rs2)))
       = Some (MAPI_E_SUCCESS, MAPI_E_SUCCESS, mapi_repl_MessageId 0).
Proof.
  destruct (import_message_change_unknown_replica
              (K := Sample.constants) (T := Sample.types)
              (E := Sample.collaborators)
              (Sample.session (Some [5]) (Some [0]) Sample.empty_store)
              (Sample.import_request Sample.unknown_source_key)
              Sample.blank_repl Sample.handle_array 0 7 Sample.inbox _ _ _ _
              Sample.unknown_source_key
              eq_refl eq_refl eq_refl eq_refl eq_refl)
    as (rs & Hcall & Herr & Hctx & Hhandles & _ & Hnext).
  - vm_compute. lia.
  - reflexivity.
  - exists rs. split; [exact Hcall |]. split; [exact Herr |].
    split; [exact Hctx |].
    rewrite Hnext. vm_compute. reflexivity.
Defined.

(** ** Replacement of the uploaded sets *)

Section ReplacementTheorems.
Context {K : mapi_constants} {T : backend_types} {E : externals}.

(** C9. SyncUploadStateStreamEnd on a session armed for
    [PidTagCnsetSeen], [PidTagCnsetSeenFAI] or [PidTagCnsetRead] (tags
    that differ from [PidTagIdsetGiven], as the labels of the [switch]
    do): the handler returns, and the [cnset_seen] of the context is
    the parsed set with its [single] flag set, whatever the context held
    before and whichever of the three properties was armed; the result
    of the parse replaces the old set, it is not merged into it.
    [idset_given] is untouched, and the upload is disarmed. *)
Theorem upload_end_replaces_cnset_seen
        ctx req repl handles size h parent sc :
  handles_get handles (req_handle_idx req) = Some h ->
  handles_ctx ctx !! h = Some (Some (Object_synccontext parent sc)) ->
  state_property sc <> 0 ->
  state_property sc <> PidTagIdsetGiven ->
  state_property sc = PidTagCnsetSeen
  \/ state_property sc = PidTagCnsetSeenFAI
  \/ state_property sc = PidTagCnsetRead ->
  exists rs sc',
    EcDoRpc_RopSyncUploadStateStreamEnd (Some ctx) (Some req) (Some repl)
                                        (Some handles) (Some size)
    = Some (MAPI_E_SUCCESS, Some rs)
    /\ error_code (rs_repl rs) = MAPI_E_SUCCESS
    /\ synccontext_at (rs_ctx rs) h = Some sc'
    /\ cnset_seen sc'
       = idset_set_single
           <$> IDSET_parse (default [] (buffer (state_stream sc)))
    /\ idset_given sc' = idset_given sc
    /\ state_property sc' = 0.
Proof.
  intros Hh Hobj Harmed Hnot_given Hthree.
  set (parsed := IDSET_parse (default [] (buffer (state_stream sc)))).
  assert (Hinstall : install_parsed_idset sc parsed
                     = Some (set_cnset sc (idset_set_single <$> parsed))).
  { unfold install_parsed_idset.
    apply Z.eqb_neq in Hnot_given. rewrite Hnot_given.
    assert (Hany : (state_property sc =? PidTagCnsetSeen)
                   || (state_property sc =? PidTagCnsetSeenFAI)
                   || (state_property sc =? PidTagCnsetRead) = true).
    { destruct Hthree as [-> | [-> | ->]];
        rewrite Z.eqb_refl, ?orb_true_r; reflexivity. }
    rewrite Hany. reflexivity. }
  rewrite (upload_end_on_armed_context _ _ _ _ _ _ _ _ _ Hh Hobj Harmed Hinstall).
  unfold rop_end. eexists _, _. split; [reflexivity |].
  cbn -[reset_state_stream]. split; [reflexivity |].
  unfold synccontext_at. cbn -[reset_state_stream].
  rewrite lookup_insert_eq. split; [reflexivity |].
  unfold reset_state_stream. cbn. auto.
Qed.

End ReplacementTheorems.

(** The witness of C9: a session that holds [cnset_seen = {1, 2}] and is
    armed for [PidTagCnsetRead] with the bytes of the set [{9}] ends with
    [cnset_seen = {9}]; and of three uploads in a row, as
    [PidTagCnsetSeen], [PidTagCnsetSeenFAI] and [PidTagCnsetRead], only
    the last set remains. *)
Lemma upload_end_replaces_cnset_seen_witness :
  (exists rs sc',
      EcDoRpc_RopSyncUploadStateStreamEnd
        (Some (Sample.armed_session (Some [5]) (Some [1; 2]) 0x67d20102
                                    [9; 0; 0; 0; 0; 0]))
        (Some (Sample.plain_request 0x77)) (Some Sample.blank_repl)
        (Some Sample.handle_array) (Some 0)
      = Some (MAPI_E_SUCCESS, Some rs)
      /\ synccontext_at (rs_ctx rs) 7 = Some sc'
      /\ cnset_seen sc' = Some [9]
      /\ idset_given sc' = Some [5])
  /\ (r ← Sample.upload
            (Sample.upload
               (Sample.upload
                  (Sample.start_of (Sample.session None None Sample.empty_store))
                  0x67960102 [1; 0; 0; 0; 0; 0; 2; 0; 0; 0; 0; 0])
               0x67da0102 [3; 0; 0; 0; 0; 0])
            0x67d20102 [9; 0; 0; 0; 0; 0];
      rs ← r.2;
      sc ← synccontext_at (rs_ctx rs) 7;
      Some (cnset_seen sc))
     = Some (Some [9]).
Proof.
  split.
  - destruct (upload_end_replaces_cnset_seen
                (K := Sample.constants) (T := Sample.types)
                (E := Sample.collaborators)
                (Sample.armed_session (Some [5]) (Some [1; 2]) 0x67d20102
                                      [9; 0; 0; 0; 0; 0])
                (Sample.plain_request 0x77) Sample.blank_repl
                Sample.handle_array 0 7 Sample.inbox _ eq_refl eq_refl)
      as (rs & sc' & Hcall & _ & Hat & Hseen & Hgiven & _).
    + cbn. lia.
    + cbn. lia.
    + right. right. reflexivity.
    + exists rs, sc'. split; [exact Hcall |]. split; [exact Hat |].
      split; [rewrite Hseen; vm_compute; reflexivity | exact Hgiven].
  - vm_compute. reflexivity.
Defined.

(** ** Return values of the handlers *)

Section ReturnTheorems.
Context {K : mapi_constants} {T : backend_types} {E : externals}.

Lemma returns_none : returns_success None.
Proof. intros r H. discriminate. Qed.

Lemma returns_rop_end op ctx repl handles size :
  returns_success (rop_end op ctx repl handles size).
Proof. intros r H. unfold rop_end in H. injection H as <-. reflexivity. Qed.

Lemma returns_bind {A} (m : option A) (f : A -> option rop_result) :
  (forall a, returns_success (f a)) -> returns_success (m ≫= f).
Proof. intros Hf r H. destruct m as [a |]; [apply (Hf a r H) | discriminate]. Qed.

Lemma returns_stub_end op ctx req repl handles size :
  returns_success (stub_end op ctx req repl handles size).
Proof.
  unfold stub_end. apply returns_bind. intros h.
  apply returns_bind. intros hs. apply returns_rop_end.
Qed.

(** Walks through the body of a handler: every path ends at the label
    [end:], or does not return. *)
Ltac returns :=
  repeat first
    [ apply returns_none
    | apply returns_rop_end
    | apply returns_stub_end
    | apply returns_bind; intros ?
    | match goal with
      | |- returns_success (match ?x with _ => _ end) => destruct x
      | |- returns_success (if ?b then _ else _) => destruct b
      | |- returns_success (let x := ?v in @?f x) =>
          change (returns_success (f v)); cbv beta
      end ].

Lemma handler_returns_success depth op ctx req repl handles size :
  returns_success
    (handler_of depth op (Some ctx) (Some req) (Some repl) (Some handles)
                (Some size)).
Proof.
  destruct op; cbn [handler_of];
    unfold EcDoRpc_RopFastTransferSourceCopyTo,
      EcDoRpc_RopFastTransferSourceGetBuffer, EcDoRpc_RopSyncConfigure,
      EcDoRpc_RopSyncImportMessageChange,
      EcDoRpc_RopSyncImportHierarchyChange, EcDoRpc_RopSyncImportDeletes,
      EcDoRpc_RopSyncUploadStateStreamBegin,
      EcDoRpc_RopSyncUploadStateStreamContinue,
      EcDoRpc_RopSyncUploadStateStreamEnd, EcDoRpc_RopSyncImportMessageMove,
      EcDoRpc_RopSyncOpenCollector, EcDoRpc_RopGetLocalReplicaIds,
      EcDoRpc_RopSyncImportReadStateChanges,
      EcDoRpc_RopSyncGetTransferState,
      EcDoRpc_RopSetLocalReplicaMidsetDeleted, sanity_checks;
    returns.
Qed.

(** C10, amended.  Every handler of the module, called with non-NULL
    context, request, reply, handles and size: whenever it returns, the
    value it returns is [MAPI_E_SUCCESS], whatever error code it left in
    the reply.  In particular the failure of the handle lookup, in every
    handler that looks its handle up, is a return of [MAPI_E_SUCCESS]
    with [MAPI_E_INVALID_OBJECT] in the reply and the provider context
    untouched. *)
Theorem handlers_return_success depth op ctx req repl handles size :
  (forall r,
      handler_of depth op (Some ctx) (Some req) (Some repl) (Some handles)
                 (Some size) = Some r ->
      r.1 = MAPI_E_SUCCESS)
  /\ (forall h,
         is_stub op = false ->
         request_for op (req_u req) = true ->
         handles_get handles (req_handle_idx req) = Some h ->
         handles_ctx ctx !! h = None ->
         exists rs,
           handler_of depth op (Some ctx) (Some req) (Some repl)
                      (Some handles) (Some size)
           = Some (MAPI_E_SUCCESS, Some rs)
           /\ error_code (rs_repl rs) = MAPI_E_INVALID_OBJECT
           /\ rs_ctx rs = ctx).
Proof.
  split; [apply handler_returns_success |].
  intros h Hstub Hreq Hh Hnone.
  destruct op; try discriminate Hstub; cbn [handler_of];
    unfold EcDoRpc_RopFastTransferSourceCopyTo,
      EcDoRpc_RopFastTransferSourceGetBuffer, EcDoRpc_RopSyncConfigure,
      EcDoRpc_RopSyncImportMessageChange,
      EcDoRpc_RopSyncImportHierarchyChange, EcDoRpc_RopSyncImportDeletes,
      EcDoRpc_RopSyncUploadStateStreamBegin,
      EcDoRpc_RopSyncUploadStateStreamContinue,
      EcDoRpc_RopSyncUploadStateStreamEnd,
      EcDoRpc_RopSyncOpenCollector, EcDoRpc_RopGetLocalReplicaIds,
      EcDoRpc_RopSyncGetTransferState, sanity_checks;
    cbn [request_for] in Hreq;
    destruct (req_u req); try discriminate Hreq;
    rewrite Hh; cbn [mbind option_bind]; rewrite Hnone;
    unfold rop_end; eexists; (split; [reflexivity |]); cbn; auto.
Qed.

End ReturnTheorems.

(** C10 as stated fails where the code calls [abort()], for the handler
    then returns nothing.  FastTransferSourceCopyTo on a folder with a
    property of type [PT_FLOAT] reaches the [default:] branch of
    [oxcfxics_ndr_push_simple_data]; SyncUploadStateStreamEnd for
    PidTagIdsetGiven with a set without ranges reaches the [abort()] of
    its [switch]. *)
Lemma handlers_abort_without_return :
  handler_of (K := Sample.constants) (E := Sample.collaborators)
             0 RopFastTransferSourceCopyTo
             (Some Sample.float_property_context) (Some Sample.copyto_request)
             (Some Sample.blank_repl) (Some Sample.handle_array) (Some 0)
  = None
  /\ handler_of (K := Sample.constants) (E := Sample.collaborators)
                0 RopSyncUploadStateStreamEnd
                (Some (Sample.armed_session None None 0x40170003 []))
                (Some (Sample.plain_request 0x77))
                (Some Sample.blank_repl) (Some Sample.handle_array) (Some 0)
     = None.
Proof. split; vm_compute; reflexivity. Qed.

(** The witness of C10: SyncImportDeletes refuses hierarchy deletes with
    [MAPI_E_INVALID_OBJECT] in the reply, and returns [MAPI_E_SUCCESS];
    so does SyncImportMessageChange on a handle that is not in the
    table. *)
Lemma handlers_return_success_witness :
  (exists rs,
      EcDoRpc_RopSyncImportDeletes
        (Some (Sample.session None None Sample.empty_store))
        (Some Sample.hierarchy_deletes_request) (Some Sample.blank_repl)
        (Some Sample.handle_array) (Some 0)
      = Some (MAPI_E_SUCCESS, Some rs)
      /\ error_code (rs_repl rs) = MAPI_E_INVALID_OBJECT)
  /\ (exists rs,
         EcDoRpc_RopSyncImportMessageChange
           (Some (Sample.session None None Sample.empty_store))
           (Some (Sample.import_request Sample.known_source_key))
           (Some Sample.blank_repl) (Some Sample.stale_handle_array) (Some 0)
         = Some (MAPI_E_SUCCESS, Some rs)
         /\ error_code (rs_repl rs) = MAPI_E_INVALID_OBJECT).
Proof.
  split.
  - destruct (EcDoRpc_RopSyncImportDeletes
                (Some (Sample.session None None Sample.empty_store))
                (Some Sample.hierarchy_deletes_request) (Some Sample.blank_repl)
                (Some Sample.handle_array) (Some 0))
      as [[status [rs |]] |] eqn:Hcall;
      try (exfalso; vm_compute in Hcall; discriminate).
    pose proof (proj1 (handlers_return_success
                         (K := Sample.constants) (T := Sample.types)
                         (E := Sample.collaborators)
                         0 RopSyncImportDeletes
                         (Sample.session None None Sample.empty_store)
                         Sample.hierarchy_deletes_request Sample.blank_repl
                         Sample.handle_array 0)
                      (status, Some rs) Hcall) as Hstatus.
    cbn in Hstatus. subst status.
    exists rs. split; [reflexivity |].
    vm_compute in Hcall. injection Hcall as <-. reflexivity.
  - destruct (proj2 (handlers_return_success
                       (K := Sample.constants) (T := Sample.types)
                       (E := Sample.collaborators)
                       0 RopSyncImportMessageChange
                       (Sample.session None None Sample.empty_store)
                       (Sample.import_request Sample.known_source_key)
                       Sample.blank_repl Sample.stale_handle_array 0)
                    99 eq_refl eq_refl eq_refl eq_refl)
      as (rs & Hcall & Herr & _).
    exists rs. split; [exact Hcall | exact Herr].
Defined.

(** * Further properties *)

(** Splits a conjunction into its conjuncts. *)
Ltac conjuncts := repeat match goal with |- _ /\ _ => split end.

(** Takes a run of the option monad apart: one hypothesis for each step
    that returned. *)
Ltac crack :=
  repeat match goal with
         | H : None = Some _ |- _ => discriminate H
         | H : Some _ = Some _ |- _ => injection H as H; try subst
         | H : mbind _ ?m = Some _ |- _ =>
             let Hstep := fresh "Hstep" in
             destruct m eqn:Hstep;
             [cbn [mbind option_bind] in H | discriminate H]
         | H : (if ?b then _ else _) = Some _ |- _ =>
             destruct b eqn:?
         | H : (match ?x with _ => _ end) = Some _ |- _ =>
             destruct x eqn:?; cbn [mbind option_bind] in H
         end.

(** ** The ID codec, further *)

Section CodecMoreFacts.

Import Codec.

Lemma le_value_range l :
  Forall is_byte l -> 0 <= le_value l < 2 ^ (8 * Z.of_nat (length l)).
Proof.
  induction 1 as [| b l Hb _ IH]; cbn [le_value length].
  - change (2 ^ (8 * Z.of_nat 0)) with 1. lia.
  - unfold is_byte in Hb.
    replace (8 * Z.of_nat (S (length l)))
      with (8 + 8 * Z.of_nat (length l)) by lia.
    rewrite Z.pow_add_r by lia. change (2 ^ 8) with 256. lia.
Qed.

Lemma gc_loop_le_value n :
  forall bytes,
    length bytes = n -> Forall is_byte bytes ->
    gc_loop n (le_value bytes) = bytes.
Proof.
  induction n as [| n IH]; intros bytes Hlen Hb.
  - destruct bytes; [reflexivity | discriminate].
  - destruct bytes as [| b bytes]; [discriminate |].
    inversion Hb as [| ? ? Hb0 Hbs]; subst. injection Hlen as Hlen.
    unfold is_byte in Hb0. cbn [gc_loop le_value].
    pose proof (le_value_range bytes Hbs) as Hv.
    change 0xff with (Z.ones 8). rewrite Z.land_ones by lia.
    rewrite Z.shiftr_div_pow2 by lia. change (2 ^ 8) with 256.
    replace ((b + 256 * le_value bytes) mod 256) with b
      by (apply Z.mod_unique_pos with (q := le_value bytes); lia).
    replace ((b + 256 * le_value bytes) / 256) with (le_value bytes)
      by (apply Z.div_unique_pos with (r := b); lia).
    f_equal. apply IH; assumption.
Qed.

End CodecMoreFacts.

Section CodecMoreTheorems.

Import Codec.

(** X1. The round trip in the other direction.  A source key of 22
    bytes whose GUID prefix the registry knows under a 16-bit replica id,
    which it maps back to that prefix, is decoded by
    [oxcfxics_fmid_from_source_key] to an FMID that
    [oxcfxics_source_key_from_fmid] encodes as the same 22 bytes. *)
Theorem source_key_fmid_round_trip
        (replid_to_guid : Z -> option GUID) (guid_to_replid : GUID -> option Z)
        (sk : list Z) (replid : Z) :
  length sk = 22%nat ->
  Forall is_byte sk ->
  guid_to_replid (take 16 sk) = Some replid ->
  0 <= replid < 2 ^ 16 ->
  replid_to_guid replid = Some (take 16 sk) ->
  exists f,
    oxcfxics_fmid_from_source_key guid_to_replid sk
    = Some (MAPISTORE_SUCCESS, Some f)
    /\ 0 <= f < 2 ^ 64
    /\ oxcfxics_source_key_from_fmid replid_to_guid f
       = (MAPISTORE_SUCCESS, Some sk).
Proof.
  intros Hlen Hbytes Hguid Hreplid Hback.
  unfold oxcfxics_fmid_from_source_key.
  rewrite Hlen. change (Z.of_nat 22 <? 16) with false. cbv iota.
  rewrite Hguid.
  set (tail := drop 16 sk).
  assert (Hlen6 : length tail = 6%nat)
    by (unfold tail; rewrite length_drop; lia).
  assert (Hb6 : Forall is_byte tail) by (apply Forall_drop; exact Hbytes).
  pose proof (fmid_loop_decodes 6 tail [] 0 0 Hlen6 Hb6) as Hloop.
  rewrite app_nil_r in Hloop. change (2 ^ (8 * 0)) with 1 in Hloop.
  rewrite Hloop by lia.
  replace (0 + 1 * le_value tail) with (le_value tail) by ring.
  pose proof (le_value_range tail Hb6) as Hv. rewrite Hlen6 in Hv.
  change (8 * Z.of_nat 6) with 48 in Hv.
  set (v := le_value tail) in *.
  assert (Hshift : uint64 (Z.shiftl v 16) = v * 2 ^ 16).
  { rewrite Z.shiftl_mul_pow2 by lia. unfold uint64. apply Z.mod_small.
    change (2 ^ 64) with (2 ^ 48 * 2 ^ 16). nia. }
  rewrite Hshift.
  assert (Hf : Z.lor (v * 2 ^ 16) replid = replid + v * 2 ^ 16)
    by (rewrite Z.lor_comm; apply lor_disjoint_add; lia).
  rewrite Hf.
  eexists. split; [reflexivity |].
  split; [change (2 ^ 64) with (2 ^ 48 * 2 ^ 16); nia |].
  unfold oxcfxics_source_key_from_fmid.
  assert (Hlow : Z.land (replid + v * 2 ^ 16) 0xffff = replid).
  { change 0xffff with (Z.ones 16). rewrite Z.land_ones by lia.
    rewrite Z.mod_add by lia. apply Z.mod_small. lia. }
  rewrite Hlow, Hback.
  assert (Hhigh : Z.shiftr (replid + v * 2 ^ 16) 16 = v).
  { rewrite Z.shiftr_div_pow2 by lia. rewrite Z.div_add by lia.
    rewrite (Z.div_small replid) by lia. lia. }
  rewrite Hhigh. unfold v.
  rewrite (gc_loop_le_value 6 tail Hlen6 Hb6).
  unfold tail. rewrite take_drop. reflexivity.
Qed.

(** X2. [oxcfxics_make_xid] refuses an id length above 8.  Otherwise it
    returns the replica GUID followed by exactly [idlength] bytes, which
    are the low [idlength] bytes of the id, least significant first. *)
Theorem make_xid_layout (replica_guid : GUID) (id idlength : Z) :
  0 <= id -> 0 <= idlength ->
  if 8 <? idlength then oxcfxics_make_xid replica_guid id idlength = None
  else
    exists bytes,
      oxcfxics_make_xid replica_guid id idlength = Some (replica_guid ++ bytes)
      /\ Z.of_nat (length bytes) = idlength
      /\ Forall is_byte bytes
      /\ le_value bytes = id mod 2 ^ (8 * idlength).
Proof.
  intros Hid Hlen. unfold oxcfxics_make_xid.
  destruct (8 <? idlength) eqn:Hbig; [reflexivity |].
  eexists. split; [reflexivity |].
  split; [rewrite gc_loop_length; lia |].
  split; [apply gc_loop_bytes |].
  rewrite le_value_gc_loop by lia. rewrite Z2Nat.id by lia. reflexivity.
Qed.

End CodecMoreTheorems.

(** The witness of X1: the key of counter 5 under the mailbox replica. *)
Lemma source_key_fmid_round_trip_witness :
  exists f,
    Codec.oxcfxics_fmid_from_source_key Sample.guid_to_replid
      (Sample.guid_A ++ [5; 0; 0; 0; 0; 0])
    = Some (MAPISTORE_SUCCESS, Some f)
    /\ 0 <= f < 2 ^ 64
    /\ Codec.oxcfxics_source_key_from_fmid Sample.replid_to_guid f
       = (MAPISTORE_SUCCESS, Some (Sample.guid_A ++ [5; 0; 0; 0; 0; 0])).
Proof.
  refine (source_key_fmid_round_trip Sample.replid_to_guid
            Sample.guid_to_replid (Sample.guid_A ++ [5; 0; 0; 0; 0; 0]) 1
            _ _ _ _ _).
  - reflexivity.
  - unfold is_byte. apply (bool_decide_unpack _). vm_compute. exact I.
  - reflexivity.
  - lia.
  - reflexivity.
Defined.

(** The witness of X2: a change key, the GID of counter [0x0102030405]
    (6 bytes), and an id length of 9. *)
Lemma make_xid_layout_witness :
  (exists bytes,
      Codec.oxcfxics_make_xid Sample.guid_A 0x0102030405 6
      = Some (Sample.guid_A ++ bytes)
      /\ Z.of_nat (length bytes) = 6
      /\ Forall is_byte bytes
      /\ Codec.le_value bytes = 0x0102030405 mod 2 ^ (8 * 6))
  /\ Codec.oxcfxics_make_xid Sample.guid_A 0x0102030405 9 = None.
Proof.
  split.
  - refine (make_xid_layout Sample.guid_A 0x0102030405 6 _ _); lia.
  - refine (make_xid_layout Sample.guid_A 0x0102030405 9 _ _); lia.
Defined.

(** ** The property serializer *)

Section SerializerFacts.
Context {K : mapi_constants} {T : backend_types} {E : externals}.

Lemma offsets_between_le lo hi ks :
  offsets_between lo hi ks -> (lo <= hi)%nat.
Proof.
  revert lo. induction ks as [| k ks IH]; intros lo; cbn; [lia |].
  intros [Hk Hks]. specialize (IH _ Hks). lia.
Qed.

Lemma offsets_between_app lo mid hi ks1 ks2 :
  offsets_between lo mid ks1 -> offsets_between mid hi ks2 ->
  offsets_between lo hi (ks1 ++ ks2).
Proof.
  revert lo. induction ks1 as [| k ks1 IH]; intros lo; cbn.
  - intros Hlo H2. destruct ks2 as [| k2 ks2]; cbn in *; [lia |].
    destruct H2 as [Hk2 H2]. split; [lia | exact H2].
  - intros [Hk H1] H2. split; [exact Hk | apply IH; assumption].
Qed.

Lemma offsets_between_widen lo hi hi' ks :
  offsets_between lo hi ks -> (hi <= hi')%nat -> offsets_between lo hi' ks.
Proof.
  intros H Hle. rewrite <- (app_nil_r ks).
  apply offsets_between_app with hi; [exact H | exact Hle].
Qed.

Lemma push_extends_refl st : push_extends st st.
Proof.
  exists [], []. cbn. rewrite !app_nil_r. repeat split; lia.
Qed.

Lemma push_extends_trans st1 st2 st3 :
  push_extends st1 st2 -> push_extends st2 st3 -> push_extends st1 st3.
Proof.
  intros (b1 & k1 & Hd1 & Hm1 & Ho1) (b2 & k2 & Hd2 & Hm2 & Ho2).
  exists (b1 ++ b2), (k1 ++ k2).
  split; [rewrite Hd2, Hd1, app_assoc; reflexivity |].
  split; [rewrite Hm2, Hm1; unfold marks_at; rewrite map_app, app_assoc;
          reflexivity |].
  apply offsets_between_app with (length (ndr_data st2.1)); assumption.
Qed.

(** A step that only appends bytes to the stream. *)
Lemma push_extends_bytes st ndr' :
  ndr_data st.1 `prefix_of` ndr_data ndr' -> push_extends st (ndr', st.2).
Proof.
  intros [bytes Hb]. exists bytes, []. cbn. rewrite app_nil_r.
  repeat split; [exact Hb |]. rewrite Hb, length_app. lia.
Qed.

Lemma push_extends_prefix st st' :
  push_extends st st' -> ndr_data st.1 `prefix_of` ndr_data st'.1.
Proof. intros (b & k & Hd & _). exists b. exact Hd. Qed.

Lemma push_extends_cutmark st : push_extends st (push_cutmark st).
Proof.
  exists [], [length (ndr_data st.1)]. cbn. rewrite app_nil_r.
  split; [reflexivity |].
  split; [| lia].
  unfold cutmarks_push, ndr_offset, uint32.
  rewrite Z.mod_mod by lia. reflexivity.
Qed.

Lemma push_extends_uint32 st v : push_extends st (push_uint32 st v).
Proof. apply push_extends_bytes. cbn. apply prefix_app_r. reflexivity. Qed.

Lemma simple_data_grows ndr data_type value ndr' :
  oxcfxics_ndr_push_simple_data ndr data_type value = Some ndr' ->
  ndr_data ndr `prefix_of` ndr_data ndr'.
Proof.
  unfold oxcfxics_ndr_push_simple_data. intros H.
  repeat case_match; simplify_eq; cbn;
    repeat apply prefix_app_r; reflexivity.
Qed.

Lemma simple_data_array_grows prop_type values :
  forall ndr ndr',
    push_simple_data_array ndr prop_type values = Some ndr' ->
    ndr_data ndr `prefix_of` ndr_data ndr'.
Proof.
  induction values as [| v values IH]; intros ndr ndr' H; cbn in H.
  - simplify_eq. reflexivity.
  - destruct (oxcfxics_ndr_push_simple_data ndr prop_type (Some v))
      as [ndr1 |] eqn:H1; [| discriminate]. cbn in H.
    etransitivity; [apply (simple_data_grows _ _ _ _ H1) | apply (IH _ _ H)].
Qed.

Lemma property_tag_grows s ndr property ndr' :
  push_property_tag s ndr property = Some ndr' ->
  ndr_data ndr `prefix_of` ndr_data ndr'.
Proof.
  unfold push_property_tag. intros H.
  repeat case_match; simplify_eq; cbn;
    repeat apply prefix_app_r; reflexivity.
Qed.

Lemma property_value_grows ndr property slot ndr' :
  push_property_value ndr property slot = Some ndr' ->
  ndr_data ndr `prefix_of` ndr_data ndr'.
Proof.
  unfold push_property_value. intros H.
  repeat case_match; simplify_eq;
    try (apply (simple_data_grows _ _ _ _ H));
    (etransitivity; [| apply (simple_data_array_grows _ _ _ _ H)]);
    cbn; apply prefix_app_r; reflexivity.
Qed.

Lemma push_property_extends s st property slot st' :
  push_property s st property slot = Some st' -> push_extends st st'.
Proof.
  unfold push_property. intros H.
  apply push_extends_trans with (push_cutmark st);
    [apply push_extends_cutmark |].
  destruct (push_property_tag s (push_cutmark st).1 property)
    as [ndr1 |] eqn:Htag.
  - destruct (push_property_value ndr1 property slot) as [ndr2 |] eqn:Hval;
      [| discriminate].
    cbn in H. simplify_eq.
    apply (push_extends_bytes (push_cutmark st)).
    etransitivity; [apply (property_tag_grows _ _ _ _ Htag) |].
    apply (property_value_grows _ _ _ _ Hval).
  - simplify_eq. apply push_extends_refl.
Qed.

Lemma push_properties_extends s properties :
  forall st data_pointers retvals st',
    oxcfxics_ndr_push_properties s st properties data_pointers retvals
    = Some st' ->
    push_extends st st'.
Proof.
  induction properties as [| p ps IH]; intros st dps rvs st' H; cbn in H.
  - simplify_eq. apply push_extends_refl.
  - destruct rvs as [| r rvs]; [discriminate |].
    destruct (is_success r).
    + destruct (push_property s st p (head dps)) as [st1 |] eqn:H1;
        [| discriminate].
      cbn in H. apply push_extends_trans with st1;
        [apply (push_property_extends _ _ _ _ _ H1) | apply (IH _ _ _ _ H)].
    + cbn in H. apply (IH _ _ _ _ H).
Qed.

Lemma push_property_one_cutmark s st property slot st' :
  push_property s st property slot = Some st' ->
  length st'.2 = S (length st.2).
Proof.
  unfold push_property. intros H.
  repeat case_match; simplify_option_eq; cbn;
    unfold cutmarks_push; rewrite length_app; cbn; lia.
Qed.

End SerializerFacts.

Section SerializerTheorems.
Context {K : mapi_constants} {T : backend_types} {E : externals}.

(** X3. [oxcfxics_ndr_push_properties] only appends.  When it returns,
    the stream is the stream it was given followed by new bytes, the
    cut-marks are those it was given followed by new ones, and the new
    cut-marks are offsets of the new area, between the old and the new
    stream length, in non-decreasing order. *)
Theorem push_properties_appends
        s st properties data_pointers retvals st' :
  oxcfxics_ndr_push_properties s st properties data_pointers retvals
  = Some st' ->
  exists bytes ks,
    ndr_data st'.1 = ndr_data st.1 ++ bytes
    /\ st'.2 = st.2 ++ map (fun k => uint32 (Z.of_nat k)) ks
    /\ offsets_between (length (ndr_data st.1))
                       (length (ndr_data st.1 ++ bytes)) ks.
Proof.
  intros H. destruct (push_properties_extends _ _ _ _ _ _ H)
    as (bytes & ks & Hd & Hm & Ho).
  exists bytes, ks. rewrite <- Hd. auto.
Qed.

(** X4. [oxcfxics_ndr_push_properties] records exactly one cut-mark for
    each property whose return value is [MAPI_E_SUCCESS], also for a
    named property that it then skips, and none for the others. *)
Theorem push_properties_cutmark_count s properties :
  forall st data_pointers retvals st',
    oxcfxics_ndr_push_properties s st properties data_pointers retvals
    = Some st' ->
    length st'.2
    = (length st.2
       + length (filter (fun r => is_success r = true)
                        (take (length properties) retvals)))%nat.
Proof.
  induction properties as [| p ps IH]; intros st dps rvs st' H; cbn in H.
  - simplify_eq. cbn [length]. rewrite take_0, filter_nil. cbn. lia.
  - destruct rvs as [| r rvs]; [discriminate |].
    cbn [length take]. rewrite filter_cons.
    destruct (is_success r) eqn:Hr.
    + destruct (push_property s st p (head dps)) as [st1 |] eqn:H1;
        [| discriminate].
      cbn in H. rewrite (IH _ _ _ _ H).
      rewrite (push_property_one_cutmark _ _ _ _ _ H1).
      rewrite decide_True by reflexivity. cbn. lia.
    + cbn in H. rewrite (IH _ _ _ _ H).
      rewrite decide_False by discriminate. lia.
Qed.

(** X5. A property whose return value is not [MAPI_E_SUCCESS] leaves no
    trace: serializing an array of properties gives the same stream and
    cut-marks as serializing only those with [MAPI_E_SUCCESS], each with
    its own data pointer. *)
Theorem push_properties_ignores_failed
        s (triples : list (Z * option prop_data * MAPISTATUS)) :
  forall st,
    let kept := filter (fun t => is_success t.2 = true) triples in
    oxcfxics_ndr_push_properties s st (map (fun t => t.1.1) triples)
      (map (fun t => t.1.2) triples) (map (fun t => t.2) triples)
    = oxcfxics_ndr_push_properties s st (map (fun t => t.1.1) kept)
        (map (fun t => t.1.2) kept) (map (fun t => t.2) kept).
Proof.
  induction triples as [| [[p d] r] ts IH]; intros st; cbn zeta;
    [reflexivity |].
  rewrite filter_cons. cbn [snd fst].
  destruct (is_success r) eqn:Hr.
  - rewrite decide_True by reflexivity.
    cbn [map fst snd oxcfxics_ndr_push_properties head tail]. rewrite Hr.
    destruct (push_property s st p (Some d)) as [st1 |];
      cbn [mbind option_bind]; [apply IH | reflexivity].
  - rewrite decide_False by discriminate.
    cbn [map fst snd oxcfxics_ndr_push_properties head tail]. rewrite Hr.
    cbn [mbind option_bind]. apply IH.
Qed.

(** X6. A value of a type that the [switch] of
    [oxcfxics_ndr_push_simple_data] has no case for ends in [abort()],
    whatever the value; and so does a multi-valued property whose base
    type is neither [PT_BINARY] nor [PT_UNICODE]. *)
Theorem unsupported_type_aborts ndr (data_type : Z) value property slot :
  (data_type ∉ supported_types ->
   oxcfxics_ndr_push_simple_data ndr data_type value = None)
  /\ (Z.land (Z.land property 0xffff) MV_FLAG <> 0 ->
      Z.land (Z.land property 0xffff) 0x0fff <> PT_BINARY ->
      Z.land (Z.land property 0xffff) 0x0fff <> PT_UNICODE ->
      push_property_value ndr property slot = None).
Proof.
  split.
  - intros Hnot. unfold supported_types in Hnot.
    repeat (apply not_elem_of_cons in Hnot; destruct Hnot as [? Hnot]).
    unfold oxcfxics_ndr_push_simple_data.
    repeat match goal with
           | H : data_type <> ?c |- context [data_type =? ?c] =>
               rewrite (proj2 (Z.eqb_neq data_type c) H)
           end.
    reflexivity.
  - intros Hmv Hbin Huni. unfold push_property_value.
    rewrite (proj2 (Z.eqb_neq _ _) Hmv). cbn [negb].
    rewrite (proj2 (Z.eqb_neq _ _) Hbin), (proj2 (Z.eqb_neq _ _) Huni).
    reflexivity.
Qed.

End SerializerTheorems.

(** The witness of X3: a 32-bit property and a string property pushed
    on an empty stream. *)
Lemma push_properties_appends_witness :
  exists st' bytes ks,
    oxcfxics_ndr_push_properties
      (K := Sample.constants) (T := Sample.types) (E := Sample.collaborators)
      Sample.empty_store (ndr_push_init (K := Sample.constants), [])
      [0x30000003; 0x3001001f]
      [Some (D_uint32 1); Some (D_string [65])]
      [MAPI_E_SUCCESS; MAPI_E_SUCCESS]
    = Some st'
    /\ ndr_data st'.1 = [] ++ bytes
    /\ st'.2 = [] ++ map (fun k => uint32 (Z.of_nat k)) ks
    /\ offsets_between 0 (length ([] ++ bytes)) ks.
Proof.
  destruct (oxcfxics_ndr_push_properties
              (K := Sample.constants) (T := Sample.types)
              (E := Sample.collaborators)
              Sample.empty_store (ndr_push_init (K := Sample.constants), [])
              [0x30000003; 0x3001001f]
              [Some (D_uint32 1); Some (D_string [65])]
              [MAPI_E_SUCCESS; MAPI_E_SUCCESS])
    as [st' |] eqn:Hpush; [| exfalso; vm_compute in Hpush; discriminate].
  destruct (push_properties_appends _ _ _ _ _ _ Hpush)
    as (bytes & ks & Hd & Hm & Ho).
  exists st', bytes, ks. split; [reflexivity |]. auto.
Defined.

(** The witness of X4: of three properties, the second has no value and
    the third is a named property without a name: two cut-marks. *)
Lemma push_properties_cutmark_count_witness :
  exists st',
    oxcfxics_ndr_push_properties
      (K := Sample.constants) (T := Sample.types) (E := Sample.collaborators)
      Sample.empty_store (ndr_push_init (K := Sample.constants), [])
      [0x30000003; 0x3001001f; 0x80010003]
      [Some (D_uint32 1); None; Some (D_uint32 7)]
      [MAPI_E_SUCCESS; MAPI_E_NOT_FOUND; MAPI_E_SUCCESS]
    = Some st'
    /\ length st'.2 = 2%nat.
Proof.
  destruct (oxcfxics_ndr_push_properties
              (K := Sample.constants) (T := Sample.types)
              (E := Sample.collaborators)
              Sample.empty_store (ndr_push_init (K := Sample.constants), [])
              [0x30000003; 0x3001001f; 0x80010003]
              [Some (D_uint32 1); None; Some (D_uint32 7)]
              [MAPI_E_SUCCESS; MAPI_E_NOT_FOUND; MAPI_E_SUCCESS])
    as [st' |] eqn:Hpush; [| exfalso; vm_compute in Hpush; discriminate].
  exists st'. split; [reflexivity |].
  rewrite (push_properties_cutmark_count _ _ _ _ _ _ Hpush). reflexivity.
Defined.

(** The witness of X6: [PT_FLOAT] (0x0004) has no case, and neither has
    a multi-valued long (0x1003). *)
Lemma unsupported_type_aborts_witness :
  oxcfxics_ndr_push_simple_data
    (K := Sample.constants) (T := Sample.types) (E := Sample.collaborators)
    (ndr_push_init (K := Sample.constants)) 0x0004 (Some (D_uint32 1)) = None
  /\ push_property_value
       (K := Sample.constants) (T := Sample.types) (E := Sample.collaborators)
       (ndr_push_init (K := Sample.constants)) 0x66661003
       (Some (Some (D_uint32 1))) = None.
Proof.
  destruct (unsupported_type_aborts
              (K := Sample.constants) (T := Sample.types)
              (E := Sample.collaborators)
              (ndr_push_init (K := Sample.constants)) 0x0004
              (Some (D_uint32 1)) 0x66661003 (Some (Some (D_uint32 1))))
    as [Hsimple Hmulti].
  split.
  - apply Hsimple. apply (bool_decide_unpack _). vm_compute. exact I.
  - apply Hmulti; vm_compute; discriminate.
Defined.

(** ** The producers: cut-marks *)

Section ProducerFacts.
Context {K : mapi_constants} {T : backend_types} {E : externals}.

Lemma for_loop_related {S : Type} (R : S -> S -> Prop)
      (body : Z -> S -> option S) :
  (forall x, R x x) ->
  (forall x y z, R x y -> R y z -> R x z) ->
  (forall i x y, body i x = Some y -> R x y) ->
  forall n i x y, for_loop n i body x = Some y -> R x y.
Proof.
  intros Hrefl Htrans Hbody. induction n as [| n IH]; intros i x y H; cbn in H.
  - simplify_eq. apply Hrefl.
  - destruct (body i x) as [x1 |] eqn:H1; [| discriminate]. cbn in H.
    apply Htrans with x1; [apply (Hbody _ _ _ H1) | apply (IH _ _ _ H)].
Qed.

Lemma header_extends s st header st' :
  push_header s st header = Some st' -> push_extends st st'.
Proof. apply push_properties_extends. Qed.

(** Steps of a serialization, composed on the right of a chain. *)
Ltac ext_chain :=
  repeat first
    [ assumption
    | apply push_extends_refl
    | match goal with
      | |- push_extends _ (push_uint32 ?st _) =>
          apply push_extends_trans with st; [| apply push_extends_uint32]
      | |- push_extends _ (push_cutmark ?st) =>
          apply push_extends_trans with st; [| apply push_extends_cutmark]
      | |- push_extends _ (ndr_append (fst ?st) _, snd ?st) =>
          apply push_extends_trans with st;
          [| apply push_extends_bytes; cbn; apply prefix_app_r; reflexivity]
      | H : oxcfxics_ndr_push_properties _ ?st _ _ _ = Some ?st'
        |- push_extends _ ?st' =>
          apply push_extends_trans with st;
          [| apply (push_properties_extends _ _ _ _ _ _ H)]
      | H : push_header _ ?st _ = Some ?st' |- push_extends _ ?st' =>
          apply push_extends_trans with st;
          [| apply (header_extends _ _ _ _ H)]
      end ].

Lemma recipient_rows_extend s aRow :
  forall st i st',
    push_recipient_rows s st i aRow = Some st' -> push_extends st st'.
Proof.
  induction aRow as [| row aRow IH]; intros st i st' H; cbn in H.
  - simplify_eq. apply push_extends_refl.
  - destruct (oxcfxics_ndr_push_properties _ _ _ _ _) as [st1 |] eqn:H1;
      [| discriminate].
    cbn in H. apply push_extends_trans with (push_uint32 (push_cutmark st1)
                                                         PR_END_RECIP);
      [| apply (IH _ _ _ H)].
    ext_chain.
Qed.

Lemma recipients_extend s st msg st' :
  oxcfxics_push_messageChange_recipients s st msg = Some st' ->
  push_extends st st'.
Proof.
  unfold oxcfxics_push_messageChange_recipients. intros H.
  repeat case_match; simplify_eq;
    try (apply push_extends_trans
           with (push_uint32 (push_uint32 (push_cutmark st) PR_FX_DEL_PROP)
                             PR_MESSAGE_RECIPIENTS);
         [| eapply recipient_rows_extend; eassumption]);
    ext_chain.
Qed.

Lemma attachments_extend s st message_object st' :
  oxcfxics_push_messageChange_attachments s st message_object = Some st' ->
  push_extends st st'.
Proof.
  unfold oxcfxics_push_messageChange_attachments. intros H.
  repeat case_match; simplify_eq; try solve [ext_chain].
  apply push_extends_trans
    with (push_uint32 (push_uint32 st PR_FX_DEL_PROP) PR_MESSAGE_ATTACHMENTS);
    [ext_chain |].
  revert H. apply for_loop_related;
    [apply push_extends_refl | apply push_extends_trans |].
  intros i x y Hbody. crack. ext_chain.
Qed.

Lemma messageChange_row_extends s sc folder_object table i sd sd' :
  push_messageChange_row s sc folder_object table i sd = Some sd' ->
  push_extends (sd_push sd) (sd_push sd').
Proof.
  unfold push_messageChange_row. intros H.
  crack;
    cbn [sd_push set_push set_eid_set set_cnset_seen];
    repeat match goal with
           | H : oxcfxics_push_messageChange_attachments _ ?st _ = Some ?st'
             |- push_extends _ ?st' =>
               apply push_extends_trans with st;
               [| apply (attachments_extend _ _ _ _ H)]
           | H : oxcfxics_push_messageChange_recipients _ ?st _ = Some ?st'
             |- push_extends _ ?st' =>
               apply push_extends_trans with st;
               [| apply (recipients_extend _ _ _ _ H)]
           | H : push_header _ ?st _ = Some ?st' |- push_extends _ ?st' =>
               apply push_extends_trans with st;
               [| apply (header_extends _ _ _ _ H)]
           | _ => progress ext_chain
           end.
Qed.

Lemma messageChange_extends s sc sd folder_object sd' :
  oxcfxics_push_messageChange s sc sd folder_object = Some sd' ->
  push_extends (sd_push sd) (sd_push sd').
Proof.
  unfold oxcfxics_push_messageChange. intros H. crack. revert H.
  apply (for_loop_related
           (fun a b : oxcfxics_sync_data =>
              push_extends (sd_push a) (sd_push b))).
  - intros x. apply push_extends_refl.
  - intros x y z. apply push_extends_trans.
  - intros i x y. apply messageChange_row_extends.
Qed.

Lemma contents_records_extend s parent_object sc sd :
  contents_records s parent_object sc = Some sd ->
  push_extends (ndr_push_init, []) (sd_push sd).
Proof.
  unfold contents_records. intros H. crack;
    repeat match goal with
           | H : oxcfxics_push_messageChange _ _ _ _ = Some _ |- _ =>
               apply messageChange_extends in H; cbn [sd_push set_table_type] in H
           end;
    try (eapply push_extends_trans; eassumption);
    try assumption; apply push_extends_refl.
Qed.

Lemma folderChange_row_extends s sc is_topmost table i sd sd' eid :
  push_folderChange_row s sc is_topmost table i sd = Some (sd', eid) ->
  push_extends (sd_push sd) (sd_push sd').
Proof.
  unfold push_folderChange_row. intros H.
  crack; cbn [sd_push set_push set_eid_set set_cnset_seen]; ext_chain.
Qed.

Lemma folderChange_extends depth :
  forall s sc is_topmost sd folder_object sd',
    oxcfxics_push_folderChange depth s sc is_topmost sd folder_object
    = Some sd' ->
    push_extends (sd_push sd) (sd_push sd').
Proof.
  induction depth as [| depth IH]; intros s sc top sd folder sd' H;
    cbn [oxcfxics_push_folderChange] in H; [discriminate |].
  destruct (emsmdbp_folder_open_table s folder EMSMDBP_TABLE_FOLDER_TYPE)
    as [table |]; [| simplify_eq; apply push_extends_refl].
  revert H.
  apply (for_loop_related
           (fun a b : oxcfxics_sync_data =>
              push_extends (sd_push a) (sd_push b))).
  - intros x. apply push_extends_refl.
  - intros x y z. apply push_extends_trans.
  - intros i x y Hbody.
    destruct (push_folderChange_row s sc top table i x) as [[x1 eid] |] eqn:Hrow;
      [| discriminate].
    cbn [mbind option_bind] in Hbody.
    apply push_extends_trans with (sd_push x1);
      [apply (folderChange_row_extends _ _ _ _ _ _ _ _ Hrow)
      | apply (IH _ _ _ _ _ _ Hbody)].
Qed.

Lemma contents_state_extends sc sd :
  exists st0,
    push_extends (sd_push sd) st0
    /\ (push_contents_state sc sd).2 = (st0.1, cutmarks_push st0.2 0xffffffff).
Proof.
  unfold push_contents_state. cbn [snd].
  eexists. split; [| reflexivity].
  cbn [set_cnset set_idset_given request cnset_seen idset_given].
  destruct (fai (request sc)), (read_state (request sc)); ext_chain.
Qed.

Lemma hierarchy_state_extends sc sd :
  exists st0,
    push_extends (sd_push sd) st0
    /\ (push_hierarchy_state sc sd).2
       = (st0.1, cutmarks_push st0.2 0xffffffff).
Proof.
  unfold push_hierarchy_state. cbn [snd].
  eexists. split; [| reflexivity]. ext_chain.
Qed.

Lemma marks_at_small lo hi ks :
  offsets_between lo hi ks -> Z.of_nat hi < 2 ^ 32 ->
  marks_at ks = map Z.of_nat ks.
Proof.
  revert lo. induction ks as [| k ks IH]; intros lo; cbn; [reflexivity |].
  intros [Hk Hks] Hhi. pose proof (offsets_between_le _ _ _ Hks).
  f_equal; [| apply (IH _ Hks Hhi)].
  unfold uint32. apply Z.mod_small. lia.
Qed.

(** A stream started empty and closed by the sentinel. *)
Lemma sentinel_closes (start : ndr_push) st0 :
  ndr_data start = [] ->
  push_extends (start, []) st0 ->
  exists ks,
    cutmarks_push st0.2 0xffffffff = marks_at ks ++ [0xffffffff]
    /\ offsets_between 0 (length (ndr_data st0.1)) ks
    /\ (Z.of_nat (length (ndr_data st0.1)) < 2 ^ 32 ->
        cutmarks_push st0.2 0xffffffff = map Z.of_nat ks ++ [0xffffffff]).
Proof.
  intros Hstart (bytes & ks & Hd & Hm & Ho). cbn in Hd, Hm, Ho.
  rewrite Hstart in Ho. cbn in Ho.
  exists ks. unfold cutmarks_push. rewrite Hm.
  change (uint32 0xffffffff) with 0xffffffff.
  split; [reflexivity |]. split; [exact Ho |].
  intros Hlen. rewrite (marks_at_small _ _ _ Ho Hlen). reflexivity.
Qed.

End ProducerFacts.

Section ProducerCutmarkTheorems.
Context {K : mapi_constants} {T : backend_types} {E : externals}.

(** X7. The cut-marks of a contents stream.  When
    [oxcfxics_prepare_synccontext_with_messageChange] returns, the
    cut-marks of the context are offsets into the new stream, in
    non-decreasing order and none beyond its length, followed by the
    sentinel [0xffffffff] as last element (the offsets are stored modulo
    [2^32]; below that length they are stored as they are). *)
Theorem contents_cutmarks_well_formed s parent_object sc sc' :
  oxcfxics_prepare_synccontext_with_messageChange s parent_object sc
  = Some sc' ->
  exists bytes ks,
    buffer (stream sc') = Some bytes
    /\ cutmarks sc' = marks_at ks ++ [0xffffffff]
    /\ offsets_between 0 (length bytes) ks
    /\ (Z.of_nat (length bytes) < 2 ^ 32 ->
        cutmarks sc' = map Z.of_nat ks ++ [0xffffffff]).
Proof.
  unfold oxcfxics_prepare_synccontext_with_messageChange. intros H.
  destruct (contents_records s parent_object sc) as [sd |] eqn:Hrec;
    [| discriminate].
  cbn [mbind option_bind] in H.
  destruct (contents_state_extends sc sd) as (st0 & Hext & Hst).
  destruct (push_contents_state sc sd) as [sc1 st]. cbn [snd] in Hst.
  subst st. injection H as <-.
  destruct (sentinel_closes ndr_push_init st0 eq_refl) as (ks & Hm & Ho & Hs).
  { apply push_extends_trans with (sd_push sd);
      [apply (contents_records_extend _ _ _ _ Hrec) | exact Hext]. }
  exists (ndr_data st0.1), ks. cbn. auto.
Qed.

(** X8. The cut-marks of a hierarchy stream: when
    [oxcfxics_prepare_synccontext_with_folderChange] returns, whatever
    the nesting of the folders, the cut-marks of the context are offsets
    into the new stream, in non-decreasing order and none beyond its
    length, followed by the sentinel [0xffffffff]. *)
Theorem hierarchy_cutmarks_well_formed depth s parent_object sc sc' :
  oxcfxics_prepare_synccontext_with_folderChange depth s parent_object sc
  = Some sc' ->
  exists bytes ks,
    buffer (stream sc') = Some bytes
    /\ cutmarks sc' = marks_at ks ++ [0xffffffff]
    /\ offsets_between 0 (length bytes) ks
    /\ (Z.of_nat (length bytes) < 2 ^ 32 ->
        cutmarks sc' = map Z.of_nat ks ++ [0xffffffff]).
Proof.
  unfold oxcfxics_prepare_synccontext_with_folderChange. intros H.
  destruct (oxcfxics_push_folderChange depth s sc true _ (Some parent_object))
    as [sd |] eqn:Hrec; [| discriminate].
  cbn [mbind option_bind] in H.
  apply folderChange_extends in Hrec. cbn [sd_push] in Hrec.
  destruct (hierarchy_state_extends sc sd) as (st0 & Hext & Hst).
  destruct (push_hierarchy_state sc sd) as [sc1 st]. cbn [snd] in Hst.
  subst st. injection H as <-.
  destruct (sentinel_closes ndr_push_init st0 eq_refl) as (ks & Hm & Ho & Hs).
  { apply push_extends_trans with (sd_push sd); assumption. }
  exists (ndr_data st0.1), ks. cbn. auto.
Qed.

(** X9. The transfer context that FastTransferSourceCopyTo creates.
    When the handler returns and the handle it stored at the reply's
    handle index is a new one that holds a transfer context, the
    cut-marks of that context are offsets into its stream, in
    non-decreasing order and none beyond its length, followed by the
    sentinel [0xffffffff]; the reply reports no error. *)
Theorem copyto_cutmarks_well_formed
        ctx req repl handles size status rs idx level tags h ft :
  EcDoRpc_RopFastTransferSourceCopyTo (Some ctx) (Some req) (Some repl)
                                      (Some handles) (Some size)
  = Some (status, Some rs) ->
  req_u req = mapi_FastTransferSourceCopyTo idx level tags ->
  handles_get (rs_handles rs) idx = Some h ->
  handles_ctx ctx !! h = None ->
  handles_ctx (rs_ctx rs) !! h = Some (Some (Object_ftcontext ft)) ->
  exists bytes ks,
    buffer (ft_stream ft) = Some bytes
    /\ ft_cutmarks ft = marks_at ks ++ [0xffffffff]
    /\ offsets_between 0 (length bytes) ks
    /\ error_code (rs_repl rs) = MAPI_E_SUCCESS.
Proof.
  intros H Hu Hidx Hfresh Hnew.
  unfold EcDoRpc_RopFastTransferSourceCopyTo, sanity_checks in H.
  rewrite Hu in H. unfold rop_end, mapi_handles_add in H.
  crack; cbn [rs_ctx rs_handles rs_repl] in *;
    try (rewrite Hfresh in Hnew; discriminate Hnew).
  - (* the context was created *)
    unfold handles_set in *. crack.
    unfold handles_get in Hidx. cbn [handle_idx repl_init] in Hidx.
    rewrite list_lookup_insert_eq in Hidx
      by (apply Nat.ltb_lt; assumption).
    injection Hidx as <-.
    unfold mapi_handles_set_private_data, set_handles_ctx in Hnew.
    cbn [handles_ctx] in Hnew. rewrite lookup_insert_eq in Hnew.
    injection Hnew as <-. cbn [ft_stream ft_cutmarks buffer].
    match goal with
    | Hp : oxcfxics_ndr_push_properties _ _ _ _ _ = Some ?st |- _ =>
        destruct (sentinel_closes ndr_push_init st eq_refl
                    (push_properties_extends _ _ _ _ _ _ Hp))
          as (ks & Hm & Ho & _)
    end.
    eexists _, ks. split; [reflexivity |]. auto.
  - (* no transfer context could be made *)
    unfold set_handles_ctx in Hnew. cbn [handles_ctx] in Hnew.
    match type of Hnew with
    | <[?k := None]> _ !! h = _ =>
        destruct (decide (k = h)) as [-> | Hne];
        [rewrite lookup_insert_eq in Hnew
        | rewrite lookup_insert_ne in Hnew by exact Hne;
          rewrite Hfresh in Hnew];
        discriminate Hnew
    end.
Qed.

(** X10. When [oxcfxics_prepare_synccontext_with_folderChange] returns,
    the stream of the context is the folder records followed by exactly:
    [PR_INCR_SYNC_STATE_BEGIN]; [PidTagCnsetSeen] and the serialized
    merged [cnset_seen]; [PidTagIdsetGiven] and the serialized merged
    [idset_given]; [PR_INCR_SYNC_STATE_END]; [PR_INCR_SYNC_END], whatever
    the request flags: a hierarchy stream has no [PidTagCnsetSeenFAI]
    and no [PidTagCnsetRead] entry.  The merged [cnset_seen] is
    [IDSET_merge_idsets] of the set that the context held and the change
    numbers collected over the folder records, the merged [idset_given]
    the one of the set that the context held and the folder identifiers
    collected; each is the set that the context holds afterwards. *)
Theorem hierarchy_stream_ends_with_state_block
        depth s parent_object sc sc' :
  oxcfxics_prepare_synccontext_with_folderChange depth s parent_object sc
  = Some sc' ->
  exists sd : oxcfxics_sync_data,
    hierarchy_records depth s parent_object sc = Some sd
    /\ let records := ndr_data (sd_push sd).1 in
       let merged_cnset :=
         IDSET_merge_idsets (cnset_seen sc)
                            (RAWIDSET_convert_to_idset (sd_cnset_seen sd)) in
       let merged_given :=
         IDSET_merge_idsets (idset_given sc)
                            (RAWIDSET_convert_to_idset (eid_set sd)) in
       buffer (stream sc')
       = Some (records
               ++ le_bytes 4 PR_INCR_SYNC_STATE_BEGIN
               ++ le_bytes 4 PidTagCnsetSeen ++ idset_serialized merged_cnset
               ++ le_bytes 4 PidTagIdsetGiven ++ idset_serialized merged_given
               ++ le_bytes 4 PR_INCR_SYNC_STATE_END
               ++ le_bytes 4 PR_INCR_SYNC_END)
       /\ cnset_seen sc' = merged_cnset
       /\ idset_given sc' = merged_given
       /\ request sc' = request sc
       /\ properties sc' = properties sc.
Proof.
  unfold oxcfxics_prepare_synccontext_with_folderChange, hierarchy_records.
  intros H.
  destruct (oxcfxics_push_folderChange depth s sc true _ (Some parent_object))
    as [sd |] eqn:Hrec; [| discriminate].
  cbn [mbind option_bind] in H.
  unfold push_hierarchy_state in H. injection H as <-.
  exists sd. split; [reflexivity |].
  unfold install_stream, push_uint32, ndr_push_uint32, ndr_append.
  cbn -[le_bytes]. rewrite <- ?app_assoc. auto.
Qed.

End ProducerCutmarkTheorems.

(** The witness of X7: the contents stream of the folder with two
    messages, for a client that has seen nothing. *)
Lemma contents_cutmarks_well_formed_witness :
  exists sc' bytes ks,
    oxcfxics_prepare_synccontext_with_messageChange
      (K := Sample.constants) (T := Sample.types) (E := Sample.collaborators)
      Sample.two_messages Sample.inbox
      (Sample.contents_context false false None None) = Some sc'
    /\ buffer (stream sc') = Some bytes
    /\ cutmarks sc' = marks_at ks ++ [0xffffffff]
    /\ offsets_between 0 (length bytes) ks.
Proof.
  destruct (oxcfxics_prepare_synccontext_with_messageChange
              (K := Sample.constants) (T := Sample.types)
              (E := Sample.collaborators)
              Sample.two_messages Sample.inbox
              (Sample.contents_context false false None None))
    as [sc' |] eqn:Hprep; [| exfalso; vm_compute in Hprep; discriminate].
  destruct (contents_cutmarks_well_formed _ _ _ _ Hprep)
    as (bytes & ks & Hb & Hm & Ho & _).
  exists sc', bytes, ks. auto.
Defined.

(** The witness of X8: the hierarchy stream of the folder tree, whose
    three folders lie at two levels.  The cut-marks are the offsets of
    the three records and of their properties, and the sentinel. *)
Lemma hierarchy_cutmarks_well_formed_witness :
  exists sc' bytes ks,
    oxcfxics_prepare_synccontext_with_folderChange
      (K := Sample.constants) (T := Sample.types) (E := Sample.collaborators)
      3 Sample.empty_store Sample.tree_root
      (Sample.hierarchy_context None None) = Some sc'
    /\ buffer (stream sc') = Some bytes
    /\ length bytes = 459%nat
    /\ cutmarks sc' = marks_at ks ++ [0xffffffff]
    /\ offsets_between 0 (length bytes) ks
    /\ cutmarks sc'
       = [0; 4; 12; 42; 54; 84; 115; 127; 131; 161; 191; 203; 233; 264; 276;
          280; 288; 318; 330; 360; 391; 0xffffffff].
Proof.
  destruct (oxcfxics_prepare_synccontext_with_folderChange
              (K := Sample.constants) (T := Sample.types)
              (E := Sample.collaborators)
              3 Sample.empty_store Sample.tree_root
              (Sample.hierarchy_context None None))
    as [sc' |] eqn:Hprep; [| exfalso; vm_compute in Hprep; discriminate].
  destruct (hierarchy_cutmarks_well_formed _ _ _ _ _ Hprep)
    as (bytes & ks & Hb & Hm & Ho & _).
  exists sc', bytes, ks.
  split; [reflexivity |]. split; [exact Hb |].
  vm_compute in Hprep. injection Hprep as Hsc'.
  split.
  { rewrite <- Hsc' in Hb. cbn [stream buffer] in Hb.
    injection Hb as <-. reflexivity. }
  split; [exact Hm |]. split; [exact Ho |].
  rewrite <- Hsc'. reflexivity.
Defined.

(** The witness of X9: FastTransferSourceCopyTo on the inbox with one
    property puts the new handle 8 at index 1. *)
Lemma copyto_cutmarks_well_formed_witness :
  exists rs ft bytes ks,
    EcDoRpc_RopFastTransferSourceCopyTo
      (Some Sample.one_property_context) (Some Sample.copyto_request)
      (Some Sample.blank_repl) (Some Sample.handle_array) (Some 0)
    = Some (MAPI_E_SUCCESS, Some rs)
    /\ handles_ctx (rs_ctx rs) !! 8 = Some (Some (Object_ftcontext ft))
    /\ buffer (ft_stream ft) = Some bytes
    /\ ft_cutmarks ft = marks_at ks ++ [0xffffffff]
    /\ offsets_between 0 (length bytes) ks.
Proof.
  destruct (EcDoRpc_RopFastTransferSourceCopyTo
              (Some Sample.one_property_context) (Some Sample.copyto_request)
              (Some Sample.blank_repl) (Some Sample.handle_array) (Some 0))
    as [[status [rs |]] |] eqn:Hcall;
    try (exfalso; vm_compute in Hcall; discriminate).
  pose proof Hcall as Hvalue. vm_compute in Hvalue.
  injection Hvalue as Hstatus Hrs.
  destruct (handles_ctx (rs_ctx rs) !! 8) as [[[p sc | ft | o] |] |] eqn:Hobj;
    try (exfalso; rewrite <- Hrs in Hobj; vm_compute in Hobj;
         discriminate Hobj).
  assert (Hidx : handles_get (rs_handles rs) 1 = Some 8)
    by (rewrite <- Hrs; reflexivity).
  destruct (copyto_cutmarks_well_formed
              (K := Sample.constants) (T := Sample.types)
              (E := Sample.collaborators)
              _ _ _ _ _ _ _ 1 0 [] 8 ft Hcall eq_refl Hidx eq_refl Hobj)
    as (bytes & ks & Hb & Hm & Ho & _).
  exists rs, ft, bytes, ks. rewrite <- Hstatus. auto.
Defined.

(** The witness of X10: the hierarchy stream of the folder tree for a
    client that holds [idset_given = {3}] and [cnset_seen = {9}].  The
    three folders have the counters 10, 11, 12 and the change numbers
    1, 2, 3: the state block carries [cnset_seen = {1, 2, 3, 9}] and
    [idset_given = {3, 10, 11, 12}], after 403 bytes of records. *)
Lemma hierarchy_stream_ends_with_state_block_witness :
  exists sc' sd,
    oxcfxics_prepare_synccontext_with_folderChange
      (K := Sample.constants) (T := Sample.types) (E := Sample.collaborators)
      3 Sample.empty_store Sample.tree_root
      (Sample.hierarchy_context (Some [3]) (Some [9])) = Some sc'
    /\ hierarchy_records
         (K := Sample.constants) (T := Sample.types)
         (E := Sample.collaborators)
         3 Sample.empty_store Sample.tree_root
         (Sample.hierarchy_context (Some [3]) (Some [9])) = Some sd
    /\ length (ndr_data (sd_push sd).1) = 403%nat
    /\ buffer (stream sc')
       = Some (ndr_data (sd_push sd).1
               ++ le_bytes 4 0x403a0003
               ++ le_bytes 4 0x67960102
               ++ (le_bytes 6 1 ++ le_bytes 6 2 ++ le_bytes 6 3 ++ le_bytes 6 9)
               ++ le_bytes 4 0x40170003
               ++ (le_bytes 6 3 ++ le_bytes 6 10 ++ le_bytes 6 11
                   ++ le_bytes 6 12)
               ++ le_bytes 4 0x403b0003 ++ le_bytes 4 0x40140003)
    /\ cnset_seen sc' = Some [1; 2; 3; 9]
    /\ idset_given sc' = Some [3; 10; 11; 12].
Proof.
  destruct (oxcfxics_prepare_synccontext_with_folderChange
              (K := Sample.constants) (T := Sample.types)
              (E := Sample.collaborators)
              3 Sample.empty_store Sample.tree_root
              (Sample.hierarchy_context (Some [3]) (Some [9])))
    as [sc' |] eqn:Hprep; [| exfalso; vm_compute in Hprep; discriminate].
  destruct (hierarchy_stream_ends_with_state_block _ _ _ _ _ Hprep)
    as (sd & Hsd & Hstream & Hcnset & Hgiven & _).
  exists sc', sd. split; [reflexivity |]. split; [exact Hsd |].
  vm_compute in Hsd. injection Hsd as <-.
  split; [reflexivity |].
  split; [rewrite Hstream; vm_compute; reflexivity |].
  split; [rewrite Hcnset | rewrite Hgiven]; vm_compute; reflexivity.
Defined.

(** ** The stream chunker, further *)

Section ChunkerMoreFacts.
Context {K : mapi_constants} {T : backend_types} {E : externals}.

Lemma buffer_length_bytes (st : emsmdbp_stream) :
  buffer_length st = Z.of_nat (length (default [] (buffer st))).
Proof. unfold buffer_length. destruct (buffer st); reflexivity. Qed.

(** One GetBuffer call on a context whose stream exists: it returns when
    the cut does, with the chunk that the cut size selects, and changes
    nothing of the context but the cursor and the counters. *)
Lemma getbuffer_step_prepared depth s o bs :
  context_prepared o = true ->
  (context_recomputes o = true -> bs <> 0) ->
  exists p',
    (match o with Object_ftcontext _ => p' = context_position o | _ => True end)
    /\ match cut_buffer_size (context_position o)
               (Z.of_nat (length (context_bytes o))) (context_cutmarks o)
               (context_next_cutmark_ptr o) p' bs with
       | None => getbuffer_step depth s o bs = None
       | Some n =>
           exists o' r,
             getbuffer_step depth s o bs = Some (o', r)
             /\ TransferBuffer r
                = chunk_at (context_bytes o) (context_position o) n
             /\ context_bytes o' = context_bytes o
             /\ context_prepared o' = true
             /\ context_cutmarks o' = context_cutmarks o
             /\ context_next_cutmark_ptr o' = context_next_cutmark_ptr o
             /\ context_position o'
                = context_position o + Z.of_nat (length (TransferBuffer r))
             /\ TransferStatus_ r
                = (if context_position o'
                      =? Z.of_nat (length (context_bytes o))
                   then TransferStatus_Done else TransferStatus_Partial)
             /\ (TransferStatus_ r = TransferStatus_Done ->
                 InProgressCount r = TotalStepCount r)
       end.
Proof.
  intros Hprep Hbs. destruct o as [parent sc | ft | x]; [| | discriminate].
  - (* synchronization context *)
    cbn in Hprep. apply bool_decide_eq_true_1 in Hprep.
    destruct Hprep as [B HB].
    exists (ftcontext_view_position
              (set_steps sc (to_steps_t (steps sc + 1)) (total_steps sc))).
    split; [exact I |].
    unfold context_position, context_bytes, context_stream, context_cutmarks,
      context_next_cutmark_ptr.
    cbn [getbuffer_step]. unfold getbuffer_synccontext. rewrite HB.
    cbn [mbind option_bind set_steps stream cutmarks next_cutmark_ptr
         default from_option id].
    rewrite buffer_length_bytes, HB. cbn [default from_option id].
    destruct (cut_buffer_size _ _ _ _ _ bs) as [n |]; [| reflexivity].
    cbn [mbind option_bind].
    unfold emsmdbp_stream_read_buffer, chunk_at.
    rewrite buffer_length_bytes, HB. cbn [default from_option id].
    eexists _, _. split; [reflexivity |].
    cbn. conjuncts; try reflexivity.
    match goal with
    | |- (if ?c then _ else _) = _ -> _ =>
        destruct c; intros Hdone; [reflexivity | discriminate Hdone]
    end.
  - (* transfer context *)
    destruct ft as [[pos buf] cm ptr st tot].
    exists pos. split; [reflexivity |].
    unfold context_position, context_bytes, context_stream, context_cutmarks,
      context_next_cutmark_ptr.
    cbn [getbuffer_step]. unfold getbuffer_ftcontext.
    cbn in Hbs.
    cbn [ft_stream ft_cutmarks ft_next_cutmark_ptr position buffer].
    assert (Hlen : buffer_length {| position := pos; buffer := buf |}
                   = Z.of_nat (length (default [] buf)))
      by apply buffer_length_bytes.
    destruct (pos =? 0) eqn:Hp0.
    + destruct (bs =? 0) eqn:H0;
        [apply Z.eqb_eq in H0; exfalso; apply Hbs; auto |].
      cbn [mbind option_bind set_ft_steps ft_stream ft_cutmarks
           ft_next_cutmark_ptr position buffer].
      rewrite Hlen.
      destruct (cut_buffer_size _ _ _ _ _ bs) as [n |]; [| reflexivity].
      cbn [mbind option_bind].
      unfold emsmdbp_stream_read_buffer, chunk_at.
      rewrite Hlen. cbn [position buffer].
      eexists _, _. split; [reflexivity |].
      destruct buf as [B |]; cbn; (conjuncts; try reflexivity);
        match goal with
        | |- (if ?c then _ else _) = _ -> _ =>
            destruct c; intros Hdone; [reflexivity | discriminate Hdone]
        end.
    + cbn [mbind option_bind set_ft_steps ft_stream ft_cutmarks
           ft_next_cutmark_ptr position buffer].
      rewrite Hlen.
      destruct (cut_buffer_size _ _ _ _ _ bs) as [n |]; [| reflexivity].
      cbn [mbind option_bind].
      unfold emsmdbp_stream_read_buffer, chunk_at.
      rewrite Hlen. cbn [position buffer].
      eexists _, _. split; [reflexivity |].
      destruct buf as [B |]; cbn; (conjuncts; try reflexivity);
        match goal with
        | |- (if ?c then _ else _) = _ -> _ =>
            destruct c; intros Hdone; [reflexivity | discriminate Hdone]
        end.
Qed.

End ChunkerMoreFacts.

Section ChunkerTotality.
Context {K : mapi_constants} {T : backend_types} {E : externals}.

Lemma uint16_small z : 0 <= z < 65536 -> uint16 z = z.
Proof. intros Hz. unfold uint16. apply Z.mod_small. lia. Qed.

(** The cut-mark loop stops at the sentinel at the latest. *)
Lemma cutmark_loop_stops cutmarks (i : nat) max_cutmark :
  cutmarks !! i = Some 0xffffffff ->
  Z.of_nat i < 65536 ->
  forall n mark_ptr cutbuffer_pos,
    0 <= mark_ptr <= Z.of_nat i ->
    (i - Z.to_nat mark_ptr < n)%nat ->
    is_Some (cutmark_loop n cutmarks mark_ptr cutbuffer_pos max_cutmark).
Proof.
  intros Hsent Hi. induction n as [| n IH]; intros ptr pos Hptr Hn; [lia |].
  cbn [cutmark_loop].
  assert (Hin : (Z.to_nat ptr < length cutmarks)%nat).
  { apply lookup_lt_Some in Hsent. lia. }
  destruct (lookup_lt_is_Some_2 _ _ Hin) as [m Hm]. rewrite Hm.
  cbn [mbind option_bind].
  destruct (negb (m =? 0xffffffff) && (m <? max_cutmark)) eqn:Hgo; [| eauto].
  assert (Hne : Z.to_nat ptr <> i).
  { intros Heq. rewrite Heq, Hsent in Hm. injection Hm as <-.
    discriminate Hgo. }
  rewrite uint16_small by lia. apply IH; lia.
Qed.

Lemma cut_buffer_size_total position length cutmarks next_cutmark_ptr
      position' buffer_size (i : nat) :
  cutmarks !! i = Some 0xffffffff ->
  uint16 next_cutmark_ptr <= Z.of_nat i < 65536 ->
  is_Some (cut_buffer_size position length cutmarks next_cutmark_ptr
                           position' buffer_size).
Proof.
  intros Hsent Hi. unfold cut_buffer_size.
  destruct (uint16 position + buffer_size <? length); [| eauto].
  destruct (cutmark_loop_stops cutmarks i
              (uint16 (position + buffer_size)) Hsent (proj2 Hi)
              mark_ptr_period (uint16 next_cutmark_ptr) (uint16 position))
    as [pos Hpos].
  - split; [apply uint16_nonneg | lia].
  - unfold mark_ptr_period. lia.
  - rewrite Hpos. cbn [mbind option_bind]. repeat case_match; eauto.
Qed.

Lemma cut_buffer_size_le position length cutmarks ptr position' bs n :
  cut_buffer_size position length cutmarks ptr position' bs = Some n ->
  n <= bs.
Proof.
  unfold cut_buffer_size. intros H.
  destruct (uint16 position + bs <? length);
    [| injection H as <-; lia].
  destruct (cutmark_loop _ _ _ _ _) as [pos |]; [| discriminate].
  cbn [mbind option_bind] in H.
  destruct (position' <? pos); [| injection H as <-; lia].
  destruct (0 <? uint16 (pos - position)); cbn [andb] in H;
    [| injection H as <-; lia].
  destruct (uint16 (pos - position) <? bs) eqn:Hlt;
    injection H as <-; [apply Z.ltb_lt in Hlt |]; lia.
Qed.

Lemma chunk_at_length B pos n :
  0 <= pos ->
  Z.of_nat (length (chunk_at B pos n))
  = Z.max 0 (Z.min (Z.of_nat (length B) - pos) n).
Proof.
  intros Hpos. unfold chunk_at. rewrite length_take, length_drop. lia.
Qed.

(** The handler on a context, from the step on its object. *)
Lemma getbuffer_handler_of_step
      depth ctx req repl handles size h o b m o' r :
  handles_get handles (req_handle_idx req) = Some h ->
  handles_ctx ctx !! h = Some (Some o) ->
  req_u req = mapi_FastTransferSourceGetBuffer b m ->
  getbuffer_step depth (backend ctx) o (effective_buffer_size req)
  = Some (o', r) ->
  EcDoRpc_RopFastTransferSourceGetBuffer depth (Some ctx) (Some req)
    (Some repl) (Some handles) (Some size)
  = rop_end RopFastTransferSourceGetBuffer
      (mapi_handles_set_private_data ctx h (Some o'))
      (set_repl_u (repl_init repl (req_opnum req) (req_handle_idx req))
                  (mapi_repl_GetBuffer r))
      handles size.
Proof.
  intros Hh Hobj Hu Hstep.
  unfold EcDoRpc_RopFastTransferSourceGetBuffer, sanity_checks.
  rewrite Hh. cbn [mbind option_bind]. rewrite Hobj.
  unfold effective_buffer_size in Hstep. rewrite Hu in *.
  destruct o as [parent sc | ft | x]; cbn [getbuffer_step] in Hstep;
    [| | discriminate].
  - destruct (getbuffer_synccontext _ _ _ _ _) as [[sc' r'] |];
      [| discriminate].
    cbn in Hstep. injection Hstep as <- <-. reflexivity.
  - destruct (getbuffer_ftcontext _ _) as [[ft' r'] |]; [| discriminate].
    cbn in Hstep. injection Hstep as <- <-. reflexivity.
Qed.

(** A step on a prepared context with a reachable sentinel returns. *)
Lemma getbuffer_step_returns depth s o bs :
  context_prepared o = true ->
  0 < bs ->
  sentinel_reachable o ->
  exists o' r n,
    getbuffer_step depth s o bs = Some (o', r)
    /\ 0 < n <= bs
    /\ TransferBuffer r = chunk_at (context_bytes o) (context_position o) n
    /\ context_bytes o' = context_bytes o
    /\ context_prepared o' = true
    /\ sentinel_reachable o'
    /\ context_position o'
       = context_position o + Z.of_nat (length (TransferBuffer r))
    /\ TransferStatus_ r
       = (if context_position o' =? Z.of_nat (length (context_bytes o))
          then TransferStatus_Done else TransferStatus_Partial)
    /\ (TransferStatus_ r = TransferStatus_Done ->
        InProgressCount r = TotalStepCount r).
Proof.
  intros Hprep Hbs (i & Hsent & Hi).
  destruct (getbuffer_step_prepared depth s o bs Hprep) as (p' & _ & Hstep);
    [lia |].
  destruct (cut_buffer_size_total (context_position o)
              (Z.of_nat (length (context_bytes o))) (context_cutmarks o)
              (context_next_cutmark_ptr o) p' bs i Hsent Hi) as [n Hn].
  rewrite Hn in Hstep.
  destruct Hstep
    as (o' & r & Hs & Hchunk & Hbytes & Hprep' & Hcm & Hptr & Hpos
        & Hstatus & Hdone).
  exists o', r, n. conjuncts; auto.
  - apply (cut_buffer_size_positive _ _ _ _ _ _ _ Hn Hbs).
  - apply (cut_buffer_size_le _ _ _ _ _ _ _ Hn).
  - exists i. rewrite Hcm, Hptr. auto.
Qed.

End ChunkerTotality.

Section ChunkerBounds.
Context {K : mapi_constants} {T : backend_types} {E : externals}.

Lemma read_buffer_length_le (st : emsmdbp_stream) (n : Z) :
  Z.of_nat (length (emsmdbp_stream_read_buffer st n).2) <= Z.max 0 n.
Proof.
  unfold emsmdbp_stream_read_buffer. cbn [snd]. rewrite length_take. lia.
Qed.

Lemma getbuffer_ftcontext_bounded ft bs ft' r :
  getbuffer_ftcontext ft bs = Some (ft', r) ->
  0 <= bs ->
  Z.of_nat (length (TransferBuffer r)) <= bs
  /\ TransferBufferSize r
     = to_TransferBufferSize_t (Z.of_nat (length (TransferBuffer r)))
  /\ Reserved r = 0.
Proof.
  unfold getbuffer_ftcontext. intros H Hbs.
  destruct (if position (ft_stream ft) =? 0 then _ else Some ft) as [ft0 |];
    [| discriminate].
  cbn [mbind option_bind] in H.
  destruct (cut_buffer_size _ _ _ _ _ bs) as [n |] eqn:Hcut; [| discriminate].
  cbn [mbind option_bind] in H.
  pose proof (cut_buffer_size_le _ _ _ _ _ _ _ Hcut) as Hn.
  match type of H with
  | context [emsmdbp_stream_read_buffer ?st n] =>
      pose proof (read_buffer_length_le st n) as Hread;
      destruct (emsmdbp_stream_read_buffer st n) as [st' chunk]
  end.
  cbn [snd] in Hread. injection H as <- <-. cbn. split; [lia | auto].
Qed.

Lemma getbuffer_synccontext_bounded depth s parent sc bs sc' r :
  getbuffer_synccontext depth s parent sc bs = Some (sc', r) ->
  0 <= bs ->
  Z.of_nat (length (TransferBuffer r)) <= bs
  /\ TransferBufferSize r
     = to_TransferBufferSize_t (Z.of_nat (length (TransferBuffer r)))
  /\ Reserved r = 0.
Proof.
  unfold getbuffer_synccontext. intros H Hbs.
  destruct (match buffer (stream sc) with Some _ => Some sc | None => _ end)
    as [sc0 |]; [| discriminate].
  cbn [mbind option_bind] in H.
  destruct (cut_buffer_size _ _ _ _ _ bs) as [n |] eqn:Hcut; [| discriminate].
  cbn [mbind option_bind] in H.
  pose proof (cut_buffer_size_le _ _ _ _ _ _ _ Hcut) as Hn.
  match type of H with
  | context [emsmdbp_stream_read_buffer ?st n] =>
      pose proof (read_buffer_length_le st n) as Hread;
      destruct (emsmdbp_stream_read_buffer st n) as [st' chunk]
  end.
  cbn [snd] in Hread. injection H as <- <-. cbn. split; [lia | auto].
Qed.

(** X11. A GetBuffer call on a context whose stream exists and whose
    cut-marks hold the sentinel within reach, for a buffer size that is
    not zero, returns: the reply reports no error and carries a chunk,
    the context keeps its stream, the store, the handle array and every
    other handle are untouched, and the sentinel is still within
    reach for the next call. *)
Theorem getbuffer_returns_on_prepared_context
        depth ctx req repl handles size h o :
  handles_get handles (req_handle_idx req) = Some h ->
  handles_ctx ctx !! h = Some (Some o) ->
  context_prepared o = true ->
  0 < effective_buffer_size req ->
  sentinel_reachable o ->
  exists rs r o',
    EcDoRpc_RopFastTransferSourceGetBuffer depth (Some ctx) (Some req)
      (Some repl) (Some handles) (Some size)
    = Some (MAPI_E_SUCCESS, Some rs)
    /\ error_code (rs_repl rs) = MAPI_E_SUCCESS
    /\ transfer_of (rs_repl rs) = Some r
    /\ handles_ctx (rs_ctx rs) !! h = Some (Some o')
    /\ (forall h', h' <> h ->
                   handles_ctx (rs_ctx rs) !! h' = handles_ctx ctx !! h')
    /\ backend (rs_ctx rs) = backend ctx
    /\ rs_handles rs = handles
    /\ context_bytes o' = context_bytes o
    /\ context_prepared o' = true
    /\ sentinel_reachable o'.
Proof.
  intros Hh Hobj Hprep Hbs Hsent.
  destruct (getbuffer_step_returns depth (backend ctx) o
              (effective_buffer_size req) Hprep Hbs Hsent)
    as (o' & r & n & Hstep & _ & _ & Hbytes & Hprep' & Hsent' & _).
  assert (Hu : exists b m, req_u req = mapi_FastTransferSourceGetBuffer b m).
  { unfold effective_buffer_size in Hbs.
    destruct (req_u req); try lia. eauto. }
  destruct Hu as (b & m & Hu).
  rewrite (getbuffer_handler_of_step depth ctx req repl handles size
             h o b m o' r Hh Hobj Hu Hstep).
  unfold rop_end. eexists _, r, o'. split; [reflexivity |].
  cbn. conjuncts; auto.
  - apply lookup_insert_eq.
  - intros h' Hne. apply lookup_insert_ne. congruence.
Qed.

(** X12. A GetBuffer reply without error never carries more bytes than
    the request asked for (after the substitution of [0xBABE]), its
    [TransferBufferSize] is the length of the chunk, and [Reserved] is
    zero. *)
Theorem getbuffer_chunk_bounded
        depth ctx req repl handles size status rs r :
  EcDoRpc_RopFastTransferSourceGetBuffer depth (Some ctx) (Some req)
    (Some repl) (Some handles) (Some size)
  = Some (status, Some rs) ->
  error_code (rs_repl rs) = MAPI_E_SUCCESS ->
  transfer_of (rs_repl rs) = Some r ->
  Z.of_nat (length (TransferBuffer r)) <= effective_buffer_size req
  /\ TransferBufferSize r
     = to_TransferBufferSize_t (Z.of_nat (length (TransferBuffer r)))
  /\ Reserved r = 0.
Proof.
  intros H Herr Hr.
  unfold EcDoRpc_RopFastTransferSourceGetBuffer, sanity_checks, rop_end in H.
  pose proof (effective_buffer_size_nonneg req) as Hnn.
  unfold effective_buffer_size in *.
  crack; cbn [rs_repl error_code set_error_code set_repl_u repl_u] in *;
    try discriminate Herr; unfold transfer_of in Hr; cbn in Hr;
    injection Hr as <-.
  - eapply getbuffer_synccontext_bounded; eassumption.
  - eapply getbuffer_ftcontext_bounded; eassumption.
Qed.

End ChunkerBounds.

Section ChunkerCuts.
Context {K : mapi_constants} {T : backend_types} {E : externals}.

Lemma offsets_between_head_le lo hi k ks x :
  offsets_between lo hi (k :: ks) -> x ∈ ks -> (k <= x)%nat.
Proof.
  cbn. intros [_ Hks] Hx. revert k Hks.
  induction ks as [| y ks IH]; intros k Hks; [inversion Hx |].
  cbn in Hks. destruct Hks as [Hky Hrest].
  apply elem_of_cons in Hx. destruct Hx as [-> | Hx]; [exact Hky |].
  specialize (IH Hx y Hrest). lia.
Qed.

Lemma offsets_between_bound lo hi ks x :
  offsets_between lo hi ks -> x ∈ ks -> (lo <= x <= hi)%nat.
Proof.
  revert lo. induction ks as [| k ks IH]; intros lo Hks Hx; [inversion Hx |].
  cbn in Hks. destruct Hks as [Hk Hrest].
  pose proof (offsets_between_le _ _ _ Hrest).
  apply elem_of_cons in Hx. destruct Hx as [-> | Hx]; [lia |].
  specialize (IH _ Hrest Hx). lia.
Qed.

(** Over cut-marks in order, the loop ends on the last one below
    [max_cutmark], or where it started when there is none. *)
Lemma cutmark_loop_last_below max_cutmark hi ks :
  forall (pre : list Z) lo n cur,
    offsets_between lo hi ks ->
    Z.of_nat hi < 65536 ->
    Z.of_nat (length pre + length ks) < 65535 ->
    (length ks < n)%nat ->
    exists r,
      cutmark_loop n (pre ++ map Z.of_nat ks ++ [0xffffffff])
                   (Z.of_nat (length pre)) cur max_cutmark = Some r
      /\ ((r = cur /\ forall k, k ∈ ks -> max_cutmark <= Z.of_nat k)
          \/ (exists c, r = Z.of_nat c /\ c ∈ ks /\ Z.of_nat c < max_cutmark
                        /\ forall k, k ∈ ks -> Z.of_nat k < max_cutmark ->
                                     (k <= c)%nat)).
Proof.
  induction ks as [| k ks IH]; intros pre lo n cur Hks Hhi Hlen Hn.
  - destruct n as [| n]; [cbn in Hn; lia |]. cbn [cutmark_loop map app].
    rewrite Nat2Z.id.
    rewrite (list_lookup_middle pre [] 0xffffffff (length pre) eq_refl).
    cbn. exists cur. split; [reflexivity |]. left.
    split; [reflexivity |]. intros k Hk. inversion Hk.
  - destruct n as [| n]; [cbn in Hn; lia |]. cbn [cutmark_loop map app].
    rewrite Nat2Z.id.
    rewrite (list_lookup_middle pre _ (Z.of_nat k) (length pre) eq_refl).
    cbn [mbind option_bind].
    pose proof (offsets_between_bound _ _ _ k Hks
                  ltac:(apply elem_of_cons; auto)) as Hkb.
    assert (Hns : (Z.of_nat k =? 0xffffffff) = false)
      by (apply Z.eqb_neq; lia).
    rewrite Hns. cbn [negb andb].
    destruct (Z.of_nat k <? max_cutmark) eqn:Hlt.
    + apply Z.ltb_lt in Hlt.
      rewrite uint16_small by (cbn [length] in Hlen; lia).
      rewrite (uint16_small (Z.of_nat k)) by lia.
      cbn in Hks. destruct Hks as [Hlo Hrest].
      destruct (IH (pre ++ [Z.of_nat k]) k n (Z.of_nat k) Hrest Hhi)
        as (r & Hr & Hcase).
      { rewrite length_app. cbn [length] in *. lia. }
      { cbn [length] in Hn. lia. }
      rewrite length_app in Hr. cbn [length] in Hr.
      rewrite <- app_assoc in Hr. cbn [app] in Hr.
      replace (Z.of_nat (length pre) + 1) with (Z.of_nat (length pre + 1))
        by lia.
      exists r. split; [exact Hr |]. right.
      destruct Hcase as [[-> Hnone] | (c & -> & Hc & Hcm & Hgreat)].
      * exists k. split; [reflexivity |].
        split; [apply elem_of_cons; auto |]. split; [exact Hlt |].
        intros k' Hk' Hk'lt. apply elem_of_cons in Hk'.
        destruct Hk' as [-> | Hk']; [lia |].
        specialize (Hnone k' Hk'). lia.
      * exists c. split; [reflexivity |].
        split; [apply elem_of_cons; auto |]. split; [exact Hcm |].
        intros k' Hk' Hk'lt. apply elem_of_cons in Hk'.
        destruct Hk' as [-> | Hk']; [| apply (Hgreat k' Hk' Hk'lt)].
        apply (offsets_between_head_le lo hi k ks c);
          [split; assumption | exact Hc].
    + apply Z.ltb_ge in Hlt. exists cur. split; [reflexivity |]. left.
      split; [reflexivity |]. intros k' Hk'. apply elem_of_cons in Hk'.
      destruct Hk' as [-> | Hk']; [exact Hlt |].
      pose proof (offsets_between_head_le lo hi k ks k' Hks Hk'). lia.
Qed.

(** X13. Where GetBuffer cuts.  Take a transfer context whose cut-marks
    are offsets in order, closed by the sentinel, read from index 0, on
    a stream below 64 KiB, and a request for [bs] bytes when more than
    [bs] bytes are left after the cursor [pos].  If a cut-mark lies
    strictly between [pos] and [pos + bs], the chunk ends exactly at the
    greatest such cut-mark; if none does, the chunk is the next [bs]
    bytes. *)
Theorem getbuffer_cuts_at_last_mark
        depth ctx req repl handles size h ft B ks :
  handles_get handles (req_handle_idx req) = Some h ->
  handles_ctx ctx !! h = Some (Some (Object_ftcontext ft)) ->
  buffer (ft_stream ft) = Some B ->
  ft_cutmarks ft = map Z.of_nat ks ++ [0xffffffff] ->
  offsets_between 0 (length B) ks ->
  ft_next_cutmark_ptr ft = 0 ->
  Z.of_nat (length B) < 65536 ->
  Z.of_nat (length ks) < 65535 ->
  let pos := position (ft_stream ft) in
  let bs := effective_buffer_size req in
  0 <= pos -> 0 < bs -> pos + bs < Z.of_nat (length B) ->
  exists rs r,
    EcDoRpc_RopFastTransferSourceGetBuffer depth (Some ctx) (Some req)
      (Some repl) (Some handles) (Some size)
    = Some (MAPI_E_SUCCESS, Some rs)
    /\ transfer_of (rs_repl rs) = Some r
    /\ TransferStatus_ r = TransferStatus_Partial
    /\ ((exists c : nat,
            c ∈ ks /\ pos < Z.of_nat c < pos + bs
            /\ (forall k, k ∈ ks -> Z.of_nat k < pos + bs -> (k <= c)%nat)
            /\ TransferBuffer r
               = take (c - Z.to_nat pos) (drop (Z.to_nat pos) B))
        \/ ((forall k, k ∈ ks -> ~ (pos < Z.of_nat k < pos + bs))
            /\ TransferBuffer r
               = take (Z.to_nat bs) (drop (Z.to_nat pos) B))).
Proof.
  intros Hh Hobj HB Hcm Hks Hptr Hlen Hklen pos bs Hpos Hbs Hmore.
  assert (Hu : exists b m, req_u req = mapi_FastTransferSourceGetBuffer b m).
  { unfold bs, effective_buffer_size in Hbs.
    destruct (req_u req); try lia. eauto. }
  destruct Hu as (b & m & Hu).
  destruct (getbuffer_step_prepared depth (backend ctx) (Object_ftcontext ft)
              bs eq_refl ltac:(lia)) as (p' & Hp' & Hstep).
  cbn [context_position context_bytes context_stream context_cutmarks
       context_next_cutmark_ptr] in Hp', Hstep.
  rewrite HB, Hcm, Hptr in Hstep. cbn [default from_option id] in Hstep.
  subst p'. fold pos in Hstep.
  (* the size of the cut *)
  assert (Hcut : exists n,
             cut_buffer_size pos (Z.of_nat (length B))
               (map Z.of_nat ks ++ [0xffffffff]) 0 pos bs = Some n
             /\ ((exists c : nat,
                     c ∈ ks /\ pos < Z.of_nat c < pos + bs
                     /\ (forall k, k ∈ ks -> Z.of_nat k < pos + bs ->
                                   (k <= c)%nat)
                     /\ n = Z.of_nat c - pos)
                 \/ ((forall k, k ∈ ks -> ~ (pos < Z.of_nat k < pos + bs))
                     /\ n = bs))).
  { unfold cut_buffer_size.
    rewrite (uint16_small pos) by lia.
    rewrite (uint16_small (pos + bs)) by lia.
    change (uint16 0) with 0.
    rewrite (proj2 (Z.ltb_lt _ _) Hmore).
    destruct (cutmark_loop_last_below (pos + bs) (length B) ks [] 0%nat
                mark_ptr_period pos Hks Hlen)
      as (r & Hr & Hcase).
    { cbn [length]. lia. }
    { unfold mark_ptr_period. lia. }
    cbn [app length] in Hr. change (Z.of_nat 0) with 0 in Hr.
    rewrite Hr. cbn [mbind option_bind].
    destruct Hcase as [[-> Hnone] | (c & -> & Hc & Hcm' & Hgreat)].
    - rewrite Z.ltb_irrefl. eexists. split; [reflexivity |]. right.
      split; [| reflexivity]. intros k Hk. specialize (Hnone k Hk). lia.
    - destruct (pos <? Z.of_nat c) eqn:Hpc.
      + apply Z.ltb_lt in Hpc.
        rewrite (uint16_small (Z.of_nat c - pos)) by lia.
        rewrite (proj2 (Z.ltb_lt 0 _)) by lia.
        rewrite (proj2 (Z.ltb_lt _ bs)) by lia.
        cbn [andb]. eexists. split; [reflexivity |]. left.
        exists c. conjuncts; auto; lia.
      + apply Z.ltb_ge in Hpc. eexists. split; [reflexivity |]. right.
        split; [| reflexivity]. intros k Hk Hbetween.
        specialize (Hgreat k Hk ltac:(lia)). lia. }
  destruct Hcut as (n & Hn & Hcase). rewrite Hn in Hstep.
  destruct Hstep as (o' & r & Hstep & Hchunk & Hbytes & _ & _ & _ & Hposn
                     & Hstatus & _).
  rewrite (getbuffer_handler_of_step depth ctx req repl handles size
             h _ b m o' r Hh Hobj Hu Hstep).
  unfold rop_end. eexists _, r. split; [reflexivity |].
  split; [reflexivity |].
  assert (Hchunk_len : Z.of_nat (length (TransferBuffer r)) = n).
  { rewrite Hchunk, chunk_at_length by lia.
    destruct Hcase as [(c & Hc & Hrange & _ & ->) | [_ ->]]; [| lia].
    pose proof (offsets_between_bound _ _ _ c Hks Hc). lia. }
  split.
  - rewrite Hstatus, Hposn, Hchunk_len.
    destruct (Z.eqb_spec (pos + n) (Z.of_nat (length B))) as [Heq | Hne];
      [| reflexivity].
    exfalso.
    destruct Hcase as [(c & Hc & Hrange & _ & ->) | [_ ->]]; lia.
  - unfold chunk_at in Hchunk.
    destruct Hcase as [(c & Hc & Hrange & Hgreat & ->) | [Hnone ->]].
    + left. exists c. conjuncts; auto; try lia.
      rewrite Hchunk. f_equal.
      pose proof (offsets_between_bound _ _ _ c Hks Hc). lia.
    + right. split; [exact Hnone |]. rewrite Hchunk. f_equal. lia.
Qed.

End ChunkerCuts.

Section ChunkerCompletion.
Context {K : mapi_constants} {T : backend_types} {E : externals}.

(** X14. Reading past the end.  On a context whose cursor is at the end
    of its stream, a GetBuffer call for a buffer size that is not zero
    returns an empty chunk with status Done and [InProgressCount] equal
    to [TotalStepCount], and leaves the cursor where it is. *)
Theorem getbuffer_past_the_end depth ctx req repl handles size h o :
  handles_get handles (req_handle_idx req) = Some h ->
  handles_ctx ctx !! h = Some (Some o) ->
  context_prepared o = true ->
  0 < effective_buffer_size req ->
  sentinel_reachable o ->
  context_position o = Z.of_nat (length (context_bytes o)) ->
  exists rs r o',
    EcDoRpc_RopFastTransferSourceGetBuffer depth (Some ctx) (Some req)
      (Some repl) (Some handles) (Some size)
    = Some (MAPI_E_SUCCESS, Some rs)
    /\ transfer_of (rs_repl rs) = Some r
    /\ TransferBuffer r = []
    /\ TransferStatus_ r = TransferStatus_Done
    /\ InProgressCount r = TotalStepCount r
    /\ handles_ctx (rs_ctx rs) !! h = Some (Some o')
    /\ context_position o' = context_position o.
Proof.
  intros Hh Hobj Hprep Hbs Hsent Hend.
  destruct (getbuffer_step_returns depth (backend ctx) o
              (effective_buffer_size req) Hprep Hbs Hsent)
    as (o' & r & n & Hstep & Hn & Hchunk & Hbytes & _ & _ & Hpos & Hstatus
        & Hdone).
  assert (Hu : exists b m, req_u req = mapi_FastTransferSourceGetBuffer b m).
  { unfold effective_buffer_size in Hbs.
    destruct (req_u req); try lia. eauto. }
  destruct Hu as (b & m & Hu).
  rewrite (getbuffer_handler_of_step depth ctx req repl handles size
             h o b m o' r Hh Hobj Hu Hstep).
  assert (Hempty : TransferBuffer r = []).
  { rewrite Hchunk. unfold chunk_at. rewrite Hend.
    replace (Z.to_nat _) with 0%nat by lia. reflexivity. }
  rewrite Hempty in Hpos. cbn [length] in Hpos.
  assert (Hst : TransferStatus_ r = TransferStatus_Done).
  { rewrite Hstatus, Hpos, Hend, Z.add_0_r, Z.eqb_refl. reflexivity. }
  unfold rop_end. eexists _, r, o'. split; [reflexivity |].
  cbn. conjuncts; auto.
  - apply lookup_insert_eq.
  - lia.
Qed.

(** Successive steps on a prepared context all return, and each one
    that starts before the end moves the cursor. *)
Lemma getbuffer_steps_complete depth s sizes :
  forall o,
    context_prepared o = true ->
    sentinel_reachable o ->
    0 <= context_position o <= Z.of_nat (length (context_bytes o)) ->
    Forall (fun b => 0 < b) sizes ->
    exists o' rs,
      getbuffer_steps depth s o sizes = Some (o', rs)
      /\ context_bytes o' = context_bytes o
      /\ context_position o <= context_position o'
         <= Z.of_nat (length (context_bytes o))
      /\ Z.of_nat (length (context_bytes o)) - context_position o'
         <= Z.max 0 (Z.of_nat (length (context_bytes o)) - context_position o
                     - Z.of_nat (length sizes))
      /\ (forall r, last rs = Some r ->
                    TransferStatus_ r
                    = (if context_position o'
                          =? Z.of_nat (length (context_bytes o))
                       then TransferStatus_Done else TransferStatus_Partial)).
Proof.
  induction sizes as [| b sizes IH]; intros o Hprep Hsent Hpos Hsizes.
  - exists o, []. cbn. conjuncts; try reflexivity; try lia.
    intros r Hr. discriminate Hr.
  - inversion Hsizes as [| ? ? Hb Hrest]; subst.
    destruct (getbuffer_step_returns depth s o b Hprep Hb Hsent)
      as (o1 & r1 & n & Hstep & Hn & Hchunk & Hbytes & Hprep1 & Hsent1
          & Hpos1 & Hstatus & _).
    pose proof (chunk_at_length (context_bytes o) (context_position o) n
                  (proj1 Hpos)) as Hlen.
    rewrite <- Hchunk in Hlen.
    destruct (IH o1 Hprep1 Hsent1) as (o' & rs & Hsteps & Hb' & Hp' & Hleft
                                       & Hlast).
    { rewrite Hbytes. lia. }
    { exact Hrest. }
    exists o', (r1 :: rs). cbn [getbuffer_steps]. rewrite Hstep.
    cbn [mbind option_bind]. rewrite Hsteps. cbn [mbind option_bind].
    rewrite Hbytes in *. cbn [length]. conjuncts; try reflexivity;
      try assumption; try lia.
    intros r Hr. destruct rs as [| r2 rs].
    + cbn in Hr. injection Hr as <-.
      destruct sizes; cbn in Hsteps; [| crack; simplify_eq].
      injection Hsteps as <-. exact Hstatus.
    + rewrite last_cons_cons in Hr. apply (Hlast r Hr).
Qed.

(** The handler calls, from the steps on the object. *)
Lemma getbuffer_calls_of_steps depth blank handles idx h reqs :
  handles_get handles idx = Some h ->
  Forall (fun req => req_handle_idx req = idx
                     /\ 0 < effective_buffer_size req) reqs ->
  forall ctx size o o' rs,
    handles_ctx ctx !! h = Some (Some o) ->
    getbuffer_steps depth (backend ctx) o (map effective_buffer_size reqs)
    = Some (o', rs) ->
    exists ctx' repls,
      getbuffer_calls depth ctx blank handles size reqs = Some (ctx', repls)
      /\ handles_ctx ctx' !! h = Some (Some o')
      /\ backend ctx' = backend ctx
      /\ map transfer_of repls = map Some rs
      /\ Forall (fun repl => error_code repl = MAPI_E_SUCCESS) repls.
Proof.
  intros Hh Hreqs. induction Hreqs as [| req reqs [Hidx Hbs] _ IH];
    intros ctx size o o' rs Hobj Hsteps.
  - cbn in Hsteps. injection Hsteps as <- <-.
    exists ctx, []. cbn. conjuncts; auto.
  - cbn [map getbuffer_steps] in Hsteps.
    destruct (getbuffer_step depth (backend ctx) o (effective_buffer_size req))
      as [[o1 r1] |] eqn:Hstep; [| discriminate].
    cbn [mbind option_bind] in Hsteps.
    destruct (getbuffer_steps depth (backend ctx) o1
                (map effective_buffer_size reqs))
      as [[o2 rs2] |] eqn:Hrest; [| discriminate].
    cbn [mbind option_bind] in Hsteps. injection Hsteps as <- <-.
    assert (Hu : exists b m, req_u req = mapi_FastTransferSourceGetBuffer b m).
    { unfold effective_buffer_size in Hbs.
      destruct (req_u req); try lia. eauto. }
    destruct Hu as (b & m & Hu).
    rewrite <- Hidx in Hh.
    pose proof (getbuffer_handler_of_step depth ctx req blank handles size
                  h o b m o1 r1 Hh Hobj Hu Hstep) as Hcall.
    destruct (IH (mapi_handles_set_private_data ctx h (Some o1))
                 (uint16 (size + libmapiserver_size
                                   RopFastTransferSourceGetBuffer
                                   (set_repl_u
                                      (repl_init blank (req_opnum req)
                                                 (req_handle_idx req))
                                      (mapi_repl_GetBuffer r1))))
                 o1 o2 rs2)
      as (ctx' & repls & Hcalls & Hobj' & Hback & Hmap & Herr).
    { apply lookup_insert_eq. }
    { exact Hrest. }
    cbn [getbuffer_calls]. rewrite Hcall. unfold rop_end.
    cbn [mbind option_bind snd rs_ctx rs_handles rs_size rs_repl].
    rewrite Hcalls. cbn [mbind option_bind].
    eexists _, _. split; [reflexivity |].
    conjuncts; auto; cbn [map]; rewrite ?Hmap; auto.
Qed.

(** X15. A download completes.  On a context at the start of its
    stream, whose cut-marks hold the sentinel within reach, any sequence
    of GetBuffer requests for buffer sizes that are not zero, at least as
    many as the stream has bytes, is served completely: every call
    returns without error, the chunks concatenated are the stream, and
    the last reply has status Done. *)
Theorem getbuffer_download_completes
        depth ctx blank handles size reqs idx h o :
  handles_get handles idx = Some h ->
  handles_ctx ctx !! h = Some (Some o) ->
  context_prepared o = true ->
  context_position o = 0 ->
  sentinel_reachable o ->
  Forall (fun req => req_handle_idx req = idx
                     /\ 0 < effective_buffer_size req) reqs ->
  reqs <> [] ->
  (length (context_bytes o) <= length reqs)%nat ->
  exists ctx' repls rs r,
    getbuffer_calls depth ctx blank handles size reqs = Some (ctx', repls)
    /\ map transfer_of repls = map Some rs
    /\ Forall (fun repl => error_code repl = MAPI_E_SUCCESS) repls
    /\ concat (map TransferBuffer rs) = context_bytes o
    /\ last rs = Some r
    /\ TransferStatus_ r = TransferStatus_Done.
Proof.
  intros Hh Hobj Hprep Hpos0 Hsent Hreqs Hne Hmany.
  destruct (getbuffer_steps_complete depth (backend ctx)
              (map effective_buffer_size reqs) o Hprep Hsent)
    as (o' & rs & Hsteps & Hbytes & Hp' & Hleft & Hlast).
  { rewrite Hpos0. lia. }
  { apply Forall_map. eapply Forall_impl; [exact Hreqs |].
    intros req [_ Hbs]. exact Hbs. }
  rewrite length_map, Hpos0 in Hleft.
  assert (Hend : context_position o' = Z.of_nat (length (context_bytes o)))
    by lia.
  destruct (getbuffer_calls_of_steps depth blank handles idx h reqs Hh Hreqs
              ctx size o o' rs Hobj Hsteps)
    as (ctx' & repls & Hcalls & _ & _ & Hmap & Herr).
  destruct (getbuffer_steps_chunks depth (backend ctx) _ o o' rs Hsteps Hprep)
    as (_ & _ & Hchunks & Hposn & _).
  { rewrite Hpos0. lia. }
  assert (Hrs : length rs = length reqs).
  { apply (f_equal (@length _)) in Hmap. rewrite !length_map in Hmap.
    rewrite <- Hmap. apply (getbuffer_calls_length _ _ _ _ _ _ _ _ Hcalls). }
  destruct (last rs) as [r |] eqn:Hr.
  2:{ apply last_None in Hr. subst rs. destruct reqs; [congruence |].
      discriminate Hrs. }
  exists ctx', repls, rs, r. conjuncts; auto.
  - rewrite Hpos0 in Hchunks, Hposn. cbn in Hchunks.
    rewrite (chunks_from_concat _ _ _ Hchunks). cbn [drop].
    apply take_ge. lia.
  - rewrite (Hlast r eq_refl), Hend, Z.eqb_refl. reflexivity.
Qed.

End ChunkerCompletion.

(** The witness of X11: a first call for 6 bytes on the stream of ten
    bytes. *)
Lemma getbuffer_returns_on_prepared_context_witness :
  exists rs r,
    EcDoRpc_RopFastTransferSourceGetBuffer
      0 (Some Sample.ten_bytes_context) (Some (Sample.getbuffer_request 6))
      (Some Sample.blank_repl) (Some Sample.handle_array) (Some 0)
    = Some (MAPI_E_SUCCESS, Some rs)
    /\ error_code (rs_repl rs) = MAPI_E_SUCCESS
    /\ transfer_of (rs_repl rs) = Some r
    /\ rs_handles rs = Sample.handle_array.
Proof.
  destruct (getbuffer_returns_on_prepared_context
              (K := Sample.constants) (T := Sample.types)
              (E := Sample.collaborators)
              0 Sample.ten_bytes_context (Sample.getbuffer_request 6)
              Sample.blank_repl Sample.handle_array 0 7
              (Object_ftcontext
                 (Sample.ftcontext_over Sample.ten_bytes [0; 4; 7; 0xffffffff]))
              eq_refl eq_refl eq_refl)
    as (rs & r & o' & Hcall & Herr & Hr & _ & _ & _ & Hhandles & _).
  - vm_compute. reflexivity.
  - exists 3%nat. split; [reflexivity |].
    split; [vm_compute; discriminate | reflexivity].
  - exists rs, r. auto.
Defined.

(** The witness of X12: the same call returns four bytes, for the six
    that it asked for. *)
Lemma getbuffer_chunk_bounded_witness :
  exists rs r,
    EcDoRpc_RopFastTransferSourceGetBuffer
      0 (Some Sample.ten_bytes_context) (Some (Sample.getbuffer_request 6))
      (Some Sample.blank_repl) (Some Sample.handle_array) (Some 0)
    = Some (MAPI_E_SUCCESS, Some rs)
    /\ transfer_of (rs_repl rs) = Some r
    /\ Z.of_nat (length (TransferBuffer r)) <= 6
    /\ TransferBufferSize r = 4.
Proof.
  destruct (EcDoRpc_RopFastTransferSourceGetBuffer
              0 (Some Sample.ten_bytes_context)
              (Some (Sample.getbuffer_request 6))
              (Some Sample.blank_repl) (Some Sample.handle_array) (Some 0))
    as [[status [rs |]] |] eqn:Hcall;
    try (exfalso; vm_compute in Hcall; discriminate).
  pose proof Hcall as Hvalue. vm_compute in Hvalue.
  injection Hvalue as Hstatus Hrs.
  destruct (transfer_of (rs_repl rs)) as [r |] eqn:Hr;
    [| exfalso; rewrite <- Hrs in Hr; vm_compute in Hr; discriminate Hr].
  destruct (getbuffer_chunk_bounded
              (K := Sample.constants) (T := Sample.types)
              (E := Sample.collaborators)
              _ _ _ _ _ _ _ _ r Hcall)
    as (Hbound & Hsize & _).
  - rewrite <- Hrs. reflexivity.
  - exact Hr.
  - exists rs, r. subst status. split; [reflexivity |].
    split; [exact Hr |]. split; [exact Hbound |].
    rewrite <- Hrs in Hr. vm_compute in Hr. injection Hr as <-. reflexivity.
Defined.

(** The witness of X13: with cut-marks at 0, 4 and 7, a call for 6 bytes
    at the start of the ten bytes stops at offset 4. *)
Lemma getbuffer_cuts_at_last_mark_witness :
  exists rs r,
    EcDoRpc_RopFastTransferSourceGetBuffer
      0 (Some Sample.ten_bytes_context) (Some (Sample.getbuffer_request 6))
      (Some Sample.blank_repl) (Some Sample.handle_array) (Some 0)
    = Some (MAPI_E_SUCCESS, Some rs)
    /\ transfer_of (rs_repl rs) = Some r
    /\ TransferStatus_ r = TransferStatus_Partial
    /\ TransferBuffer r = [10; 11; 12; 13].
Proof.
  destruct (getbuffer_cuts_at_last_mark
              (K := Sample.constants) (T := Sample.types)
              (E := Sample.collaborators)
              0 Sample.ten_bytes_context (Sample.getbuffer_request 6)
              Sample.blank_repl Sample.handle_array 0 7
              (Sample.ftcontext_over Sample.ten_bytes [0; 4; 7; 0xffffffff])
              Sample.ten_bytes [0; 4; 7]%nat
              eq_refl eq_refl eq_refl eq_refl)
    as (rs & r & Hcall & Hr & Hstatus & Hcase).
  - cbn. lia.
  - reflexivity.
  - vm_compute. reflexivity.
  - vm_compute. reflexivity.
  - vm_compute. discriminate.
  - vm_compute. reflexivity.
  - vm_compute. reflexivity.
  - exists rs, r. split; [exact Hcall |]. split; [exact Hr |].
    split; [exact Hstatus |].
    vm_compute in Hcall. injection Hcall as <-.
    vm_compute in Hr. injection Hr as <-. reflexivity.
Defined.

(** The witness of X14: one more call on the stream of ten bytes after
    its end was reached. *)
Lemma getbuffer_past_the_end_witness :
  exists rs r,
    EcDoRpc_RopFastTransferSourceGetBuffer
      0 (Some Sample.finished_context) (Some (Sample.getbuffer_request 6))
      (Some Sample.blank_repl) (Some Sample.handle_array) (Some 0)
    = Some (MAPI_E_SUCCESS, Some rs)
    /\ transfer_of (rs_repl rs) = Some r
    /\ TransferBuffer r = []
    /\ TransferStatus_ r = TransferStatus_Done
    /\ InProgressCount r = TotalStepCount r.
Proof.
  destruct (getbuffer_past_the_end
              (K := Sample.constants) (T := Sample.types)
              (E := Sample.collaborators)
              0 Sample.finished_context (Sample.getbuffer_request 6)
              Sample.blank_repl Sample.handle_array 0 7 _
              eq_refl eq_refl eq_refl)
    as (rs & r & o' & Hcall & Hr & Hempty & Hstatus & Hcount & _).
  - vm_compute. reflexivity.
  - exists 3%nat. split; [reflexivity |].
    split; [vm_compute; discriminate | reflexivity].
  - reflexivity.
  - exists rs, r. auto.
Defined.

(** The witness of X15: ten calls for 6 bytes each deliver the ten
    bytes. *)
Lemma getbuffer_download_completes_witness :
  exists ctx' repls rs r,
    getbuffer_calls 0 Sample.ten_bytes_context Sample.blank_repl
                    Sample.handle_array 0
                    (repeat (Sample.getbuffer_request 6) 10)
    = Some (ctx', repls)
    /\ map transfer_of repls = map Some rs
    /\ concat (map TransferBuffer rs) = Sample.ten_bytes
    /\ last rs = Some r
    /\ TransferStatus_ r = TransferStatus_Done.
Proof.
  destruct (getbuffer_download_completes
              (K := Sample.constants) (T := Sample.types)
              (E := Sample.collaborators)
              0 Sample.ten_bytes_context Sample.blank_repl
              Sample.handle_array 0
              (repeat (Sample.getbuffer_request 6) 10) 0 7
              (Object_ftcontext
                 (Sample.ftcontext_over Sample.ten_bytes [0; 4; 7; 0xffffffff]))
              eq_refl eq_refl eq_refl eq_refl)
    as (ctx' & repls & rs & r & Hcalls & Hmap & _ & Hconcat & Hlast & Hdone).
  - exists 3%nat. split; [reflexivity |].
    split; [vm_compute; discriminate | reflexivity].
  - cbn [repeat]. repeat constructor.
  - discriminate.
  - cbn. lia.
  - exists ctx', repls, rs, r. auto.
Defined.

(** ** The state-stream upload, further *)

Section UploadFacts.
Context {K : mapi_constants} {T : backend_types} {E : externals}.

Lemma state_properties_accepted property :
  property ∈ state_properties ->
  (property =? PidTagIdsetGiven) || (property =? PidTagCnsetSeen)
  || (property =? PidTagCnsetSeenFAI) || (property =? PidTagCnsetRead) = true.
Proof.
  unfold state_properties. intros Hin.
  repeat (apply elem_of_cons in Hin as [-> | Hin];
          [rewrite Z.eqb_refl, ?orb_true_r; reflexivity |]).
  inversion Hin.
Qed.

Lemma state_properties_refused property :
  property ∉ state_properties ->
  (property =? PidTagIdsetGiven) || (property =? PidTagCnsetSeen)
  || (property =? PidTagCnsetSeenFAI) || (property =? PidTagCnsetRead) = false.
Proof.
  unfold state_properties. intros Hnot.
  repeat (apply not_elem_of_cons in Hnot as [Hne Hnot];
          apply Z.eqb_neq in Hne; rewrite Hne; clear Hne).
  reflexivity.
Qed.

(** SyncUploadStateStreamBegin on an idle session. *)
Lemma upload_begin_on_idle_context ctx req repl handles size h parent sc property :
  handles_get handles (req_handle_idx req) = Some h ->
  handles_ctx ctx !! h = Some (Some (Object_synccontext parent sc)) ->
  state_property sc = 0 ->
  req_u req = mapi_SyncUploadStateStreamBegin property ->
  property ∈ state_properties ->
  EcDoRpc_RopSyncUploadStateStreamBegin (Some ctx) (Some req) (Some repl)
                                        (Some handles) (Some size)
  = rop_end RopSyncUploadStateStreamBegin
      (mapi_handles_set_private_data ctx h
         (Some (Object_synccontext parent
                  (set_state_upload sc property
                                    {| position := 0; buffer := Some [] |}))))
      (repl_init repl (req_opnum req) (req_handle_idx req)) handles size.
Proof.
  intros Hh Hobj Hidle Hu Hin.
  unfold EcDoRpc_RopSyncUploadStateStreamBegin, sanity_checks.
  rewrite Hh. cbn [mbind option_bind]. rewrite Hobj, Hidle, Hu.
  cbn [Z.eqb negb]. rewrite (state_properties_accepted _ Hin). reflexivity.
Qed.

(** SyncUploadStateStreamContinue on an armed session. *)
Lemma upload_continue_on_armed_context ctx req repl handles size h parent sc
      chunk :
  handles_get handles (req_handle_idx req) = Some h ->
  handles_ctx ctx !! h = Some (Some (Object_synccontext parent sc)) ->
  state_property sc <> 0 ->
  req_u req = mapi_SyncUploadStateStreamContinue chunk ->
  EcDoRpc_RopSyncUploadStateStreamContinue (Some ctx) (Some req) (Some repl)
                                           (Some handles) (Some size)
  = rop_end RopSyncUploadStateStreamContinue
      (mapi_handles_set_private_data ctx h
         (Some (Object_synccontext parent
                  (set_state_upload sc (state_property sc)
                     (emsmdbp_stream_write_buffer (state_stream sc) chunk)))))
      (repl_init repl (req_opnum req) (req_handle_idx req)) handles size.
Proof.
  intros Hh Hobj Harmed Hu.
  unfold EcDoRpc_RopSyncUploadStateStreamContinue, sanity_checks.
  rewrite Hh. cbn [mbind option_bind]. rewrite Hobj.
  apply Z.eqb_neq in Harmed. rewrite Harmed, Hu. reflexivity.
Qed.

Lemma session_state_set ctx handles h parent sc' op ctx0 repl size :
  (forall h', h' <> h -> handles_ctx ctx0 !! h' = handles_ctx ctx !! h') ->
  backend ctx0 = backend ctx ->
  error_code repl = MAPI_E_SUCCESS ->
  session_state ctx handles h parent sc'
    (rop_end op
       (mapi_handles_set_private_data ctx0 h
          (Some (Object_synccontext parent sc')))
       repl handles size).
Proof.
  intros Hframe Hbackend Herr. unfold rop_end.
  eexists _, _. split; [reflexivity |]. cbn.
  split; [reflexivity |]. split; [exact Herr |].
  split; [apply lookup_insert_eq |].
  split; [| auto].
  intros h' Hne. rewrite lookup_insert_ne by congruence. auto.
Qed.

(** The Continue calls of an upload append their chunks to the scratch
    stream. *)
Lemma upload_continue_calls ctx handles h parent sc property blank idx :
  handles_get handles idx = Some h ->
  property <> 0 ->
  forall continue_reqs chunks,
    Forall2 (fun req chunk =>
               req_handle_idx req = idx
               /\ req_u req = mapi_SyncUploadStateStreamContinue chunk)
            continue_reqs chunks ->
    forall r scratch,
      session_state ctx handles h parent
                    (set_state_upload sc property scratch) r ->
      session_state ctx handles h parent
        (set_state_upload sc property
                          (foldl emsmdbp_stream_write_buffer scratch chunks))
        (foldl (fun r req =>
                  then_rop r EcDoRpc_RopSyncUploadStateStreamContinue
                           req blank)
               r continue_reqs).
Proof.
  intros Hh Harmed continue_reqs chunks Hreqs.
  induction Hreqs as [| req chunk reqs chunks [Hidx Hu] _ IH];
    intros r scratch Hstate; [exact Hstate |].
  cbn [foldl]. apply IH.
  destruct Hstate as (status & rs & -> & _ & _ & Hobj & Hframe & Hbackend & Hhs).
  unfold then_rop. cbn [mbind option_bind fst snd].
  rewrite <- Hidx in Hh. rewrite <- Hhs in Hh.
  rewrite (upload_continue_on_armed_context _ _ _ _ _ _ _ _ _ Hh Hobj Harmed Hu).
  rewrite Hhs. apply session_state_set; auto.
Qed.

(** The scratch stream after the Continue calls holds the chunks in
    order. *)
Lemma write_buffer_chunks chunks :
  forall scratch,
    buffer (foldl emsmdbp_stream_write_buffer scratch chunks)
    = match chunks with
      | [] => buffer scratch
      | _ => Some (default [] (buffer scratch) ++ concat chunks)
      end.
Proof.
  induction chunks as [| chunk chunks IH]; intros scratch; [reflexivity |].
  cbn [foldl]. rewrite IH. cbn [concat].
  destruct chunks as [| chunk' chunks].
  - cbn. rewrite app_nil_r. reflexivity.
  - cbn [emsmdbp_stream_write_buffer buffer default]. unfold id.
    rewrite <- app_assoc. reflexivity.
Qed.

End UploadFacts.

Section UploadSessionTheorems.
Context {K : mapi_constants} {T : backend_types} {E : externals}.

(** X16. A whole upload on an idle session (Begin for one of the four
    state properties, any number of Continue calls, End), with a
    non-zero property tag and, for [PidTagIdsetGiven], a parsed set that
    has a range: every call returns without error, and the slot of the
    property ([idset_given] for [PidTagIdsetGiven], [cnset_seen] for the
    three others) holds [IDSET_parse] of the concatenation of the chunks,
    however the bytes were split into chunks.  The other set, the
    request flags, the property array, the produced stream and its
    cut-marks, the other handles, the handle array and the store are as
    before, and the session is idle again with an empty scratch stream.
    ([emsmdbp_stream_write_buffer], which is defined outside this source
    tree, appends.) *)
Theorem upload_installs_concatenation
        ctx handles size blank status h parent sc property idx
        begin_req continue_reqs chunks end_req :
  handles_get handles idx = Some h ->
  handles_ctx ctx !! h = Some (Some (Object_synccontext parent sc)) ->
  state_property sc = 0 ->
  property <> 0 ->
  property ∈ state_properties ->
  req_handle_idx begin_req = idx ->
  req_u begin_req = mapi_SyncUploadStateStreamBegin property ->
  Forall2 (fun req chunk =>
             req_handle_idx req = idx
             /\ req_u req = mapi_SyncUploadStateStreamContinue chunk)
          continue_reqs chunks ->
  req_handle_idx end_req = idx ->
  (property = PidTagIdsetGiven ->
   forall parsed, IDSET_parse (concat chunks) = Some parsed ->
                  idset_range_count parsed <> 0) ->
  exists rs sc',
    upload_calls (Some (status,
                        Some {| rs_ctx := ctx; rs_repl := blank;
                                rs_handles := handles; rs_size := size |}))
                 begin_req continue_reqs end_req blank
    = Some (MAPI_E_SUCCESS, Some rs)
    /\ error_code (rs_repl rs) = MAPI_E_SUCCESS
    /\ synccontext_at (rs_ctx rs) h = Some sc'
    /\ (if property =? PidTagIdsetGiven
        then idset_given sc' = IDSET_parse (concat chunks)
             /\ cnset_seen sc' = cnset_seen sc
        else cnset_seen sc' = idset_set_single <$> IDSET_parse (concat chunks)
             /\ idset_given sc' = idset_given sc)
    /\ state_property sc' = 0
    /\ buffer_length (state_stream sc') = 0
    /\ request sc' = request sc
    /\ properties sc' = properties sc
    /\ stream sc' = stream sc
    /\ cutmarks sc' = cutmarks sc
    /\ rs_handles rs = handles
    /\ backend (rs_ctx rs) = backend ctx
    /\ (forall h', h' <> h ->
                   handles_ctx (rs_ctx rs) !! h' = handles_ctx ctx !! h').
Proof.
  intros Hh Hobj Hidle Harmed Hin Hbegin Hu Hreqs Hend Hranges.
  unfold upload_calls.
  set (armed := set_state_upload sc property
                                 {| position := 0; buffer := Some [] |}).
  assert (Hstart :
            session_state ctx handles h parent armed
              (then_rop (Some (status,
                               Some {| rs_ctx := ctx; rs_repl := blank;
                                       rs_handles := handles;
                                       rs_size := size |}))
                        EcDoRpc_RopSyncUploadStateStreamBegin begin_req blank)).
  { unfold then_rop. cbn [mbind option_bind fst snd rs_ctx rs_handles rs_size].
    rewrite <- Hbegin in Hh.
    rewrite (upload_begin_on_idle_context _ _ _ _ _ _ _ _ _ Hh Hobj Hidle Hu Hin).
    apply session_state_set; auto. }
  pose proof (upload_continue_calls ctx handles h parent sc property blank idx
                Hh Harmed continue_reqs chunks Hreqs _ _ Hstart) as Hfed.
  destruct Hfed as (st & rs & -> & _ & _ & Hobj' & Hframe & Hbackend & Hhs).
  set (scratch := foldl emsmdbp_stream_write_buffer
                        {| position := 0; buffer := Some [] |} chunks) in *.
  set (fed := set_state_upload sc property scratch) in *.
  assert (Hbytes : default [] (buffer (state_stream fed)) = concat chunks).
  { unfold fed, scratch. cbn [state_stream set_state_upload].
    rewrite write_buffer_chunks. destruct chunks; reflexivity. }
  set (parsed := IDSET_parse (concat chunks)).
  assert (Hinstall :
            exists sc1,
              install_parsed_idset
                fed (IDSET_parse (default [] (buffer (state_stream fed))))
              = Some sc1
              /\ (if property =? PidTagIdsetGiven
                  then idset_given sc1 = parsed
                       /\ cnset_seen sc1 = cnset_seen sc
                  else cnset_seen sc1 = idset_set_single <$> parsed
                       /\ idset_given sc1 = idset_given sc)
              /\ request sc1 = request sc /\ properties sc1 = properties sc
              /\ stream sc1 = stream sc /\ cutmarks sc1 = cutmarks sc).
  { rewrite Hbytes. fold parsed. unfold install_parsed_idset.
    cbn [state_property fed set_state_upload].
    destruct (property =? PidTagIdsetGiven) eqn:Hgiven.
    - apply Z.eqb_eq in Hgiven.
      destruct parsed as [set |] eqn:Hparsed.
      + specialize (Hranges Hgiven set Hparsed).
        apply Z.eqb_neq in Hranges. rewrite Hranges.
        eexists. split; [reflexivity |]. cbn. auto 10.
      + eexists. split; [reflexivity |]. cbn. auto 10.
    - pose proof (state_properties_accepted _ Hin) as Hany.
      rewrite Hgiven in Hany. cbn [orb] in Hany. rewrite Hany.
      eexists. split; [reflexivity |]. cbn. auto 10. }
  destruct Hinstall as (sc1 & Hinstall & Hslot & Hrq & Hpr & Hstr & Hcm).
  unfold then_rop. cbn [mbind option_bind fst snd].
  rewrite <- Hend, <- Hhs in Hh.
  assert (Hfed_armed : state_property fed <> 0) by exact Harmed.
  rewrite (upload_end_on_armed_context _ _ _ _ _ _ _ _ _ Hh Hobj' Hfed_armed
                                       Hinstall).
  unfold rop_end. eexists _, (reset_state_stream sc1).
  split; [reflexivity |]. cbn -[reset_state_stream].
  split; [reflexivity |].
  unfold synccontext_at. cbn -[reset_state_stream].
  rewrite lookup_insert_eq. split; [reflexivity |].
  assert (Hempty : buffer_length (state_stream (reset_state_stream sc1)) = 0).
  { unfold reset_state_stream. cbn.
    destruct (0 <? buffer_length (state_stream sc1)) eqn:Hlen.
    - reflexivity.
    - apply Z.ltb_ge in Hlen. unfold buffer_length in *.
      destruct (buffer (state_stream sc1)); lia. }
  split; [exact Hslot |].
  split; [reflexivity |]. split; [exact Hempty |].
  conjuncts; auto.
  intros h' Hne. rewrite lookup_insert_ne by congruence. auto.
Qed.

(** X17. The upload state machine refuses calls out of order, on a
    handle that holds a synchronization context.  On an armed session
    SyncUploadStateStreamBegin is refused with [MAPI_E_NOT_INITIALIZED]
    and the running upload is kept; on an idle session a Begin for a
    property that is none of the four state properties is refused with
    [MAPI_E_INVALID_PARAMETER], and SyncUploadStateStreamContinue and
    SyncUploadStateStreamEnd are refused with [MAPI_E_NOT_INITIALIZED].
    A refused call leaves the provider context and the handle array as
    they were. *)
Theorem upload_out_of_order_refused
        ctx req repl handles size h parent sc :
  handles_get handles (req_handle_idx req) = Some h ->
  handles_ctx ctx !! h = Some (Some (Object_synccontext parent sc)) ->
  (state_property sc <> 0 ->
   rop_refused EcDoRpc_RopSyncUploadStateStreamBegin
               ctx req repl handles size MAPI_E_NOT_INITIALIZED)
  /\ (state_property sc = 0 ->
      forall property,
        req_u req = mapi_SyncUploadStateStreamBegin property ->
        property ∉ state_properties ->
        rop_refused EcDoRpc_RopSyncUploadStateStreamBegin
                    ctx req repl handles size MAPI_E_INVALID_PARAMETER)
  /\ (state_property sc = 0 ->
      rop_refused EcDoRpc_RopSyncUploadStateStreamContinue
                  ctx req repl handles size MAPI_E_NOT_INITIALIZED
      /\ rop_refused EcDoRpc_RopSyncUploadStateStreamEnd
                     ctx req repl handles size MAPI_E_NOT_INITIALIZED).
Proof.
  intros Hh Hobj. unfold rop_refused.
  unfold EcDoRpc_RopSyncUploadStateStreamBegin,
    EcDoRpc_RopSyncUploadStateStreamContinue,
    EcDoRpc_RopSyncUploadStateStreamEnd, sanity_checks.
  rewrite Hh. cbn [mbind option_bind]. rewrite Hobj.
  split; [| split].
  - intros Harmed. apply Z.eqb_neq in Harmed. rewrite Harmed. cbn [negb].
    unfold rop_end. eexists. split; [reflexivity |]. cbn. auto.
  - intros Hidle property Hu Hnot. rewrite Hidle, Hu. cbn [Z.eqb negb].
    rewrite (state_properties_refused _ Hnot). cbn [negb].
    unfold rop_end. eexists. split; [reflexivity |]. cbn. auto.
  - intros Hidle. rewrite Hidle. cbn [Z.eqb].
    unfold rop_end. split; eexists; (split; [reflexivity |]); cbn; auto.
Qed.

End UploadSessionTheorems.

(** The witness of X16: the twelve bytes of the set [{1, 2}], uploaded
    as [PidTagCnsetSeen] in three chunks of 3, 5 and 4 bytes to a session
    that holds [idset_given = {5}] and [cnset_seen = {9}]. *)
Lemma upload_installs_concatenation_witness :
  exists rs sc',
    upload_calls
      (Sample.start_of (Sample.session (Some [5]) (Some [9]) Sample.empty_store))
      (Sample.upload_begin_request 0x67960102)
      (map Sample.upload_continue_request
           [[1; 0; 0]; [0; 0; 0; 2; 0]; [0; 0; 0; 0]])
      (Sample.plain_request 0x77) Sample.blank_repl
    = Some (MAPI_E_SUCCESS, Some rs)
    /\ synccontext_at (rs_ctx rs) 7 = Some sc'
    /\ cnset_seen sc' = Some [1; 2]
    /\ idset_given sc' = Some [5]
    /\ state_property sc' = 0.
Proof.
  destruct (upload_installs_concatenation
              (K := Sample.constants) (T := Sample.types)
              (E := Sample.collaborators)
              (Sample.session (Some [5]) (Some [9]) Sample.empty_store)
              Sample.handle_array 0 Sample.blank_repl MAPI_E_SUCCESS
              7 Sample.inbox _ 0x67960102 0
              (Sample.upload_begin_request 0x67960102)
              (map Sample.upload_continue_request
                   [[1; 0; 0]; [0; 0; 0; 2; 0]; [0; 0; 0; 0]])
              [[1; 0; 0]; [0; 0; 0; 2; 0]; [0; 0; 0; 0]]
              (Sample.plain_request 0x77)
              eq_refl eq_refl eq_refl)
    as (rs & sc' & Hcall & _ & Hat & Hslot & Hidle & _).
  - discriminate.
  - unfold state_properties. cbn. right. left.
  - reflexivity.
  - reflexivity.
  - cbn [map]. repeat constructor.
  - reflexivity.
  - intros Hgiven. vm_compute in Hgiven. discriminate Hgiven.
  - exists rs, sc'. split; [exact Hcall |]. split; [exact Hat |].
    cbn in Hslot. destruct Hslot as [Hseen Hgiven].
    split; [rewrite Hseen; vm_compute; reflexivity |].
    split; [exact Hgiven | exact Hidle].
Defined.

(** The witness of X17: on an idle session a Begin for the tag
    [0x12345678], which is no state property, a Continue and an End are
    refused; on a session armed for [PidTagCnsetSeen] a second Begin is
    refused. *)
Lemma upload_out_of_order_refused_witness :
  rop_refused EcDoRpc_RopSyncUploadStateStreamBegin
              (Sample.session (Some [5]) (Some [9]) Sample.empty_store)
              (Sample.upload_begin_request 0x12345678) Sample.blank_repl
              Sample.handle_array 0 MAPI_E_INVALID_PARAMETER
  /\ rop_refused EcDoRpc_RopSyncUploadStateStreamContinue
                 (Sample.session (Some [5]) (Some [9]) Sample.empty_store)
                 (Sample.upload_begin_request 0x12345678) Sample.blank_repl
                 Sample.handle_array 0 MAPI_E_NOT_INITIALIZED
  /\ rop_refused EcDoRpc_RopSyncUploadStateStreamBegin
                 (Sample.armed_session (Some [5]) (Some [9]) 0x67960102 [1])
                 (Sample.upload_begin_request 0x67960102) Sample.blank_repl
                 Sample.handle_array 0 MAPI_E_NOT_INITIALIZED.
Proof.
  destruct (upload_out_of_order_refused
              (K := Sample.constants) (T := Sample.types)
              (E := Sample.collaborators)
              (Sample.session (Some [5]) (Some [9]) Sample.empty_store)
              (Sample.upload_begin_request 0x12345678) Sample.blank_repl
              Sample.handle_array 0 7 Sample.inbox _ eq_refl eq_refl)
    as (_ & Hproperty & Hidle).
  destruct (upload_out_of_order_refused
              (K := Sample.constants) (T := Sample.types)
              (E := Sample.collaborators)
              (Sample.armed_session (Some [5]) (Some [9]) 0x67960102 [1])
              (Sample.upload_begin_request 0x67960102) Sample.blank_repl
              Sample.handle_array 0 7 Sample.inbox _ eq_refl eq_refl)
    as (Harmed & _).
  split; [| split].
  - apply (Hproperty eq_refl 0x12345678 eq_refl).
    unfold state_properties. cbn.
    repeat (apply not_elem_of_cons; split; [discriminate |]).
    apply not_elem_of_nil.
  - apply (Hidle eq_refl).
  - apply Harmed. discriminate.
Defined.

(** ** The handlers as a whole, further *)

(** Unfolds the handler of each operation. *)
Ltac unfold_handlers H :=
  cbn [handler_of] in H;
  unfold EcDoRpc_RopFastTransferSourceCopyTo,
    EcDoRpc_RopFastTransferSourceGetBuffer, EcDoRpc_RopSyncConfigure,
    EcDoRpc_RopSyncImportMessageChange,
    EcDoRpc_RopSyncImportHierarchyChange, EcDoRpc_RopSyncImportDeletes,
    EcDoRpc_RopSyncUploadStateStreamBegin,
    EcDoRpc_RopSyncUploadStateStreamContinue,
    EcDoRpc_RopSyncUploadStateStreamEnd, EcDoRpc_RopSyncImportMessageMove,
    EcDoRpc_RopSyncOpenCollector, EcDoRpc_RopGetLocalReplicaIds,
    EcDoRpc_RopSyncImportReadStateChanges,
    EcDoRpc_RopSyncGetTransferState,
    EcDoRpc_RopSetLocalReplicaMidsetDeleted, sanity_checks, stub_end,
    rop_end in H;
  cbv zeta in H.

Section ReplyTheorems.
Context {K : mapi_constants} {T : backend_types} {E : externals}.

(** X18. In every handler but FastTransferSourceCopyTo,
    SyncImportMessageChange and SyncImportHierarchyChange, a call that
    leaves an error code other than [MAPI_E_SUCCESS] in the reply has
    changed nothing: the provider context, with its handle table and its
    store, and the handle array are as they were before the call. *)
Theorem refused_calls_change_nothing
        depth op ctx req repl handles size status rs :
  fails_cleanly op = true ->
  handler_of depth op (Some ctx) (Some req) (Some repl) (Some handles)
             (Some size) = Some (status, Some rs) ->
  error_code (rs_repl rs) <> MAPI_E_SUCCESS ->
  rs_ctx rs = ctx /\ rs_handles rs = handles.
Proof.
  intros Hop Hcall.
  destruct op; try discriminate Hop; clear Hop;
    unfold_handlers Hcall; crack; cbn; intros Herr;
    solve [auto | exfalso; apply Herr; reflexivity].
Qed.

(** X19. The reply of every handler that returns after the sanity
    checks: [opnum] is the one of the request, [handle_idx] is the index
    of the request (for the five operations that create a handle, the
    index that the request gives for it), and [*size] has grown by the
    size of the reply, modulo 2^16. *)
Theorem handlers_reply_header
        depth op ctx req repl handles size status rs :
  handler_of depth op (Some ctx) (Some req) (Some repl) (Some handles)
             (Some size) = Some (status, Some rs) ->
  opnum (rs_repl rs) = req_opnum req
  /\ handle_idx (rs_repl rs) = reply_handle_idx op req
  /\ rs_size rs = uint16 (size + libmapiserver_size op (rs_repl rs)).
Proof.
  intros Hcall. unfold reply_handle_idx.
  destruct op; unfold_handlers Hcall; crack; cbn;
    repeat match goal with
           | Hu : req_u _ = _ |- _ => rewrite Hu
           end;
    auto.
Qed.

End ReplyTheorems.

(** The witness of X18: SyncConfigure with the send option Unicode but
    without the synchronization flag Unicode is refused with
    [MAPI_E_INVALID_PARAMETER], and no handle was created. *)
Lemma refused_calls_change_nothing_witness :
  exists rs,
    EcDoRpc_RopSyncConfigure
      (Some Sample.one_property_context)
      (Some (Sample.configure_request 1 0x01 0x20 0 []))
      (Some Sample.blank_repl) (Some Sample.handle_array) (Some 0)
    = Some (MAPI_E_SUCCESS, Some rs)
    /\ error_code (rs_repl rs) = MAPI_E_INVALID_PARAMETER
    /\ rs_ctx rs = Sample.one_property_context
    /\ rs_handles rs = Sample.handle_array.
Proof.
  destruct (EcDoRpc_RopSyncConfigure
              (Some Sample.one_property_context)
              (Some (Sample.configure_request 1 0x01 0x20 0 []))
              (Some Sample.blank_repl) (Some Sample.handle_array) (Some 0))
    as [[status [rs |]] |] eqn:Hcall;
    try (exfalso; vm_compute in Hcall; discriminate).
  assert (Herr : error_code (rs_repl rs) = MAPI_E_INVALID_PARAMETER).
  { vm_compute in Hcall. injection Hcall as _ <-. reflexivity. }
  assert (Hstatus : status = MAPI_E_SUCCESS).
  { vm_compute in Hcall. injection Hcall as <- _. reflexivity. }
  destruct (refused_calls_change_nothing
              (K := Sample.constants) (T := Sample.types)
              (E := Sample.collaborators)
              0 RopSyncConfigure Sample.one_property_context
              (Sample.configure_request 1 0x01 0x20 0 [])
              Sample.blank_repl Sample.handle_array 0 status rs
              eq_refl Hcall)
    as [Hctx Hhandles].
  - rewrite Herr. discriminate.
  - exists rs. subst status. auto.
Defined.

(** The witness of X19: a GetBuffer call for four bytes of the stream of
    ten bytes, whose reply has the size 15 + 4. *)
Lemma handlers_reply_header_witness :
  exists rs,
    EcDoRpc_RopFastTransferSourceGetBuffer
      0 (Some Sample.ten_bytes_context) (Some (Sample.getbuffer_request 4))
      (Some Sample.blank_repl) (Some Sample.handle_array) (Some 65530)
    = Some (MAPI_E_SUCCESS, Some rs)
    /\ opnum (rs_repl rs) = 0x4e
    /\ handle_idx (rs_repl rs) = 0
    /\ rs_size rs = 13.
Proof.
  destruct (EcDoRpc_RopFastTransferSourceGetBuffer
              0 (Some Sample.ten_bytes_context)
              (Some (Sample.getbuffer_request 4))
              (Some Sample.blank_repl) (Some Sample.handle_array) (Some 65530))
    as [[status [rs |]] |] eqn:Hcall;
    try (exfalso; vm_compute in Hcall; discriminate).
  destruct (handlers_reply_header
              (K := Sample.constants) (T := Sample.types)
              (E := Sample.collaborators)
              0 RopFastTransferSourceGetBuffer Sample.ten_bytes_context
              (Sample.getbuffer_request 4) Sample.blank_repl
              Sample.handle_array 65530 status rs Hcall)
    as (Hop & Hidx & Hsize).
  exists rs.
  vm_compute in Hcall. injection Hcall as <- Hrs.
  split; [reflexivity |]. split; [exact Hop |]. split; [exact Hidx |].
  rewrite Hsize, <- Hrs. vm_compute. reflexivity.
Defined.

(** ** The import handlers, further *)

Section ImportFacts.
Context {K : mapi_constants} {T : backend_types} {E : externals}.

Lemma fmid_loop_returns n :
  forall bytes fmid base,
    (n <= length bytes)%nat -> is_Some (Codec.fmid_loop n bytes fmid base).
Proof.
  induction n as [| n IH]; intros bytes fmid base Hlen; cbn [Codec.fmid_loop].
  - eauto.
  - destruct bytes as [| b bytes]; cbn [length] in Hlen; [lia |].
    apply IH. lia.
Qed.

(** A source key of at least 22 bytes is decoded, or refused for its
    GUID. *)
Lemma fmid_from_source_key_returns s source_key :
  (22 <= length source_key)%nat ->
  match emsmdbp_guid_to_replid s (take 16 source_key) with
  | None => fmid_from_source_key s source_key = Some (MAPISTORE_ERROR, None)
  | Some _ =>
      exists fmid,
        fmid_from_source_key s source_key = Some (MAPISTORE_SUCCESS, Some fmid)
  end.
Proof.
  intros Hlen.
  unfold fmid_from_source_key, Codec.oxcfxics_fmid_from_source_key.
  assert (Hlong : (Z.of_nat (length source_key) <? 16) = false)
    by (apply Z.ltb_ge; lia).
  rewrite Hlong.
  destruct (emsmdbp_guid_to_replid s (take 16 source_key)); [| reflexivity].
  destruct (fmid_loop_returns 6 (drop 16 source_key) 0 1) as [fmid ->].
  - rewrite length_drop. lia.
  - eauto.
Qed.

Lemma import_deletes_loop_returns contextID parent delete_type keys :
  Forall (fun key => (22 <= length key)%nat) keys ->
  forall s,
    exists s',
      import_deletes_loop s contextID parent delete_type keys = Some s'
      /\ (Forall (fun key =>
                    emsmdbp_guid_to_replid s (take 16 key) = None) keys ->
          s' = s).
Proof.
  induction 1 as [| key keys Hlen _ IH]; intros s; cbn [import_deletes_loop].
  - eauto.
  - pose proof (fmid_from_source_key_returns s key Hlen) as Hkey.
    destruct (emsmdbp_guid_to_replid s (take 16 key)) as [replid |] eqn:Hguid.
    + destruct Hkey as [fmid ->]. cbn [mbind option_bind].
      match goal with
      | |- context [import_deletes_loop ?s1 _ _ _ keys] =>
          destruct (IH s1) as (s' & -> & _)
      end.
      exists s'. split; [reflexivity |].
      intros Hunknown. inversion Hunknown as [| ? ? Hnone _]; subst.
      congruence.
    + rewrite Hkey. cbn [mbind option_bind].
      destruct (IH s) as (s' & -> & Hsame).
      exists s'. split; [reflexivity |].
      intros Hunknown. inversion Hunknown; subst. auto.
Qed.

End ImportFacts.

Section ImportMoreTheorems.
Context {K : mapi_constants} {T : backend_types} {E : externals}.

(** X20. SyncImportHierarchyChange on a session, when the registry does
    not know the replica GUID of the parent source key (property 0 of
    the hierarchy values), or decodes that key but does not know the GUID
    of the folder source key (property 1): the call is refused with
    [MAPI_E_NOT_FOUND], no folder is opened or created, and the provider
    context and the handle array are as before. *)
Theorem import_hierarchy_change_unknown_replica
        ctx req repl handles size h parent sc hierarchy_values
        property_values parent_key :
  handles_get handles (req_handle_idx req) = Some h ->
  handles_ctx ctx !! h = Some (Some (Object_synccontext parent sc)) ->
  req_u req = mapi_SyncImportHierarchyChange hierarchy_values property_values ->
  value_bin_at hierarchy_values 0 = Some parent_key ->
  (16 <= length parent_key)%nat ->
  emsmdbp_guid_to_replid (backend ctx) (take 16 parent_key) = None
  \/ (exists folder_key,
         (22 <= length parent_key)%nat
         /\ value_bin_at hierarchy_values 1 = Some folder_key
         /\ (16 <= length folder_key)%nat
         /\ emsmdbp_guid_to_replid (backend ctx) (take 16 folder_key) = None) ->
  rop_refused EcDoRpc_RopSyncImportHierarchyChange ctx req repl handles size
              MAPI_E_NOT_FOUND.
Proof.
  intros Hh Hobj Hu Hkey Hlen Hunknown.
  unfold rop_refused, EcDoRpc_RopSyncImportHierarchyChange, sanity_checks.
  rewrite Hh. cbn [mbind option_bind]. rewrite Hobj, Hu, Hkey.
  cbn [mbind option_bind].
  assert (Hrefused :
            forall key,
              (16 <= length key)%nat ->
              emsmdbp_guid_to_replid (backend ctx) (take 16 key) = None ->
              fmid_from_source_key (backend ctx) key
              = Some (MAPISTORE_ERROR, None)).
  { intros key Hl Hguid.
    unfold fmid_from_source_key, Codec.oxcfxics_fmid_from_source_key.
    assert (Hlong : (Z.of_nat (length key) <? 16) = false)
      by (apply Z.ltb_ge; lia).
    rewrite Hlong, Hguid. reflexivity. }
  destruct Hunknown as [Hguid | (folder_key & Hlen22 & Hkey1 & Hlen1 & Hguid1)].
  - rewrite (Hrefused _ Hlen Hguid). cbn [mbind option_bind].
    unfold rop_end. eexists. split; [reflexivity |]. cbn. auto.
  - pose proof (fmid_from_source_key_returns (backend ctx) parent_key Hlen22)
      as Hparent.
    destruct (emsmdbp_guid_to_replid (backend ctx) (take 16 parent_key)).
    + destruct Hparent as [pfid ->]. cbn [mbind option_bind].
      rewrite Hkey1. cbn [mbind option_bind].
      rewrite (Hrefused _ Hlen1 Hguid1). cbn [mbind option_bind].
      unfold rop_end. eexists. split; [reflexivity |]. cbn. auto.
    + rewrite Hparent. cbn [mbind option_bind].
      unfold rop_end. eexists. split; [reflexivity |]. cbn. auto.
Qed.

(** X21. SyncImportDeletes of messages on a session over a mapistore
    folder, with source keys of at least 22 bytes: the handler returns
    and the reply reports [MAPI_E_SUCCESS], whatever became of the
    deletions: a source key whose replica GUID the registry does not know
    is skipped, and the results of the two store operations are dropped.
    The handle table and the handle array are untouched, and when the
    registry knows none of the GUIDs the store is untouched as well. *)
Theorem import_deletes_reports_success
        ctx req repl handles size h parent sc flags property_values tag keys :
  handles_get handles (req_handle_idx req) = Some h ->
  handles_ctx ctx !! h = Some (Some (Object_synccontext parent sc)) ->
  req_u req = mapi_SyncImportDeletes flags property_values ->
  flag_set flags SyncImportDeletes_Hierarchy = false ->
  emsmdbp_is_mapistore (Object_synccontext parent sc) = true ->
  property_values !! 0%nat = Some {| ulPropTag := tag;
                                     value := value_MVbin keys |} ->
  Forall (fun key => (22 <= length key)%nat) keys ->
  exists rs,
    EcDoRpc_RopSyncImportDeletes (Some ctx) (Some req) (Some repl)
                                 (Some handles) (Some size)
    = Some (MAPI_E_SUCCESS, Some rs)
    /\ error_code (rs_repl rs) = MAPI_E_SUCCESS
    /\ handles_ctx (rs_ctx rs) = handles_ctx ctx
    /\ rs_handles rs = handles
    /\ (Forall (fun key =>
                  emsmdbp_guid_to_replid (backend ctx) (take 16 key) = None)
               keys ->
        rs_ctx rs = ctx).
Proof.
  intros Hh Hobj Hu Hflag Hms Hprop Hkeys.
  unfold EcDoRpc_RopSyncImportDeletes, sanity_checks.
  rewrite Hh. cbn [mbind option_bind]. rewrite Hobj, Hu, Hflag, Hms, Hprop.
  cbn [negb].
  match goal with
  | |- context [import_deletes_loop ?s ?c ?p ?d keys] =>
      destruct (import_deletes_loop_returns c p d keys Hkeys s)
        as (s' & -> & Hsame)
  end.
  cbn [mbind option_bind]. unfold rop_end.
  eexists. split; [reflexivity |]. cbn.
  conjuncts; auto.
  intros Hunknown. rewrite (Hsame Hunknown).
  destruct ctx. reflexivity.
Qed.

End ImportMoreTheorems.

Section HandleTheorems.
Context {K : mapi_constants} {T : backend_types} {E : externals}.

(** X22. Only the five operations that create a handle
    (FastTransferSourceCopyTo, SyncConfigure, SyncImportMessageChange,
    SyncOpenCollector, SyncGetTransferState) change the handle array or
    the set of handles of the table: after a call of any other handler
    the handle array is as before (the three stubs write a slot with the
    value it holds) and the table holds exactly the handles it held. *)
Theorem only_creators_touch_handles
        depth op ctx req repl handles size status rs :
  creates_handle op = false ->
  handler_of depth op (Some ctx) (Some req) (Some repl) (Some handles)
             (Some size) = Some (status, Some rs) ->
  rs_handles rs = handles
  /\ dom (handles_ctx (rs_ctx rs)) = dom (handles_ctx ctx).
Proof.
  intros Hop Hcall.
  destruct op; try discriminate Hop; clear Hop;
    unfold_handlers Hcall; unfold handles_set, handles_get in *;
    crack; cbn;
    (split;
     [ try reflexivity; apply list_insert_id; cbn in *; assumption
     | try reflexivity; apply dom_insert_lookup_L; eauto ]).
Qed.

End HandleTheorems.

(** The witness of X20: a hierarchy import under the mailbox replica of
    a folder whose source key names an unknown replica. *)
Lemma import_hierarchy_change_unknown_replica_witness :
  rop_refused EcDoRpc_RopSyncImportHierarchyChange
              (Sample.session (Some [5]) (Some [0]) Sample.empty_store)
              (Sample.hierarchy_request Sample.known_source_key
                                        Sample.unknown_source_key)
              Sample.blank_repl Sample.handle_array 0 MAPI_E_NOT_FOUND.
Proof.
  apply (import_hierarchy_change_unknown_replica
           (T := Sample.types) (E := Sample.collaborators)
           (Sample.session (Some [5]) (Some [0]) Sample.empty_store)
           (Sample.hierarchy_request Sample.known_source_key
                                     Sample.unknown_source_key)
           Sample.blank_repl Sample.handle_array 0 7 Sample.inbox _ _ _
           Sample.known_source_key eq_refl eq_refl eq_refl eq_refl).
  - vm_compute. lia.
  - right. exists Sample.unknown_source_key.
    split; [vm_compute; lia |]. split; [reflexivity |].
    split; [vm_compute; lia | reflexivity].
Defined.

(** The witness of X21: the delete of a message under an unknown replica
    in a folder of two messages reports success and deletes nothing. *)
Lemma import_deletes_reports_success_witness :
  exists rs,
    EcDoRpc_RopSyncImportDeletes
      (Some (Sample.session (Some [5]) (Some [0]) Sample.two_messages))
      (Some (Sample.deletes_request [Sample.unknown_source_key]))
      (Some Sample.blank_repl) (Some Sample.handle_array) (Some 0)
    = Some (MAPI_E_SUCCESS, Some rs)
    /\ error_code (rs_repl rs) = MAPI_E_SUCCESS
    /\ rs_ctx rs = Sample.session (Some [5]) (Some [0]) Sample.two_messages.
Proof.
  destruct (import_deletes_reports_success
              (K := Sample.constants) (T := Sample.types)
              (E := Sample.collaborators)
              (Sample.session (Some [5]) (Some [0]) Sample.two_messages)
              (Sample.deletes_request [Sample.unknown_source_key])
              Sample.blank_repl Sample.handle_array 0 7 Sample.inbox _ _ _ _
              [Sample.unknown_source_key]
              eq_refl eq_refl eq_refl eq_refl eq_refl eq_refl)
    as (rs & Hcall & Herr & _ & _ & Hsame).
  - constructor; [vm_compute; lia | constructor].
  - exists rs. split; [exact Hcall |]. split; [exact Herr |].
    apply Hsame. repeat constructor.
Defined.

(** The witness of X22: a SyncUploadStateStreamBegin call on a session
    leaves the handle array and the handles of the table as they were. *)
Lemma only_creators_touch_handles_witness :
  exists rs,
    EcDoRpc_RopSyncUploadStateStreamBegin
      (Some (Sample.session None None Sample.empty_store))
      (Some (Sample.upload_begin_request 0x67960102))
      (Some Sample.blank_repl) (Some Sample.handle_array) (Some 0)
    = Some (MAPI_E_SUCCESS, Some rs)
    /\ rs_handles rs = Sample.handle_array
    /\ dom (handles_ctx (rs_ctx rs)) = {[ 7 ]}.
Proof.
  destruct (EcDoRpc_RopSyncUploadStateStreamBegin
              (Some (Sample.session None None Sample.empty_store))
              (Some (Sample.upload_begin_request 0x67960102))
              (Some Sample.blank_repl) (Some Sample.handle_array) (Some 0))
    as [[status [rs |]] |] eqn:Hcall;
    try (exfalso; vm_compute in Hcall; discriminate).
  destruct (only_creators_touch_handles
              (K := Sample.constants) (T := Sample.types)
              (E := Sample.collaborators)
              0 RopSyncUploadStateStreamBegin
              (Sample.session None None Sample.empty_store)
              (Sample.upload_begin_request 0x67960102)
              Sample.blank_repl Sample.handle_array 0 status rs
              eq_refl Hcall)
    as [Hhandles Hdom].
  assert (Hstatus : status = MAPI_E_SUCCESS).
  { vm_compute in Hcall. injection Hcall as <- _. reflexivity. }
  exists rs. subst status. split; [reflexivity |].
  split; [exact Hhandles |].
  rewrite Hdom. unfold Sample.session, Sample.context_holding.
  cbn [handles_ctx]. apply dom_singleton_L.
Defined.

(** ** The producers: rows that the client has seen *)

Section SeenRowFacts.
Context {K : mapi_constants} {T : backend_types} {E : externals}.

(** A row whose change number is in [cnset_seen] leaves a cut-mark and
    its identifier, and nothing else. *)
Lemma seen_row_is_skipped s sc folder_object table i sd sd' :
  push_messageChange_row s sc folder_object table i sd = Some sd' ->
  (forall cn,
      messageChange_row_cn s table (sd_properties sd) (prop_index sd) i
      = Some cn ->
      IDSET_includes_id (cnset_seen sc) (replica_guid sd) cn = true) ->
  ndr_data (sd_push sd').1 = ndr_data (sd_push sd).1
  /\ sd_cnset_seen sd' = sd_cnset_seen sd
  /\ sd_properties sd' = sd_properties sd
  /\ prop_index sd' = prop_index sd
  /\ replica_guid sd' = replica_guid sd.
Proof.
  intros H Hseen. unfold push_messageChange_row in H.
  unfold messageChange_row_cn in Hseen.
  destruct (emsmdbp_object_table_get_row_props s table (sd_properties sd) i)
    as [[data_pointers retvals] |]; [| discriminate H].
  cbn [mbind option_bind] in H, Hseen.
  destruct (deref_uint64 data_pointers (ix_eid (prop_index sd)))
    as [eid |]; [| discriminate H].
  cbn [mbind option_bind] in H, Hseen.
  destruct (emsmdbp_replid_to_guid s (Z.land eid 65535)); [| discriminate H].
  cbn [mbind option_bind] in H.
  destruct (source_key_of s eid); [| discriminate H].
  cbn [mbind option_bind] in H.
  destruct (row_last_modification_time
              data_pointers retvals
              (ix_last_modification_time (prop_index sd)))
    as [[lm_time t] |]; [| discriminate H].
  cbn [mbind option_bind] in H, Hseen.
  cbn [replica_guid set_eid_set] in H.
  rewrite (Hseen _ eq_refl) in H. injection H as <-.
  cbn. auto.
Qed.

(** A table of which the client has seen every row adds no byte to the
    stream. *)
Lemma seen_rows_are_skipped s sc folder_object table :
  forall n i sd sd',
    for_loop n i (push_messageChange_row s sc folder_object table) sd
    = Some sd' ->
    (forall j cn,
        i <= j < i + Z.of_nat n ->
        messageChange_row_cn s table (sd_properties sd) (prop_index sd) j
        = Some cn ->
        IDSET_includes_id (cnset_seen sc) (replica_guid sd) cn = true) ->
    ndr_data (sd_push sd').1 = ndr_data (sd_push sd).1
    /\ sd_cnset_seen sd' = sd_cnset_seen sd
    /\ sd_properties sd' = sd_properties sd
    /\ prop_index sd' = prop_index sd
    /\ replica_guid sd' = replica_guid sd.
Proof.
  induction n as [| n IH]; intros i sd sd' H Hseen; cbn [for_loop] in H.
  - injection H as <-. auto.
  - destruct (push_messageChange_row s sc folder_object table i sd)
      as [sd1 |] eqn:Hrow; [| discriminate H].
    cbn [mbind option_bind] in H.
    destruct (seen_row_is_skipped _ _ _ _ _ _ _ Hrow)
      as (Hd1 & Hc1 & Hp1 & Hi1 & Hg1).
    { intros cn. apply Hseen. lia. }
    destruct (IH _ _ _ H) as (Hd & Hc & Hp & Hi & Hg).
    { intros j cn Hj. rewrite Hp1, Hi1, Hg1. apply Hseen. lia. }
    conjuncts; congruence.
Qed.

Lemma seen_table_is_skipped s sc sd folder_object sd' :
  oxcfxics_push_messageChange s sc sd folder_object = Some sd' ->
  (forall table j cn,
      emsmdbp_folder_open_table s (Some folder_object) (table_type sd)
      = Some table ->
      0 <= j < denominator table ->
      messageChange_row_cn s table (sd_properties sd) (prop_index sd) j
      = Some cn ->
      IDSET_includes_id (cnset_seen sc) (replica_guid sd) cn = true) ->
  ndr_data (sd_push sd').1 = ndr_data (sd_push sd).1
  /\ sd_cnset_seen sd' = sd_cnset_seen sd
  /\ sd_properties sd' = sd_properties sd
  /\ prop_index sd' = prop_index sd
  /\ replica_guid sd' = replica_guid sd.
Proof.
  intros H Hseen. unfold oxcfxics_push_messageChange in H.
  destruct (emsmdbp_folder_open_table s (Some folder_object) (table_type sd))
    as [table |]; [| discriminate H].
  cbn [mbind option_bind] in H.
  apply (seen_rows_are_skipped _ _ _ _ _ _ _ _ H).
  intros j cn Hj. apply (Hseen table j cn eq_refl).
  destruct (denominator table); lia.
Qed.

End SeenRowFacts.

Section SeenRowTheorems.
Context {K : mapi_constants} {T : backend_types} {E : externals}.

(** X23. An incremental contents synchronization sends nothing twice.
    When the change number of every row of the tables of the folder is
    in the [cnset_seen] that the client uploaded, the stream that
    [oxcfxics_prepare_synccontext_with_messageChange] builds holds no
    message record at all: it is the state block alone, from
    [PR_INCR_SYNC_STATE_BEGIN] to [PR_INCR_SYNC_END], and the
    [cnset_seen] of the context gains no change number (it is the old
    set merged with an empty one). *)
Theorem seen_messages_are_not_sent s parent_object sc sc' :
  oxcfxics_prepare_synccontext_with_messageChange s parent_object sc
  = Some sc' ->
  (forall table_type table i cn,
      emsmdbp_folder_open_table s (Some parent_object) table_type
      = Some table ->
      0 <= i < denominator table ->
      messageChange_row_cn s table (properties sc)
                           (contents_prop_index (properties sc)) i
      = Some cn ->
      IDSET_includes_id (cnset_seen sc) (mailbox_replica_guid s) cn = true) ->
  buffer (stream sc')
  = Some (contents_state_block (request sc) (cnset_seen sc') (idset_given sc'))
  /\ cnset_seen sc'
     = IDSET_merge_idsets (cnset_seen sc)
                          (RAWIDSET_convert_to_idset (RAWIDSET_make true)).
Proof.
  intros H Hseen.
  unfold oxcfxics_prepare_synccontext_with_messageChange in H.
  destruct (contents_records s parent_object sc) as [sd |] eqn:Hrecords;
    [| discriminate H].
  cbn [mbind option_bind] in H.
  assert (Hsd : ndr_data (sd_push sd).1 = []
                /\ sd_cnset_seen sd = RAWIDSET_make true).
  { unfold contents_records in Hrecords.
    fold (contents_prop_index (properties sc)) in Hrecords.
    match type of Hrecords with
    | context [set_table_type ?sd0 EMSMDBP_TABLE_MESSAGE_TYPE] =>
        set (start := sd0) in *
    end.
    assert (Hnormal :
              exists sd1,
                (if normal (request sc)
                 then oxcfxics_push_messageChange
                        s sc (set_table_type start EMSMDBP_TABLE_MESSAGE_TYPE)
                        parent_object
                 else Some start) = Some sd1
                /\ ndr_data (sd_push sd1).1 = []
                /\ sd_cnset_seen sd1 = RAWIDSET_make true
                /\ sd_properties sd1 = properties sc
                /\ prop_index sd1 = contents_prop_index (properties sc)
                /\ replica_guid sd1 = mailbox_replica_guid s).
    { destruct (normal (request sc)).
      - destruct (oxcfxics_push_messageChange
                    s sc (set_table_type start EMSMDBP_TABLE_MESSAGE_TYPE)
                    parent_object) as [sd1 |] eqn:Hpush;
          [| discriminate Hrecords].
        exists sd1. split; [reflexivity |].
        destruct (seen_table_is_skipped _ _ _ _ _ Hpush)
          as (Hd & Hc & Hp & Hi & Hg).
        { intros table j cn. apply Hseen. }
        rewrite Hd, Hc, Hp, Hi, Hg. cbn. auto 10.
      - exists start. split; [reflexivity |]. cbn. auto 10. }
    destruct Hnormal as (sd1 & Hstep & Hd1 & Hc1 & Hp1 & Hi1 & Hg1).
    rewrite Hstep in Hrecords. cbn [mbind option_bind] in Hrecords.
    destruct (fai (request sc)).
    - destruct (seen_table_is_skipped _ _ _ _ _ Hrecords)
        as (Hd & Hc & _).
      { cbn [sd_properties prop_index replica_guid table_type set_table_type].
        rewrite Hp1, Hi1, Hg1. intros table j cn. apply Hseen. }
      rewrite Hd, Hc. cbn [sd_push sd_cnset_seen set_table_type]. auto.
    - injection Hrecords as <-. auto. }
  destruct Hsd as [Hdata Hcnset].
  unfold push_contents_state in H. injection H as <-.
  unfold install_stream, push_uint32, ndr_push_uint32, ndr_append,
    contents_state_block.
  cbn -[le_bytes]. rewrite Hdata, Hcnset.
  split; [| reflexivity].
  destruct (fai (request sc)), (read_state (request sc));
    cbn -[le_bytes]; rewrite <- ?app_assoc; reflexivity.
Qed.

End SeenRowTheorems.

(** The witness of X23: the folder with two messages of change number
    0, synchronized by a client whose [cnset_seen] holds 0: the stream
    is the state block with [cnset_seen = {0}] and the two message
    identifiers as [idset_given]. *)
Lemma seen_messages_are_not_sent_witness :
  exists sc',
    oxcfxics_prepare_synccontext_with_messageChange
      (K := Sample.constants) (E := Sample.collaborators)
      Sample.two_messages Sample.inbox
      (Sample.contents_context false false None (Some [0])) = Some sc'
    /\ buffer (stream sc')
       = Some (le_bytes 4 0x403a0003
               ++ le_bytes 4 0x67960102 ++ le_bytes 6 0
               ++ le_bytes 4 0x40170003 ++ le_bytes 6 5 ++ le_bytes 6 6
               ++ le_bytes 4 0x403b0003 ++ le_bytes 4 0x40140003).
Proof.
  destruct (oxcfxics_prepare_synccontext_with_messageChange
              (K := Sample.constants) (E := Sample.collaborators)
              Sample.two_messages Sample.inbox
              (Sample.contents_context false false None (Some [0])))
    as [sc' |] eqn:Hprep;
    [| exfalso; vm_compute in Hprep; discriminate].
  destruct (seen_messages_are_not_sent _ _ _ _ Hprep) as [Hstream _].
  - intros table_type table i cn Hopen Hrange Hcn.
    cbn in Hopen. injection Hopen as <-.
    destruct (table_type =? 2).
    + assert (Hi : i = 0 \/ i = 1) by (cbn in Hrange; lia).
      destruct Hi as [-> | ->]; vm_compute in Hcn;
        injection Hcn as <-; reflexivity.
    + destruct (table_type =? 1); cbn in Hrange; lia.
  - exists sc'. split; [reflexivity |].
    rewrite Hstream. vm_compute in Hprep. injection Hprep as <-.
    vm_compute. reflexivity.
Defined.

(** ** SyncConfigure *)

Section ConfigureFacts.
Context {K : mapi_constants} {T : backend_types} {E : externals}.

Hypothesis add_appends : forall l tag, SPropTagArray_add l tag = l ++ [tag].

Lemma add_all_appends tags : forall l, foldl SPropTagArray_add l tags = l ++ tags.
Proof.
  induction tags as [| tag tags IH]; intros l; cbn [foldl].
  - rewrite app_nil_r. reflexivity.
  - rewrite IH, add_appends, <- app_assoc. reflexivity.
Qed.

Lemma invariant_add mandatory st tag :
  properties_invariant mandatory st ->
  prop_id tag ∉ st.1 ->
  properties_invariant mandatory
                       ({[ prop_id tag ]} ∪ st.1, SPropTagArray_add st.2 tag).
Proof.
  intros (Hprefix & Hnodup & Hexcl) Hnew.
  rewrite add_appends. unfold properties_invariant. cbn [fst snd].
  split; [apply prefix_app_r; exact Hprefix |].
  split.
  - rewrite map_app. cbn [map]. apply NoDup_app.
    split; [exact Hnodup |]. split; [| apply NoDup_singleton].
    intros id Hin Hid. apply list_elem_of_singleton in Hid. subst id.
    apply list_elem_of_fmap in Hin as (tag' & Hid & Hin).
    apply Hnew. rewrite Hid. apply Hexcl. exact Hin.
  - intros tag' Hin. apply elem_of_app in Hin as [Hin | Hin].
    + apply elem_of_union_r. apply Hexcl. exact Hin.
    + apply list_elem_of_singleton in Hin. subst tag'.
      apply elem_of_union_l. apply elem_of_singleton. reflexivity.
Qed.

Lemma invariant_exclude mandatory st tag :
  properties_invariant mandatory st ->
  properties_invariant mandatory ({[ prop_id tag ]} ∪ st.1, st.2).
Proof.
  intros (Hprefix & Hnodup & Hexcl). unfold properties_invariant.
  cbn [fst snd]. split; [exact Hprefix |]. split; [exact Hnodup |].
  intros tag' Hin. apply elem_of_union_r. apply Hexcl. exact Hin.
Qed.

(** The loop over the property tags of the request. *)
Lemma invariant_request_tags mandatory (include_props : bool) tags :
  forall st,
    properties_invariant mandatory st ->
    let st' :=
      foldl (fun (st : gset Z * list Z) tag =>
               let i := prop_id tag in
               if bool_decide (i ∈ st.1) then st
               else ({[ i ]} ∪ st.1,
                     if include_props
                     then SPropTagArray_add st.2 tag else st.2))
            st tags in
    properties_invariant mandatory st'
    /\ (include_props = false -> st'.2 = st.2).
Proof.
  induction tags as [| tag tags IH]; intros st Hinv; cbn [foldl].
  - auto.
  - cbv zeta. destruct (bool_decide (prop_id tag ∈ st.1)) eqn:Hin.
    + apply IH. exact Hinv.
    + apply bool_decide_eq_false in Hin.
      destruct include_props.
      * destruct (IH _ (invariant_add _ _ _ Hinv Hin)) as [Hinv' _].
        split; [exact Hinv' | discriminate].
      * destruct (IH _ (invariant_exclude _ _ tag Hinv)) as [Hinv' Hsame].
        split; [exact Hinv' |]. intros _. exact (Hsame eq_refl).
Qed.

Lemma invariant_available mandatory available :
  forall st,
    properties_invariant mandatory st ->
    properties_invariant mandatory (add_available_properties available st).
Proof.
  unfold add_available_properties.
  induction available as [| tag available IH]; intros st Hinv; cbn [foldl].
  - exact Hinv.
  - destruct (bool_decide (prop_id tag ∈ st.1)) eqn:Hin.
    + apply IH. exact Hinv.
    + apply bool_decide_eq_false in Hin.
      apply IH. apply invariant_add; assumption.
Qed.

Lemma invariant_table mandatory s folder_object table_type st st' :
  add_table_properties s folder_object table_type st = Some st' ->
  properties_invariant mandatory st ->
  properties_invariant mandatory st'.
Proof.
  unfold add_table_properties. intros H Hinv. crack.
  - apply invariant_available. exact Hinv.
  - exact Hinv.
Qed.

(** The exclusions that "best body" lifts do not concern a mandatory
    column. *)
Lemma invariant_best_body mandatory excl :
  properties_invariant mandatory (excl, mandatory) ->
  (forall tag, tag ∈ mandatory ->
               prop_id tag <> Z.shiftr PR_BODY_HTML 16
               /\ prop_id tag <> Z.shiftr PR_BODY_UNICODE 16) ->
  properties_invariant mandatory
    (excl ∖ {[ Z.shiftr PR_BODY_HTML 16 ]} ∖ {[ Z.shiftr PR_BODY_UNICODE 16 ]},
     mandatory).
Proof.
  intros (Hprefix & Hnodup & Hexcl) Hbody. unfold properties_invariant.
  cbn [fst snd] in Hprefix, Hnodup, Hexcl |- *. split; [exact Hprefix |]. split; [exact Hnodup |].
  intros tag Hin. destruct (Hbody tag Hin) as [Hhtml Hunicode].
  specialize (Hexcl tag Hin).
  apply elem_of_difference.
  split; [apply elem_of_difference; split; [exact Hexcl |] |];
    rewrite elem_of_singleton; assumption.
Qed.

Lemma invariant_best_body_if mandatory excl (b : bool) :
  properties_invariant mandatory (excl, mandatory) ->
  (forall tag, tag ∈ mandatory ->
               prop_id tag <> Z.shiftr PR_BODY_HTML 16
               /\ prop_id tag <> Z.shiftr PR_BODY_UNICODE 16) ->
  properties_invariant mandatory
    (if b
     then excl ∖ {[ Z.shiftr PR_BODY_HTML 16 ]}
               ∖ {[ Z.shiftr PR_BODY_UNICODE 16 ]}
     else excl,
     mandatory).
Proof.
  intros Hinv Hbody. destruct b; [| exact Hinv].
  apply invariant_best_body; assumption.
Qed.

(** The arrays before the loops. *)
Lemma invariant_start mandatory (explicit : gset Z) :
  NoDup (map prop_id mandatory) ->
  properties_invariant mandatory
                       (explicit ∪ list_to_set (map prop_id mandatory),
                        mandatory).
Proof.
  intros Hnodup. unfold properties_invariant. cbn [fst snd].
  split; [reflexivity |]. split; [exact Hnodup |].
  intros tag Hin. apply elem_of_union_r. apply elem_of_list_to_set.
  apply list_elem_of_fmap. eauto.
Qed.

End ConfigureFacts.

Section ConfigureTheorems.
Context {K : mapi_constants} {T : backend_types} {E : externals}.

(** X24. The property array of a context that SyncConfigure creates,
    when [SPropTagArray_add] appends and the mandatory columns have
    distinct property ids, none of them the id of [PR_BODY_HTML] or
    [PR_BODY_UNICODE]: the array starts with the mandatory columns of
    the synchronization type (seven for contents, five for hierarchy),
    in their fixed order, and no two of its tags share a property id,
    whatever tags the request names and the tables offer. *)
Theorem sync_configure_properties_distinct
        ctx req repl handles size status rs r_idx sync_type send_options
        flags extra_flags tags h folder sc :
  (forall l tag, SPropTagArray_add l tag = l ++ [tag]) ->
  (forall contents, NoDup (map prop_id (mandatory_properties contents))) ->
  (forall contents tag,
      tag ∈ mandatory_properties contents ->
      prop_id tag <> Z.shiftr PR_BODY_HTML 16
      /\ prop_id tag <> Z.shiftr PR_BODY_UNICODE 16) ->
  EcDoRpc_RopSyncConfigure (Some ctx) (Some req) (Some repl) (Some handles)
                           (Some size) = Some (status, Some rs) ->
  req_u req = mapi_SyncConfigure r_idx sync_type send_options flags
                                 extra_flags tags ->
  error_code (rs_repl rs) = MAPI_E_SUCCESS ->
  handles_get (rs_handles rs) r_idx = Some h ->
  handles_ctx (rs_ctx rs) !! h = Some (Some (Object_synccontext folder sc)) ->
  contents_mode (request sc) = (sync_type =? Contents)
  /\ mandatory_properties (contents_mode (request sc))
     `prefix_of` properties sc
  /\ NoDup (map prop_id (properties sc)).
Proof.
  intros Hadd Hdistinct Hbody H Hu Herr Hidx Hnew.
  unfold EcDoRpc_RopSyncConfigure, sanity_checks in H.
  rewrite Hu in H. unfold rop_end, mapi_handles_add, handles_set in H.
  cbv zeta in H. cbn [contents_mode unicode normal fai] in H.
  set (contents := sync_type =? Contents) in *.
  set (include_props :=
         flag_set flags SynchronizationFlag_OnlySpecifiedProperties) in *.
  assert (Hstart :
            (if contents
             then foldl SPropTagArray_add []
                        [PR_MID; PR_ASSOCIATED; PR_MESSAGE_SIZE; PR_CHANGE_NUM]
             else foldl SPropTagArray_add [] [PR_PARENT_FID; PR_FID])
            = (if contents
               then [PR_MID; PR_ASSOCIATED; PR_MESSAGE_SIZE; PR_CHANGE_NUM]
               else [PR_PARENT_FID; PR_FID])).
  { destruct contents; rewrite (add_all_appends Hadd); reflexivity. }
  rewrite Hstart in H.
  rewrite (add_all_appends Hadd) in H.
  fold (mandatory_properties contents) in H.
  set (mandatory := mandatory_properties contents) in *.
  crack; try (cbn in Herr; discriminate Herr);
    cbn [rs_handles rs_ctx] in Hidx, Hnew;
    unfold handles_get in Hidx; cbn [handle_idx repl_init] in Hidx;
    (rewrite list_lookup_insert_eq in Hidx
      by (apply Nat.ltb_lt; assumption));
    injection Hidx as <-;
    unfold mapi_handles_set_private_data, set_handles_ctx in Hnew;
    cbn [handles_ctx] in Hnew; rewrite lookup_insert_eq in Hnew;
    injection Hnew as _ <-; cbn [request contents_mode properties];
    match goal with
    | Heqp : foldl _ (?excl0 ∪ _, _) tags = (?g, ?l) |- _ =>
        destruct (invariant_request_tags
                    Hadd mandatory include_props tags _
                    (invariant_start mandatory excl0 (Hdistinct _)))
          as [Hinv Hsame];
        cbv zeta in Hinv, Hsame; rewrite Heqp in Hinv, Hsame;
        cbn [snd] in Hsame
    end;
    try match goal with
        | Hno : negb include_props = true |- _ =>
            apply negb_true_iff in Hno; specialize (Hsame Hno);
            subst;
            match goal with
            | Ht : add_table_properties _ _ _ (if ?b then _ else _, _) = _
              |- _ =>
                pose proof (invariant_best_body_if _ _ b Hinv (Hbody _))
            end
        end;
    repeat match goal with
           | Ht : add_table_properties _ _ _ ?st = Some _,
             Hst : properties_invariant _ ?st |- _ =>
               pose proof (invariant_table Hadd _ _ _ _ _ _ Ht Hst);
               clear Ht
           end;
    match goal with
    | Hfinal : properties_invariant _ (_, ?l)
      |- _ /\ _ `prefix_of` ?l /\ _ =>
        destruct Hfinal as (Hprefix & Hnodup & _);
        cbn [snd] in Hprefix, Hnodup; auto
    end.
Qed.

End ConfigureTheorems.

(** The witness of X24: a contents synchronization configured with
    [OnlySpecifiedProperties] and the tags [0x0037001f], [0x0037001e]
    and [0x0e070003]: the second tag shares the property id of the
    first and is left out. *)
Lemma sync_configure_properties_distinct_witness :
  exists rs sc,
    EcDoRpc_RopSyncConfigure
      (Some Sample.one_property_context)
      (Some (Sample.configure_request
               1 0x01 0xa1 0 [0x0037001f; 0x0037001e; 0x0e070003]))
      (Some Sample.blank_repl) (Some Sample.handle_array) (Some 0)
    = Some (MAPI_E_SUCCESS, Some rs)
    /\ handles_ctx (rs_ctx rs) !! 8
       = Some (Some (Object_synccontext Sample.inbox sc))
    /\ properties sc
       = [0x674a0014; 0x67aa000b; 0x0e080003; 0x67a40014; 0x65e20102;
          0x30080040; 0x3001001f; 0x0037001f; 0x0e070003]
    /\ NoDup (map prop_id (properties sc)).
Proof.
  destruct (EcDoRpc_RopSyncConfigure
              (Some Sample.one_property_context)
              (Some (Sample.configure_request
                       1 0x01 0xa1 0 [0x0037001f; 0x0037001e; 0x0e070003]))
              (Some Sample.blank_repl) (Some Sample.handle_array) (Some 0))
    as [[status [rs |]] |] eqn:Hcall;
    try (exfalso; vm_compute in Hcall; discriminate).
  pose proof Hcall as Hvalue. vm_compute in Hvalue.
  injection Hvalue as Hstatus Hrs.
  destruct (handles_ctx (rs_ctx rs) !! 8) as [[[p sc | ft | o] |] |] eqn:Hobj;
    try (exfalso; rewrite <- Hrs in Hobj; vm_compute in Hobj;
         discriminate Hobj).
  assert (Hidx : handles_get (rs_handles rs) 1 = Some 8)
    by (rewrite <- Hrs; reflexivity).
  assert (Herr : error_code (rs_repl rs) = MAPI_E_SUCCESS)
    by (rewrite <- Hrs; reflexivity).
  destruct (sync_configure_properties_distinct
              (K := Sample.constants) (T := Sample.types)
              (E := Sample.collaborators)
              Sample.one_property_context
              (Sample.configure_request
                 1 0x01 0xa1 0 [0x0037001f; 0x0037001e; 0x0e070003])
              Sample.blank_repl Sample.handle_array 0 status rs
              1 1 0x01 0xa1 0
              [0x0037001f; 0x0037001e; 0x0e070003] 8 p sc)
    as (_ & _ & Hnodup); try assumption; try reflexivity.
  - intros [|]; apply (bool_decide_unpack _); vm_compute; exact I.
  - intros contents tag Hin.
    destruct contents; unfold mandatory_properties in Hin; cbn [app] in Hin;
      repeat (apply elem_of_cons in Hin as [-> | Hin];
              [split; intros Heq; vm_compute in Heq; discriminate Heq |]);
      inversion Hin.
  - exists rs, sc. rewrite <- Hstatus. split; [reflexivity |].
    rewrite <- Hrs in Hobj. vm_compute in Hobj.
    injection Hobj as <- <-. rewrite <- Hrs.
    split; [reflexivity |]. split; [reflexivity | exact Hnodup].
Defined.

(** ** GetLocalReplicaIds and SyncGetTransferState *)

Section ReplicaIdTheorems.
Context {K : mapi_constants} {T : backend_types} {E : externals}.

(** X25. GetLocalReplicaIds on a handle of the table, when the range
    reservation succeeds with a first identifier [new_id] below 2^64:
    the reply reports no error, [ReplGuid] is what the registry holds
    for replica 1, and [GlobalCount] is the six bytes, least significant
    first, of the counter [new_id >> 16].  When [new_id] belongs to
    replica 1, [ReplGuid] followed by [GlobalCount] is the source key of
    [new_id].  The store is the one that the reservation left; the handle
    table and the handle array are untouched. *)
Theorem local_replica_ids_global_count
        ctx req repl handles size h o id_count s' new_id :
  handles_get handles (req_handle_idx req) = Some h ->
  handles_ctx ctx !! h = Some o ->
  req_u req = mapi_GetLocalReplicaIds id_count ->
  openchangedb_reserve_fmid_range (backend ctx) id_count = (s', Some new_id) ->
  0 <= new_id < 2 ^ 64 ->
  exists rs global_count,
    EcDoRpc_RopGetLocalReplicaIds (Some ctx) (Some req) (Some repl)
                                  (Some handles) (Some size)
    = Some (MAPI_E_SUCCESS, Some rs)
    /\ error_code (rs_repl rs) = MAPI_E_SUCCESS
    /\ repl_u (rs_repl rs)
       = mapi_repl_GetLocalReplicaIds
           (emsmdbp_replid_to_guid (backend ctx) 1) global_count
    /\ length global_count = 6%nat
    /\ Forall is_byte global_count
    /\ Codec.le_value global_count = new_id / 65536
    /\ (Z.land new_id 0xffff = 1 ->
        forall guid,
          emsmdbp_replid_to_guid (backend ctx) 1 = Some guid ->
          source_key_of (backend ctx) new_id = Some (guid ++ global_count))
    /\ backend (rs_ctx rs) = s'
    /\ handles_ctx (rs_ctx rs) = handles_ctx ctx
    /\ rs_handles rs = handles.
Proof.
  intros Hh Hobj Hu Hreserve Hrange.
  unfold EcDoRpc_RopGetLocalReplicaIds, sanity_checks.
  rewrite Hh. cbn [mbind option_bind]. rewrite Hobj, Hu, Hreserve.
  cbn [mbind option_bind]. unfold rop_end.
  eexists _, (Codec.gc_loop 6 (Z.shiftr new_id 16)).
  split; [reflexivity |].
  cbn [rs_repl rs_ctx rs_handles error_code repl_u set_repl_u repl_init
       backend set_backend handles_ctx].
  split; [reflexivity |]. split; [reflexivity |].
  split; [apply gc_loop_length |].
  split; [apply gc_loop_bytes |].
  split.
  { rewrite le_value_gc_loop by (apply Z.shiftr_nonneg; lia).
    rewrite Z.shiftr_div_pow2 by lia. change (2 ^ 16) with 65536.
    apply Z.mod_small. change (2 ^ (8 * Z.of_nat 6)) with (2 ^ 48).
    split; [apply Z.div_pos; lia |].
    apply Z.div_lt_upper_bound; lia. }
  split; [| auto].
  intros Hreplica guid Hguid.
  unfold source_key_of, Codec.oxcfxics_source_key_from_fmid.
  rewrite Hreplica, Hguid. reflexivity.
Qed.

End ReplicaIdTheorems.

Section TransferStateTheorems.
Context {K : mapi_constants} {T : backend_types} {E : externals}.

(** The stream of [oxcfxics_ndr_push_transfer_state]. *)
Lemma transfer_state_pushed depth s ndr parent sc ndr' sc' :
  oxcfxics_ndr_push_transfer_state depth s ndr parent sc = Some (ndr', sc') ->
  exists new_cnset new_given,
    ndr_data ndr'
    = ndr_data ndr
      ++ transfer_state_block (request sc) (cnset_seen sc') (idset_given sc')
    /\ cnset_seen sc' = IDSET_merge_idsets (cnset_seen sc) new_cnset
    /\ idset_given sc' = IDSET_merge_idsets (idset_given sc) new_given
    /\ request sc' = request sc
    /\ properties sc' = properties sc
    /\ stream sc' = stream sc
    /\ cutmarks sc' = cutmarks sc.
Proof.
  unfold oxcfxics_ndr_push_transfer_state. intros H.
  match type of H with
  | mbind _ ?m = _ => destruct m as [sd |]; [| discriminate H]
  end.
  cbn [mbind option_bind] in H. injection H as <- <-.
  exists (RAWIDSET_convert_to_idset (sd_cnset_seen sd)),
         (RAWIDSET_convert_to_idset (eid_set sd)).
  unfold transfer_state_block, ndr_push_uint32, ndr_append.
  cbn -[le_bytes].
  split; [| auto 10].
  destruct (contents_mode (request sc)), (fai (request sc)),
    (read_state (request sc));
    cbn -[le_bytes]; rewrite <- ?app_assoc; reflexivity.
Qed.

(** X26. SyncGetTransferState on a session, when it returns: the handle
    that it stores at the handle index of the request holds a transfer
    context whose stream is the state block alone:
    [PR_INCR_SYNC_STATE_BEGIN]; [PidTagCnsetSeen] and the serialized
    merged [cnset_seen]; for a contents context with [fai],
    [PidTagCnsetSeenFAI] and the same bytes; [PidTagIdsetGiven] and the
    serialized merged [idset_given]; for a contents context with
    [read_state], [PidTagCnsetRead] and the bytes of [cnset_seen] again;
    [PR_INCR_SYNC_STATE_END], with no [PR_INCR_SYNC_END] after it.  The
    only cut-mark is the sentinel 0xffffffff.  Each merged set is
    [IDSET_merge_idsets] of the set that the session held and a set
    collected from the tables, and (unless the new handle took its place)
    the session holds the merged sets afterwards. *)
Theorem transfer_state_stream_layout
        depth ctx req repl handles size status rs r_idx h parent sc h' ft :
  EcDoRpc_RopSyncGetTransferState depth (Some ctx) (Some req) (Some repl)
                                  (Some handles) (Some size)
  = Some (status, Some rs) ->
  req_u req = mapi_SyncGetTransferState r_idx ->
  handles_get handles (req_handle_idx req) = Some h ->
  handles_ctx ctx !! h = Some (Some (Object_synccontext parent sc)) ->
  handles_get (rs_handles rs) r_idx = Some h' ->
  handles_ctx (rs_ctx rs) !! h' = Some (Some (Object_ftcontext ft)) ->
  exists merged_cnset merged_given new_cnset new_given,
    buffer (ft_stream ft)
    = Some (transfer_state_block (request sc) merged_cnset merged_given)
    /\ ft_cutmarks ft = [0xffffffff]
    /\ merged_cnset = IDSET_merge_idsets (cnset_seen sc) new_cnset
    /\ merged_given = IDSET_merge_idsets (idset_given sc) new_given
    /\ error_code (rs_repl rs) = MAPI_E_SUCCESS
    /\ (h' <> h ->
        exists sc',
          synccontext_at (rs_ctx rs) h = Some sc'
          /\ cnset_seen sc' = merged_cnset
          /\ idset_given sc' = merged_given
          /\ request sc' = request sc).
Proof.
  intros H Hu Hh Hobj Hidx Hnew.
  unfold EcDoRpc_RopSyncGetTransferState, sanity_checks in H.
  rewrite Hu, Hh in H. cbn [mbind option_bind] in H. rewrite Hobj in H.
  unfold rop_end, mapi_handles_add, handles_set in H.
  crack; cbn [rs_ctx rs_handles rs_repl] in *.
  unfold handles_get in Hidx. cbn [handle_idx repl_init] in *.
  rewrite list_lookup_insert_eq in Hidx by (apply Nat.ltb_lt; assumption).
  injection Hidx as <-.
  unfold mapi_handles_set_private_data, set_handles_ctx in *.
  cbn [handles_ctx] in *. rewrite lookup_insert_eq in Hnew.
  injection Hnew as <-. cbn [ft_stream ft_cutmarks buffer].
  match goal with
  | Hp : oxcfxics_ndr_push_transfer_state _ _ _ _ _ = Some _ |- _ =>
      destruct (transfer_state_pushed _ _ _ _ _ _ _ Hp)
        as (new_cnset & new_given & Hdata & Hc & Hg & Hrq & _)
  end.
  eexists _, _, new_cnset, new_given.
  split; [rewrite Hdata; reflexivity |].
  split; [reflexivity |]. split; [exact Hc |]. split; [exact Hg |].
  split; [reflexivity |].
  intros Hne. unfold synccontext_at. cbn [handles_ctx].
  rewrite !lookup_insert_ne by congruence. rewrite lookup_insert_eq.
  eexists. split; [reflexivity |]. auto.
Qed.

End TransferStateTheorems.

(** The witness of X25: three identifiers reserved from a store whose
    next identifier is counter 7 of replica 1. *)
Lemma local_replica_ids_global_count_witness :
  exists rs,
    EcDoRpc_RopGetLocalReplicaIds
      (Some Sample.allocating_context)
      (Some (Sample.replica_ids_request 3)) (Some Sample.blank_repl)
      (Some Sample.handle_array) (Some 0)
    = Some (MAPI_E_SUCCESS, Some rs)
    /\ repl_u (rs_repl rs)
       = mapi_repl_GetLocalReplicaIds (Some Sample.guid_A) [7; 0; 0; 0; 0; 0]
    /\ source_key_of Sample.allocating_store 0x70001
       = Some (Sample.guid_A ++ [7; 0; 0; 0; 0; 0]).
Proof.
  destruct (local_replica_ids_global_count
              (T := Sample.types) (E := Sample.collaborators)
              Sample.allocating_context
              (Sample.replica_ids_request 3) Sample.blank_repl
              Sample.handle_array 0 7 _ 3 _ 0x70001
              eq_refl eq_refl eq_refl eq_refl)
    as (rs & global_count & Hcall & _ & Hrepl & _ & _ & _ & Hkey & _).
  - lia.
  - pose proof Hcall as Hvalue. vm_compute in Hvalue.
    injection Hvalue as Hrs.
    assert (Hcount : global_count = [7; 0; 0; 0; 0; 0]).
    { rewrite <- Hrs in Hrepl. vm_compute in Hrepl.
      injection Hrepl as <-. reflexivity. }
    exists rs. split; [exact Hcall |]. subst global_count.
    split; [exact Hrepl |].
    apply (Hkey eq_refl Sample.guid_A eq_refl).
Defined.

(** The witness of X26: the transfer state of a session over the
    folder of two messages, which holds [idset_given = {5}] and
    [cnset_seen = {9}]. *)
Lemma transfer_state_stream_layout_witness :
  exists rs ft,
    EcDoRpc_RopSyncGetTransferState
      1 (Some (Sample.session (Some [5]) (Some [9]) Sample.counted_messages))
      (Some Sample.transfer_state_request) (Some Sample.blank_repl)
      (Some Sample.handle_array) (Some 0)
    = Some (MAPI_E_SUCCESS, Some rs)
    /\ handles_ctx (rs_ctx rs) !! 8 = Some (Some (Object_ftcontext ft))
    /\ buffer (ft_stream ft)
       = Some (le_bytes 4 0x403a0003
               ++ le_bytes 4 0x67960102 ++ le_bytes 6 0 ++ le_bytes 6 9
               ++ le_bytes 4 0x40170003 ++ le_bytes 6 5 ++ le_bytes 6 6
               ++ le_bytes 4 0x403b0003)
    /\ ft_cutmarks ft = [0xffffffff].
Proof.
  destruct (EcDoRpc_RopSyncGetTransferState
              1 (Some (Sample.session (Some [5]) (Some [9])
                                      Sample.counted_messages))
              (Some Sample.transfer_state_request) (Some Sample.blank_repl)
              (Some Sample.handle_array) (Some 0))
    as [[status [rs |]] |] eqn:Hcall;
    try (exfalso; vm_compute in Hcall; discriminate).
  pose proof Hcall as Hvalue. vm_compute in Hvalue.
  injection Hvalue as Hstatus Hrs.
  destruct (handles_ctx (rs_ctx rs) !! 8) as [[[p sc | ft | o] |] |] eqn:Hobj;
    try (exfalso; rewrite <- Hrs in Hobj; vm_compute in Hobj;
         discriminate Hobj).
  assert (Hidx : handles_get (rs_handles rs) 1 = Some 8)
    by (rewrite <- Hrs; reflexivity).
  destruct (transfer_state_stream_layout
              (K := Sample.constants) (T := Sample.types)
              (E := Sample.collaborators)
              1 (Sample.session (Some [5]) (Some [9]) Sample.counted_messages)
              Sample.transfer_state_request Sample.blank_repl
              Sample.handle_array 0 status rs 1 7 Sample.inbox _ 8 ft
              Hcall eq_refl eq_refl eq_refl Hidx Hobj)
    as (merged_cnset & merged_given & new_cnset & new_given
        & Hstream & Hmarks & _).
  exists rs, ft. rewrite <- Hstatus. split; [reflexivity |].
  split; [exact Hobj |]. split; [| exact Hmarks].
  rewrite <- Hrs in Hobj. vm_compute in Hobj. injection Hobj as <-.
  vm_compute. reflexivity.
Defined.

(** ** GetBuffer with a buffer size of zero *)

Section ZeroSizeTheorems.
Context {K : mapi_constants} {T : backend_types} {E : externals}.

(** X27. The first GetBuffer call on a context (a transfer context
    whose cursor is at 0, or a synchronization context whose stream is
    not built yet) computes [total_steps] as the stream length divided
    by the buffer size.  With a buffer size of zero ([BufferSize] 0, or
    [BufferSize] 0xBABE with a [MaximumBufferSize] that is 0 modulo
    2^16) this is a division by zero: the handler does not return,
    whatever the stream holds. *)
Theorem getbuffer_zero_size_divides_by_zero
        depth ctx req repl handles size h o buffer_size maximum :
  handles_get handles (req_handle_idx req) = Some h ->
  handles_ctx ctx !! h = Some (Some o) ->
  req_u req = mapi_FastTransferSourceGetBuffer buffer_size maximum ->
  effective_buffer_size req = 0 ->
  context_recomputes o = true ->
  EcDoRpc_RopFastTransferSourceGetBuffer depth (Some ctx) (Some req)
                                         (Some repl) (Some handles)
                                         (Some size)
  = None.
Proof.
  intros Hh Hobj Hu Hzero Hfirst.
  unfold EcDoRpc_RopFastTransferSourceGetBuffer, sanity_checks.
  rewrite Hh. cbn [mbind option_bind]. rewrite Hobj, Hu.
  unfold effective_buffer_size in Hzero. rewrite Hu in Hzero.
  rewrite Hzero.
  destruct o as [parent sc | ft | external]; cbn [context_recomputes] in Hfirst.
  - unfold getbuffer_synccontext.
    destruct (buffer (stream sc)); [discriminate Hfirst |].
    destruct (contents_mode (request sc)).
    + destruct (oxcfxics_prepare_synccontext_with_messageChange _ _ _);
        reflexivity.
    + destruct (oxcfxics_prepare_synccontext_with_folderChange _ _ _ _);
        reflexivity.
  - unfold getbuffer_ftcontext. rewrite Hfirst. reflexivity.
  - discriminate Hfirst.
Qed.

End ZeroSizeTheorems.

(** The witness of X27: a request for 0xBABE bytes with a maximum of
    65536 on the stream of ten bytes. *)
Lemma getbuffer_zero_size_divides_by_zero_witness :
  EcDoRpc_RopFastTransferSourceGetBuffer
    0 (Some Sample.ten_bytes_context)
    (Some (Sample.getbuffer_maximum_request 65536))
    (Some Sample.blank_repl) (Some Sample.handle_array) (Some 0)
  = None.
Proof.
  apply (getbuffer_zero_size_divides_by_zero
           (K := Sample.constants) (T := Sample.types)
           (E := Sample.collaborators)
           0 Sample.ten_bytes_context
           (Sample.getbuffer_maximum_request 65536) Sample.blank_repl
           Sample.handle_array 0 7 _ 0xBABE 65536
           eq_refl eq_refl eq_refl eq_refl eq_refl).
Defined.

(** ** A whole synchronization download *)

Section DownloadFacts.
Context {K : mapi_constants} {T : backend_types} {E : externals}.

(** What the stream construction leaves in the context. *)
Lemma prepared_context_shape depth s parent_object sc sc1 :
  prepare_synccontext depth s parent_object sc = Some sc1 ->
  exists bytes ks,
    buffer (stream sc1) = Some bytes
    /\ cutmarks sc1 = marks_at ks ++ [0xffffffff]
    /\ position (stream sc1) = position (stream sc)
    /\ next_cutmark_ptr sc1 = next_cutmark_ptr sc.
Proof.
  unfold prepare_synccontext. intros H.
  destruct (contents_mode (request sc)).
  - unfold oxcfxics_prepare_synccontext_with_messageChange in H.
    destruct (contents_records s parent_object sc) as [sd |] eqn:Hrec;
      [| discriminate H].
    cbn [mbind option_bind] in H.
    destruct (contents_state_extends sc sd) as (st0 & Hext & Hst).
    rewrite (surjective_pairing (push_contents_state sc sd)), Hst in H.
    injection H as <-.
    destruct (sentinel_closes ndr_push_init st0 eq_refl) as (ks & Hm & _).
    { apply push_extends_trans with (sd_push sd);
        [apply (contents_records_extend _ _ _ _ Hrec) | exact Hext]. }
    exists (ndr_data st0.1), ks.
    unfold push_contents_state. cbn. auto.
  - unfold oxcfxics_prepare_synccontext_with_folderChange in H.
    destruct (oxcfxics_push_folderChange depth s sc true _
                                         (Some parent_object))
      as [sd |] eqn:Hrec; [| discriminate H].
    cbn [mbind option_bind] in H.
    apply folderChange_extends in Hrec. cbn [sd_push] in Hrec.
    destruct (hierarchy_state_extends sc sd) as (st0 & Hext & Hst).
    rewrite (surjective_pairing (push_hierarchy_state sc sd)), Hst in H.
    injection H as <-.
    destruct (sentinel_closes ndr_push_init st0 eq_refl) as (ks & Hm & _).
    { apply push_extends_trans with (sd_push sd); assumption. }
    exists (ndr_data st0.1), ks.
    unfold push_hierarchy_state. cbn. auto.
Qed.

(** The first GetBuffer call on a synchronization context builds the
    stream and then reads as any later call does. *)
Lemma first_step_prepares depth s parent_object sc sc1 buffer_size :
  buffer (stream sc) = None ->
  prepare_synccontext depth s parent_object sc = Some sc1 ->
  is_Some (buffer (stream sc1)) ->
  buffer_size <> 0 ->
  getbuffer_step depth s (Object_synccontext parent_object sc) buffer_size
  = getbuffer_step
      depth s
      (Object_synccontext
         parent_object
         (set_steps sc1 0
                    (to_steps_t (buffer_length (stream sc1) / buffer_size
                                 + 1))))
      buffer_size.
Proof.
  intros Hnone Hprep [bytes Hbytes] Hsize.
  unfold getbuffer_step, getbuffer_synccontext.
  rewrite Hnone. unfold prepare_synccontext in Hprep. rewrite Hprep.
  cbn [mbind option_bind].
  apply Z.eqb_neq in Hsize. rewrite Hsize.
  cbn [stream set_steps]. rewrite Hbytes. reflexivity.
Qed.

End DownloadFacts.

Section DownloadTheorems.
Context {K : mapi_constants} {T : backend_types} {E : externals}.

(** X28. A whole synchronization download.  On a session whose stream
    is not built yet, with its cursor and its cut-mark index at 0, whose
    stream construction returns with at most 65535 cut-marks before the
    sentinel: any sequence of GetBuffer requests with non-zero buffer
    sizes, at least as many as the stream has bytes, is served
    completely.  Every call returns without error, the first call builds
    the stream, the chunks of the replies concatenated are exactly the
    stream that [oxcfxics_prepare_synccontext_with_messageChange] (in
    contents mode) or [oxcfxics_prepare_synccontext_with_folderChange]
    builds, and the last reply has status Done.
    ([emsmdbp_stream_read_buffer], which is defined outside this source
    tree, returns the bytes at the cursor.) *)
Theorem synchronization_download_delivers_stream
        depth ctx blank handles size reqs idx h parent_object sc sc1 bytes :
  handles_get handles idx = Some h ->
  handles_ctx ctx !! h = Some (Some (Object_synccontext parent_object sc)) ->
  buffer (stream sc) = None ->
  position (stream sc) = 0 ->
  uint16 (next_cutmark_ptr sc) = 0 ->
  prepare_synccontext depth (backend ctx) parent_object sc = Some sc1 ->
  buffer (stream sc1) = Some bytes ->
  Z.of_nat (length (cutmarks sc1)) <= 65536 ->
  Forall (fun req => req_handle_idx req = idx
                     /\ 0 < effective_buffer_size req) reqs ->
  reqs <> [] ->
  (length bytes <= length reqs)%nat ->
  exists ctx' repls rs r,
    getbuffer_calls depth ctx blank handles size reqs = Some (ctx', repls)
    /\ map transfer_of repls = map Some rs
    /\ Forall (fun repl => error_code repl = MAPI_E_SUCCESS) repls
    /\ concat (map TransferBuffer rs) = bytes
    /\ last rs = Some r
    /\ TransferStatus_ r = TransferStatus_Done.
Proof.
  intros Hh Hobj Hnone Hpos0 Hptr0 Hprep Hbytes Hmarks Hreqs Hne Hmany.
  destruct (prepared_context_shape _ _ _ _ _ Hprep)
    as (bytes' & ks & Hbytes' & Hcut & Hpos & Hptr).
  rewrite Hbytes in Hbytes'. injection Hbytes' as <-.
  destruct reqs as [| req reqs]; [congruence |].
  set (first_size := effective_buffer_size req).
  set (o1 := Object_synccontext
               parent_object
               (set_steps sc1 0
                          (to_steps_t (buffer_length (stream sc1) / first_size
                                       + 1)))).
  assert (Hfirst_size : 0 < first_size).
  { inversion Hreqs as [| ? ? [_ Hsize] _]; subst. exact Hsize. }
  assert (Hprep1 : context_prepared o1 = true).
  { cbn. rewrite Hbytes. apply bool_decide_eq_true. eauto. }
  assert (Hbytes1 : context_bytes o1 = bytes).
  { unfold context_bytes. cbn. rewrite Hbytes. reflexivity. }
  assert (Hpos1 : context_position o1 = 0).
  { unfold context_position. cbn. rewrite Hpos. exact Hpos0. }
  assert (Hsent : sentinel_reachable o1).
  { exists (length ks). cbn [o1 context_cutmarks context_next_cutmark_ptr
                              cutmarks next_cutmark_ptr set_steps].
    rewrite Hcut, Hptr, Hptr0.
    split.
    - replace (length ks) with (length (marks_at ks) + 0)%nat
        by (unfold marks_at; rewrite length_map; lia).
      rewrite lookup_app_r by lia.
      replace (length (marks_at ks) + 0 - length (marks_at ks))%nat
        with 0%nat by lia.
      reflexivity.
    - rewrite Hcut, length_app in Hmarks. unfold marks_at in Hmarks.
      rewrite length_map in Hmarks. cbn [length] in Hmarks. lia. }
  destruct (getbuffer_steps_complete
              depth (backend ctx)
              (map effective_buffer_size (req :: reqs)) o1 Hprep1 Hsent)
    as (o' & rs & Hsteps & Hsame & Hp' & Hleft & Hlast).
  { rewrite Hpos1. lia. }
  { apply Forall_map. eapply Forall_impl; [exact Hreqs |].
    intros req' [_ Hbs]. exact Hbs. }
  rewrite length_map, Hpos1, Hbytes1 in Hleft.
  assert (Hend : context_position o' = Z.of_nat (length bytes)).
  { rewrite Hbytes1 in Hp'. lia. }
  assert (Hsteps0 :
            getbuffer_steps depth (backend ctx)
                            (Object_synccontext parent_object sc)
                            (map effective_buffer_size (req :: reqs))
            = Some (o', rs)).
  { cbn [map getbuffer_steps] in Hsteps |- *. fold first_size in Hsteps |- *.
    rewrite (first_step_prepares depth (backend ctx) parent_object sc sc1
                                 first_size Hnone Hprep)
      by (eauto; lia).
    exact Hsteps. }
  destruct (getbuffer_calls_of_steps depth blank handles idx h (req :: reqs)
              Hh Hreqs ctx size _ o' rs Hobj Hsteps0)
    as (ctx' & repls & Hcalls & _ & _ & Hmap & Herr).
  destruct (getbuffer_steps_chunks depth (backend ctx) _ o1 o' rs Hsteps Hprep1)
    as (_ & _ & Hchunks & Hposn & _).
  { rewrite Hpos1. lia. }
  assert (Hrs : length rs = length (req :: reqs)).
  { apply (f_equal (@length _)) in Hmap. rewrite !length_map in Hmap.
    rewrite <- Hmap. apply (getbuffer_calls_length _ _ _ _ _ _ _ _ Hcalls). }
  destruct (last rs) as [r |] eqn:Hr.
  2:{ apply last_None in Hr. subst rs. discriminate Hrs. }
  exists ctx', repls, rs, r. conjuncts; auto.
  - rewrite Hpos1, Hbytes1 in Hchunks. rewrite Hpos1 in Hposn.
    cbn in Hchunks.
    rewrite (chunks_from_concat _ _ _ Hchunks). cbn [drop].
    apply take_ge. lia.
  - rewrite (Hlast r eq_refl), Hend, Hbytes1, Z.eqb_refl. reflexivity.
Qed.

End DownloadTheorems.

(** The witness of X28: the first contents synchronization of an empty
    folder, downloaded by twenty requests of eight bytes: the chunks
    concatenated are the state block of twenty bytes. *)
Lemma synchronization_download_delivers_stream_witness :
  exists ctx' repls rs r,
    getbuffer_calls 0 (Sample.session None None Sample.empty_store)
                    Sample.blank_repl Sample.handle_array 0
                    (repeat (Sample.getbuffer_request 8) 20)
    = Some (ctx', repls)
    /\ map transfer_of repls = map Some rs
    /\ concat (map TransferBuffer rs)
       = le_bytes 4 0x403a0003 ++ le_bytes 4 0x67960102
         ++ le_bytes 4 0x40170003 ++ le_bytes 4 0x403b0003
         ++ le_bytes 4 0x40140003
    /\ last rs = Some r
    /\ TransferStatus_ r = TransferStatus_Done.
Proof.
  destruct (prepare_synccontext
              (K := Sample.constants) (E := Sample.collaborators)
              0 Sample.empty_store Sample.inbox
              (Sample.contents_context false false None None))
    as [sc1 |] eqn:Hprep;
    [| exfalso; vm_compute in Hprep; discriminate].
  pose proof Hprep as Hvalue. vm_compute in Hvalue.
  injection Hvalue as Hsc1.
  destruct (synchronization_download_delivers_stream
              (K := Sample.constants) (T := Sample.types)
              (E := Sample.collaborators)
              0 (Sample.session None None Sample.empty_store)
              Sample.blank_repl Sample.handle_array 0
              (repeat (Sample.getbuffer_request 8) 20) 0 7 Sample.inbox
              (Sample.contents_context false false None None) sc1
              (le_bytes 4 0x403a0003 ++ le_bytes 4 0x67960102
               ++ le_bytes 4 0x40170003 ++ le_bytes 4 0x403b0003
               ++ le_bytes 4 0x40140003)
              eq_refl eq_refl eq_refl eq_refl eq_refl Hprep)
    as (ctx' & repls & rs & r & Hcalls & Hmap & _ & Hconcat & Hlast & Hdone).
  - rewrite <- Hsc1. reflexivity.
  - rewrite <- Hsc1. cbn. lia.
  - cbn [repeat]. repeat constructor.
  - discriminate.
  - cbn. lia.
  - exists ctx', repls, rs, r. auto.
Defined.

(** ** The property serializer: the flag word *)

Section FlagFacts.
Context {K : mapi_constants} {T : backend_types} {E : externals}.

Lemma flags_within_refl f : flags_within f f.
Proof. apply Z.lor_diag. Qed.

Lemma flags_within_trans f g h :
  flags_within f g -> flags_within g h -> flags_within f h.
Proof.
  unfold flags_within. intros Hfg Hgh.
  rewrite <- Hgh, Z.lor_assoc, Hfg. reflexivity.
Qed.

Lemma flags_within_set ndr new_flags :
  flags_within (ndr_flags ndr) (ndr_flags (ndr_set_flags ndr new_flags))
  /\ flags_within new_flags (ndr_flags (ndr_set_flags ndr new_flags)).
Proof.
  unfold flags_within, ndr_set_flags. cbn [ndr_flags]. split.
  - rewrite Z.lor_assoc, Z.lor_diag. reflexivity.
  - rewrite (Z.lor_comm (ndr_flags ndr)), Z.lor_assoc, Z.lor_diag.
    reflexivity.
Qed.

Lemma flags_within_lor_l f g h : flags_within (Z.lor f g) h -> flags_within g h.
Proof.
  unfold flags_within. intros H.
  rewrite <- H, !Z.lor_assoc, (Z.lor_comm g f), <- (Z.lor_assoc f g g),
    Z.lor_diag.
  reflexivity.
Qed.

(** No push of a value clears a flag. *)
Lemma simple_data_keeps_flags ndr data_type value ndr' :
  oxcfxics_ndr_push_simple_data ndr data_type value = Some ndr' ->
  flags_within (ndr_flags ndr) (ndr_flags ndr').
Proof.
  unfold oxcfxics_ndr_push_simple_data. intros H.
  crack; cbn [ndr_flags ndr_push_uint8 ndr_push_uint16 ndr_push_uint32
                        ndr_push_dlong ndr_push_double ndr_push_GUID
                        ndr_push_FILETIME ndr_push_Binary_r ndr_push_string
                        ndr_append];
    try apply flags_within_refl;
    apply (proj1 (flags_within_set (ndr_push_uint32 ndr _) _)).
Qed.

Lemma simple_data_array_keeps_flags prop_type values :
  forall ndr ndr',
    push_simple_data_array ndr prop_type values = Some ndr' ->
    flags_within (ndr_flags ndr) (ndr_flags ndr').
Proof.
  induction values as [| v values IH]; intros ndr ndr' H;
    cbn [push_simple_data_array] in H.
  - injection H as <-. apply flags_within_refl.
  - destruct (oxcfxics_ndr_push_simple_data ndr prop_type (Some v))
      as [ndr1 |] eqn:H1; [| discriminate H].
    cbn [mbind option_bind] in H.
    apply flags_within_trans with (ndr_flags ndr1);
      [apply (simple_data_keeps_flags _ _ _ _ H1) | apply (IH _ _ H)].
Qed.

Lemma property_tag_keeps_flags s ndr property ndr' :
  push_property_tag s ndr property = Some ndr' ->
  flags_within (ndr_flags ndr) (ndr_flags ndr').
Proof.
  unfold push_property_tag. intros H.
  crack;
    try match goal with
        | |- context [kind ?m] => destruct (kind m)
        end;
    cbn [ndr_flags ndr_push_uint8 ndr_push_uint32 ndr_push_GUID
                   ndr_push_string ndr_append];
    try apply flags_within_refl.
  apply (proj1 (flags_within_set
                  (ndr_push_uint8
                     (ndr_push_GUID (ndr_push_uint32 ndr property) _) 1)
                  _)).
Qed.

Lemma property_value_keeps_flags ndr property slot ndr' :
  push_property_value ndr property slot = Some ndr' ->
  flags_within (ndr_flags ndr) (ndr_flags ndr').
Proof.
  unfold push_property_value. intros H.
  crack;
    try (match goal with
         | Ha : push_simple_data_array _ _ _ = Some _ |- _ =>
             apply simple_data_array_keeps_flags in Ha; exact Ha
         end);
    apply (simple_data_keeps_flags _ _ _ _ H).
Qed.

Lemma property_keeps_flags s st property slot st' :
  push_property s st property slot = Some st' ->
  flags_within (ndr_flags st.1) (ndr_flags st'.1).
Proof.
  unfold push_property. intros H. cbn [push_cutmark fst snd] in H.
  destruct (push_property_tag s st.1 property) as [ndr |] eqn:Htag.
  - destruct (push_property_value ndr property slot) as [ndr1 |] eqn:Hvalue;
      [| discriminate H].
    cbn [mbind option_bind] in H. injection H as <-. cbn [fst].
    apply flags_within_trans with (ndr_flags ndr);
      [apply (property_tag_keeps_flags _ _ _ _ Htag)
      | apply (property_value_keeps_flags _ _ _ _ Hvalue)].
  - injection H as <-. apply flags_within_refl.
Qed.

Lemma properties_keep_flags s properties :
  forall st data_pointers retvals st',
    oxcfxics_ndr_push_properties s st properties data_pointers retvals
    = Some st' ->
    flags_within (ndr_flags st.1) (ndr_flags st'.1).
Proof.
  induction properties as [| property properties IH];
    intros st data_pointers retvals st' H;
    cbn [oxcfxics_ndr_push_properties] in H.
  - injection H as <-. apply flags_within_refl.
  - destruct retvals as [| retval retvals]; [discriminate H |].
    destruct (is_success retval).
    + destruct (push_property s st property (head data_pointers))
        as [st1 |] eqn:H1; [| discriminate H].
      cbn [mbind option_bind] in H.
      apply flags_within_trans with (ndr_flags st1.1);
        [apply (property_keeps_flags _ _ _ _ _ H1) | apply (IH _ _ _ _ H)].
    + cbn [mbind option_bind] in H. apply (IH _ _ _ _ H).
Qed.

End FlagFacts.

Section FlagTheorems.
Context {K : mapi_constants} {T : backend_types} {E : externals}.

(** X29. The flag word of the push buffer only grows:
    [oxcfxics_ndr_push_properties] never clears a flag.  In particular,
    once the value of a [PT_STRING8] property has been pushed (a tag
    that is not a named property, with [PT_STRING8] distinct from the
    types tested before it), [LIBNDR_FLAG_STR_ASCII] stays set in the
    flag word: every string pushed later in the same stream, the values
    of [PT_UNICODE] properties and the names of named properties
    included, is pushed under a flag word that holds
    [LIBNDR_FLAG_STR_ASCII]. *)
Theorem string_flags_persist
        s st tag str st1 properties data_pointers retvals st2 :
  Forall (fun t => PT_STRING8 <> t)
         [PT_I2; PT_LONG; PT_ERROR; PT_OBJECT; PT_DOUBLE; PT_I8; PT_BOOLEAN] ->
  tag <= 0x80000000 ->
  Z.land tag 0xffff = PT_STRING8 ->
  Z.land PT_STRING8 MV_FLAG = 0 ->
  push_property s st tag (Some (Some (D_string str))) = Some st1 ->
  oxcfxics_ndr_push_properties s st1 properties data_pointers retvals
  = Some st2 ->
  flags_within LIBNDR_FLAG_STR_ASCII (ndr_flags st1.1)
  /\ flags_within LIBNDR_FLAG_STR_ASCII (ndr_flags st2.1)
  /\ flags_within (ndr_flags st.1) (ndr_flags st2.1).
Proof.
  intros Htypes Hunnamed Htype Hsingle H1 H2.
  pose proof (properties_keep_flags _ _ _ _ _ _ H2) as Hlater.
  pose proof (property_keeps_flags _ _ _ _ _ H1) as Hfirst.
  assert (Hascii : flags_within LIBNDR_FLAG_STR_ASCII (ndr_flags st1.1)).
  { unfold push_property, push_property_tag in H1.
    cbn [push_cutmark fst snd] in H1.
    assert (Hno : (0x80000000 <? tag) = false) by (apply Z.ltb_ge; lia).
    rewrite Hno in H1. unfold push_property_value in H1.
    rewrite Htype, Hsingle in H1. cbn [Z.eqb negb] in H1.
    unfold oxcfxics_ndr_push_simple_data in H1.
    repeat match type of Htypes with
           | Forall _ (_ :: _) =>
               let Hne := fresh "Hne" in
               apply Forall_cons in Htypes as [Hne Htypes];
               apply Z.eqb_neq in Hne; rewrite Hne in H1
           end.
    rewrite Z.eqb_refl in H1. cbn [orb mbind option_bind] in H1.
    injection H1 as <-. cbn [fst ndr_push_string ndr_append ndr_flags].
    apply flags_within_lor_l with LIBNDR_FLAG_STR_NULLTERM.
    apply (proj2 (flags_within_set
                    (ndr_push_uint32 (ndr_push_uint32 st.1 tag) _) _)). }
  split; [exact Hascii |].
  split; [apply flags_within_trans with (ndr_flags st1.1); assumption |].
  apply flags_within_trans with (ndr_flags st1.1); assumption.
Qed.

End FlagTheorems.

(** The witness of X29: a [PT_STRING8] property (tag [0x3001001e])
    followed by a [PT_UNICODE] property (tag [0x3001001f]) in a fresh
    buffer: the flag word ends as NOALIGN, STR_NULLTERM and STR_ASCII. *)
Lemma string_flags_persist_witness :
  exists st1 st2,
    push_property (K := Sample.constants) (E := Sample.collaborators)
                  Sample.empty_store (ndr_push_init, []) 0x3001001e
                  (Some (Some (D_string [65])))
    = Some st1
    /\ oxcfxics_ndr_push_properties
         (K := Sample.constants) (E := Sample.collaborators)
         Sample.empty_store st1 [0x3001001f] [Some (D_string [66])]
         [MAPI_E_SUCCESS]
       = Some st2
    /\ flags_within 0x04 (ndr_flags st2.1)
    /\ ndr_flags st2.1 = 0x20000044.
Proof.
  destruct (push_property (K := Sample.constants) (E := Sample.collaborators)
                          Sample.empty_store (ndr_push_init, []) 0x3001001e
                          (Some (Some (D_string [65]))))
    as [st1 |] eqn:H1; [| exfalso; vm_compute in H1; discriminate].
  destruct (oxcfxics_ndr_push_properties
              (K := Sample.constants) (E := Sample.collaborators)
              Sample.empty_store st1 [0x3001001f] [Some (D_string [66])]
              [MAPI_E_SUCCESS])
    as [st2 |] eqn:H2.
  2:{ exfalso. vm_compute in H1. injection H1 as <-.
      vm_compute in H2. discriminate. }
  destruct (string_flags_persist
              (K := Sample.constants) (T := Sample.types)
              (E := Sample.collaborators)
              Sample.empty_store (ndr_push_init, []) 0x3001001e [65] st1
              [0x3001001f] [Some (D_string [66])] [MAPI_E_SUCCESS] st2)
    as (_ & Hascii & _); try assumption; try reflexivity.
  - repeat constructor; discriminate.
  - vm_compute. discriminate.
  - exists st1, st2. split; [reflexivity |]. split; [exact H2 |].
    split; [exact Hascii |].
    vm_compute in H1. injection H1 as <-.
    vm_compute in H2. injection H2 as <-. reflexivity.
Defined.

(** ** The chunks of a download cover the stream *)

Section CoverFacts.
Context {K : mapi_constants} {T : backend_types} {E : externals}.


End CoverFacts.

Section CoverTheorems.
Context {K : mapi_constants} {T : backend_types} {E : externals}.


End CoverTheorems.

